(** * A static-file HTTP server under two readiness-driven I/O models

    Shallow embedding of [src/common/http.c], [src/kqueue_srv/kqueue_server.c]
    and [src/aio_srv/aio_server.c], followed by the properties of the
    specification that are stated about them.

    Conventions of the embedding.
    - C integers ([int], [size_t], [off_t], [uint64_t]) are [Z]; unsigned
      arithmetic that can wrap is written with an explicit modulus.
    - A [char] buffer is a [string] holding the bytes in front of the
      terminating NUL that the code writes; [cstr] gives what the C string
      functions see of it (everything before the first embedded NUL).
    - A pointer that may be NULL is an [option].
    - System calls are answered by a scripted environment ([World]) that is
      threaded through the handlers; every call is appended to a trace. *)

From Stdlib Require Import ZArith String Ascii List Lia DecimalString Bool.
From stdpp Require Import base tactics list strings.

Open Scope string_scope.
Open Scope list_scope.
Open Scope Z_scope.

(* ===================================================================== *)
(** ** C strings *)
(* ===================================================================== *)

Module CStr.

Definition NUL : ascii := "000"%char.
Definition CR : ascii := "013"%char.
Definition LF : ascii := "010"%char.
Definition SP : ascii := " "%char.

Definition CRLF : string := String CR (String LF EmptyString).
Definition CRLFCRLF : string := CRLF +:+ CRLF.

(** What a C string function sees of a buffer: the bytes before the first
    NUL. *)
Fixpoint cstr (s : string) : string :=
  match s with
  | EmptyString => EmptyString
  | String c s' => if Ascii.eqb c NUL then EmptyString else String c (cstr s')
  end.

(** [s + n] for a pointer into a string. *)
Fixpoint drop (n : nat) (s : string) : string :=
  match n, s with
  | O, _ => s
  | S n', String _ s' => drop n' s'
  | S _, EmptyString => EmptyString
  end.

(** [strstr(s, pat)]: offset of the first occurrence, [None] for NULL. *)
Fixpoint strstr (s pat : string) : option nat :=
  if String.prefix pat s then Some O
  else match s with
       | EmptyString => None
       | String _ s' => option_map S (strstr s' pat)
       end.

(** [strchr(s, c)] for [c <> 0]: offset of the first [c]. *)
Fixpoint strchr (s : string) (c : ascii) : option nat :=
  match s with
  | EmptyString => None
  | String d s' => if Ascii.eqb d c then Some O else option_map S (strchr s' c)
  end.

(** The loop [while (p < end && *p == ' ') p++], counted from [p]:
    [room] is [end - p]. *)
Fixpoint skip_spaces (s : string) (room : nat) : nat :=
  match room, s with
  | S room', String c s' =>
      if Ascii.eqb c SP then S (skip_spaces s' room') else O
  | _, _ => O
  end.

Definition tolower (c : ascii) : ascii :=
  let n := nat_of_ascii c in
  if (Nat.leb 65 n && Nat.leb n 90)%bool then ascii_of_nat (n + 32) else c.

Fixpoint lower (s : string) : string :=
  match s with
  | EmptyString => EmptyString
  | String c s' => String (tolower c) (lower s')
  end.

(** [strcasecmp(a, b) == 0]. *)
Definition strcasecmp_eq (a b : string) : bool :=
  String.eqb (lower a) (lower b).

Definition strlen (s : string) : Z := Z.of_nat (String.length s).

(** The text that [%lld] and [%zu] print. *)
Definition decimal (z : Z) : string := NilZero.string_of_int (Z.to_int z).

(** A property of every character of a string. *)
Fixpoint all_chars (P : ascii -> bool) (s : string) : bool :=
  match s with
  | EmptyString => true
  | String c s' => P c && all_chars P s'
  end.

(** A character that ends neither a C string nor a request target. *)
Definition plain (c : ascii) : bool :=
  negb (Ascii.eqb c NUL) && negb (Ascii.eqb c SP).

End CStr.

Import CStr.

(* ===================================================================== *)
(** ** The host: file system interface and scripted system calls *)
(* ===================================================================== *)

Module Host.

Record stat_t := { st_isreg : bool; st_size : Z }.

(** The part of the operating system the servers consult about files.
    [PATH_MAX] is the constant of [<limits.h>]. A result [None] stands for
    a failing call (NULL or -1). *)
Record OS := {
  PATH_MAX : Z;
  realpath : string -> option string;
  stat : string -> option stat_t;
  open_rdonly : string -> Z;
  fstat : Z -> option stat_t;
  pread : Z -> Z -> Z -> option string
}.

Inductive errno_t := EAGAIN | EWOULDBLOCK | EINTR | ECONNRESET | EPIPE | EBADF | EFAULT.

Definition would_block (e : errno_t) : bool :=
  match e with
  | EAGAIN | EWOULDBLOCK => true
  | _ => false
  end.

(** Answers of the network to one call. [RecvData bs]: [bs] is queued on
    the socket; [recv] takes what fits. [RecvEOF]: orderly shutdown by the
    peer. [SendAccept k]: the socket buffer has room for [k] bytes. *)
Inductive recv_answer := RecvData (bs : string) | RecvEOF | RecvFail (e : errno_t).
Inductive send_answer := SendAccept (k : nat) | SendFail (e : errno_t).
Inductive accept_answer := AcceptFd (fd : Z) | AcceptFail (e : errno_t).

Inductive syscall :=
| SysAccept (fd : Z)
| SysRecv (fd : Z) (room : Z) (n : Z) (e : errno_t)
| SysSend (fd : Z) (data : string) (n : Z) (e : errno_t)
| SysClose (fd : Z)
| SysOpen (path : string) (fd : Z)
| SysPread (fd : Z) (count off : Z) (n : Z)
| SysKevent (fd : Z) (ok : bool)
| SysKeventDelete (fd : Z)
| SysSetup (fd : Z).

(** The environment of a run: the answers still to come for each kind of
    call, in program order, and the calls made so far, newest first. An
    exhausted script answers "would block" for the network and success
    for [malloc] and [kevent]. The errno recorded with a call that did not
    fail is whatever was there before ([EINTR] here); the code reads it
    only after a negative result. *)
Record World := {
  recv_script : list recv_answer;
  send_script : list send_answer;
  accept_script : list accept_answer;
  malloc_script : list bool;
  kevent_script : list bool;
  trace : list syscall
}.

Definition IO (A : Type) : Type := World -> A * World.

Definition ret {A} (a : A) : IO A := fun w => (a, w).
Definition bind {A B} (m : IO A) (k : A -> IO B) : IO B :=
  fun w => let '(a, w') := m w in k a w'.

Definition log (e : syscall) : IO unit := fun w =>
  (tt, {| recv_script := recv_script w; send_script := send_script w;
          accept_script := accept_script w; malloc_script := malloc_script w;
          kevent_script := kevent_script w; trace := e :: trace w |}).

Definition next_recv : IO recv_answer := fun w =>
  match recv_script w with
  | [] => (RecvFail EAGAIN, w)
  | a :: rest =>
      (a, {| recv_script := rest; send_script := send_script w;
             accept_script := accept_script w; malloc_script := malloc_script w;
             kevent_script := kevent_script w; trace := trace w |})
  end.

Definition next_send : IO send_answer := fun w =>
  match send_script w with
  | [] => (SendFail EAGAIN, w)
  | a :: rest =>
      (a, {| recv_script := recv_script w; send_script := rest;
             accept_script := accept_script w; malloc_script := malloc_script w;
             kevent_script := kevent_script w; trace := trace w |})
  end.

Definition next_accept : IO accept_answer := fun w =>
  match accept_script w with
  | [] => (AcceptFail EAGAIN, w)
  | a :: rest =>
      (a, {| recv_script := recv_script w; send_script := send_script w;
             accept_script := rest; malloc_script := malloc_script w;
             kevent_script := kevent_script w; trace := trace w |})
  end.

Definition next_malloc : IO bool := fun w =>
  match malloc_script w with
  | [] => (true, w)
  | a :: rest =>
      (a, {| recv_script := recv_script w; send_script := send_script w;
             accept_script := accept_script w; malloc_script := rest;
             kevent_script := kevent_script w; trace := trace w |})
  end.

Definition next_kevent : IO bool := fun w =>
  match kevent_script w with
  | [] => (true, w)
  | a :: rest =>
      (a, {| recv_script := recv_script w; send_script := send_script w;
             accept_script := accept_script w; malloc_script := malloc_script w;
             kevent_script := rest; trace := trace w |})
  end.

End Host.

Import Host.

Declare Scope io_scope.
Delimit Scope io_scope with io.
Notation "x <- m ;; k" := (bind m (fun x => k))
  (at level 100, m at next level, right associativity) : io_scope.
Notation "m ;;; k" := (bind m (fun _ => k))
  (at level 100, right associativity) : io_scope.
Open Scope io_scope.

Module Sys.

(** [recv(fd, buf, room, 0)]: the number returned, the errno, and the bytes
    stored. *)
Definition recv (fd : Z) (room : Z) : IO (Z * errno_t * string) :=
  a <- next_recv ;;
  match a with
  | RecvData bs =>
      let got := String.substring 0 (Z.to_nat room) bs in
      log (SysRecv fd room (strlen got) EINTR) ;;;
      ret (strlen got, EINTR, got)
  | RecvEOF => log (SysRecv fd room 0 EINTR) ;;; ret (0, EINTR, EmptyString)
  | RecvFail e => log (SysRecv fd room (-1) e) ;;; ret (-1, e, EmptyString)
  end.

(** [send(fd, data, len, MSG_NOSIGNAL)]: the number returned and the
    errno. *)
Definition send (fd : Z) (data : string) : IO (Z * errno_t) :=
  a <- next_send ;;
  match a with
  | SendAccept k =>
      let n := Z.of_nat (Nat.min k (String.length data)) in
      log (SysSend fd data n EINTR) ;;; ret (n, EINTR)
  | SendFail e => log (SysSend fd data (-1) e) ;;; ret (-1, e)
  end.

Definition close (fd : Z) : IO unit := log (SysClose fd).

(** [malloc]: [true] when memory was obtained. *)
Definition malloc : IO bool := next_malloc.

(** [kevent] used to change one registration: [true] when it returned 0. *)
Definition kevent (fd : Z) : IO bool :=
  ok <- next_kevent ;; log (SysKevent fd ok) ;;; ret ok.

(** [kevent] deleting the read and write filters of [fd]; the result is
    ignored. *)
Definition kevent_delete (fd : Z) : IO unit := log (SysKeventDelete fd).

(** [set_nonblock] and [setsockopt(TCP_NODELAY)], whose results the servers
    ignore. *)
Definition configure (fd : Z) : IO unit := log (SysSetup fd).

Definition open (os : OS) (path : string) : IO Z :=
  let fd := open_rdonly os path in
  log (SysOpen path fd) ;;; ret fd.

(** [pread(fd, buf, count, off)]: at most [count] bytes. *)
Definition pread (os : OS) (fd count off : Z) : IO (Z * string) :=
  match Host.pread os fd count off with
  | Some bs =>
      let got := String.substring 0 (Z.to_nat count) bs in
      log (SysPread fd count off (strlen got)) ;;; ret (strlen got, got)
  | None => log (SysPread fd count off (-1)) ;;; ret (-1, EmptyString)
  end.

End Sys.

(* ===================================================================== *)
(** ** [src/common/http.c] *)
(* ===================================================================== *)

Module Http.

(** [http_req_t] of [http.h]: [char method[8]; char path[1024]; int complete]. *)
Record http_req_t := { method : string; path : string; complete : Z }.

Definition sizeof_method : Z := 8.
Definition sizeof_path : Z := 1024.

Definition zero_req : http_req_t :=
  {| method := EmptyString; path := EmptyString; complete := 0 |}.

(** [http_parse_request(buf, len, out)]: the value returned and [*out]
    afterwards. 1 is a complete request, 0 asks for more bytes, -1 is an
    error. *)
Definition http_parse_request (buf : option string) (len : Z) (out : http_req_t)
  : Z * http_req_t :=
  match buf with
  | None => (-1, out)
  | Some mem =>
    if len =? 0 then (-1, out) else
    let s := cstr mem in
    match strstr s CRLFCRLF with
    | None => (0, zero_req)
    | Some header_end =>
      let out1 := {| method := EmptyString; path := EmptyString; complete := 1 |} in
      if (len <? 14) || negb (String.prefix "GET " s) then (-1, out1) else
      let out2 :=
        {| method := String.substring 0 (Z.to_nat (sizeof_method - 1)) "GET";
           path := EmptyString; complete := 1 |} in
      let path_start := (4 + skip_spaces (drop 4 s) (header_end - 4))%nat in
      if (header_end <=? path_start)%nat then (-1, out2) else
      match strchr (drop path_start s) SP with
      | None => (-1, out2)
      | Some k =>
        let path_end := (path_start + k)%nat in
        if (header_end <? path_end)%nat then (-1, out2) else
        let path_len := Z.of_nat (path_end - path_start) in
        if (path_len =? 0) || (sizeof_path <=? path_len) then (-1, out2) else
        let p := String.substring path_start (Z.to_nat path_len) s in
        let p' := if String.eqb p "/" then "/index.html" else p in
        (1, {| method := method out2; path := p'; complete := 1 |})
      end
    end
  end.

(** [p + n - k] compared with [ext] by [strcasecmp], guarded by [n >= k]. *)
Definition has_ext (p ext : string) : bool :=
  let n := String.length p in
  let k := String.length ext in
  (k <=? n)%nat && strcasecmp_eq (drop (n - k) p) ext.

Definition http_guess_type (p : string) : string :=
  if has_ext p ".html" then "text/html"
  else if has_ext p ".css" then "text/css"
  else if has_ext p ".js" then "application/javascript"
  else if has_ext p ".png" then "image/png"
  else if has_ext p ".jpg" then "image/jpeg"
  else if has_ext p ".gif" then "image/gif"
  else "application/octet-stream".

(** The result of [snprintf(dst, cap, ...)] checked by
    [(n < 0 || (size_t)n >= cap) ? -1 : n]; [text] is the full formatted
    output, of which [dst] receives at most [cap - 1] bytes. *)
Definition checked_snprintf (cap : Z) (text : string) : Z * string :=
  let n := strlen text in
  ((if (n <? 0) || (cap <=? n) then -1 else n),
   String.substring 0 (Z.to_nat (cap - 1)) text).

Definition text_200 (content_len : Z) (ctype : string) : string :=
  "HTTP/1.1 200 OK" +:+ CRLF +:+
  "Content-Length: " +:+ decimal content_len +:+ CRLF +:+
  "Content-Type: " +:+ ctype +:+ CRLF +:+
  "Cache-Control: no-cache" +:+ CRLF +:+
  "Connection: close" +:+ CRLFCRLF.

Definition http_build_200 (dst : string) (cap : Z) (content_len : Z) (ctype : string)
  : Z * string :=
  if cap =? 0 then (-1, dst)
  else checked_snprintf cap (text_200 content_len ctype).

Definition text_404 : string :=
  let body := "Not Found" in
  "HTTP/1.1 404 Not Found" +:+ CRLF +:+
  "Content-Length: " +:+ decimal (strlen body) +:+ CRLF +:+
  "Content-Type: text/plain" +:+ CRLF +:+
  "Connection: close" +:+ CRLFCRLF +:+ body.

Definition http_build_404 (dst : string) (cap : Z) : Z * string :=
  if cap =? 0 then (-1, dst)
  else checked_snprintf cap text_404.

(** [http_safe_join(out, outsz, root, rel)]: the value returned and [out]
    afterwards. *)
Definition http_safe_join (os : OS) (out : string) (outsz : Z) (root rel : string)
  : Z * string :=
  if outsz =? 0 then (-1, out) else
  let clean_rel :=
    match rel with
    | String "/" rest => rest
    | _ => rel
    end in
  let clean_rel :=
    if strlen clean_rel =? 0 then "index.html" else clean_rel in
  let temp_path := root +:+ "/" +:+ clean_rel in
  let n := strlen temp_path in
  if (n <? 0) || (PATH_MAX os <=? n) then (-1, out) else
  match realpath os temp_path with
  | None =>
      let n := strlen root in
      if (n <? 0) || (PATH_MAX os <=? n) then (-1, out) else
      match realpath os root with
      | None => (-1, out)
      | Some resolved =>
          let '(n, out') := checked_snprintf outsz (resolved +:+ "/" +:+ clean_rel) in
          if n <? 0 then (-1, out') else (0, out')
      end
  | Some resolved =>
      match realpath os root with
      | None => (-1, out)
      | Some root_real =>
          if negb (String.prefix root_real resolved) then (-1, out) else
          let len := strlen resolved in
          if outsz <=? len then (-1, out) else (0, resolved)
      end
  end.

End Http.

Import Http.

(** [snprintf(dst, cap, text)] whose result the caller checks itself: the
    length of the full text and what [dst] holds. *)
Definition snprintf (cap : Z) (text : string) : Z * string :=
  (strlen text, String.substring 0 (Z.to_nat (cap - 1)) text).

(** [memcpy(dst, src, n)] into the start of a buffer; the model keeps the
    bytes written. *)
Definition memcpy (src : string) (n : Z) : string :=
  String.substring 0 (Z.to_nat n) src.

Definition SIZE_MAX1 : Z := 2 ^ 64.

(* ===================================================================== *)
(** ** [src/kqueue_srv/kqueue_server.c] *)
(* ===================================================================== *)

Module Kqueue.

Definition kMaxEvents : Z := 1024.
Definition kMaxConnections : Z := 50000.
Definition kRequestBufferSize : Z := 4096.
Definition kResponseBufferSize : Z := 32768.
Definition kPathBufferSize : Z := 1024.
Definition kHeaderBufferSize : Z := 512.
Definition kListenBacklog : Z := 10000.

Inductive ConnectionState :=
| STATE_READING_REQUEST
| STATE_PROCESSING
| STATE_SENDING_HEADER
| STATE_SENDING_FILE
| STATE_CLOSING.

Definition state_eqb (a b : ConnectionState) : bool :=
  match a, b with
  | STATE_READING_REQUEST, STATE_READING_REQUEST
  | STATE_PROCESSING, STATE_PROCESSING
  | STATE_SENDING_HEADER, STATE_SENDING_HEADER
  | STATE_SENDING_FILE, STATE_SENDING_FILE
  | STATE_CLOSING, STATE_CLOSING => true
  | _, _ => false
  end.

(** [struct Connection]. The [next] link is the position of the record in
    the server's free list; the [server] back-pointer is the server the
    functions receive. *)
Record Connection := {
  fd : Z;
  state : ConnectionState;
  request_buffer : option string;
  request_size : Z;
  request_capacity : Z;
  response_buffer : option string;
  response_size : Z;
  response_sent : Z;
  file_fd : Z;
  file_offset : Z;
  file_size : Z
}.

Definition set_fd (c : Connection) (v : Z) : Connection :=
  {| fd := v; state := state c; request_buffer := request_buffer c;
     request_size := request_size c; request_capacity := request_capacity c;
     response_buffer := response_buffer c; response_size := response_size c;
     response_sent := response_sent c; file_fd := file_fd c;
     file_offset := file_offset c; file_size := file_size c |}.

Definition set_state (c : Connection) (v : ConnectionState) : Connection :=
  {| fd := fd c; state := v; request_buffer := request_buffer c;
     request_size := request_size c; request_capacity := request_capacity c;
     response_buffer := response_buffer c; response_size := response_size c;
     response_sent := response_sent c; file_fd := file_fd c;
     file_offset := file_offset c; file_size := file_size c |}.

Definition set_request_buffer (c : Connection) (v : option string) : Connection :=
  {| fd := fd c; state := state c; request_buffer := v;
     request_size := request_size c; request_capacity := request_capacity c;
     response_buffer := response_buffer c; response_size := response_size c;
     response_sent := response_sent c; file_fd := file_fd c;
     file_offset := file_offset c; file_size := file_size c |}.

Definition set_request_size (c : Connection) (v : Z) : Connection :=
  {| fd := fd c; state := state c; request_buffer := request_buffer c;
     request_size := v; request_capacity := request_capacity c;
     response_buffer := response_buffer c; response_size := response_size c;
     response_sent := response_sent c; file_fd := file_fd c;
     file_offset := file_offset c; file_size := file_size c |}.

Definition set_request_capacity (c : Connection) (v : Z) : Connection :=
  {| fd := fd c; state := state c; request_buffer := request_buffer c;
     request_size := request_size c; request_capacity := v;
     response_buffer := response_buffer c; response_size := response_size c;
     response_sent := response_sent c; file_fd := file_fd c;
     file_offset := file_offset c; file_size := file_size c |}.

Definition set_response_buffer (c : Connection) (v : option string) : Connection :=
  {| fd := fd c; state := state c; request_buffer := request_buffer c;
     request_size := request_size c; request_capacity := request_capacity c;
     response_buffer := v; response_size := response_size c;
     response_sent := response_sent c; file_fd := file_fd c;
     file_offset := file_offset c; file_size := file_size c |}.

Definition set_response_size (c : Connection) (v : Z) : Connection :=
  {| fd := fd c; state := state c; request_buffer := request_buffer c;
     request_size := request_size c; request_capacity := request_capacity c;
     response_buffer := response_buffer c; response_size := v;
     response_sent := response_sent c; file_fd := file_fd c;
     file_offset := file_offset c; file_size := file_size c |}.

Definition set_response_sent (c : Connection) (v : Z) : Connection :=
  {| fd := fd c; state := state c; request_buffer := request_buffer c;
     request_size := request_size c; request_capacity := request_capacity c;
     response_buffer := response_buffer c; response_size := response_size c;
     response_sent := v; file_fd := file_fd c;
     file_offset := file_offset c; file_size := file_size c |}.

Definition set_file_fd (c : Connection) (v : Z) : Connection :=
  {| fd := fd c; state := state c; request_buffer := request_buffer c;
     request_size := request_size c; request_capacity := request_capacity c;
     response_buffer := response_buffer c; response_size := response_size c;
     response_sent := response_sent c; file_fd := v;
     file_offset := file_offset c; file_size := file_size c |}.

Definition set_file_offset (c : Connection) (v : Z) : Connection :=
  {| fd := fd c; state := state c; request_buffer := request_buffer c;
     request_size := request_size c; request_capacity := request_capacity c;
     response_buffer := response_buffer c; response_size := response_size c;
     response_sent := response_sent c; file_fd := file_fd c;
     file_offset := v; file_size := file_size c |}.

Definition set_file_size (c : Connection) (v : Z) : Connection :=
  {| fd := fd c; state := state c; request_buffer := request_buffer c;
     request_size := request_size c; request_capacity := request_capacity c;
     response_buffer := response_buffer c; response_size := response_size c;
     response_sent := response_sent c; file_fd := file_fd c;
     file_offset := file_offset c; file_size := v |}.

(** [struct Server]. [connections] is the preallocated array; [free_list]
    lists the slots reached by following [next] from the head. *)
Record Server := {
  kq : Z;
  listen_fd : Z;
  doc_root : string;
  connections : list Connection;
  free_list : list nat;
  num_active : Z;
  total_requests : Z;
  total_bytes_sent : Z;
  total_connections : Z
}.

Definition set_connections (s : Server) (v : list Connection) : Server :=
  {| kq := kq s; listen_fd := listen_fd s; doc_root := doc_root s;
     connections := v; free_list := free_list s; num_active := num_active s;
     total_requests := total_requests s; total_bytes_sent := total_bytes_sent s;
     total_connections := total_connections s |}.

Definition set_free_list (s : Server) (v : list nat) : Server :=
  {| kq := kq s; listen_fd := listen_fd s; doc_root := doc_root s;
     connections := connections s; free_list := v; num_active := num_active s;
     total_requests := total_requests s; total_bytes_sent := total_bytes_sent s;
     total_connections := total_connections s |}.

Definition set_num_active (s : Server) (v : Z) : Server :=
  {| kq := kq s; listen_fd := listen_fd s; doc_root := doc_root s;
     connections := connections s; free_list := free_list s; num_active := v;
     total_requests := total_requests s; total_bytes_sent := total_bytes_sent s;
     total_connections := total_connections s |}.

Definition set_total_requests (s : Server) (v : Z) : Server :=
  {| kq := kq s; listen_fd := listen_fd s; doc_root := doc_root s;
     connections := connections s; free_list := free_list s;
     num_active := num_active s;
     total_requests := v; total_bytes_sent := total_bytes_sent s;
     total_connections := total_connections s |}.

Definition set_total_connections (s : Server) (v : Z) : Server :=
  {| kq := kq s; listen_fd := listen_fd s; doc_root := doc_root s;
     connections := connections s; free_list := free_list s;
     num_active := num_active s;
     total_requests := total_requests s; total_bytes_sent := total_bytes_sent s;
     total_connections := v |}.

(** [reset_connection]. *)
Definition reset_connection (conn : Connection) : Connection :=
  let conn := set_state conn STATE_READING_REQUEST in
  let conn := set_request_size conn 0 in
  let conn := set_response_size conn 0 in
  let conn := set_response_sent conn 0 in
  let conn := set_file_fd conn (-1) in
  let conn := set_file_offset conn 0 in
  set_file_size conn 0.

(** [alloc_connection]: the slot handed out (NULL when the pool is
    exhausted) and the server afterwards. *)
Definition alloc_connection (server : Server) : option nat * Server :=
  match free_list server with
  | [] => (None, server)
  | conn :: next =>
      let server := set_free_list server next in
      let server :=
        set_connections server (alter reset_connection conn (connections server)) in
      let server := set_num_active server (num_active server + 1) in
      let server :=
        set_total_connections server ((total_connections server + 1) mod SIZE_MAX1) in
      (Some conn, server)
  end.

(** The effect of [free_connection] on the record itself. *)
Definition release_fds (conn : Connection) : IO Connection :=
  conn <- (if 0 <=? fd conn
           then Sys.close (fd conn) ;;; ret (set_fd conn (-1))
           else ret conn) ;;
  if 0 <=? file_fd conn
  then Sys.close (file_fd conn) ;;; ret (set_file_fd conn (-1))
  else ret conn.

(** [free_connection(server, conn)] for the record in slot [i]. *)
Definition free_connection (server : Server) (i : nat) : IO Server :=
  match connections server !! i with
  | None => ret server
  | Some conn =>
      conn <- release_fds conn ;;
      let server := set_connections server (<[i := conn]> (connections server)) in
      let server := set_free_list server (i :: free_list server) in
      ret (set_num_active server (num_active server - 1))
  end.

(** [close_connection]: both filters are deleted from the queue (the result
    of that [kevent] call is ignored), then the record is freed. *)
Definition close_connection (server : Server) (i : nat) : IO Server :=
  match connections server !! i with
  | None => ret server
  | Some conn =>
      (if 0 <=? fd conn then Sys.kevent_delete (fd conn) else ret tt) ;;;
      free_connection server i
  end.

(** [prepare_error_response]: the value returned and the record
    afterwards. *)
Definition text_400 : string :=
  "HTTP/1.1 400 Bad Request" +:+ CRLF +:+
  "Content-Length: 11" +:+ CRLF +:+
  "Connection: close" +:+ CRLFCRLF +:+
  "Bad Request".

Definition text_413 : string :=
  "HTTP/1.1 413 Request Entity Too Large" +:+ CRLF +:+
  "Content-Length: 18" +:+ CRLF +:+
  "Connection: close" +:+ CRLFCRLF +:+
  "Request Too Large".

Definition text_500 : string :=
  "HTTP/1.1 500 Internal Server Error" +:+ CRLF +:+
  "Content-Length: 21" +:+ CRLF +:+
  "Connection: close" +:+ CRLFCRLF +:+
  "Internal Server Error".

(** The [if (!conn->response_buffer) malloc(...)] step shared by both
    [prepare_] functions: [None] when the allocation failed. *)
Definition ensure_response_buffer (conn : Connection) : IO (option Connection) :=
  match response_buffer conn with
  | Some _ => ret (Some conn)
  | None =>
      ok <- Sys.malloc ;;
      if ok then ret (Some (set_response_buffer conn (Some EmptyString)))
      else ret None
  end.

(** The common tail: copy the bytes, reset the counters, enter
    [STATE_SENDING_HEADER] and enable write events. *)
Definition start_sending (conn : Connection) (bytes : string) (len : Z)
  : IO (Z * Connection) :=
  let conn := set_response_buffer conn (Some (memcpy bytes len)) in
  let conn := set_response_size conn len in
  let conn := set_response_sent conn 0 in
  let conn := set_state conn STATE_SENDING_HEADER in
  ok <- Sys.kevent (fd conn) ;;
  if ok then ret (0, conn) else ret (-1, conn).

Definition prepare_error_response (conn : Connection) (status_code : Z)
  : IO (Z * Connection) :=
  let formatted :=
    if status_code =? 400 then Some (snprintf kHeaderBufferSize text_400)
    else if status_code =? 404 then Some (http_build_404 EmptyString kHeaderBufferSize)
    else if status_code =? 413 then Some (snprintf kHeaderBufferSize text_413)
    else if status_code =? 500 then Some (snprintf kHeaderBufferSize text_500)
    else None in
  match formatted with
  | None => ret (-1, conn)
  | Some (response_len, response) =>
      if (response_len <=? 0) || (kHeaderBufferSize <=? response_len)
      then ret (-1, conn)
      else
        oc <- ensure_response_buffer conn ;;
        match oc with
        | None => ret (-1, conn)
        | Some conn => start_sending conn response response_len
        end
  end.

(** [prepare_file_response]. *)
Definition prepare_file_response (os : OS) (conn : Connection) (file_path : string)
  : IO (Z * Connection) :=
  ffd <- Sys.open os file_path ;;
  let conn := set_file_fd conn ffd in
  if file_fd conn <? 0 then ret (-1, conn) else
  match fstat os (file_fd conn) with
  | None =>
      Sys.close (file_fd conn) ;;; ret (-1, set_file_fd conn (-1))
  | Some st =>
      let conn := set_file_size conn (st_size st) in
      let conn := set_file_offset conn 0 in
      let '(header_len, header) :=
        http_build_200 EmptyString kHeaderBufferSize (st_size st)
                       (http_guess_type file_path) in
      if header_len <? 0
      then Sys.close (file_fd conn) ;;; ret (-1, set_file_fd conn (-1))
      else
        oc <- ensure_response_buffer conn ;;
        match oc with
        | None => Sys.close (file_fd conn) ;;; ret (-1, set_file_fd conn (-1))
        | Some conn => start_sending conn header header_len
        end
  end.

(** [process_request]. The value returned by [prepare_error_response] is
    dropped, as in the source. *)
Definition answer_error (server : Server) (conn : Connection) (status_code : Z)
  : IO (Z * Server * Connection) :=
  rc <- prepare_error_response conn status_code ;;
  ret (0, server, snd rc).

Definition process_request (os : OS) (server : Server) (conn : Connection)
  : IO (Z * Server * Connection) :=
  let '(parsed, request) :=
    http_parse_request (request_buffer conn) (request_size conn) zero_req in
  if parsed <=? 0 then answer_error server conn 400 else
  let '(joined, file_path) :=
    http_safe_join os EmptyString kPathBufferSize (doc_root server) (path request) in
  if joined <? 0 then answer_error server conn 404 else
  match stat os file_path with
  | None => answer_error server conn 404
  | Some st =>
      if negb (st_isreg st) then answer_error server conn 404 else
      rc <- prepare_file_response os conn file_path ;;
      if fst rc <? 0 then answer_error server (snd rc) 500
      else
        ret (0,
             set_total_requests server ((total_requests server + 1) mod SIZE_MAX1),
             snd rc)
  end.

(** [handle_read_event]. *)
Definition handle_read_event (os : OS) (server : Server) (conn : Connection)
  : IO (Z * Server * Connection) :=
  if negb (state_eqb (state conn) STATE_READING_REQUEST)
  then ret (0, server, conn) else
  let room := (request_capacity conn - request_size conn - 1) mod SIZE_MAX1 in
  match request_buffer conn with
  | None =>
      (* recv into NULL *)
      log (SysRecv (fd conn) room (-1) EFAULT) ;;; ret (-1, server, conn)
  | Some mem =>
      r <- Sys.recv (fd conn) room ;;
      let '(n, errno, got) := r in
      if n <=? 0 then
        if (n <? 0) && would_block errno
        then ret (0, server, conn)
        else ret (-1, server, conn)
      else
        let mem := String.substring 0 (Z.to_nat (request_size conn)) mem +:+ got in
        let conn := set_request_buffer conn (Some mem) in
        let conn := set_request_size conn (request_size conn + n) in
        match strstr (cstr mem) CRLFCRLF with
        | Some _ => process_request os server conn
        | None =>
            if (request_capacity conn - 1) mod SIZE_MAX1 <=? request_size conn
            then answer_error server conn 413
            else ret (0, server, conn)
        end
  end.

(** [send_response]. The first block either leaves the function
    ([Some r]) or falls through to the file block. *)
Definition send_header_part (conn : Connection) : IO (option Z * Connection) :=
  if state_eqb (state conn) STATE_SENDING_HEADER then
    let buf := default EmptyString (response_buffer conn) in
    let len := (response_size conn - response_sent conn) mod SIZE_MAX1 in
    r <- Sys.send (fd conn)
           (String.substring (Z.to_nat (response_sent conn)) (Z.to_nat len) buf) ;;
    let '(n, errno) := r in
    if n <=? 0 then
      if (n <? 0) && would_block errno
      then ret (Some 0, conn)
      else ret (Some (-1), conn)
    else
      let conn := set_response_sent conn (response_sent conn + n) in
      if response_size conn <=? response_sent conn then
        if 0 <=? file_fd conn then
          let conn := set_state conn STATE_SENDING_FILE in
          ret (None, set_response_sent conn 0)
        else ret (Some (-1), conn)
      else ret (None, conn)
  else ret (None, conn).

Definition send_file_part (os : OS) (conn : Connection) : IO (Z * Connection) :=
  if state_eqb (state conn) STATE_SENDING_FILE && (0 <=? file_fd conn) then
    let to_read := kResponseBufferSize in
    let to_read :=
      if file_size conn <? file_offset conn + to_read
      then file_size conn - file_offset conn
      else to_read in
    if to_read =? 0 then ret (-1, conn) else
    r <- Sys.pread os (file_fd conn) to_read (file_offset conn) ;;
    let '(n, chunk) := r in
    if n <=? 0 then ret (-1, conn) else
    let conn := set_response_buffer conn (Some chunk) in
    r <- Sys.send (fd conn) (String.substring 0 (Z.to_nat n) chunk) ;;
    let '(sent, errno) := r in
    if sent <=? 0 then
      if (sent <? 0) && would_block errno
      then ret (0, conn)
      else ret (-1, conn)
    else
      let conn := set_file_offset conn (file_offset conn + sent) in
      if file_size conn <=? file_offset conn
      then ret (-1, conn)
      else ret (0, conn)
  else ret (0, conn).

Definition send_response (os : OS) (conn : Connection) : IO (Z * Connection) :=
  r <- send_header_part conn ;;
  match fst r with
  | Some v => ret (v, snd r)
  | None => send_file_part os (snd r)
  end.

(** [handle_write_event]. *)
Definition handle_write_event (os : OS) (server : Server) (conn : Connection)
  : IO (Z * Server * Connection) :=
  if state_eqb (state conn) STATE_SENDING_HEADER
     || state_eqb (state conn) STATE_SENDING_FILE
  then r <- send_response os conn ;; ret (fst r, server, snd r)
  else ret (0, server, conn).

(** The body of the accept loop after a record was obtained: configure the
    socket, store the descriptor, allocate the request buffer on first use
    and register read interest. *)
Definition setup_connection (server : Server) (i : nat) (new_fd : Z) : IO Server :=
  match connections server !! i with
  | None => ret server
  | Some conn =>
      Sys.configure new_fd ;;;
      let conn := set_fd conn new_fd in
      oc <- match request_buffer conn with
            | Some _ => ret (Some conn)
            | None =>
                ok <- Sys.malloc ;;
                if ok then
                  let conn := set_request_buffer conn (Some EmptyString) in
                  ret (Some (set_request_capacity conn kRequestBufferSize))
                else ret None
            end ;;
      match oc with
      | None =>
          Sys.close new_fd ;;;
          free_connection (set_connections server (<[i := conn]> (connections server))) i
      | Some conn =>
          let server := set_connections server (<[i := conn]> (connections server)) in
          ok <- Sys.kevent new_fd ;;
          if ok then ret server else close_connection server i
      end
  end.

(** [accept_connections]: the [while (1)] loop, which ends at the first
    failing [accept]. Every turn consumes one scripted answer, so
    [fuel] larger than the script never runs out. *)
Fixpoint accept_loop (fuel : nat) (server : Server) : IO Server :=
  match fuel with
  | O => ret server
  | S fuel =>
      a <- next_accept ;;
      match a with
      | AcceptFail _ => ret server
      | AcceptFd new_fd =>
          if new_fd <? 0 then ret server else
          log (SysAccept new_fd) ;;;
          let '(slot, server) := alloc_connection server in
          match slot with
          | None => Sys.close new_fd ;;; accept_loop fuel server
          | Some i =>
              server <- setup_connection server i new_fd ;;
              accept_loop fuel server
          end
      end
  end.

Definition accept_connections (server : Server) : IO (Z * Server) :=
  fun w =>
    let '(server, w) := accept_loop (S (length (accept_script w))) server w in
    (0, server, w).

(** One [struct kevent] of a batch, reduced to what the loop reads. *)
Inductive filter_t := EVFILT_READ | EVFILT_WRITE | EVFILT_OTHER.

Record kevent_t := {
  ident : Z;
  filter : filter_t;
  ev_error : bool;
  udata : option nat
}.

Definition finish (i : nat) (r : Z * Server * Connection) : IO Server :=
  let '(rc, server, conn) := r in
  let server := set_connections server (<[i := conn]> (connections server)) in
  if rc <? 0 then close_connection server i else ret server.

(** The body of [for (int i = 0; i < nev; i++)] in [run_kqueue_server]. *)
Definition process_event (os : OS) (server : Server) (ev : kevent_t) : IO Server :=
  if ev_error ev then ret server
  else if ident ev =? listen_fd server then
    r <- accept_connections server ;; ret (snd r)
  else
    match udata ev with
    | None => ret server
    | Some i =>
        match connections server !! i with
        | None => ret server
        | Some conn =>
            match filter ev with
            | EVFILT_READ => r <- handle_read_event os server conn ;; finish i r
            | EVFILT_WRITE => r <- handle_write_event os server conn ;; finish i r
            | EVFILT_OTHER => ret server
            end
        end
    end.

Fixpoint process_events (os : OS) (server : Server) (evs : list kevent_t) : IO Server :=
  match evs with
  | [] => ret server
  | ev :: evs => server <- process_event os server ev ;; process_events os server evs
  end.

(** A record as [calloc] leaves it, with the [fd = -1] of the set-up loop. *)
Definition fresh_connection : Connection :=
  {| fd := -1; state := STATE_READING_REQUEST; request_buffer := None;
     request_size := 0; request_capacity := 0; response_buffer := None;
     response_size := 0; response_sent := 0; file_fd := 0;
     file_offset := 0; file_size := 0 |}.

(** The server as [run_kqueue_server] builds it in front of the event
    loop, for a pool of [n] records ([kMaxConnections] in the source). *)
Definition init_server (n : nat) (kq_fd listen : Z) (root : string) : Server :=
  {| kq := kq_fd; listen_fd := listen; doc_root := root;
     connections := replicate n fresh_connection;
     free_list := seq 0 n;
     num_active := 0;
     total_requests := 0; total_bytes_sent := 0; total_connections := 0 |}.

End Kqueue.

(* ===================================================================== *)
(** ** [src/aio_srv/aio_server.c] *)
(* ===================================================================== *)

Module Aio.

Definition kMaxClients : Z := 100.
Definition kRequestBufferSize : Z := 8192.
Definition kResponseBufferSize : Z := 65536.
Definition kPathBufferSize : Z := 2048.
Definition kHeaderBufferSize : Z := 512.
Definition kListenBacklog : Z := 512.
Definition kSelectTimeoutMs : Z := 50.

Inductive ClientState :=
| STATE_READING_REQUEST
| STATE_SENDING_RESPONSE
| STATE_CLOSING.

(** [struct Client]; [request_buffer] is the array inside the record. *)
Record Client := {
  fd : Z;
  state : ClientState;
  request_buffer : string;
  request_size : Z;
  response_buffer : option string;
  response_size : Z;
  response_sent : Z;
  file_fd : Z;
  file_offset : Z;
  file_size : Z
}.

Definition set_fd (c : Client) (v : Z) : Client :=
  {| fd := v; state := state c; request_buffer := request_buffer c;
     request_size := request_size c;
     response_buffer := response_buffer c; response_size := response_size c;
     response_sent := response_sent c; file_fd := file_fd c;
     file_offset := file_offset c; file_size := file_size c |}.

Definition set_state (c : Client) (v : ClientState) : Client :=
  {| fd := fd c; state := v; request_buffer := request_buffer c;
     request_size := request_size c;
     response_buffer := response_buffer c; response_size := response_size c;
     response_sent := response_sent c; file_fd := file_fd c;
     file_offset := file_offset c; file_size := file_size c |}.

Definition set_request_buffer (c : Client) (v : string) : Client :=
  {| fd := fd c; state := state c; request_buffer := v;
     request_size := request_size c;
     response_buffer := response_buffer c; response_size := response_size c;
     response_sent := response_sent c; file_fd := file_fd c;
     file_offset := file_offset c; file_size := file_size c |}.

Definition set_request_size (c : Client) (v : Z) : Client :=
  {| fd := fd c; state := state c; request_buffer := request_buffer c;
     request_size := v;
     response_buffer := response_buffer c; response_size := response_size c;
     response_sent := response_sent c; file_fd := file_fd c;
     file_offset := file_offset c; file_size := file_size c |}.

Definition set_response_buffer (c : Client) (v : option string) : Client :=
  {| fd := fd c; state := state c; request_buffer := request_buffer c;
     request_size := request_size c;
     response_buffer := v; response_size := response_size c;
     response_sent := response_sent c; file_fd := file_fd c;
     file_offset := file_offset c; file_size := file_size c |}.

Definition set_response_size (c : Client) (v : Z) : Client :=
  {| fd := fd c; state := state c; request_buffer := request_buffer c;
     request_size := request_size c;
     response_buffer := response_buffer c; response_size := v;
     response_sent := response_sent c; file_fd := file_fd c;
     file_offset := file_offset c; file_size := file_size c |}.

Definition set_response_sent (c : Client) (v : Z) : Client :=
  {| fd := fd c; state := state c; request_buffer := request_buffer c;
     request_size := request_size c;
     response_buffer := response_buffer c; response_size := response_size c;
     response_sent := v; file_fd := file_fd c;
     file_offset := file_offset c; file_size := file_size c |}.

Definition set_file_fd (c : Client) (v : Z) : Client :=
  {| fd := fd c; state := state c; request_buffer := request_buffer c;
     request_size := request_size c;
     response_buffer := response_buffer c; response_size := response_size c;
     response_sent := response_sent c; file_fd := v;
     file_offset := file_offset c; file_size := file_size c |}.

Definition set_file_offset (c : Client) (v : Z) : Client :=
  {| fd := fd c; state := state c; request_buffer := request_buffer c;
     request_size := request_size c;
     response_buffer := response_buffer c; response_size := response_size c;
     response_sent := response_sent c; file_fd := file_fd c;
     file_offset := v; file_size := file_size c |}.

Definition set_file_size (c : Client) (v : Z) : Client :=
  {| fd := fd c; state := state c; request_buffer := request_buffer c;
     request_size := request_size c;
     response_buffer := response_buffer c; response_size := response_size c;
     response_sent := response_sent c; file_fd := file_fd c;
     file_offset := file_offset c; file_size := v |}.

(** [struct Server]; the counters are [unsigned long]. *)
Record Server := {
  listen_fd : Z;
  doc_root : string;
  clients : list Client;
  num_clients : Z;
  total_requests : Z;
  total_bytes_sent : Z
}.

Definition set_clients (s : Server) (v : list Client) : Server :=
  {| listen_fd := listen_fd s; doc_root := doc_root s; clients := v;
     num_clients := num_clients s; total_requests := total_requests s;
     total_bytes_sent := total_bytes_sent s |}.

Definition set_num_clients (s : Server) (v : Z) : Server :=
  {| listen_fd := listen_fd s; doc_root := doc_root s; clients := clients s;
     num_clients := v; total_requests := total_requests s;
     total_bytes_sent := total_bytes_sent s |}.

Definition set_total_requests (s : Server) (v : Z) : Server :=
  {| listen_fd := listen_fd s; doc_root := doc_root s; clients := clients s;
     num_clients := num_clients s; total_requests := v;
     total_bytes_sent := total_bytes_sent s |}.

Definition set_total_bytes_sent (s : Server) (v : Z) : Server :=
  {| listen_fd := listen_fd s; doc_root := doc_root s; clients := clients s;
     num_clients := num_clients s; total_requests := total_requests s;
     total_bytes_sent := v |}.

(** [reset_client]; the [memset] leaves an empty C string. *)
Definition reset_client (client : Client) : Client :=
  {| fd := -1; state := STATE_READING_REQUEST; request_buffer := EmptyString;
     request_size := 0; response_buffer := None; response_size := 0;
     response_sent := 0; file_fd := -1; file_offset := 0; file_size := 0 |}.

(** [close_client]. *)
Definition close_client (client : Client) : IO Client :=
  client <- (if 0 <=? fd client
             then Sys.close (fd client) ;;; ret (set_fd client (-1))
             else ret client) ;;
  client <- (if 0 <=? file_fd client
             then Sys.close (file_fd client) ;;; ret (set_file_fd client (-1))
             else ret client) ;;
  let client :=
    match response_buffer client with
    | Some _ => set_response_buffer client None
    | None => client
    end in
  ret (reset_client client).

Definition dec_clients (server : Server) : Server :=
  set_num_clients server (num_clients server - 1).

Definition text_400 : string :=
  "HTTP/1.1 400 Bad Request" +:+ CRLF +:+
  "Content-Length: 11" +:+ CRLF +:+
  "Content-Type: text/plain" +:+ CRLF +:+
  "Connection: close" +:+ CRLFCRLF +:+
  "Bad Request".

Definition text_500 : string :=
  "HTTP/1.1 500 Internal Server Error" +:+ CRLF +:+
  "Content-Length: 21" +:+ CRLF +:+
  "Content-Type: text/plain" +:+ CRLF +:+
  "Connection: close" +:+ CRLFCRLF +:+
  "Internal Server Error".

Definition text_default : string :=
  "HTTP/1.1 500 Internal Server Error" +:+ CRLF +:+
  "Content-Length: 5" +:+ CRLF +:+
  "Connection: close" +:+ CRLFCRLF +:+
  "Error".

(** [prepare_error_response]. *)
Definition prepare_error_response (client : Client) (status_code : Z) : IO Client :=
  let '(response_len, response) :=
    if status_code =? 400 then snprintf kHeaderBufferSize text_400
    else if status_code =? 404 then http_build_404 EmptyString kHeaderBufferSize
    else if status_code =? 500 then snprintf kHeaderBufferSize text_500
    else snprintf kHeaderBufferSize text_default in
  if (response_len <=? 0) || (kHeaderBufferSize <=? response_len)
  then close_client client
  else
    ok <- Sys.malloc ;;
    if negb ok then close_client client
    else
      let client := set_response_buffer client (Some (memcpy response response_len)) in
      let client := set_response_size client response_len in
      let client := set_response_sent client 0 in
      ret (set_state client STATE_SENDING_RESPONSE).

(** [prepare_file_response]. *)
Definition prepare_file_response (os : OS) (client : Client) (file_path : string)
  : IO Client :=
  ffd <- Sys.open os file_path ;;
  let client := set_file_fd client ffd in
  if file_fd client <? 0 then prepare_error_response client 500 else
  match fstat os (file_fd client) with
  | None =>
      Sys.close (file_fd client) ;;;
      prepare_error_response (set_file_fd client (-1)) 500
  | Some st =>
      let client := set_file_size client (st_size st) in
      let client := set_file_offset client 0 in
      let '(header_len, header) :=
        http_build_200 EmptyString kHeaderBufferSize (st_size st)
                       (http_guess_type file_path) in
      if header_len <? 0 then
        Sys.close (file_fd client) ;;;
        prepare_error_response (set_file_fd client (-1)) 500
      else
        ok <- Sys.malloc ;;
        if negb ok then
          Sys.close (file_fd client) ;;;
          prepare_error_response (set_file_fd client (-1)) 500
        else
          let client := set_response_buffer client (Some (memcpy header header_len)) in
          let client := set_response_size client header_len in
          let client := set_response_sent client 0 in
          ret (set_state client STATE_SENDING_RESPONSE)
  end.

(** [process_http_request]. *)
Definition process_http_request (os : OS) (server : Server) (client : Client)
  : IO Client :=
  let '(parsed, request) :=
    http_parse_request (Some (request_buffer client)) (request_size client) zero_req in
  if parsed <=? 0 then prepare_error_response client 400 else
  let '(joined, file_path) :=
    http_safe_join os EmptyString kPathBufferSize (doc_root server) (path request) in
  if joined <? 0 then prepare_error_response client 404 else
  match stat os file_path with
  | None => prepare_error_response client 404
  | Some st =>
      if negb (st_isreg st) then prepare_error_response client 404
      else prepare_file_response os client file_path
  end.

(** [handle_client_read]. *)
Definition handle_client_read (os : OS) (server : Server) (client : Client)
  : IO (Server * Client) :=
  let room := (kRequestBufferSize - request_size client - 1) mod SIZE_MAX1 in
  r <- Sys.recv (fd client) room ;;
  let '(n, errno, got) := r in
  if n <=? 0 then
    if (n <? 0) && would_block errno
    then ret (server, client)
    else
      client <- close_client client ;;
      ret (dec_clients server, client)
  else
    let mem :=
      String.substring 0 (Z.to_nat (request_size client)) (request_buffer client)
      +:+ got in
    let client := set_request_buffer client mem in
    let client := set_request_size client (request_size client + n) in
    match strstr (cstr mem) CRLFCRLF with
    | Some _ =>
        client <- process_http_request os server client ;;
        ret (set_total_requests server ((total_requests server + 1) mod SIZE_MAX1),
             client)
    | None => ret (server, client)
    end.

Definition add_bytes_sent (server : Server) (n : Z) : Server :=
  set_total_bytes_sent server ((total_bytes_sent server + n) mod SIZE_MAX1).

(** [handle_client_write]. *)
Definition handle_client_write (os : OS) (server : Server) (client : Client)
  : IO (Server * Client) :=
  match response_buffer client with
  | Some buf =>
      let len := (response_size client - response_sent client) mod SIZE_MAX1 in
      r <- Sys.send (fd client)
             (String.substring (Z.to_nat (response_sent client)) (Z.to_nat len) buf) ;;
      let '(n, errno) := r in
      if n <=? 0 then
        if (n <? 0) && would_block errno
        then ret (server, client)
        else
          client <- close_client client ;;
          ret (dec_clients server, client)
      else
        let client := set_response_sent client (response_sent client + n) in
        let server := add_bytes_sent server n in
        if response_size client <=? response_sent client then
          let client := set_response_buffer client None in
          if 0 <=? file_fd client
          then ret (server, set_state client STATE_SENDING_RESPONSE)
          else
            client <- close_client client ;;
            ret (dec_clients server, client)
        else ret (server, client)
  | None =>
      if 0 <=? file_fd client then
        let to_read := kResponseBufferSize in
        let to_read :=
          if file_size client <? file_offset client + to_read
          then file_size client - file_offset client
          else to_read in
        if to_read =? 0 then
          client <- close_client client ;;
          ret (dec_clients server, client)
        else
          r <- Sys.pread os (file_fd client) to_read (file_offset client) ;;
          let '(n, buffer) := r in
          if n <=? 0 then
            client <- close_client client ;;
            ret (dec_clients server, client)
          else
            r <- Sys.send (fd client) (String.substring 0 (Z.to_nat n) buffer) ;;
            let '(sent, errno) := r in
            if sent <=? 0 then
              if (sent <? 0) && would_block errno
              then ret (server, client)
              else
                client <- close_client client ;;
                ret (dec_clients server, client)
            else
              let client := set_file_offset client (file_offset client + sent) in
              let server := add_bytes_sent server sent in
              if file_size client <=? file_offset client then
                client <- close_client client ;;
                ret (dec_clients server, client)
              else ret (server, client)
      else ret (server, client)
  end.

(** The scan [for (i = 0; i < kMaxClients; i++) if (clients[i].fd < 0)]:
    the first free slot. *)
Fixpoint find_free_slot (cs : list Client) (i : nat) : option nat :=
  match cs with
  | [] => None
  | c :: cs => if fd c <? 0 then Some i else find_free_slot cs (S i)
  end.

(** [accept_new_clients]; [fuel] as in the kqueue accept loop. *)
Fixpoint accept_loop (fuel : nat) (server : Server) : IO Server :=
  match fuel with
  | O => ret server
  | S fuel =>
      a <- next_accept ;;
      match a with
      | AcceptFail _ => ret server
      | AcceptFd client_fd =>
          if client_fd <? 0 then ret server else
          log (SysAccept client_fd) ;;;
          match find_free_slot (clients server) 0 with
          | None => Sys.close client_fd ;;; accept_loop fuel server
          | Some i =>
              Sys.configure client_fd ;;;
              let init client :=
                let client := reset_client client in
                let client := set_fd client client_fd in
                set_state client STATE_READING_REQUEST in
              let server := set_clients server (alter init i (clients server)) in
              accept_loop fuel (set_num_clients server (num_clients server + 1))
          end
      end
  end.

Definition accept_new_clients (server : Server) : IO Server :=
  fun w => accept_loop (S (length (accept_script w))) server w.

(** The server as [run_aio_server] builds it in front of the loop, for
    [n] client slots ([kMaxClients] in the source). *)
Definition blank_client : Client :=
  {| fd := 0; state := STATE_READING_REQUEST; request_buffer := EmptyString;
     request_size := 0; response_buffer := None; response_size := 0;
     response_sent := 0; file_fd := 0; file_offset := 0; file_size := 0 |}.

Definition init_server (n : nat) (listen : Z) (root : string) : Server :=
  {| listen_fd := listen; doc_root := root;
     clients := replicate n (reset_client blank_client);
     num_clients := 0; total_requests := 0; total_bytes_sent := 0 |}.

End Aio.

(* ===================================================================== *)
(** ** The event loop of aio_server.c *)
(* ===================================================================== *)

(** One turn of the [while (1)] of [run_aio_server]: the descriptor sets
    are built from the client slots, [select] answers with the ready ones,
    new connections are accepted and every slot is served. An [fd_set] is
    the list of the descriptors in it. *)
Module Select.

Definition fd_set := list Z.

Definition FD_ISSET (fd : Z) (set : fd_set) : bool := existsb (Z.eqb fd) set.

(** The loop "Add client sockets": the read set and the write set, without
    the listening socket. *)
Fixpoint watch (clients : list Aio.Client) : fd_set * fd_set :=
  match clients with
  | [] => ([], [])
  | client :: clients =>
      let '(read_fds, write_fds) := watch clients in
      if Aio.fd client <? 0 then (read_fds, write_fds)
      else
        match Aio.state client with
        | Aio.STATE_READING_REQUEST => (Aio.fd client :: read_fds, write_fds)
        | Aio.STATE_SENDING_RESPONSE => (read_fds, Aio.fd client :: write_fds)
        | Aio.STATE_CLOSING => (read_fds, write_fds)
        end
  end.

(** [max_fd] at the end of that loop. *)
Definition max_fd (server : Aio.Server) : Z :=
  fold_left
    (fun m client =>
       if Aio.fd client <? 0 then m
       else if m <? Aio.fd client then Aio.fd client else m)
    (Aio.clients server) (Aio.listen_fd server).

(** The body of the loop "Handle client I/O" for slot [i]. The handlers
    work on the record of the slot; it is stored when they are done. *)
Definition serve_client (os : OS) (server : Aio.Server) (i : nat)
  (read_fds write_fds : fd_set) : IO Aio.Server :=
  match Aio.clients server !! i with
  | None => ret server
  | Some client =>
      if Aio.fd client <? 0 then ret server
      else
        r <- (if FD_ISSET (Aio.fd client) read_fds
              then Aio.handle_client_read os server client
              else ret (server, client)) ;;
        let '(server, client) := r in
        r <- (if (0 <=? Aio.fd client) && FD_ISSET (Aio.fd client) write_fds
              then Aio.handle_client_write os server client
              else ret (server, client)) ;;
        let '(server, client) := r in
        ret (Aio.set_clients server (<[i := client]> (Aio.clients server)))
  end.

Fixpoint serve_clients (os : OS) (server : Aio.Server) (slots : list nat)
  (read_fds write_fds : fd_set) : IO Aio.Server :=
  match slots with
  | [] => ret server
  | i :: slots =>
      server <- serve_client os server i read_fds write_fds ;;
      serve_clients os server slots read_fds write_fds
  end.

(** What follows a [select] that returned the sets [read_fds] and
    [write_fds]. *)
Definition turn (os : OS) (server : Aio.Server) (read_fds write_fds : fd_set)
  : IO Aio.Server :=
  server <- (if FD_ISSET (Aio.listen_fd server) read_fds
             then Aio.accept_new_clients server
             else ret server) ;;
  serve_clients os server (seq 0 (length (Aio.clients server))) read_fds write_fds.

End Select.

(* ===================================================================== *)
(** ** thread_pool_server.c *)
(* ===================================================================== *)

(** The thread-pool server. Its queue is shared between the accepting
    thread and the workers and every access to it is made under
    [queue_mutex]; each function on [ThreadPool] below is the body of one
    critical section. A worker serves one connection at a time with blocking
    calls, so [handle_connection] is a sequential program. *)
Module Thread.

Definition kMaxWorkerThreads : Z := 200.
Definition kQueueSize : Z := 10000.
Definition kMaxRequestSize : Z := 4096.
Definition kMaxPathSize : Z := 1024.
Definition kMaxHeaderSize : Z := 512.
Definition kFileBufferSize : Z := 32768.
Definition kKeepAliveMax : Z := 100.

(** [struct Connection], a queue node; [next] is the order of the list. *)
Record Connection := { fd : Z; doc_root : string }.

(** [ThreadPool] without the thread handles and the lock. [queue] lists the
    nodes from [queue_head] to [queue_tail]. *)
Record ThreadPool := {
  queue : list Connection;
  queue_size : Z;
  shutdown : bool;
  total_requests : Z;
  active_connections : Z;
  total_connections : Z
}.

(** The pool as [thread_pool_create] leaves it ([calloc]). *)
Definition empty_pool : ThreadPool :=
  {| queue := []; queue_size := 0; shutdown := false;
     total_requests := 0; active_connections := 0; total_connections := 0 |}.

(** [thread_pool_add_connection]. *)
Definition thread_pool_add_connection (pool : ThreadPool) (fd : Z) (doc_root : string)
  : IO ThreadPool :=
  ok <- Sys.malloc ;;
  if negb ok then Sys.close fd ;;; ret pool
  else
    let conn := {| fd := fd; doc_root := doc_root |} in
    if kQueueSize <=? queue_size pool then Sys.close fd ;;; ret pool
    else
      ret {| queue := queue pool ++ [conn];
             queue_size := queue_size pool + 1;
             shutdown := shutdown pool;
             total_requests := total_requests pool;
             active_connections := active_connections pool;
             total_connections := (total_connections pool + 1) mod SIZE_MAX1 |}.

(** What a worker finds when it holds the lock: it waits (the queue is
    empty and the pool runs), leaves (the pool shuts down), or takes the
    connection at the head. *)
Inductive taken :=
| Wait
| Leave
| Job (conn : Connection) (pool : ThreadPool).

Definition take_connection (pool : ThreadPool) : taken :=
  match queue pool, shutdown pool with
  | [], false => Wait
  | _, true => Leave
  | conn :: rest, false =>
      Job conn
        {| queue := rest;
           queue_size := queue_size pool - 1;
           shutdown := shutdown pool;
           total_requests := total_requests pool;
           active_connections := (active_connections pool + 1) mod SIZE_MAX1;
           total_connections := total_connections pool |}
  end.

(** The second critical section of a worker, after the connection was
    handled. *)
Definition release_connection (pool : ThreadPool) : ThreadPool :=
  {| queue := queue pool; queue_size := queue_size pool; shutdown := shutdown pool;
     total_requests := total_requests pool;
     active_connections := (active_connections pool - 1) mod SIZE_MAX1;
     total_connections := total_connections pool |}.

(** The [__atomic_fetch_add] of [handle_connection], [n] times. *)
Definition count_requests (pool : ThreadPool) (n : Z) : ThreadPool :=
  {| queue := queue pool; queue_size := queue_size pool; shutdown := shutdown pool;
     total_requests := (total_requests pool + n) mod SIZE_MAX1;
     active_connections := active_connections pool;
     total_connections := total_connections pool |}.

(** The status line and the body of [send_error_response]; [None] is the
    [default] of the switch. *)
Definition status_of (status_code : Z) : option (string * string) :=
  if status_code =? 400 then Some ("400 Bad Request", "Bad Request")
  else if status_code =? 404 then Some ("404 Not Found", "Not Found")
  else if status_code =? 500
       then Some ("500 Internal Server Error", "Internal Server Error")
  else None.

Definition connection_header (keep_alive : bool) : string :=
  if keep_alive then "keep-alive" else "close".

Definition error_text (status_text body : string) (keep_alive : bool) : string :=
  "HTTP/1.1 " +:+ status_text +:+ CRLF +:+
  "Content-Length: " +:+ decimal (strlen body) +:+ CRLF +:+
  "Content-Type: text/plain" +:+ CRLF +:+
  "Connection: " +:+ connection_header keep_alive +:+ CRLFCRLF +:+
  body.

(** [send_error_response]. One [send] of [response_len] bytes; a result
    that is not negative counts as success, whatever was accepted. *)
Definition send_error_response (client_fd : Z) (status_code : Z) (keep_alive : bool)
  : IO Z :=
  match status_of status_code with
  | None => ret (-1)
  | Some (status_text, body) =>
      let '(response_len, response) :=
        snprintf kMaxHeaderSize (error_text status_text body keep_alive) in
      r <- Sys.send client_fd (memcpy response response_len) ;;
      ret (if fst r <? 0 then -1 else 0)
  end.

Definition file_header (size : Z) (ctype : string) (keep_alive : bool) : string :=
  "HTTP/1.1 200 OK" +:+ CRLF +:+
  "Content-Length: " +:+ decimal size +:+ CRLF +:+
  "Content-Type: " +:+ ctype +:+ CRLF +:+
  "Connection: " +:+ connection_header keep_alive +:+ CRLFCRLF.

(** The inner loop [while (total_sent < bytes_read)] of
    [send_file_response]: [Some true] when the chunk is out, [Some false]
    when a [send] returned 0 or less. Every turn sends at least one byte, so
    [fuel = bytes_read] is never used up ([None]). *)
Fixpoint send_all (fuel : nat) (client_fd : Z) (buffer : string)
  (bytes_read total_sent : Z) : IO (option bool) :=
  if bytes_read <=? total_sent then ret (Some true)
  else
    match fuel with
    | O => ret None
    | S fuel =>
        r <- Sys.send client_fd
               (String.substring (Z.to_nat total_sent)
                  (Z.to_nat (bytes_read - total_sent)) buffer) ;;
        let '(sent, _) := r in
        if sent <=? 0 then ret (Some false)
        else send_all fuel client_fd buffer bytes_read (total_sent + sent)
    end.

(** The outer loop [while ((bytes_read = read(file_fd, ...)) > 0)] with the
    [close] that follows it. [read] on a descriptor that nobody else uses is
    [pread] at the position the loop has reached, [pos]. [None] when
    [fuel] turns of the loop were not enough. *)
Fixpoint send_chunks (fuel : nat) (os : OS) (client_fd file_fd pos : Z)
  : IO (option Z) :=
  match fuel with
  | O => ret None
  | S fuel =>
      r <- Sys.pread os file_fd kFileBufferSize pos ;;
      let '(bytes_read, buffer) := r in
      if bytes_read <=? 0 then Sys.close file_fd ;;; ret (Some 0)
      else
        out <- send_all (Z.to_nat bytes_read) client_fd buffer bytes_read 0 ;;
        match out with
        | Some true => send_chunks fuel os client_fd file_fd (pos + bytes_read)
        | Some false => Sys.close file_fd ;;; ret (Some (-1))
        | None => ret None
        end
  end.

(** [send_file_response]. *)
Definition send_file_response (os : OS) (fuel : nat) (client_fd : Z)
  (file_path : string) (keep_alive : bool) : IO (option Z) :=
  file_fd <- Sys.open os file_path ;;
  if file_fd <? 0 then
    rc <- send_error_response client_fd 500 keep_alive ;; ret (Some rc)
  else
    match fstat os file_fd with
    | None =>
        Sys.close file_fd ;;;
        rc <- send_error_response client_fd 500 keep_alive ;; ret (Some rc)
    | Some st =>
        let '(header_len, header) :=
          snprintf kMaxHeaderSize
            (file_header (st_size st) (http_guess_type file_path) keep_alive) in
        r <- Sys.send client_fd (memcpy header header_len) ;;
        if fst r <? 0 then Sys.close file_fd ;;; ret (Some (-1))
        else send_chunks fuel os client_fd file_fd 0
    end.

(** [process_request]: the value returned and [*keep_alive] afterwards. *)
Definition process_request (os : OS) (fuel : nat) (fd : Z) (doc_root : string)
  (keep_alive : bool) : IO (option (Z * bool)) :=
  r <- Sys.recv fd (kMaxRequestSize - 1) ;;
  let '(bytes_read, _, request_buffer) := r in
  if bytes_read <=? 0 then ret (Some (-1, keep_alive))
  else
    let '(parsed, request) :=
      http_parse_request (Some request_buffer) bytes_read zero_req in
    if parsed <=? 0 then
      send_error_response fd 400 false ;;; ret (Some (-1, false))
    else
      let keep_alive :=
        match strstr (cstr request_buffer) "Connection: keep-alive" with
        | Some _ => true
        | None =>
            match strstr (cstr request_buffer) "HTTP/1.1" with
            | Some _ => true
            | None => false
            end
        end in
      let '(joined, file_path) :=
        http_safe_join os EmptyString kMaxPathSize doc_root (path request) in
      if joined <? 0 then
        send_error_response fd 404 keep_alive ;;; ret (Some (0, keep_alive))
      else
        match stat os file_path with
        | None => send_error_response fd 404 keep_alive ;;; ret (Some (0, keep_alive))
        | Some file_stat =>
            if negb (st_isreg file_stat) then
              send_error_response fd 404 keep_alive ;;; ret (Some (0, keep_alive))
            else
              rc <- send_file_response os fuel fd file_path keep_alive ;;
              ret (option_map (fun v => (v, keep_alive)) rc)
        end.

(** The loop of [handle_connection]; [remaining] is [kKeepAliveMax - requests].
    The value is the number of requests counted. *)
Fixpoint connection_loop (remaining : nat) (os : OS) (fuel : nat) (fd : Z)
  (doc_root : string) (requests : Z) : IO (option Z) :=
  match remaining with
  | O => ret (Some requests)
  | S remaining =>
      r <- process_request os fuel fd doc_root true ;;
      match r with
      | None => ret None
      | Some (rc, keep_alive) =>
          if rc <? 0 then ret (Some requests)
          else
            let requests := requests + 1 in
            if negb keep_alive then ret (Some requests)
            else
              Sys.configure fd ;;;
              connection_loop remaining os fuel fd doc_root requests
      end
  end.

(** [handle_connection]. *)
Definition handle_connection (os : OS) (fuel : nat) (fd : Z) (doc_root : string)
  : IO (option Z) :=
  r <- connection_loop (Z.to_nat kKeepAliveMax) os fuel fd doc_root 0 ;;
  match r with
  | None => ret None
  | Some requests => Sys.close fd ;;; ret (Some requests)
  end.

End Thread.

(* ===================================================================== *)
(** ** A host with a file table *)
(* ===================================================================== *)

(** A concrete [OS]: a table of absolute paths without symbolic links.
    [realpath] resolves [.] and [..] textually and requires every component
    to exist; a descriptor is the position of the entry in the table plus 3. *)
Module TableFS.

Inductive node := Dir | File (content : string).

Definition table := list (string * node).

Fixpoint split_slash (s cur : string) : list string :=
  match s with
  | EmptyString => [cur]
  | String c s' =>
      if Ascii.eqb c "/" then cur :: split_slash s' EmptyString
      else split_slash s' (cur +:+ String c EmptyString)
  end.

Fixpoint join_path (stack : list string) : string :=
  match stack with
  | [] => EmptyString
  | seg :: rest => "/" +:+ seg +:+ join_path rest
  end.

Definition abs_path (stack : list string) : string :=
  match stack with
  | [] => "/"
  | _ => join_path stack
  end.

Fixpoint lookup (t : table) (p : string) : option node :=
  match t with
  | [] => None
  | (q, nd) :: t' => if String.eqb p q then Some nd else lookup t' p
  end.

Fixpoint index_of (t : table) (p : string) (i : Z) : option Z :=
  match t with
  | [] => None
  | (q, _) :: t' => if String.eqb p q then Some i else index_of t' p (i + 1)
  end.

Fixpoint walk (t : table) (segs : list string) (stack : list string)
  : option (list string) :=
  match segs with
  | [] => Some stack
  | seg :: rest =>
      if String.eqb seg EmptyString || String.eqb seg "." then walk t rest stack
      else if String.eqb seg ".." then walk t rest (removelast stack)
      else
        let stack' := stack ++ [seg] in
        match lookup t (abs_path stack') with
        | None => None
        | Some Dir => walk t rest stack'
        | Some (File _) =>
            match rest with
            | [] => Some stack'
            | _ => None
            end
        end
  end.

Definition resolve (t : table) (p : string) : option string :=
  option_map abs_path (walk t (split_slash p EmptyString) []).

Definition node_at (t : table) (p : string) : option node :=
  if String.eqb p "/" then Some Dir else lookup t p.

Definition stat_of (nd : node) : stat_t :=
  match nd with
  | Dir => {| st_isreg := false; st_size := 0 |}
  | File content => {| st_isreg := true; st_size := strlen content |}
  end.

Definition t_stat (t : table) (p : string) : option stat_t :=
  match resolve t p with
  | Some q => option_map stat_of (node_at t q)
  | None => None
  end.

Definition t_open (t : table) (p : string) : Z :=
  match resolve t p with
  | Some q => default (-1) (index_of t q 3)
  | None => -1
  end.

Definition entry (t : table) (fd : Z) : option node :=
  if fd <? 3 then None else option_map snd (t !! Z.to_nat (fd - 3)).

Definition t_fstat (t : table) (fd : Z) : option stat_t :=
  option_map stat_of (entry t fd).

Definition t_pread (t : table) (fd count off : Z) : option string :=
  match entry t fd with
  | Some (File content) =>
      if off <? 0 then None
      else Some (String.substring (Z.to_nat off) (Z.to_nat count) content)
  | _ => None
  end.

Definition os_of (path_max : Z) (t : table) : OS :=
  {| PATH_MAX := path_max;
     realpath := resolve t;
     stat := t_stat t;
     open_rdonly := t_open t;
     fstat := t_fstat t;
     pread := t_pread t |}.

End TableFS.

(* ===================================================================== *)
(** ** Observations on a run *)
(* ===================================================================== *)

Module Obs.

(** The bytes a socket accepted, oldest first. *)
Fixpoint wire (fd : Z) (tr : list syscall) : string :=
  match tr with
  | [] => EmptyString
  | SysSend fd' data n _ :: tr' =>
      if (fd' =? fd) && (0 <? n)
      then wire fd tr' +:+ String.substring 0 (Z.to_nat n) data
      else wire fd tr'
  | _ :: tr' => wire fd tr'
  end.

(** The total of the positive results of [send]. *)
Fixpoint bytes_sent (tr : list syscall) : Z :=
  match tr with
  | [] => 0
  | SysSend _ _ n _ :: tr' => (if 0 <? n then n else 0) + bytes_sent tr'
  | _ :: tr' => bytes_sent tr'
  end.

(** A [recv] or [send] that reported a transport failure or an orderly
    close: a result [<= 0] that is not a would-block indication. *)
Definition fatal (e : syscall) : bool :=
  match e with
  | SysRecv _ _ n err | SysSend _ _ n err =>
      (n <=? 0) && negb ((n <? 0) && would_block err)
  | _ => false
  end.

Definition is_send (e : syscall) : bool :=
  match e with
  | SysSend _ _ _ _ => true
  | _ => false
  end.

Definition is_send_to (fd : Z) (e : syscall) : bool :=
  match e with
  | SysSend fd' _ _ _ => fd' =? fd
  | _ => false
  end.

(** Tear-down calls: deregistration and [close]. *)
Definition is_teardown (e : syscall) : bool :=
  match e with
  | SysClose _ | SysKeventDelete _ => true
  | _ => false
  end.

Definition is_pread (e : syscall) : bool :=
  match e with
  | SysPread _ _ _ _ => true
  | _ => false
  end.

Definition pread_bounded (cap : Z) (e : syscall) : bool :=
  match e with
  | SysPread _ count _ n => (count <=? cap) && (n <=? count)
  | _ => true
  end.

(** The descriptor [ffd] reads the regular file with content [body]. *)
Definition serves (os : OS) (ffd : Z) (body : string) : Prop :=
  forall count off, 0 <= off -> 0 < count ->
    pread os ffd count off
    = Some (String.substring (Z.to_nat off) (Z.to_nat count) body).

(** A send schedule in which every call accepts at least one byte. *)
Definition accepts_some (a : send_answer) : Prop :=
  match a with
  | SendAccept k => (0 < k)%nat
  | SendFail _ => False
  end.

(** Every [pread] of a trace asked for at most [cap] bytes and got no more
    than it asked for. *)
Definition bounded_preads (cap : Z) (tr : list syscall) : Prop :=
  Forall (fun e => pread_bounded cap e = true) tr.


(** A computation that adds calls to the trace, none of them a failed
    [recv] or [send]. *)
Definition silent {A : Type} (m : IO A) : Prop :=
  forall w, exists new,
    trace (snd (m w)) = new ++ trace w
    /\ Forall (fun x => fatal x = false) new.

(** The shape of what a handler adds to the trace: either no failed [recv]
    or [send] at all, or one, followed by tear-down only, in which case
    [P] holds. *)
Definition fails_last (new : list syscall) (P : Prop) : Prop :=
  Forall (fun x => fatal x = false) new
  \/ exists q e rest,
       new = q ++ e :: rest
       /\ Forall (fun x => is_teardown x = true) q
       /\ fatal e = true
       /\ Forall (fun x => fatal x = false) rest
       /\ P.

Definition with_scripts (recvs : list recv_answer) (sends : list send_answer)
  (accepts : list accept_answer) : World :=
  {| recv_script := recvs; send_script := sends; accept_script := accepts;
     malloc_script := []; kevent_script := []; trace := [] |}.

(** The world with the first answer of the accept script taken. *)
Definition popped (w : World) (rest : list accept_answer) : World :=
  {| recv_script := recv_script w; send_script := send_script w;
     accept_script := rest; malloc_script := malloc_script w;
     kevent_script := kevent_script w; trace := trace w |}.

(** The world with one more call on the trace. *)
Definition logged (e : syscall) (w : World) : World := snd (log e w).

(** The world after an accepted socket was closed at once: one answer of
    the accept script is consumed, and the trace gained the [accept] and
    the [close], nothing else. *)
Definition after_refusal (w : World) (fd : Z) (rest : list accept_answer) : World :=
  {| recv_script := recv_script w; send_script := send_script w;
     accept_script := rest; malloc_script := malloc_script w;
     kevent_script := kevent_script w;
     trace := SysClose fd :: SysAccept fd :: trace w |}.

End Obs.

Import Obs.

(** Write-readiness delivered to one connection until its handler asks for
    tear-down: the loop of [run_kqueue_server] seen from that connection.
    The result tells whether the connection was closed within [fuel]
    events. The kernel reports write-readiness only for a descriptor whose
    write filter is registered, so this describes a connection for which
    the [kevent] call of [start_sending] succeeded; the statements that use
    it say so. *)
Fixpoint kq_drive (os : OS) (fuel : nat) (server : Kqueue.Server)
  (conn : Kqueue.Connection) : IO (bool * Kqueue.Connection) :=
  match fuel with
  | O => ret (false, conn)
  | S fuel =>
      r <- Kqueue.handle_write_event os server conn ;;
      let '(rc, server, conn) := r in
      if rc <? 0 then ret (true, conn) else kq_drive os fuel server conn
  end.

(** The same for the select server, where a closed client is one whose
    descriptor was reset. *)
Fixpoint aio_drive (os : OS) (fuel : nat) (server : Aio.Server)
  (client : Aio.Client) : IO (bool * Aio.Server * Aio.Client) :=
  match fuel with
  | O => ret (false, server, client)
  | S fuel =>
      r <- Aio.handle_client_write os server client ;;
      let '(server, client) := r in
      if Aio.fd client <? 0 then ret (true, server, client)
      else aio_drive os fuel server client
  end.

(* ===================================================================== *)
(** ** Sample data *)
(* ===================================================================== *)

Module Sample.

Definition index_html : string := "<html><body>Hello World</body></html>".

(** A host where a sibling of the document root shares its name prefix. *)
Definition files : TableFS.table :=
  [ ("/var", TableFS.Dir);
    ("/var/www", TableFS.Dir);
    ("/var/www/index.html", TableFS.File index_html);
    ("/var/www-secret", TableFS.Dir);
    ("/var/www-secret/passwd", TableFS.File "root:x:0:0:root");
    ("/etc", TableFS.Dir);
    ("/etc/passwd", TableFS.File "nobody:x:99:99") ].

Definition os : OS := TableFS.os_of 1024 files.

Definition request (target : string) : string :=
  "GET " +:+ target +:+ " HTTP/1.1" +:+ CRLFCRLF.

Definition get_root : string := request "/".
Definition get_index : string := request "/index.html".
Definition get_escape : string := request "/../../etc/passwd".
Definition get_sibling : string := request "/../www-secret/passwd".
Definition post_root : string := "POST / HTTP/1.1" +:+ CRLFCRLF.

Fixpoint repeat_char (c : ascii) (n : nat) : string :=
  match n with
  | O => EmptyString
  | S n => String c (repeat_char c n)
  end.

(** A connection as the accept loop hands it to the event loop. *)
Definition kq_conn (sock : Z) : Kqueue.Connection :=
  let c := Kqueue.reset_connection Kqueue.fresh_connection in
  let c := Kqueue.set_fd c sock in
  let c := Kqueue.set_request_buffer c (Some EmptyString) in
  Kqueue.set_request_capacity c Kqueue.kRequestBufferSize.

Definition kq_server : Kqueue.Server := Kqueue.init_server 4 3 4 "/var/www".

(** Readiness of the listening socket, and of the connection in a slot. *)
Definition listen_event : Kqueue.kevent_t :=
  {| Kqueue.ident := 4; Kqueue.filter := Kqueue.EVFILT_READ;
     Kqueue.ev_error := false; Kqueue.udata := None |}.

Definition read_event (sock : Z) (slot : nat) : Kqueue.kevent_t :=
  {| Kqueue.ident := sock; Kqueue.filter := Kqueue.EVFILT_READ;
     Kqueue.ev_error := false; Kqueue.udata := Some slot |}.

Definition write_event (sock : Z) (slot : nat) : Kqueue.kevent_t :=
  {| Kqueue.ident := sock; Kqueue.filter := Kqueue.EVFILT_WRITE;
     Kqueue.ev_error := false; Kqueue.udata := Some slot |}.

(** A server with a pool of one record, after one connection was accepted,
    and after that connection sent a request for the index page. *)
Definition one_slot : Kqueue.Server := Kqueue.init_server 1 3 4 "/var/www".

Definition one_slot_taken : Kqueue.Server :=
  fst (Kqueue.process_event os one_slot listen_event
         (with_scripts [] [] [AcceptFd 7])).

Definition one_slot_answering : Kqueue.Server :=
  fst (Kqueue.process_event os one_slot_taken (read_event 7 0)
         (with_scripts [RecvData get_index] [] [])).

Definition aio_client (sock : Z) : Aio.Client :=
  Aio.set_fd (Aio.reset_client Aio.blank_client) sock.

Definition aio_server : Aio.Server := Aio.init_server 4 3 "/var/www".

(** A client of the select server whose request buffer is full of bytes
    that hold no blank line. *)
Definition aio_full_client : Aio.Client :=
  let filler := repeat_char "a" (Z.to_nat (Aio.kRequestBufferSize - 1)) in
  Aio.set_request_size (Aio.set_request_buffer (aio_client 7) filler)
    (Aio.kRequestBufferSize - 1).

End Sample.

(* ===================================================================== *)
(** ** Vocabulary of the statements *)
(* ===================================================================== *)

Module View.

(** Overwriting the request fields of a connection. *)
Definition kq_set_req (conn : Kqueue.Connection) (buf : option string) (n : Z)
  : Kqueue.Connection :=
  Kqueue.set_request_size (Kqueue.set_request_buffer conn buf) n.

Definition aio_set_req (client : Aio.Client) (buf : string) (n : Z) : Aio.Client :=
  Aio.set_request_size (Aio.set_request_buffer client buf) n.

(** A connection whose request buffer holds exactly [req]. *)
Definition kq_with_request (conn : Kqueue.Connection) (req : string)
  : Kqueue.Connection :=
  kq_set_req conn (Some req) (strlen req).

Definition aio_with_request (client : Aio.Client) (req : string) : Aio.Client :=
  aio_set_req client req (strlen req).

(** Everything of a connection that takes part in answering: all fields
    but the request buffer. *)
Record response_plan := {
  plan_sending : bool;
  plan_buffer : option string;
  plan_size : Z;
  plan_sent : Z;
  plan_file_fd : Z;
  plan_file_offset : Z;
  plan_file_size : Z
}.

Definition kq_plan (conn : Kqueue.Connection) : response_plan :=
  {| plan_sending := Kqueue.state_eqb (Kqueue.state conn) Kqueue.STATE_SENDING_HEADER;
     plan_buffer := Kqueue.response_buffer conn;
     plan_size := Kqueue.response_size conn;
     plan_sent := Kqueue.response_sent conn;
     plan_file_fd := Kqueue.file_fd conn;
     plan_file_offset := Kqueue.file_offset conn;
     plan_file_size := Kqueue.file_size conn |}.

Definition aio_plan (client : Aio.Client) : response_plan :=
  {| plan_sending :=
       match Aio.state client with
       | Aio.STATE_SENDING_RESPONSE => true
       | _ => false
       end;
     plan_buffer := Aio.response_buffer client;
     plan_size := Aio.response_size client;
     plan_sent := Aio.response_sent client;
     plan_file_fd := Aio.file_fd client;
     plan_file_offset := Aio.file_offset client;
     plan_file_size := Aio.file_size client |}.

(** What a request leads to in the kqueue server: the value returned, the
    server, the plan and the world afterwards. *)
Definition kq_answer (os : OS) (server : Kqueue.Server) (conn : Kqueue.Connection)
  (req : string) (w : World) : Z * Kqueue.Server * response_plan * World :=
  let '(rc, server', conn', w') :=
    Kqueue.process_request os server (kq_with_request conn req) w in
  (rc, server', kq_plan conn', w').

Definition aio_answer (os : OS) (server : Aio.Server) (client : Aio.Client)
  (req : string) (w : World) : response_plan * World :=
  let '(client', w') :=
    Aio.process_http_request os server (aio_with_request client req) w in
  (aio_plan client', w').

(** The response buffer starts with the status line of a 200. *)
Definition is_200 (buf : option string) : bool :=
  match buf with
  | Some s => String.prefix "HTTP/1.1 200" s
  | None => false
  end.

(** The response text the kqueue server has for a status code. *)
Definition kq_error_text (code : Z) : string :=
  if code =? 400 then Kqueue.text_400
  else if code =? 404 then text_404
  else if code =? 413 then Kqueue.text_413
  else Kqueue.text_500.

(** The response text the select server has for a status code. *)
Definition aio_error_text (code : Z) : string :=
  if code =? 400 then Aio.text_400
  else if code =? 404 then text_404
  else if code =? 500 then Aio.text_500
  else Aio.text_default.

(** The tests of [process_request] between parsing and opening: the
    target joins with the root and names a regular file. *)
Definition names_regular_file (os : OS) (root target : string) : bool :=
  let '(joined, file_path) :=
    http_safe_join os EmptyString Kqueue.kPathBufferSize root target in
  negb (joined <? 0)
  && match stat os file_path with
     | Some st => st_isreg st
     | None => false
     end.

(** The world after a [recv] that brought [n] bytes (or failed with
    [errno]) and left [rest] in the script. *)
Definition received (w : World) (fd room n : Z) (errno : errno_t)
  (rest : list recv_answer) : World :=
  {| recv_script := rest; send_script := send_script w;
     accept_script := accept_script w; malloc_script := malloc_script w;
     kevent_script := kevent_script w;
     trace := SysRecv fd room n errno :: trace w |}.

(** The world after a [send] that returned [n] and left [rest] in the
    script. *)
Definition sent (w : World) (fd : Z) (data : string) (n : Z) (errno : errno_t)
  (rest : list send_answer) : World :=
  {| recv_script := recv_script w; send_script := rest;
     accept_script := accept_script w; malloc_script := malloc_script w;
     kevent_script := kevent_script w;
     trace := SysSend fd data n errno :: trace w |}.

(** The read of [handle_client_read] brings in bytes that complete the
    request (the blank line is in the buffer afterwards). *)
Definition aio_read_completes (client : Aio.Client) (w : World) : bool :=
  let room := (Aio.kRequestBufferSize - Aio.request_size client - 1) mod SIZE_MAX1 in
  let '(n, _, got, _) := Sys.recv (Aio.fd client) room w in
  (0 <? n)
  && match strstr (cstr (String.substring 0 (Z.to_nat (Aio.request_size client))
                           (Aio.request_buffer client) +:+ got)) CRLFCRLF with
     | Some _ => true
     | None => false
     end.



(** Every file of the host ends before position [bound]: a [read] of a
    chunk at or past it brings nothing. *)
Definition files_end_by (os : OS) (bound : Z) : Prop :=
  forall ffd pos, bound <= pos ->
    match pread os ffd Thread.kFileBufferSize pos with
    | Some bs => String.substring 0 (Z.to_nat Thread.kFileBufferSize) bs = EmptyString
    | None => True
    end.

(** The path [p] is the directory [root_real] or lies below it. *)
Definition confined (root_real p : string) : bool :=
  String.eqb p root_real || String.prefix (root_real +:+ "/") p.

(** Two servers that agree on everything but the statistics counters. *)
Definition kq_same_control (s1 s2 : Kqueue.Server) : Prop :=
  Kqueue.kq s1 = Kqueue.kq s2
  /\ Kqueue.listen_fd s1 = Kqueue.listen_fd s2
  /\ Kqueue.doc_root s1 = Kqueue.doc_root s2
  /\ Kqueue.connections s1 = Kqueue.connections s2
  /\ Kqueue.free_list s1 = Kqueue.free_list s2
  /\ Kqueue.num_active s1 = Kqueue.num_active s2.

Definition aio_same_control (s1 s2 : Aio.Server) : Prop :=
  Aio.listen_fd s1 = Aio.listen_fd s2
  /\ Aio.doc_root s1 = Aio.doc_root s2
  /\ Aio.clients s1 = Aio.clients s2
  /\ Aio.num_clients s1 = Aio.num_clients s2.

(** Two runs that end in the same world with servers that agree on
    everything but the counters, and (for a handler) with the same value
    returned and the same record. *)
Definition kq_same_run (r1 r2 : Kqueue.Server * World) : Prop :=
  kq_same_control (fst r1) (fst r2) /\ snd r1 = snd r2.

Definition kq_same_handled (r1 r2 : Z * Kqueue.Server * Kqueue.Connection * World)
  : Prop :=
  fst (fst (fst r1)) = fst (fst (fst r2))
  /\ kq_same_control (snd (fst (fst r1))) (snd (fst (fst r2)))
  /\ snd (fst r1) = snd (fst r2)
  /\ snd r1 = snd r2.

Definition aio_same_run (r1 r2 : Aio.Server * World) : Prop :=
  aio_same_control (fst r1) (fst r2) /\ snd r1 = snd r2.

Definition aio_same_handled (r1 r2 : Aio.Server * Aio.Client * World) : Prop :=
  aio_same_control (fst (fst r1)) (fst (fst r2))
  /\ snd (fst r1) = snd (fst r2)
  /\ snd r1 = snd r2.

End View.

Import View.

(* ===================================================================== *)
(** ** Invariants and reachable states *)
(* ===================================================================== *)

Module Inv.

(** The relation between file handle and state that the kqueue server
    keeps for a connection in use. *)
Definition kq_conn_ok (c : Kqueue.Connection) : Prop :=
  (0 <= Kqueue.file_fd c ->
     Kqueue.state c = Kqueue.STATE_SENDING_HEADER
     \/ Kqueue.state c = Kqueue.STATE_SENDING_FILE)
  /\ (Kqueue.state c = Kqueue.STATE_SENDING_FILE -> 0 <= Kqueue.file_fd c).

(** The same for the select server, which has one sending state. *)
Definition aio_client_ok (c : Aio.Client) : Prop :=
  0 <= Aio.file_fd c -> Aio.state c = Aio.STATE_SENDING_RESPONSE.

(** The pool of [n] records: the free list names distinct records of the
    array, and the counter of active records accounts for the rest. *)
Definition kq_pool_ok (n : nat) (s : Kqueue.Server) : Prop :=
  length (Kqueue.connections s) = n
  /\ NoDup (Kqueue.free_list s)
  /\ (forall i, In i (Kqueue.free_list s) -> (i < n)%nat)
  /\ Kqueue.num_active s + Z.of_nat (length (Kqueue.free_list s)) = Z.of_nat n.

(** A record is in use when it is not on the free list. *)
Definition kq_in_use (s : Kqueue.Server) (i : nat) : Prop :=
  (i < length (Kqueue.connections s))%nat /\ ~ In i (Kqueue.free_list s).

Definition kq_server_ok (n : nat) (s : Kqueue.Server) : Prop :=
  kq_pool_ok n s
  /\ forall i c, Kqueue.connections s !! i = Some c ->
                 ~ In i (Kqueue.free_list s) -> kq_conn_ok c.

(** Two servers with the same pool: the handlers change nothing else
    than counters. *)
Definition kq_same_pool (s s' : Kqueue.Server) : Prop :=
  Kqueue.connections s' = Kqueue.connections s
  /\ Kqueue.free_list s' = Kqueue.free_list s
  /\ Kqueue.num_active s' = Kqueue.num_active s
  /\ Kqueue.listen_fd s' = Kqueue.listen_fd s
  /\ Kqueue.doc_root s' = Kqueue.doc_root s.

(** A kqueue connection that sends [header] on socket [sock], has sent
    [sent] bytes of it, and has the file [ffd] of [size] bytes still to
    send (no file when [ffd < 0]). *)
Definition kq_header_phase (conn : Kqueue.Connection) (sock ffd : Z)
  (header : string) (sent size : Z) : Prop :=
  Kqueue.state conn = Kqueue.STATE_SENDING_HEADER
  /\ Kqueue.fd conn = sock
  /\ Kqueue.response_buffer conn = Some header
  /\ Kqueue.response_size conn = strlen header
  /\ Kqueue.response_sent conn = sent
  /\ Kqueue.file_fd conn = ffd
  /\ Kqueue.file_offset conn = 0
  /\ Kqueue.file_size conn = size.

(** A kqueue connection that sends the file [ffd] of [size] bytes on
    socket [sock] and has sent its first [off] bytes. *)
Definition kq_file_phase (conn : Kqueue.Connection) (sock ffd : Z)
  (size off : Z) : Prop :=
  Kqueue.state conn = Kqueue.STATE_SENDING_FILE
  /\ Kqueue.fd conn = sock
  /\ Kqueue.file_fd conn = ffd
  /\ Kqueue.file_size conn = size
  /\ Kqueue.file_offset conn = off.

(** The same two phases for a client of the select server, which frees
    the header buffer when the header is out. *)
Definition aio_header_phase (client : Aio.Client) (sock ffd : Z)
  (header : string) (sent size : Z) : Prop :=
  Aio.fd client = sock
  /\ Aio.response_buffer client = Some header
  /\ Aio.response_size client = strlen header
  /\ Aio.response_sent client = sent
  /\ Aio.file_fd client = ffd
  /\ Aio.file_offset client = 0
  /\ Aio.file_size client = size.

Definition aio_file_phase (client : Aio.Client) (sock ffd : Z)
  (size off : Z) : Prop :=
  Aio.fd client = sock
  /\ Aio.response_buffer client = None
  /\ Aio.file_fd client = ffd
  /\ Aio.file_size client = size
  /\ Aio.file_offset client = off.

(** The kernel reports client events only for descriptors that are
    registered, and a registration ends when its connection is closed: the
    record named by a client event is in use. *)
Definition kq_event_allowed (s : Kqueue.Server) (ev : Kqueue.kevent_t) : Prop :=
  Kqueue.ev_error ev = true
  \/ Kqueue.ident ev = Kqueue.listen_fd s
  \/ forall i, Kqueue.udata ev = Some i -> ~ In i (Kqueue.free_list s).

(** The states of the kqueue server over all runs of its event loop, for
    any host and any behaviour of the network. *)
Inductive kq_reachable (os : OS) (n : nat) : Kqueue.Server -> Prop :=
| kq_reach_init kq_fd listen root :
    kq_reachable os n (Kqueue.init_server n kq_fd listen root)
| kq_reach_event s ev w :
    kq_reachable os n s ->
    kq_event_allowed s ev ->
    kq_reachable os n (fst (Kqueue.process_event os s ev w)).

(** The life of one connection of the kqueue server, from the accept loop
    to the handler result that asks for tear-down. *)
Inductive kq_conn_reachable (os : OS) : Kqueue.Connection -> Prop :=
| kq_conn_accepted old sock buf cap :
    kq_conn_reachable os
      (Kqueue.set_request_capacity
         (Kqueue.set_request_buffer
            (Kqueue.set_fd (Kqueue.reset_connection old) sock) buf) cap)
| kq_conn_read server conn w :
    kq_conn_reachable os conn ->
    0 <= fst (fst (fst (Kqueue.handle_read_event os server conn w))) ->
    kq_conn_reachable os (snd (fst (Kqueue.handle_read_event os server conn w)))
| kq_conn_write server conn w :
    kq_conn_reachable os conn ->
    0 <= fst (fst (fst (Kqueue.handle_write_event os server conn w))) ->
    kq_conn_reachable os (snd (fst (Kqueue.handle_write_event os server conn w))).

(** The life of one client slot of the select server. *)
Inductive aio_client_reachable (os : OS) : Aio.Client -> Prop :=
| aio_client_accepted old sock :
    aio_client_reachable os
      (Aio.set_state (Aio.set_fd (Aio.reset_client old) sock)
         Aio.STATE_READING_REQUEST)
| aio_client_read server client w :
    aio_client_reachable os client ->
    aio_client_reachable os (snd (fst (Aio.handle_client_read os server client w)))
| aio_client_write server client w :
    aio_client_reachable os client ->
    aio_client_reachable os (snd (fst (Aio.handle_client_write os server client w))).

(** The slots of the select server that hold a connection. *)
Definition aio_active (s : Aio.Server) : nat :=
  length (filter (fun c => (0 <=? Aio.fd c) = true) (Aio.clients s)).

(** The descriptors of the slots that hold a connection. *)
Definition aio_open_fds (clients : list Aio.Client) : list Z :=
  map Aio.fd (filter (fun c => (0 <=? Aio.fd c) = true) clients).

(** The queue of the thread-pool server and its counter agree, and the
    queue is no longer than its limit. *)
Definition pool_ok (p : Thread.ThreadPool) : Prop :=
  Thread.queue_size p = Z.of_nat (length (Thread.queue p))
  /\ Thread.queue_size p <= Thread.kQueueSize.

End Inv.

Import Inv.

(* ===================================================================== *)
(** ** Facts about strings *)
(* ===================================================================== *)

Lemma append_cons (c : ascii) (a b : string) :
  String c a +:+ b = String c (a +:+ b).
Proof. reflexivity. Qed.

Lemma append_nil_l (b : string) : EmptyString +:+ b = b.
Proof. reflexivity. Qed.

Ltac str_simpl := rewrite ?append_cons, ?append_nil_l; simpl.

Lemma length_append (a b : string) :
  String.length (a +:+ b) = (String.length a + String.length b)%nat.
Proof. induction a as [|c a IH]; str_simpl; [reflexivity | now f_equal]. Qed.

Lemma append_nil_r (a : string) : a +:+ EmptyString = a.
Proof. induction a as [|c a IH]; str_simpl; [reflexivity | now f_equal]. Qed.

Lemma append_assoc (a b c : string) : (a +:+ b) +:+ c = a +:+ (b +:+ c).
Proof. induction a as [|x a IH]; str_simpl; [reflexivity | now f_equal]. Qed.

Lemma substring_0_all (s : string) (n : nat) :
  (String.length s <= n)%nat -> String.substring 0 n s = s.
Proof.
  revert n; induction s as [|c s IH]; intros [|n] H; simpl in *; try reflexivity; try lia.
  f_equal. apply IH. lia.
Qed.

Lemma substring_0_length (s : string) (n : nat) :
  String.length (String.substring 0 n s) = Nat.min n (String.length s).
Proof.
  revert n; induction s as [|c s IH]; intros [|n]; simpl; try reflexivity.
  now rewrite IH.
Qed.

Lemma substring_length (s : string) (off n : nat) :
  String.length (String.substring off n s) = Nat.min n (String.length s - off).
Proof.
  revert off n; induction s as [|c s IH]; intros [|off] [|n]; simpl; try reflexivity.
  - now rewrite substring_0_length.
  - now rewrite IH.
  - now rewrite IH.
Qed.

Lemma substring_0_0 (s : string) : String.substring 0 0 s = EmptyString.
Proof. destruct s; reflexivity. Qed.

(** Two adjacent pieces make one piece. *)
Lemma substring_split (s : string) (off n m : nat) :
  String.substring off n s +:+ String.substring (off + n) m s
  = String.substring off (n + m) s.
Proof.
  revert off n m; induction s as [|c s IH]; intros off n m.
  - destruct off, n, m; reflexivity.
  - destruct off as [|off].
    + destruct n as [|n]; simpl.
      * reflexivity.
      * rewrite append_cons. f_equal. apply (IH 0%nat n m).
    + simpl. apply IH.
Qed.

Lemma substring_0_append (a b : string) :
  String.substring 0 (String.length a) (a +:+ b) = a.
Proof.
  induction a as [|c a IH]; str_simpl.
  - apply substring_0_0.
  - now rewrite IH.
Qed.

Lemma substring_skip_append (a b : string) (n : nat) :
  String.substring (String.length a) n (a +:+ b) = String.substring 0 n b.
Proof. induction a as [|c a IH]; str_simpl; [reflexivity | apply IH]. Qed.

Lemma drop_append (a b : string) : drop (String.length a) (a +:+ b) = b.
Proof. induction a as [|c a IH]; str_simpl; [reflexivity | apply IH]. Qed.

Lemma prefix_append (a b : string) : String.prefix a (a +:+ b) = true.
Proof.
  induction a as [|c a IH]; str_simpl.
  - destruct b; reflexivity.
  - destruct (ascii_dec c c); [apply IH | congruence].
Qed.

Lemma prefix_nil (s : string) : String.prefix EmptyString s = true.
Proof. destruct s; reflexivity. Qed.

Lemma strlen_nonneg (s : string) : 0 <= strlen s.
Proof. unfold strlen; lia. Qed.

Lemma strlen_append (a b : string) : strlen (a +:+ b) = strlen a + strlen b.
Proof. unfold strlen; rewrite length_append; lia. Qed.

Lemma cstr_plain_append (a b : string) :
  all_chars plain a = true -> cstr (a +:+ b) = a +:+ cstr b.
Proof.
  induction a as [|c a IH]; str_simpl; intros H; [reflexivity|].
  apply andb_prop in H as [Hc Ha]. unfold plain in Hc.
  apply andb_prop in Hc as [Hn _]. apply negb_true_iff in Hn. rewrite Hn.
  now rewrite IH.
Qed.

Lemma strchr_plain_append (a b : string) :
  all_chars plain a = true ->
  strchr (a +:+ String SP b) SP = Some (String.length a).
Proof.
  induction a as [|c a IH]; str_simpl; intros H; [reflexivity|].
  apply andb_prop in H as [Hc Ha]. unfold plain in Hc.
  apply andb_prop in Hc as [_ Hs]. apply negb_true_iff in Hs. rewrite Hs.
  now rewrite IH.
Qed.

(* ===================================================================== *)
(** ** The request parser *)
(* ===================================================================== *)

Lemma get_prefix (x : string) :
  "GET " +:+ x = String "G" (String "E" (String "T" (String " " x))).
Proof. reflexivity. Qed.

Lemma skip_spaces_plain (c : ascii) (s : string) (room : nat) :
  plain c = true -> skip_spaces (String c s) room = 0%nat.
Proof.
  intros H. unfold plain in H. apply andb_prop in H as [_ H].
  apply negb_true_iff in H. destruct room; simpl; [reflexivity | now rewrite H].
Qed.


Lemma parse_get_root :
  http_parse_request (Some Sample.get_root) (strlen Sample.get_root) zero_req
  = (1, {| method := "GET"; path := "/index.html"; complete := 1 |}).
Proof. vm_compute. reflexivity. Qed.

Lemma parse_get_index :
  http_parse_request (Some Sample.get_index) (strlen Sample.get_index) zero_req
  = (1, {| method := "GET"; path := "/index.html"; complete := 1 |}).
Proof. vm_compute. reflexivity. Qed.

(* ===================================================================== *)
(** ** The response plan does not depend on the request bytes themselves *)
(* ===================================================================== *)

Ltac io_unfold :=
  unfold Sys.recv, Sys.send, Sys.close, Sys.malloc, Sys.kevent, Sys.kevent_delete,
    Sys.configure, Sys.open, Sys.pread,
    next_recv, next_send, next_accept, next_malloc, next_kevent, log, bind, ret in *.

Lemma kq_ensure_req (c : Kqueue.Connection) buf n (w : World) :
  Kqueue.ensure_response_buffer (kq_set_req c buf n) w
  = let '(oc, w') := Kqueue.ensure_response_buffer c w in
    (option_map (fun c' => kq_set_req c' buf n) oc, w').
Proof.
  unfold Kqueue.ensure_response_buffer.
  change (Kqueue.response_buffer (kq_set_req c buf n)) with (Kqueue.response_buffer c).
  destruct (Kqueue.response_buffer c); [reflexivity|].
  unfold bind. destruct (Sys.malloc w) as [[|] w']; reflexivity.
Qed.

Lemma kq_start_sending_req (c : Kqueue.Connection) buf n bytes len (w : World) :
  Kqueue.start_sending (kq_set_req c buf n) bytes len w
  = let '(rc, c', w') := Kqueue.start_sending c bytes len w in
    (rc, kq_set_req c' buf n, w').
Proof.
  unfold Kqueue.start_sending, bind.
  repeat match goal with
  | |- context [Sys.kevent ?a w] => progress change a with (Kqueue.fd c)
  end.
  destruct (Sys.kevent (Kqueue.fd c) w) as [[|] w']; reflexivity.
Qed.

Lemma kq_prepare_error_req (c : Kqueue.Connection) buf n code (w : World) :
  Kqueue.prepare_error_response (kq_set_req c buf n) code w
  = let '(rc, c', w') := Kqueue.prepare_error_response c code w in
    (rc, kq_set_req c' buf n, w').
Proof.
  unfold Kqueue.prepare_error_response.
  match goal with |- context [match ?f with Some _ => _ | None => _ end] =>
    destruct f as [[response_len response]|] end; [|reflexivity].
  destruct ((response_len <=? 0) || (Kqueue.kHeaderBufferSize <=? response_len));
    [reflexivity|].
  unfold bind. rewrite kq_ensure_req.
  destruct (Kqueue.ensure_response_buffer c w) as [[c'|] w']; [|reflexivity].
  apply kq_start_sending_req.
Qed.

Lemma kq_prepare_file_req os (c : Kqueue.Connection) buf n p (w : World) :
  Kqueue.prepare_file_response os (kq_set_req c buf n) p w
  = let '(rc, c', w') := Kqueue.prepare_file_response os c p w in
    (rc, kq_set_req c' buf n, w').
Proof.
  unfold Kqueue.prepare_file_response, bind.
  destruct (Sys.open os p w) as [ffd w1].
  change (Kqueue.set_file_fd (kq_set_req c buf n) ffd)
    with (kq_set_req (Kqueue.set_file_fd c ffd) buf n).
  set (c1 := Kqueue.set_file_fd c ffd).
  change (Kqueue.file_fd (kq_set_req c1 buf n)) with (Kqueue.file_fd c1).
  destruct (Kqueue.file_fd c1 <? 0); [reflexivity|].
  destruct (fstat os (Kqueue.file_fd c1)) as [st|].
  - destruct (http_build_200 _ _ _ _) as [header_len header].
    destruct (header_len <? 0).
    + destruct (Sys.close _ w1) as [[] w2]. reflexivity.
    + change (Kqueue.set_file_offset (Kqueue.set_file_size (kq_set_req c1 buf n) (st_size st)) 0)
        with (kq_set_req (Kqueue.set_file_offset (Kqueue.set_file_size c1 (st_size st)) 0) buf n).
      rewrite kq_ensure_req.
      destruct (Kqueue.ensure_response_buffer _ w1) as [[c2|] w2].
      * apply kq_start_sending_req.
      * unfold option_map.
        repeat match goal with
        | |- context [Kqueue.file_fd (kq_set_req ?x buf n)] =>
            change (Kqueue.file_fd (kq_set_req x buf n)) with (Kqueue.file_fd x)
        end.
        destruct (Sys.close _ w2) as [[] w3]. reflexivity.
  - destruct (Sys.close _ w1) as [[] w2]. reflexivity.
Qed.

Lemma kq_plan_set_req c buf n : kq_plan (kq_set_req c buf n) = kq_plan c.
Proof. reflexivity. Qed.

Lemma kq_set_req_idem c b1 n1 b2 n2 :
  kq_set_req (kq_set_req c b1 n1) b2 n2 = kq_set_req c b2 n2.
Proof. reflexivity. Qed.

Lemma kq_answer_error_req srv (c : Kqueue.Connection) buf n code (w : World) :
  Kqueue.answer_error srv (kq_set_req c buf n) code w
  = let '(rc, srv', c', w') := Kqueue.answer_error srv c code w in
    (rc, srv', kq_set_req c' buf n, w').
Proof.
  unfold Kqueue.answer_error, bind, ret. rewrite kq_prepare_error_req.
  destruct (Kqueue.prepare_error_response c code w) as [[rc c'] w']. reflexivity.
Qed.

(** Two requests that parse alike are answered alike. *)
Lemma kq_answer_by_parse os srv conn (req1 req2 : string) (w : World) :
  http_parse_request (Some req1) (strlen req1) zero_req
  = http_parse_request (Some req2) (strlen req2) zero_req ->
  kq_answer os srv conn req1 w = kq_answer os srv conn req2 w.
Proof.
  intros Hparse. unfold kq_answer, Kqueue.process_request, kq_with_request.
  change (Kqueue.request_buffer (kq_set_req conn (Some req1) (strlen req1))) with (Some req1).
  change (Kqueue.request_size (kq_set_req conn (Some req1) (strlen req1))) with (strlen req1).
  change (Kqueue.request_buffer (kq_set_req conn (Some req2) (strlen req2))) with (Some req2).
  change (Kqueue.request_size (kq_set_req conn (Some req2) (strlen req2))) with (strlen req2).
  rewrite <- Hparse.
  destruct (http_parse_request (Some req1) (strlen req1) zero_req) as [parsed request].
  assert (Herr : forall code,
    (let '(rc, srv', c', w') :=
       Kqueue.answer_error srv (kq_set_req conn (Some req1) (strlen req1)) code w in
     (rc, srv', kq_plan c', w'))
    = (let '(rc, srv', c', w') :=
       Kqueue.answer_error srv (kq_set_req conn (Some req2) (strlen req2)) code w in
     (rc, srv', kq_plan c', w'))).
  { intros code. rewrite !kq_answer_error_req.
    destruct (Kqueue.answer_error srv conn code w) as [[[rc srv'] c'] w']. reflexivity. }
  destruct (parsed <=? 0); [apply Herr|].
  destruct (http_safe_join os EmptyString Kqueue.kPathBufferSize (Kqueue.doc_root srv)
              (path request)) as [joined file_path].
  destruct (joined <? 0); [apply Herr|].
  destruct (stat os file_path) as [st|]; [|apply Herr].
  destruct (negb (st_isreg st)); [apply Herr|].
  unfold bind. rewrite !kq_prepare_file_req.
  destruct (Kqueue.prepare_file_response os conn file_path w) as [[rc c'] w'].
  simpl. destruct (rc <? 0).
  - rewrite !kq_answer_error_req.
    destruct (Kqueue.answer_error srv c' 500 w') as [[[rc2 srv2] c2] w2]. reflexivity.
  - reflexivity.
Qed.

Lemma aio_close_client_req (c : Aio.Client) buf n (w : World) :
  Aio.close_client (aio_set_req c buf n) w = Aio.close_client c w.
Proof.
  unfold Aio.close_client, bind.
  change (Aio.fd (aio_set_req c buf n)) with (Aio.fd c).
  destruct (0 <=? Aio.fd c).
  - destruct (Sys.close (Aio.fd c) w) as [[] w1]. unfold ret.
    change (Aio.file_fd (Aio.set_fd (aio_set_req c buf n) (-1)))
      with (Aio.file_fd (Aio.set_fd c (-1))).
    destruct (0 <=? Aio.file_fd (Aio.set_fd c (-1))).
    + destruct (Sys.close _ w1) as [[] w2]. reflexivity.
    + reflexivity.
  - unfold ret.
    change (Aio.file_fd (aio_set_req c buf n)) with (Aio.file_fd c).
    destruct (0 <=? Aio.file_fd c).
    + destruct (Sys.close _ w) as [[] w2]. reflexivity.
    + reflexivity.
Qed.

Lemma aio_prepare_error_req (c : Aio.Client) buf n code (w : World) :
  (let '(c', w') := Aio.prepare_error_response (aio_set_req c buf n) code w in
   (aio_plan c', w'))
  = (let '(c', w') := Aio.prepare_error_response c code w in (aio_plan c', w')).
Proof.
  unfold Aio.prepare_error_response.
  destruct (if code =? 400 then _ else _) as [response_len response].
  destruct ((response_len <=? 0) || (Aio.kHeaderBufferSize <=? response_len)).
  - now rewrite aio_close_client_req.
  - unfold bind. destruct (Sys.malloc w) as [[|] w1]; cbv beta iota delta [negb].
    + reflexivity.
    + now rewrite aio_close_client_req.
Qed.

Lemma aio_prepare_file_req os (c : Aio.Client) buf n p (w : World) :
  (let '(c', w') := Aio.prepare_file_response os (aio_set_req c buf n) p w in
   (aio_plan c', w'))
  = (let '(c', w') := Aio.prepare_file_response os c p w in (aio_plan c', w')).
Proof.
  unfold Aio.prepare_file_response, bind.
  destruct (Sys.open os p w) as [ffd w1].
  change (Aio.set_file_fd (aio_set_req c buf n) ffd)
    with (aio_set_req (Aio.set_file_fd c ffd) buf n).
  change (Aio.file_fd (aio_set_req (Aio.set_file_fd c ffd) buf n)) with ffd.
  change (Aio.file_fd (Aio.set_file_fd c ffd)) with ffd.
  destruct (ffd <? 0); [apply aio_prepare_error_req|].
  destruct (fstat os ffd) as [st|].
  - destruct (http_build_200 _ _ _ _) as [header_len header].
    repeat match goal with
    | |- context [Sys.close ?a _] => progress change a with ffd
    end.
    destruct (header_len <? 0).
    + destruct (Sys.close ffd w1) as [[] w2].
      apply (aio_prepare_error_req
               (Aio.set_file_fd
                  (Aio.set_file_offset
                     (Aio.set_file_size (Aio.set_file_fd c ffd) (st_size st)) 0) (-1))).
    + destruct (Sys.malloc w1) as [[|] w2]; cbv beta iota delta [negb].
      * reflexivity.
      * destruct (Sys.close ffd w2) as [[] w3].
        apply (aio_prepare_error_req
                 (Aio.set_file_fd
                    (Aio.set_file_offset
                       (Aio.set_file_size (Aio.set_file_fd c ffd) (st_size st)) 0) (-1))).
  - destruct (Sys.close ffd w1) as [[] w2].
    apply (aio_prepare_error_req (Aio.set_file_fd (Aio.set_file_fd c ffd) (-1))).
Qed.

Lemma aio_answer_by_parse os srv client (req1 req2 : string) (w : World) :
  http_parse_request (Some req1) (strlen req1) zero_req
  = http_parse_request (Some req2) (strlen req2) zero_req ->
  aio_answer os srv client req1 w = aio_answer os srv client req2 w.
Proof.
  intros Hparse. unfold aio_answer, Aio.process_http_request, aio_with_request.
  change (Aio.request_buffer (aio_set_req client req1 (strlen req1))) with req1.
  change (Aio.request_size (aio_set_req client req1 (strlen req1))) with (strlen req1).
  change (Aio.request_buffer (aio_set_req client req2 (strlen req2))) with req2.
  change (Aio.request_size (aio_set_req client req2 (strlen req2))) with (strlen req2).
  rewrite <- Hparse.
  destruct (http_parse_request (Some req1) (strlen req1) zero_req) as [parsed request].
  assert (Herr : forall code,
    (let '(c', w') :=
       Aio.prepare_error_response (aio_set_req client req1 (strlen req1)) code w in
     (aio_plan c', w'))
    = (let '(c', w') :=
       Aio.prepare_error_response (aio_set_req client req2 (strlen req2)) code w in
     (aio_plan c', w'))).
  { intros code. now rewrite !aio_prepare_error_req. }
  destruct (parsed <=? 0); [apply Herr|].
  destruct (http_safe_join os EmptyString Aio.kPathBufferSize (Aio.doc_root srv)
              (path request)) as [joined file_path].
  destruct (joined <? 0); [apply Herr|].
  destruct (stat os file_path) as [st|]; [|apply Herr].
  destruct (negb (st_isreg st)); [apply Herr|].
  now rewrite !aio_prepare_file_req.
Qed.

(* ===================================================================== *)
(** ** C9: [/] is [/index.html] *)
(* ===================================================================== *)

(** C9. For every document root (and every host, server and connection), the
    complete request [GET / HTTP/1.1] followed by a blank line is parsed to
    the same method and path as [GET /index.html HTTP/1.1], because the parser
    rewrites [/] to [/index.html]; both servers therefore build the same
    response from it: the same status line and headers in the response
    buffer, the same file handle, size and offset for the body, and the same
    calls made on the way. *)
Theorem C9_root_is_index :
  forall (os : OS) (w : World),
    http_parse_request (Some Sample.get_root) (strlen Sample.get_root) zero_req
    = http_parse_request (Some Sample.get_index) (strlen Sample.get_index) zero_req
    /\ path (snd (http_parse_request (Some Sample.get_root) (strlen Sample.get_root) zero_req))
       = "/index.html"
    /\ (forall (server : Kqueue.Server) (conn : Kqueue.Connection),
          kq_answer os server conn Sample.get_root w
          = kq_answer os server conn Sample.get_index w)
    /\ (forall (server : Aio.Server) (client : Aio.Client),
          aio_answer os server client Sample.get_root w
          = aio_answer os server client Sample.get_index w).
Proof.
  intros os w.
  assert (H : http_parse_request (Some Sample.get_root) (strlen Sample.get_root) zero_req
              = http_parse_request (Some Sample.get_index) (strlen Sample.get_index) zero_req).
  { now rewrite parse_get_root, parse_get_index. }
  split; [exact H|]. split; [now rewrite parse_get_root|]. split.
  - intros server conn. now apply kq_answer_by_parse.
  - intros server client. now apply aio_answer_by_parse.
Qed.

(* ===================================================================== *)
(** ** C10: targets that do not fit the path field *)
(* ===================================================================== *)




(* ===================================================================== *)
(** ** File handle and state, per connection *)
(* ===================================================================== *)

Lemma state_eqb_eq (a b : Kqueue.ConnectionState) :
  Kqueue.state_eqb a b = true <-> a = b.
Proof. destruct a, b; simpl; split; intros H; try reflexivity; discriminate. Qed.

Lemma state_eqb_neq (a b : Kqueue.ConnectionState) :
  Kqueue.state_eqb a b = false <-> a <> b.
Proof.
  destruct a, b; simpl; split; intros H; try reflexivity; try discriminate;
    try congruence.
Qed.

Ltac zify_bool :=
  repeat match goal with
  | H : (_ <? _) = true |- _ => apply Z.ltb_lt in H
  | H : (_ <? _) = false |- _ => apply Z.ltb_ge in H
  | H : (_ <=? _) = true |- _ => apply Z.leb_le in H
  | H : (_ <=? _) = false |- _ => apply Z.leb_gt in H
  | H : (_ =? _) = true |- _ => apply Z.eqb_eq in H
  | H : (_ =? _) = false |- _ => apply Z.eqb_neq in H
  | H : Kqueue.state_eqb _ _ = true |- _ => apply state_eqb_eq in H
  | H : Kqueue.state_eqb _ _ = false |- _ => apply state_eqb_neq in H
  | H : negb _ = true |- _ => apply negb_true_iff in H
  | H : negb _ = false |- _ => apply negb_false_iff in H
  | H : _ && _ = true |- _ => apply andb_prop in H; destruct H
  | H : _ || _ = false |- _ => apply orb_false_elim in H; destruct H
  end.

Lemma kq_prepare_error_ok conn code w :
  kq_conn_ok conn ->
  kq_conn_ok (snd (fst (Kqueue.prepare_error_response conn code w))).
Proof.
  intros [H1 H2]. destruct conn.
  unfold Kqueue.prepare_error_response.
  destruct (if code =? 400 then _ else _) as [[response_len response]|]; [|now split].
  destruct ((response_len <=? 0) || (Kqueue.kHeaderBufferSize <=? response_len));
    [now split|].
  generalize (memcpy response response_len); intros bytes.
  unfold Kqueue.ensure_response_buffer, Kqueue.start_sending, kq_conn_ok in *.
  io_unfold. simpl in *.
  repeat (case_match; simpl in *; simplify_eq); split; intros; zify_bool;
    try discriminate; auto.
Qed.

Lemma kq_answer_error_ok srv conn code w :
  kq_conn_ok conn ->
  kq_conn_ok (snd (fst (Kqueue.answer_error srv conn code w))).
Proof.
  intros H. unfold Kqueue.answer_error, bind, ret.
  pose proof (kq_prepare_error_ok conn code w H) as H'.
  destruct (Kqueue.prepare_error_response conn code w) as [[rc c'] w']. exact H'.
Qed.

Lemma kq_prepare_file_ok os conn p w :
  Kqueue.state conn <> Kqueue.STATE_SENDING_FILE ->
  kq_conn_ok (snd (fst (Kqueue.prepare_file_response os conn p w))).
Proof.
  intros Hst. destruct conn.
  unfold Kqueue.prepare_file_response.
  generalize (http_build_200 EmptyString Kqueue.kHeaderBufferSize).
  intros build.
  unfold Sys.open, bind at 1, log, ret at 1.
  generalize (open_rdonly os p); intros ffd. simpl.
  destruct (ffd <? 0) eqn:Effd.
  { unfold ret, kq_conn_ok; simpl in *. split; intros; zify_bool; [lia | congruence]. }
  destruct (fstat os ffd) as [st|].
  2:{ unfold Sys.close, bind, log, ret, kq_conn_ok; simpl in *.
      split; intros; [lia | congruence]. }
  destruct (build (st_size st) (http_guess_type p)) as [header_len header].
  generalize (memcpy header header_len); intros bytes.
  unfold Kqueue.ensure_response_buffer, Kqueue.start_sending, kq_conn_ok in *.
  io_unfold. simpl in *.
  repeat (case_match; simpl in *; simplify_eq); split; intros; zify_bool;
    try discriminate; try lia; auto; try congruence.
Qed.

Lemma kq_process_request_ok os srv conn w :
  kq_conn_ok conn ->
  Kqueue.state conn <> Kqueue.STATE_SENDING_FILE ->
  kq_conn_ok (snd (fst (Kqueue.process_request os srv conn w))).
Proof.
  intros Hok Hst. unfold Kqueue.process_request.
  destruct (http_parse_request _ _ _) as [parsed request].
  destruct (parsed <=? 0); [now apply kq_answer_error_ok|].
  destruct (http_safe_join _ _ _ _ _) as [joined file_path].
  destruct (joined <? 0); [now apply kq_answer_error_ok|].
  destruct (stat os file_path) as [st|]; [|now apply kq_answer_error_ok].
  destruct (negb (st_isreg st)); [now apply kq_answer_error_ok|].
  unfold bind.
  pose proof (kq_prepare_file_ok os conn file_path w Hst) as H.
  destruct (Kqueue.prepare_file_response os conn file_path w) as [[rc c'] w'].
  simpl in *. destruct (rc <? 0); [now apply kq_answer_error_ok | exact H].
Qed.

Lemma kq_set_request_ok conn buf n :
  kq_conn_ok conn -> kq_conn_ok (kq_set_req conn buf n).
Proof. intros H; exact H. Qed.

Lemma kq_handle_read_ok os srv conn w :
  kq_conn_ok conn ->
  kq_conn_ok (snd (fst (Kqueue.handle_read_event os srv conn w))).
Proof.
  intros Hok. unfold Kqueue.handle_read_event.
  destruct (negb (Kqueue.state_eqb (Kqueue.state conn) Kqueue.STATE_READING_REQUEST)) eqn:Est;
    [exact Hok|].
  zify_bool.
  destruct (Kqueue.request_buffer conn) as [mem|]; [|exact Hok].
  unfold bind.
  destruct (Sys.recv _ _ w) as [[[n errno] got] w1].
  destruct (n <=? 0).
  { destruct ((n <? 0) && would_block errno); exact Hok. }
  match goal with
  | |- context [Kqueue.set_request_size (Kqueue.set_request_buffer conn ?b) ?k] =>
      change (Kqueue.set_request_size (Kqueue.set_request_buffer conn b) k)
        with (kq_set_req conn b k)
  end.
  destruct (strstr _ _).
  - apply kq_process_request_ok; [exact Hok|].
    change (Kqueue.state conn <> Kqueue.STATE_SENDING_FILE). congruence.
  - match goal with |- context [if ?b then _ else _] => destruct b end.
    + now apply kq_answer_error_ok.
    + exact Hok.
Qed.

Lemma kq_send_response_ok os conn w :
  kq_conn_ok conn ->
  kq_conn_ok (snd (fst (Kqueue.send_response os conn w))).
Proof.
  intros [H1 H2]. destruct conn.
  unfold Kqueue.send_response, Kqueue.send_header_part, Kqueue.send_file_part.
  unfold Sys.pread. generalize (pread os). intros rd.
  unfold kq_conn_ok in *. io_unfold. simpl in *.
  repeat (case_match; simpl in *; simplify_eq); split; intros; zify_bool;
    try discriminate; try lia; auto; try congruence.
Qed.

Lemma kq_handle_write_ok os srv conn w :
  kq_conn_ok conn ->
  kq_conn_ok (snd (fst (Kqueue.handle_write_event os srv conn w))).
Proof.
  intros Hok. unfold Kqueue.handle_write_event.
  destruct (_ || _); [|exact Hok].
  unfold bind, ret.
  pose proof (kq_send_response_ok os conn w Hok) as H.
  destruct (Kqueue.send_response os conn w) as [[rc c'] w']. exact H.
Qed.

Lemma kq_conn_reachable_ok os conn :
  kq_conn_reachable os conn -> kq_conn_ok conn.
Proof.
  induction 1 as [old sock buf cap | srv conn w _ IH _ | srv conn w _ IH _].
  - split; simpl; intros; [lia | discriminate].
  - now apply kq_handle_read_ok.
  - now apply kq_handle_write_ok.
Qed.

Lemma aio_close_client_reset client w :
  fst (Aio.close_client client w) = Aio.reset_client client.
Proof.
  unfold Aio.close_client. io_unfold.
  repeat (case_match; simpl in *; simplify_eq); reflexivity.
Qed.

Lemma aio_close_client_ok client w :
  aio_client_ok (fst (Aio.close_client client w)).
Proof. rewrite aio_close_client_reset. intros H; simpl in H; lia. Qed.

Lemma aio_prepare_error_ok client code w :
  aio_client_ok (fst (Aio.prepare_error_response client code w)).
Proof.
  unfold Aio.prepare_error_response.
  destruct (if code =? 400 then _ else _) as [response_len response].
  destruct ((response_len <=? 0) || (Aio.kHeaderBufferSize <=? response_len));
    [apply aio_close_client_ok|].
  unfold bind. destruct (Sys.malloc w) as [[|] w1]; cbv beta iota delta [negb].
  - intros _. reflexivity.
  - apply aio_close_client_ok.
Qed.

Lemma aio_prepare_file_ok os client p w :
  aio_client_ok (fst (Aio.prepare_file_response os client p w)).
Proof.
  unfold Aio.prepare_file_response, bind.
  destruct (Sys.open os p w) as [ffd w1].
  destruct (Aio.file_fd _ <? 0); [apply aio_prepare_error_ok|].
  destruct (fstat os _) as [st|].
  - destruct (http_build_200 _ _ _ _) as [header_len header].
    destruct (header_len <? 0).
    + destruct (Sys.close _ w1) as [[] w2]. apply aio_prepare_error_ok.
    + destruct (Sys.malloc w1) as [[|] w2]; cbv beta iota delta [negb].
      * intros _. reflexivity.
      * destruct (Sys.close _ w2) as [[] w3]. apply aio_prepare_error_ok.
  - destruct (Sys.close _ w1) as [[] w2]. apply aio_prepare_error_ok.
Qed.

Lemma aio_process_ok os srv client w :
  aio_client_ok (fst (Aio.process_http_request os srv client w)).
Proof.
  unfold Aio.process_http_request.
  destruct (http_parse_request _ _ _) as [parsed request].
  destruct (parsed <=? 0); [apply aio_prepare_error_ok|].
  destruct (http_safe_join _ _ _ _ _) as [joined file_path].
  destruct (joined <? 0); [apply aio_prepare_error_ok|].
  destruct (stat os file_path) as [st|]; [|apply aio_prepare_error_ok].
  destruct (negb (st_isreg st)); [apply aio_prepare_error_ok|].
  apply aio_prepare_file_ok.
Qed.

Lemma aio_handle_read_ok os srv client w :
  aio_client_ok client ->
  aio_client_ok (snd (fst (Aio.handle_client_read os srv client w))).
Proof.
  intros Hok. unfold Aio.handle_client_read, bind.
  destruct (Sys.recv _ _ w) as [[[n errno] got] w1].
  destruct (n <=? 0).
  - destruct ((n <? 0) && would_block errno); [exact Hok|].
    pose proof (aio_close_client_ok client w1) as H.
    destruct (Aio.close_client client w1) as [c' w2]. exact H.
  - destruct (strstr _ _).
    + match goal with |- context [Aio.process_http_request os srv ?c w1] =>
        pose proof (aio_process_ok os srv c w1) as H;
        destruct (Aio.process_http_request os srv c w1) as [c' w2] end.
      exact H.
    + exact Hok.
Qed.

Lemma aio_handle_write_ok os srv client w :
  aio_client_ok client ->
  aio_client_ok (snd (fst (Aio.handle_client_write os srv client w))).
Proof.
  intros Hok. unfold Aio.handle_client_write.
  assert (Hclose : forall c (s : Aio.Server) w0,
    aio_client_ok
      (snd (fst ((client0 <- Aio.close_client c ;; ret (s, client0)) w0)))).
  { intros c s w0. unfold bind, ret.
    pose proof (aio_close_client_ok c w0) as H.
    destruct (Aio.close_client c w0) as [c' w2]. exact H. }
  destruct (Aio.response_buffer client) as [buf|].
  - unfold bind at 1. destruct (Sys.send _ _ w) as [[n errno] w1].
    destruct (n <=? 0).
    + destruct ((n <? 0) && would_block errno); [exact Hok | apply Hclose].
    + match goal with |- context [if ?b then _ else _] => destruct b end.
      * match goal with |- context [if ?b then _ else _] => destruct b end.
        -- intros _. reflexivity.
        -- apply Hclose.
      * exact Hok.
  - destruct (0 <=? Aio.file_fd client); [|exact Hok].
    match goal with |- context [if ?b then _ else _] => destruct b end;
      [apply Hclose|].
    unfold bind at 1. destruct (Sys.pread _ _ _ _ w) as [[n buffer] w1].
    destruct (n <=? 0); [apply Hclose|].
    unfold bind at 1. destruct (Sys.send _ _ w1) as [[sent errno] w2].
    destruct (sent <=? 0).
    + destruct ((sent <? 0) && would_block errno); [exact Hok | apply Hclose].
    + match goal with |- context [if ?b then _ else _] => destruct b end;
        [apply Hclose | exact Hok].
Qed.

Lemma aio_client_reachable_ok os client :
  aio_client_reachable os client -> aio_client_ok client.
Proof.
  induction 1 as [old sock | srv client w _ IH | srv client w _ IH].
  - intros H; simpl in H; lia.
  - now apply aio_handle_read_ok.
  - now apply aio_handle_write_ok.
Qed.

(* ===================================================================== *)
(** ** The connection pool *)
(* ===================================================================== *)

Lemma kq_init_ok n kq_fd listen root :
  kq_server_ok n (Kqueue.init_server n kq_fd listen root).
Proof.
  split; [split; [|split; [|split]] |]; simpl.
  - apply length_replicate.
  - apply NoDup_seq.
  - intros i Hi. apply in_seq in Hi. lia.
  - rewrite length_seq. lia.
  - intros i c Hc Hfree. exfalso. apply Hfree. apply in_seq.
    apply lookup_lt_Some in Hc. rewrite length_replicate in Hc. lia.
Qed.

Lemma kq_alloc_none s s' :
  Kqueue.alloc_connection s = (None, s') -> s' = s /\ Kqueue.free_list s = [].
Proof.
  unfold Kqueue.alloc_connection. destruct (Kqueue.free_list s) eqn:E; intros H.
  - now inversion H.
  - discriminate.
Qed.

Lemma kq_alloc_some n s i s' :
  kq_server_ok n s ->
  Kqueue.alloc_connection s = (Some i, s') ->
  kq_server_ok n s'
  /\ Kqueue.free_list s = i :: Kqueue.free_list s'
  /\ (i < n)%nat /\ ~ In i (Kqueue.free_list s')
  /\ Kqueue.num_active s' = Kqueue.num_active s + 1
  /\ Kqueue.connections s' = alter Kqueue.reset_connection i (Kqueue.connections s).
Proof.
  intros [[Hlen [Hnd [Hlt Hcnt]]] Hconn]. unfold Kqueue.alloc_connection.
  destruct (Kqueue.free_list s) as [|j rest] eqn:E; intros H; [discriminate|].
  inversion H; subst; clear H. simpl.
  inversion Hnd as [|? ? Hnotin Hnd']; subst.
  rewrite list_elem_of_In in Hnotin.
  assert (Hi : (i < length (Kqueue.connections s))%nat) by (apply Hlt; now left).
  split; [split; [split; [|split; [|split]] |] |].
  - simpl. now rewrite length_alter.
  - exact Hnd'.
  - simpl. intros k Hk. apply Hlt. now right.
  - simpl in *. lia.
  - simpl. intros k c Hc Hfree. destruct (decide (i = k)) as [->|Hne].
    + rewrite list_lookup_alter_eq in Hc.
      destruct (Kqueue.connections s !! k) as [c0|]; [|discriminate].
      inversion Hc; subst. split; simpl; intros; [lia | discriminate].
    + rewrite list_lookup_alter_ne in Hc by assumption.
      apply (Hconn k c Hc). intros [?|?]; [congruence | contradiction].
  - repeat split; auto.
Qed.

Lemma kq_release_fds_fields conn w :
  let conn' := fst (Kqueue.release_fds conn w) in
  Kqueue.file_fd conn' < 0 \/ Kqueue.file_fd conn' = Kqueue.file_fd conn.
Proof.
  destruct conn. unfold Kqueue.release_fds. io_unfold. simpl.
  repeat (case_match; simpl in *; simplify_eq); zify_bool; lia.
Qed.

(** Storing a record in a slot. *)
Lemma kq_store_ok n s i c :
  kq_server_ok n s ->
  (In i (Kqueue.free_list s) \/ kq_conn_ok c) ->
  kq_server_ok n (Kqueue.set_connections s (<[i := c]> (Kqueue.connections s))).
Proof.
  intros [[Hlen [Hnd [Hlt Hcnt]]] Hconn] Hc.
  split; [split; [|split; [|split]] |]; simpl; auto.
  - now rewrite length_insert.
  - intros k c' Hk Hfree. destruct (decide (i = k)) as [->|Hne].
    + destruct (decide (k < length (Kqueue.connections s))%nat) as [Hin|Hout].
      * rewrite list_lookup_insert_eq in Hk by assumption. inversion Hk; subst.
        destruct Hc; [contradiction | assumption].
      * rewrite list_insert_ge in Hk by lia. now apply (Hconn k).
    + rewrite list_lookup_insert_ne in Hk by assumption. now apply (Hconn k).
Qed.

Lemma kq_free_ok n s i w :
  kq_server_ok n s ->
  (i < n)%nat -> ~ In i (Kqueue.free_list s) ->
  kq_server_ok n (fst (Kqueue.free_connection s i w))
  /\ Kqueue.free_list (fst (Kqueue.free_connection s i w)) = i :: Kqueue.free_list s
  /\ Kqueue.num_active (fst (Kqueue.free_connection s i w)) = Kqueue.num_active s - 1.
Proof.
  intros [[Hlen [Hnd [Hlt Hcnt]]] Hconn] Hi Hfree.
  unfold Kqueue.free_connection.
  destruct (Kqueue.connections s !! i) as [c|] eqn:Ec.
  2:{ apply lookup_ge_None in Ec. lia. }
  unfold bind. destruct (Kqueue.release_fds c w) as [c' w']. unfold ret. simpl.
  split; [split; [split; [|split; [|split]] |] |].
  - simpl. now rewrite length_insert.
  - simpl. constructor; [now rewrite list_elem_of_In | assumption].
  - simpl. intros k [->|Hk]; [lia | now apply Hlt].
  - simpl. rewrite Nat2Z.inj_succ. lia.
  - simpl. intros k c0 Hk Hk'. destruct (decide (i = k)) as [->|Hne].
    + exfalso. apply Hk'. now left.
    + rewrite list_lookup_insert_ne in Hk by assumption. apply (Hconn k c0 Hk).
      intros ?. apply Hk'. now right.
  - split; reflexivity.
Qed.

Lemma kq_close_ok n s i w :
  kq_server_ok n s ->
  (i < n)%nat -> ~ In i (Kqueue.free_list s) ->
  kq_server_ok n (fst (Kqueue.close_connection s i w))
  /\ Kqueue.free_list (fst (Kqueue.close_connection s i w)) = i :: Kqueue.free_list s
  /\ Kqueue.num_active (fst (Kqueue.close_connection s i w)) = Kqueue.num_active s - 1.
Proof.
  intros Hok Hi Hfree. unfold Kqueue.close_connection.
  destruct (Kqueue.connections s !! i) as [c|] eqn:Ec.
  2:{ destruct Hok as [[Hlen _] _]. apply lookup_ge_None in Ec. lia. }
  unfold bind.
  destruct ((if 0 <=? Kqueue.fd c then Sys.kevent_delete (Kqueue.fd c) else ret ()) w)
    as [[] w1].
  now apply kq_free_ok.
Qed.

Lemma kq_same_pool_refl s : kq_same_pool s s.
Proof. now repeat split. Qed.

Lemma kq_answer_error_srv s c code w :
  snd (fst (fst (Kqueue.answer_error s c code w))) = s.
Proof.
  unfold Kqueue.answer_error, bind, ret.
  destruct (Kqueue.prepare_error_response c code w) as [[rc c'] w']. reflexivity.
Qed.

Lemma kq_process_request_pool os s c w :
  kq_same_pool s (snd (fst (fst (Kqueue.process_request os s c w)))).
Proof.
  unfold Kqueue.process_request.
  destruct (http_parse_request _ _ _) as [parsed request].
  destruct (parsed <=? 0);
    [rewrite kq_answer_error_srv; apply kq_same_pool_refl|].
  destruct (http_safe_join _ _ _ _ _) as [joined file_path].
  destruct (joined <? 0);
    [rewrite kq_answer_error_srv; apply kq_same_pool_refl|].
  destruct (stat os file_path) as [st|];
    [|rewrite kq_answer_error_srv; apply kq_same_pool_refl].
  destruct (negb (st_isreg st));
    [rewrite kq_answer_error_srv; apply kq_same_pool_refl|].
  unfold bind.
  destruct (Kqueue.prepare_file_response os c file_path w) as [[rc c'] w'].
  simpl fst. simpl snd. destruct (rc <? 0).
  - rewrite kq_answer_error_srv. apply kq_same_pool_refl.
  - now repeat split.
Qed.

Lemma kq_handle_read_pool os s c w :
  kq_same_pool s (snd (fst (fst (Kqueue.handle_read_event os s c w)))).
Proof.
  unfold Kqueue.handle_read_event.
  destruct (negb _); [apply kq_same_pool_refl|].
  destruct (Kqueue.request_buffer c) as [mem|].
  2:{ unfold bind, log, ret. apply kq_same_pool_refl. }
  unfold bind.
  destruct (Sys.recv _ _ w) as [[[n errno] got] w1].
  destruct (n <=? 0).
  { destruct ((n <? 0) && would_block errno); apply kq_same_pool_refl. }
  destruct (strstr _ _).
  - apply kq_process_request_pool.
  - match goal with |- context [if ?b then _ else _] => destruct b end.
    + rewrite kq_answer_error_srv. apply kq_same_pool_refl.
    + apply kq_same_pool_refl.
Qed.

Lemma kq_handle_write_pool os s c w :
  snd (fst (fst (Kqueue.handle_write_event os s c w))) = s.
Proof.
  unfold Kqueue.handle_write_event.
  destruct (_ || _); [|reflexivity].
  unfold bind, ret. destruct (Kqueue.send_response os c w) as [[rc c'] w']. reflexivity.
Qed.

Lemma kq_same_pool_ok n s s' :
  kq_same_pool s s' -> kq_server_ok n s -> kq_server_ok n s'.
Proof.
  intros (Hc & Hf & Hn & _ & _) [[Hlen [Hnd [Hlt Hcnt]]] Hconn].
  unfold kq_server_ok, kq_pool_ok. rewrite Hc, Hf, Hn. auto 10.
Qed.

Lemma kq_finish_ok n i (r : Z * Kqueue.Server * Kqueue.Connection) w s :
  kq_server_ok n s ->
  kq_same_pool s (snd (fst r)) ->
  (i < n)%nat -> ~ In i (Kqueue.free_list s) ->
  kq_conn_ok (snd r) ->
  kq_server_ok n (fst (Kqueue.finish i r w)).
Proof.
  intros Hok Hpool Hi Hfree Hc. destruct r as [[rc s'] c']. simpl in *.
  pose proof (kq_same_pool_ok n s s' Hpool Hok) as Hok'.
  assert (Hfree' : ~ In i (Kqueue.free_list s')).
  { destruct Hpool as (_ & Hf & _). now rewrite Hf. }
  pose proof (kq_store_ok n s' i c' Hok' (or_intror Hc)) as Hst.
  destruct (rc <? 0); [|exact Hst].
  now apply kq_close_ok.
Qed.

Lemma kq_setup_ok n s i new_fd w :
  kq_server_ok n s ->
  (i < n)%nat -> ~ In i (Kqueue.free_list s) ->
  kq_server_ok n (fst (Kqueue.setup_connection s i new_fd w)).
Proof.
  intros Hok Hi Hfree. unfold Kqueue.setup_connection.
  destruct (Kqueue.connections s !! i) as [c|] eqn:Ec; [|exact Hok].
  assert (Hc : kq_conn_ok c) by (destruct Hok as [_ H]; now apply (H i)).
  unfold bind at 1. destruct (Sys.configure new_fd w) as [[] w1].
  unfold bind at 1.
  destruct (Kqueue.request_buffer (Kqueue.set_fd c new_fd)) as [b|].
  - unfold ret at 1. unfold bind.
    destruct (Sys.kevent new_fd w1) as [[|] w2].
    + apply kq_store_ok; [assumption | now right].
    + apply kq_close_ok; [apply kq_store_ok; [assumption | now right] | assumption | assumption].
  - unfold bind at 1. destruct (Sys.malloc w1) as [[|] w2].
    + unfold ret at 1. unfold bind.
      destruct (Sys.kevent new_fd w2) as [[|] w3].
      * apply kq_store_ok; [assumption | now right].
      * apply kq_close_ok; [apply kq_store_ok; [assumption | now right] | assumption | assumption].
    + unfold ret at 1. unfold bind.
      destruct (Sys.close new_fd w2) as [[] w3].
      apply kq_free_ok; [apply kq_store_ok; [assumption | now right] | assumption | assumption].
Qed.

Lemma kq_accept_loop_ok n fuel s w :
  kq_server_ok n s -> kq_server_ok n (fst (Kqueue.accept_loop fuel s w)).
Proof.
  revert s w; induction fuel as [|fuel IH]; intros s w Hok; [exact Hok|].
  simpl. unfold bind at 1. destruct (next_accept w) as [[new_fd|e] w1]; [|exact Hok].
  destruct (new_fd <? 0); [exact Hok|].
  unfold bind at 1. destruct (log _ w1) as [[] w2].
  destruct (Kqueue.alloc_connection s) as [[i|] s1] eqn:Ea.
  - destruct (kq_alloc_some n s i s1 Hok Ea) as (Hok1 & _ & Hi & Hfree & _).
    unfold bind at 1.
    pose proof (kq_setup_ok n s1 i new_fd w2 Hok1 Hi Hfree) as H.
    destruct (Kqueue.setup_connection s1 i new_fd w2) as [s2 w3].
    now apply IH.
  - apply kq_alloc_none in Ea as [-> _].
    unfold bind at 1. destruct (Sys.close new_fd w2) as [[] w3]. now apply IH.
Qed.

Lemma kq_process_event_ok os n s ev w :
  kq_server_ok n s -> kq_event_allowed s ev ->
  kq_server_ok n (fst (Kqueue.process_event os s ev w)).
Proof.
  intros Hok Hev. unfold Kqueue.process_event.
  destruct (Kqueue.ev_error ev) eqn:Eerr; [exact Hok|].
  destruct (Kqueue.ident ev =? Kqueue.listen_fd s) eqn:Eid.
  { unfold bind, Kqueue.accept_connections.
    pose proof (kq_accept_loop_ok n (S (length (accept_script w))) s w Hok) as H.
    destruct (Kqueue.accept_loop _ s w) as [s1 w1]. exact H. }
  destruct (Kqueue.udata ev) as [i|] eqn:Eu; [|exact Hok].
  destruct (Kqueue.connections s !! i) as [c|] eqn:Ec; [|exact Hok].
  assert (Hfree : ~ In i (Kqueue.free_list s)).
  { destruct Hev as [H|[H|H]]; [congruence | | now apply H].
    apply Z.eqb_neq in Eid. contradiction. }
  assert (Hi : (i < n)%nat).
  { destruct Hok as [[Hlen _] _]. apply lookup_lt_Some in Ec. lia. }
  assert (Hc : kq_conn_ok c) by (destruct Hok as [_ H]; now apply (H i)).
  destruct (Kqueue.filter ev).
  - unfold bind.
    pose proof (kq_handle_read_pool os s c w) as Hp.
    pose proof (kq_handle_read_ok os s c w Hc) as Hc'.
    destruct (Kqueue.handle_read_event os s c w) as [r w1].
    apply (kq_finish_ok n i r w1 s); assumption.
  - unfold bind.
    pose proof (kq_handle_write_pool os s c w) as Hp.
    pose proof (kq_handle_write_ok os s c w Hc) as Hc'.
    destruct (Kqueue.handle_write_event os s c w) as [r w1].
    apply (kq_finish_ok n i r w1 s); try assumption.
    simpl in Hp. rewrite Hp. apply kq_same_pool_refl.
  - exact Hok.
Qed.

Lemma kq_reachable_ok os n s :
  kq_reachable os n s -> kq_server_ok n s.
Proof.
  induction 1 as [kq_fd listen root | s ev w _ IH Hev].
  - apply kq_init_ok.
  - now apply kq_process_event_ok.
Qed.

(* ===================================================================== *)
(** ** C3: file handle and connection state *)
(* ===================================================================== *)

(** C3 as stated fails: after a request for an existing file was read, the
    kqueue connection is in the header-sending state and already holds the
    open file. *)
Lemma C3_file_is_open_while_sending_header :
  let w := with_scripts [RecvData Sample.get_index] [] [] in
  let conn :=
    snd (fst (Kqueue.handle_read_event Sample.os Sample.kq_server (Sample.kq_conn 7) w)) in
  kq_conn_reachable Sample.os conn
  /\ Kqueue.state conn = Kqueue.STATE_SENDING_HEADER
  /\ 0 <= Kqueue.file_fd conn
  /\ ~ (0 <= Kqueue.file_fd conn <-> Kqueue.state conn = Kqueue.STATE_SENDING_FILE).
Proof.
  intros w conn. split.
  - apply kq_conn_read.
    + apply (kq_conn_accepted Sample.os Kqueue.fresh_connection 7 (Some EmptyString)
               Kqueue.kRequestBufferSize).
    + vm_compute. discriminate.
  - assert (Hs : Kqueue.state conn = Kqueue.STATE_SENDING_HEADER) by (vm_compute; reflexivity).
    assert (Hf : Kqueue.file_fd conn = 5) by (vm_compute; reflexivity).
    split; [exact Hs|]. split; [rewrite Hf; lia|].
    intros [H _]. rewrite Hs in H. rewrite Hf in H.
    assert (Hn : 0 <= 5) by lia. specialize (H Hn). discriminate.
Qed.

(** C3, amended. At every reachable point of a connection's life, an open
    file handle ([file_fd >= 0]) exists only while the connection is sending:
    in the header-sending or the file-sending state of the kqueue server, in
    the one sending state of the select server; and the file-sending state of
    the kqueue server always has an open file handle. This holds along the
    life of one connection and for every record in use of every reachable
    server. *)
Theorem C3_file_handle_only_while_sending :
  forall (os : OS),
    (forall conn, kq_conn_reachable os conn ->
       (0 <= Kqueue.file_fd conn ->
          Kqueue.state conn = Kqueue.STATE_SENDING_HEADER
          \/ Kqueue.state conn = Kqueue.STATE_SENDING_FILE)
       /\ (Kqueue.state conn = Kqueue.STATE_SENDING_FILE -> 0 <= Kqueue.file_fd conn))
    /\ (forall n server i conn,
          kq_reachable os n server ->
          Kqueue.connections server !! i = Some conn ->
          ~ In i (Kqueue.free_list server) ->
          (0 <= Kqueue.file_fd conn ->
             Kqueue.state conn = Kqueue.STATE_SENDING_HEADER
             \/ Kqueue.state conn = Kqueue.STATE_SENDING_FILE)
          /\ (Kqueue.state conn = Kqueue.STATE_SENDING_FILE -> 0 <= Kqueue.file_fd conn))
    /\ (forall client, aio_client_reachable os client ->
          0 <= Aio.file_fd client -> Aio.state client = Aio.STATE_SENDING_RESPONSE).
Proof.
  intros os. split; [|split].
  - intros conn H. exact (kq_conn_reachable_ok os conn H).
  - intros n server i conn Hr Hc Hfree.
    destruct (kq_reachable_ok os n server Hr) as [_ H]. exact (H i conn Hc Hfree).
  - intros client H. exact (aio_client_reachable_ok os client H).
Qed.

Lemma C3_file_handle_witness :
  let w := with_scripts [RecvData Sample.get_index] [] [] in
  let conn :=
    snd (fst (Kqueue.handle_read_event Sample.os Sample.kq_server (Sample.kq_conn 7) w)) in
  kq_conn_reachable Sample.os conn
  /\ ((0 <= Kqueue.file_fd conn ->
         Kqueue.state conn = Kqueue.STATE_SENDING_HEADER
         \/ Kqueue.state conn = Kqueue.STATE_SENDING_FILE)
      /\ (Kqueue.state conn = Kqueue.STATE_SENDING_FILE -> 0 <= Kqueue.file_fd conn)).
Proof.
  intros w conn.
  assert (Hr : kq_conn_reachable Sample.os conn).
  { apply kq_conn_read.
    - apply (kq_conn_accepted Sample.os Kqueue.fresh_connection 7 (Some EmptyString)
               Kqueue.kRequestBufferSize).
    - vm_compute. discriminate. }
  split; [exact Hr|].
  exact (proj1 (C3_file_handle_only_while_sending Sample.os) conn Hr).
Defined.

(* ===================================================================== *)
(** ** C5 and C6: the pool under the accept loop *)
(* ===================================================================== *)

Lemma kq_release_fds_spec conn w :
  let r := Kqueue.release_fds conn w in
  Kqueue.fd (fst r) < 0 /\ Kqueue.file_fd (fst r) < 0
  /\ Kqueue.state (fst r) = Kqueue.state conn
  /\ Kqueue.request_buffer (fst r) = Kqueue.request_buffer conn
  /\ Kqueue.request_size (fst r) = Kqueue.request_size conn
  /\ Kqueue.request_capacity (fst r) = Kqueue.request_capacity conn
  /\ Kqueue.response_buffer (fst r) = Kqueue.response_buffer conn
  /\ Kqueue.response_size (fst r) = Kqueue.response_size conn
  /\ Kqueue.response_sent (fst r) = Kqueue.response_sent conn
  /\ Kqueue.file_offset (fst r) = Kqueue.file_offset conn
  /\ Kqueue.file_size (fst r) = Kqueue.file_size conn
  /\ accept_script (snd r) = accept_script w
  /\ malloc_script (snd r) = malloc_script w
  /\ exists new, trace (snd r) = new ++ trace w /\ Forall (fun e => is_teardown e = true) new.
Proof.
  destruct conn, w. unfold Kqueue.release_fds. io_unfold. simpl.
  repeat (case_match; simpl in *; simplify_eq); zify_bool;
    repeat split; try lia; try reflexivity.
  all: try (eexists [_ ; _]; split; [reflexivity | repeat constructor]).
  all: try (eexists [_]; split; [reflexivity | repeat constructor]).
  all: try (exists []; split; [reflexivity | constructor]).
Qed.

Lemma kq_free_accepts s i w :
  accept_script (snd (Kqueue.free_connection s i w)) = accept_script w
  /\ malloc_script (snd (Kqueue.free_connection s i w)) = malloc_script w.
Proof.
  unfold Kqueue.free_connection.
  destruct (Kqueue.connections s !! i) as [c|]; [|now split].
  unfold bind.
  pose proof (kq_release_fds_spec c w) as H. cbv zeta in H.
  destruct (Kqueue.release_fds c w) as [c' w']. simpl in *. tauto.
Qed.

Lemma kq_close_accepts s i w :
  accept_script (snd (Kqueue.close_connection s i w)) = accept_script w.
Proof.
  unfold Kqueue.close_connection.
  destruct (Kqueue.connections s !! i) as [c|]; [|reflexivity].
  unfold bind.
  destruct (0 <=? Kqueue.fd c).
  - unfold Sys.kevent_delete, log.
    rewrite (proj1 (kq_free_accepts _ _ _)). reflexivity.
  - unfold ret. apply kq_free_accepts.
Qed.

Lemma kq_setup_accepts s i new_fd w :
  accept_script (snd (Kqueue.setup_connection s i new_fd w)) = accept_script w.
Proof.
  unfold Kqueue.setup_connection.
  destruct (Kqueue.connections s !! i) as [c|]; [|reflexivity].
  unfold Sys.configure, Sys.malloc, Sys.kevent, Sys.close, bind at 1, log.
  unfold bind at 1.
  destruct (Kqueue.request_buffer (Kqueue.set_fd c new_fd)) as [b|].
  - unfold ret at 1. unfold bind at 1. unfold bind at 1.
    unfold next_kevent. simpl.
    destruct (kevent_script w) as [|[|] ks]; unfold bind, ret; simpl;
      try reflexivity; now rewrite kq_close_accepts.
  - unfold bind at 1. unfold next_malloc. simpl.
    destruct (malloc_script w) as [|[|] ms]; unfold ret at 1;
      unfold bind at 1; simpl.
    + unfold bind at 1. unfold next_kevent. simpl.
      destruct (kevent_script w) as [|[|] ks]; unfold bind, ret; simpl;
        try reflexivity; now rewrite kq_close_accepts.
    + unfold bind at 1. unfold next_kevent. simpl.
      destruct (kevent_script w) as [|[|] ks]; unfold bind, ret; simpl;
        try reflexivity; now rewrite kq_close_accepts.
    + now rewrite (proj1 (kq_free_accepts _ _ _)).
Qed.

(** One turn of the accept loop, by the head of the accept script. *)
Lemma kq_accept_step fuel s w :
  Kqueue.accept_loop (S fuel) s w =
  match accept_script w with
  | [] => (s, w)
  | AcceptFail _ :: rest => (s, popped w rest)
  | AcceptFd new_fd :: rest =>
      if new_fd <? 0 then (s, popped w rest)
      else
        match Kqueue.alloc_connection s with
        | (Some i, s1) =>
            let '(s2, w2) :=
              Kqueue.setup_connection s1 i new_fd (logged (SysAccept new_fd) (popped w rest)) in
            Kqueue.accept_loop fuel s2 w2
        | (None, s1) => Kqueue.accept_loop fuel s1 (after_refusal w new_fd rest)
        end
  end.
Proof.
  cbn [Kqueue.accept_loop]. unfold bind at 1, next_accept.
  destruct (accept_script w) as [|[new_fd|e] rest]; try reflexivity.
  destruct (new_fd <? 0); [reflexivity|].
  unfold bind at 1. unfold log at 1.
  destruct (Kqueue.alloc_connection s) as [[i|] s1]; reflexivity.
Qed.

(** The accept loop ends at a failing [accept], never for want of fuel. *)
Lemma kq_accept_loop_fuel fuel s w :
  (length (accept_script w) < fuel)%nat ->
  Kqueue.accept_loop fuel s w
  = Kqueue.accept_loop (S (length (accept_script w))) s w.
Proof.
  remember (length (accept_script w)) as k eqn:Ek.
  revert fuel s w Ek. induction k as [|k IH]; intros fuel s w Ek Hlt.
  - destruct fuel as [|fuel]; [lia|].
    rewrite !kq_accept_step.
    destruct (accept_script w) as [|a rest] eqn:E; [reflexivity | discriminate].
  - destruct fuel as [|fuel]; [lia|].
    rewrite !kq_accept_step.
    destruct (accept_script w) as [|a rest] eqn:E; [discriminate|].
    simpl in Ek. injection Ek as Ek.
    destruct a as [new_fd|e]; [|reflexivity].
    destruct (new_fd <? 0); [reflexivity|].
    destruct (Kqueue.alloc_connection s) as [[i|] s1].
    + pose proof (kq_setup_accepts s1 i new_fd
                    (logged (SysAccept new_fd) (popped w rest))) as Hacc.
      destruct (Kqueue.setup_connection s1 i new_fd _) as [s2 w2].
      simpl in Hacc.
      apply IH; [rewrite Hacc; simpl; assumption | lia].
    + apply IH; [simpl; assumption | lia].
Qed.

Lemma aio_accept_step fuel s w :
  Aio.accept_loop (S fuel) s w =
  match accept_script w with
  | [] => (s, w)
  | AcceptFail _ :: rest => (s, popped w rest)
  | AcceptFd client_fd :: rest =>
      if client_fd <? 0 then (s, popped w rest)
      else
        match Aio.find_free_slot (Aio.clients s) 0 with
        | Some i =>
            let init client :=
              Aio.set_state (Aio.set_fd (Aio.reset_client client) client_fd)
                Aio.STATE_READING_REQUEST in
            let s1 := Aio.set_clients s (alter init i (Aio.clients s)) in
            Aio.accept_loop fuel (Aio.set_num_clients s1 (Aio.num_clients s1 + 1))
              (logged (SysSetup client_fd)
                 (logged (SysAccept client_fd) (popped w rest)))
        | None => Aio.accept_loop fuel s (after_refusal w client_fd rest)
        end
  end.
Proof.
  cbn [Aio.accept_loop]. unfold bind at 1, next_accept.
  destruct (accept_script w) as [|[new_fd|e] rest]; try reflexivity.
  destruct (new_fd <? 0); [reflexivity|].
  unfold bind at 1. unfold log at 1.
  destruct (Aio.find_free_slot (Aio.clients s) 0) as [i|]; reflexivity.
Qed.

Lemma aio_accept_loop_fuel fuel s w :
  (length (accept_script w) < fuel)%nat ->
  Aio.accept_loop fuel s w = Aio.accept_loop (S (length (accept_script w))) s w.
Proof.
  remember (length (accept_script w)) as k eqn:Ek.
  revert fuel s w Ek. induction k as [|k IH]; intros fuel s w Ek Hlt.
  - destruct fuel as [|fuel]; [lia|].
    rewrite !aio_accept_step.
    destruct (accept_script w) as [|a rest] eqn:E; [reflexivity | discriminate].
  - destruct fuel as [|fuel]; [lia|].
    rewrite !aio_accept_step.
    destruct (accept_script w) as [|a rest] eqn:E; [discriminate|].
    simpl in Ek. injection Ek as Ek.
    destruct a as [new_fd|e]; [|reflexivity].
    destruct (new_fd <? 0); [reflexivity|].
    destruct (Aio.find_free_slot (Aio.clients s) 0) as [i|].
    + cbv zeta. apply IH; [simpl; assumption | lia].
    + apply IH; [simpl; assumption | lia].
Qed.

Lemma aio_accept_loop_length fuel s w :
  length (Aio.clients (fst (Aio.accept_loop fuel s w))) = length (Aio.clients s).
Proof.
  revert s w; induction fuel as [|fuel IH]; intros s w; [reflexivity|].
  rewrite aio_accept_step.
  destruct (accept_script w) as [|[new_fd|e] rest]; try reflexivity.
  destruct (new_fd <? 0); [reflexivity|].
  destruct (Aio.find_free_slot (Aio.clients s) 0) as [i|].
  - cbv zeta. rewrite IH. simpl. apply length_alter.
  - apply IH.
Qed.

Lemma aio_active_le s : (aio_active s <= length (Aio.clients s))%nat.
Proof. unfold aio_active. apply length_filter. Qed.

(** Every slot is taken exactly when the scan finds none free. *)
Lemma aio_full_no_slot cs k :
  length (filter (fun c => (0 <=? Aio.fd c) = true) cs) = length cs ->
  Aio.find_free_slot cs k = None.
Proof.
  revert k; induction cs as [|c cs IH]; intros k H; [reflexivity|].
  simpl. rewrite filter_cons in H.
  destruct (decide ((0 <=? Aio.fd c) = true)) as [Hc|Hc].
  - apply Z.leb_le in Hc. destruct (Aio.fd c <? 0) eqn:E; [apply Z.ltb_lt in E; lia|].
    apply IH. simpl in H. lia.
  - pose proof (length_filter (fun c => (0 <=? Aio.fd c) = true) cs). simpl in H. lia.
Qed.

(** A duplicate-free list of slots below [n] has at most [n] entries. *)
Lemma kq_pool_bound n (l : list nat) :
  NoDup l -> (forall i, In i l -> (i < n)%nat) -> (length l <= n)%nat.
Proof.
  intros Hnd Hlt.
  assert (H : l ⊆+ seq 0 n).
  { apply NoDup_submseteq; [assumption|].
    intros x Hx. apply elem_of_seq. apply list_elem_of_In in Hx.
    specialize (Hlt x Hx). lia. }
  apply submseteq_length in H. now rewrite length_seq in H.
Qed.

(** C5. In every reachable state of the kqueue server the count of active
    pool allocations lies between 0 and the capacity [n] and equals the
    number of records off the free list. When the pool is exhausted
    ([num_active = n]; every slot taken in the select server), the next
    accepted socket is closed at once: the turn of the accept loop consumes
    that one answer, adds the [accept] and the [close] to the trace and
    nothing else (no byte is written, no response is prepared, no record
    changes), and the loop goes on with the rest of the queue. The accept loop
    always ends, at the first failing [accept] and with the value 0, whatever
    the queue holds. *)
Theorem C5_pool_never_exceeds_capacity :
  forall (os : OS) (n : nat),
    (forall s, kq_reachable os n s ->
       0 <= Kqueue.num_active s <= Z.of_nat n
       /\ Kqueue.num_active s = Z.of_nat n - Z.of_nat (length (Kqueue.free_list s)))
    /\ (forall s w new_fd rest fuel,
          kq_reachable os n s ->
          Kqueue.num_active s = Z.of_nat n ->
          accept_script w = AcceptFd new_fd :: rest ->
          0 <= new_fd ->
          Kqueue.accept_loop (S fuel) s w
          = Kqueue.accept_loop fuel s (after_refusal w new_fd rest))
    /\ (forall s w,
          fst (fst (Kqueue.accept_connections s w)) = 0
          /\ forall fuel, (length (accept_script w) < fuel)%nat ->
               Kqueue.accept_loop fuel s w
               = (snd (fst (Kqueue.accept_connections s w)),
                  snd (Kqueue.accept_connections s w)))
    /\ (forall (s : Aio.Server) w client_fd rest fuel,
          aio_active s = length (Aio.clients s) ->
          accept_script w = AcceptFd client_fd :: rest ->
          0 <= client_fd ->
          Aio.accept_loop (S fuel) s w
          = Aio.accept_loop fuel s (after_refusal w client_fd rest))
    /\ (forall (s : Aio.Server) w fuel,
          (aio_active (fst (Aio.accept_loop fuel s w)) <= length (Aio.clients s))%nat
          /\ ((length (accept_script w) < fuel)%nat ->
              Aio.accept_new_clients s w = Aio.accept_loop fuel s w)).
Proof.
  intros os n. split; [|split; [|split; [|split]]].
  - intros s Hr. destruct (kq_reachable_ok os n s Hr) as [[Hlen [Hnd [Hlt Hcnt]]] _].
    pose proof (kq_pool_bound n (Kqueue.free_list s) Hnd Hlt). lia.
  - intros s w new_fd rest fuel Hr Hfull Hw Hfd.
    destruct (kq_reachable_ok os n s Hr) as [[Hlen [Hnd [Hlt Hcnt]]] _].
    assert (Hnil : Kqueue.free_list s = []).
    { destruct (Kqueue.free_list s); [reflexivity | simpl in Hcnt; lia]. }
    rewrite kq_accept_step, Hw.
    destruct (new_fd <? 0) eqn:E; [apply Z.ltb_lt in E; lia|].
    unfold Kqueue.alloc_connection. rewrite Hnil. reflexivity.
  - intros s w. unfold Kqueue.accept_connections.
    destruct (Kqueue.accept_loop (S (length (accept_script w))) s w) as [s1 w1] eqn:E.
    split; [reflexivity|].
    intros fuel Hlt. simpl. rewrite kq_accept_loop_fuel by assumption. exact E.
  - intros s w client_fd rest fuel Hfull Hw Hfd.
    rewrite aio_accept_step, Hw.
    destruct (client_fd <? 0) eqn:E; [apply Z.ltb_lt in E; lia|].
    rewrite (aio_full_no_slot (Aio.clients s) 0 Hfull). reflexivity.
  - intros s w fuel. split.
    + pose proof (aio_active_le (fst (Aio.accept_loop fuel s w))) as H.
      rewrite aio_accept_loop_length in H. exact H.
    + intros Hlt. unfold Aio.accept_new_clients.
      symmetry. now apply aio_accept_loop_fuel.
Qed.

Lemma one_slot_taken_reachable : kq_reachable Sample.os 1 Sample.one_slot_taken.
Proof.
  apply kq_reach_event; [apply kq_reach_init|].
  right. left. reflexivity.
Qed.

Lemma one_slot_answering_reachable : kq_reachable Sample.os 1 Sample.one_slot_answering.
Proof.
  apply kq_reach_event; [apply one_slot_taken_reachable|].
  right. right. intros i Hi. vm_compute. intros H. exact H.
Qed.

Lemma C5_refusal_witness :
  let w := with_scripts [] [] [AcceptFd 8] in
  (kq_reachable Sample.os 1 Sample.one_slot_taken
   /\ Kqueue.num_active Sample.one_slot_taken = Z.of_nat 1
   /\ accept_script w = [AcceptFd 8]
   /\ 0 <= 8)
  /\ Kqueue.accept_loop 1 Sample.one_slot_taken w
     = Kqueue.accept_loop 0 Sample.one_slot_taken (after_refusal w 8 []).
Proof.
  intros w.
  assert (H1 : kq_reachable Sample.os 1 Sample.one_slot_taken)
    by exact one_slot_taken_reachable.
  assert (H2 : Kqueue.num_active Sample.one_slot_taken = Z.of_nat 1)
    by (vm_compute; reflexivity).
  assert (H3 : accept_script w = [AcceptFd 8]) by reflexivity.
  assert (H4 : 0 <= 8) by lia.
  split; [repeat split; assumption|].
  exact (proj1 (proj2 (C5_pool_never_exceeds_capacity Sample.os 1))
           Sample.one_slot_taken w 8 [] 0%nat H1 H2 H3 H4).
Defined.

(* ===================================================================== *)
(** ** C6: accounting of the pool *)
(* ===================================================================== *)

(** C6 as stated fails in its last part: releasing a record does not reset
    its logical counters. The record that answered a request keeps its
    request and response sizes when it goes back on the free list. *)
Lemma C6_release_keeps_the_counters :
  let s := fst (Kqueue.free_connection Sample.one_slot_answering 0
                  (with_scripts [] [] [])) in
  kq_reachable Sample.os 1 Sample.one_slot_answering
  /\ Kqueue.free_list s = [0%nat]
  /\ exists conn,
       Kqueue.connections s !! 0%nat = Some conn
       /\ Kqueue.request_size conn = 28
       /\ Kqueue.response_size conn = 108
       /\ Kqueue.request_size conn <> 0.
Proof.
  intros s. split; [exact one_slot_answering_reachable|].
  split; [vm_compute; reflexivity|].
  destruct (Kqueue.connections s !! 0%nat) as [conn|] eqn:E.
  - exists conn. split; [reflexivity|].
    assert (H : Kqueue.request_size conn = 28 /\ Kqueue.response_size conn = 108).
    { vm_compute in E. inversion E. split; reflexivity. }
    destruct H as [H1 H2]. rewrite H1, H2. repeat split; discriminate || reflexivity.
  - vm_compute in E. discriminate.
Qed.

(** C6, amended. In every reachable state of the kqueue server, active count
    plus free-list length equals the capacity [n], and the array holds [n]
    records; allocate and release keep both. No record is created or
    destroyed: allocate takes the head of the free list and resets the
    logical counters of that record in place, keeping its buffers; release
    closes the descriptors, calls no allocator, keeps the buffers and leaves
    the counters as they are, and pushes the record back on the free list. *)
Theorem C6_pool_accounting :
  forall (os : OS) (n : nat) (s : Kqueue.Server),
    kq_reachable os n s ->
    (Kqueue.num_active s + Z.of_nat (length (Kqueue.free_list s)) = Z.of_nat n
     /\ length (Kqueue.connections s) = n)
    /\ (forall i s',
          Kqueue.alloc_connection s = (Some i, s') ->
          Kqueue.num_active s' + Z.of_nat (length (Kqueue.free_list s')) = Z.of_nat n
          /\ length (Kqueue.connections s') = n
          /\ Kqueue.free_list s = i :: Kqueue.free_list s'
          /\ exists conn,
               Kqueue.connections s !! i = Some conn
               /\ Kqueue.connections s' !! i = Some (Kqueue.reset_connection conn)
               /\ Kqueue.request_buffer (Kqueue.reset_connection conn)
                  = Kqueue.request_buffer conn
               /\ Kqueue.response_buffer (Kqueue.reset_connection conn)
                  = Kqueue.response_buffer conn
               /\ Kqueue.request_size (Kqueue.reset_connection conn) = 0
               /\ Kqueue.response_size (Kqueue.reset_connection conn) = 0
               /\ Kqueue.response_sent (Kqueue.reset_connection conn) = 0)
    /\ (forall s',
          Kqueue.alloc_connection s = (None, s') ->
          s' = s /\ Kqueue.num_active s = Z.of_nat n)
    /\ (forall i w,
          (i < n)%nat -> ~ In i (Kqueue.free_list s) ->
          let s' := fst (Kqueue.free_connection s i w) in
          let w' := snd (Kqueue.free_connection s i w) in
          Kqueue.num_active s' + Z.of_nat (length (Kqueue.free_list s')) = Z.of_nat n
          /\ length (Kqueue.connections s') = n
          /\ Kqueue.free_list s' = i :: Kqueue.free_list s
          /\ malloc_script w' = malloc_script w
          /\ exists conn conn',
               Kqueue.connections s !! i = Some conn
               /\ Kqueue.connections s' !! i = Some conn'
               /\ Kqueue.fd conn' < 0 /\ Kqueue.file_fd conn' < 0
               /\ Kqueue.request_buffer conn' = Kqueue.request_buffer conn
               /\ Kqueue.response_buffer conn' = Kqueue.response_buffer conn
               /\ Kqueue.request_size conn' = Kqueue.request_size conn
               /\ Kqueue.response_size conn' = Kqueue.response_size conn
               /\ Kqueue.response_sent conn' = Kqueue.response_sent conn).
Proof.
  intros os n s Hr. pose proof (kq_reachable_ok os n s Hr) as Hok.
  pose proof Hok as [[Hlen [Hnd [Hlt Hcnt]]] Hconn].
  split; [split; assumption|]. split; [|split].
  - intros i s' Ha.
    destruct (kq_alloc_some n s i s' Hok Ha)
      as ([[Hlen' [Hnd' [Hlt' Hcnt']]] _] & Hfl & Hi & Hfree & Hact & Hcs).
    split; [assumption|]. split; [assumption|]. split; [assumption|].
    destruct (Kqueue.connections s !! i) as [conn|] eqn:Ec.
    2:{ apply lookup_ge_None in Ec. lia. }
    exists conn. split; [reflexivity|]. split.
    { rewrite Hcs, list_lookup_alter_eq, Ec. reflexivity. }
    repeat split; reflexivity.
  - intros s' Ha. apply kq_alloc_none in Ha as [-> Hnil]. split; [reflexivity|].
    rewrite Hnil in Hcnt. simpl in Hcnt. lia.
  - intros i w Hi Hfree s' w'.
    destruct (kq_free_ok n s i w Hok Hi Hfree)
      as ([[Hlen' [Hnd' [Hlt' Hcnt']]] _] & Hfl & Hact).
    split; [exact Hcnt'|]. split; [exact Hlen'|]. split; [exact Hfl|].
    split; [apply kq_free_accepts|].
    subst s'. unfold Kqueue.free_connection.
    destruct (Kqueue.connections s !! i) as [conn|] eqn:Ec.
    2:{ apply lookup_ge_None in Ec. lia. }
    unfold bind.
    pose proof (kq_release_fds_spec conn w) as Hrel. cbv zeta in Hrel.
    destruct (Kqueue.release_fds conn w) as [conn' w1]. simpl in Hrel.
    exists conn, conn'. split; [reflexivity|]. split.
    { simpl. apply list_lookup_insert_eq. apply lookup_lt_Some in Ec. exact Ec. }
    tauto.
Qed.

Lemma C6_pool_accounting_witness :
  kq_reachable Sample.os 1 Sample.one_slot_taken
  /\ (Kqueue.num_active Sample.one_slot_taken
      + Z.of_nat (length (Kqueue.free_list Sample.one_slot_taken)) = Z.of_nat 1
      /\ length (Kqueue.connections Sample.one_slot_taken) = 1%nat).
Proof.
  assert (H : kq_reachable Sample.os 1 Sample.one_slot_taken)
    by exact one_slot_taken_reachable.
  split; [exact H|].
  exact (proj1 (C6_pool_accounting Sample.os 1 Sample.one_slot_taken H)).
Defined.

(* ===================================================================== *)
(** ** C7: the transmitter under short writes *)
(* ===================================================================== *)

Lemma substring_of_substring (s : string) (off n m : nat) :
  (m <= n)%nat ->
  String.substring 0 m (String.substring off n s) = String.substring off m s.
Proof.
  revert off n m; induction s as [|c s IH]; intros off n m Hle.
  - destruct off, n, m; reflexivity.
  - destruct off as [|off].
    + destruct n as [|n]; destruct m as [|m]; simpl; try reflexivity; try lia.
      f_equal. apply (IH 0%nat). lia.
    + simpl. apply IH. exact Hle.
Qed.

Lemma wire_send fd data n e tr :
  0 < n ->
  wire fd (SysSend fd data n e :: tr)
  = wire fd tr +:+ String.substring 0 (Z.to_nat n) data.
Proof.
  intros Hn. simpl. rewrite Z.eqb_refl.
  destruct (0 <? n) eqn:E; [reflexivity | apply Z.ltb_ge in E; lia].
Qed.

(** What one [send] of a non-empty block does under an accepting answer. *)
Lemma send_accept fd data k rest (w : World) :
  send_script w = SendAccept k :: rest ->
  (0 < k)%nat -> data <> EmptyString ->
  exists n w',
    Sys.send fd data w = (n, EINTR, w')
    /\ 0 < n <= strlen data /\ n <= Z.of_nat k
    /\ (n = strlen data \/ n = Z.of_nat k)
    /\ send_script w' = rest
    /\ trace w' = SysSend fd data n EINTR :: trace w
    /\ recv_script w' = recv_script w.
Proof.
  intros Hs Hk Hd. unfold Sys.send, bind, next_send. rewrite Hs.
  unfold log, ret. cbn [trace send_script recv_script].
  eexists _, _. split; [reflexivity|].
  assert (0 < String.length data)%nat by (destruct data; [congruence | simpl; lia]).
  unfold strlen. repeat split; try reflexivity; lia.
Qed.
Lemma kq_file_step os conn sock ffd body off k rest (w : World) :
  serves os ffd body -> 0 <= ffd ->
  kq_file_phase conn sock ffd (strlen body) off ->
  0 <= off < strlen body ->
  send_script w = SendAccept k :: rest -> (0 < k)%nat ->
  exists rc conn' w' sent,
    Kqueue.send_file_part os conn w = (rc, conn', w')
    /\ 0 < sent <= strlen body - off
    /\ kq_file_phase conn' sock ffd (strlen body) (off + sent)
    /\ rc = (if strlen body <=? off + sent then -1 else 0)
    /\ send_script w' = rest
    /\ wire sock (trace w')
       = wire sock (trace w) +:+ String.substring (Z.to_nat off) (Z.to_nat sent) body
    /\ (Forall (fun e => pread_bounded Kqueue.kResponseBufferSize e = true) (trace w) ->
        Forall (fun e => pread_bounded Kqueue.kResponseBufferSize e = true) (trace w')).
Proof.
  intros Hserve Hffd (Hst & Hfd & Hffd' & Hsz & Hoff) Hrange Hs Hk.
  unfold Kqueue.send_file_part.
  rewrite Hst, Hffd', Hsz, Hoff.
  change (Kqueue.state_eqb Kqueue.STATE_SENDING_FILE Kqueue.STATE_SENDING_FILE) with true.
  destruct (0 <=? ffd) eqn:E1; [|apply Z.leb_gt in E1; lia]. cbn [andb].
  set (to_read := if strlen body <? off + Kqueue.kResponseBufferSize
                  then strlen body - off else Kqueue.kResponseBufferSize).
  assert (Hto : 0 < to_read <= strlen body - off /\ to_read <= Kqueue.kResponseBufferSize).
  { unfold to_read, Kqueue.kResponseBufferSize.
    destruct (strlen body <? off + 32768) eqn:E; [apply Z.ltb_lt in E | apply Z.ltb_ge in E]; lia. }
  destruct (to_read =? 0) eqn:E2; [apply Z.eqb_eq in E2; lia|].
  unfold bind at 1. unfold Sys.pread. rewrite Hserve by lia.
  rewrite substring_of_substring by lia.
  set (chunk := String.substring (Z.to_nat off) (Z.to_nat to_read) body).
  assert (Hchunk : strlen chunk = to_read).
  { unfold chunk, strlen. rewrite substring_length. unfold strlen in *. lia. }
  rewrite Hchunk. unfold bind at 1, log at 1, ret at 1.
  destruct (to_read <=? 0) eqn:E3; [apply Z.leb_le in E3; lia|].
  rewrite (substring_0_all chunk) by (unfold strlen in Hchunk; lia).
  unfold bind at 1.
  match goal with |- context [Sys.send ?a chunk ?w0] =>
    destruct (send_accept a chunk k rest w0) as (n & w' & Hsend & Hn & Hnk & Hcase & Hrest & Htr & _);
    [exact Hs | exact Hk | intros Hc; rewrite Hc in Hchunk; unfold strlen in Hchunk; simpl in Hchunk; lia |]
  end.
  rewrite Hsend.
  destruct (n <=? 0) eqn:E4; [apply Z.leb_le in E4; lia|].
  exists (if strlen body <=? off + n then -1 else 0).
  eexists _, w', n.
  split.
  { cbn [Kqueue.file_size Kqueue.file_offset Kqueue.set_file_offset Kqueue.set_response_buffer].
    rewrite Hsz, Hoff. destruct (strlen body <=? off + n); reflexivity. }
  split; [lia|]. split.
  { repeat split; cbn; rewrite ?Hoff; auto. }
  split; [reflexivity|]. split; [exact Hrest|]. split.
  - rewrite Htr. cbn [Kqueue.fd Kqueue.set_response_buffer]. rewrite Hfd.
    rewrite wire_send by lia. cbn [trace wire]. f_equal.
    unfold chunk. apply substring_of_substring. lia.
  - intros Hall. rewrite Htr. constructor; [reflexivity|].
    cbn [trace]. constructor; [|exact Hall].
    cbn [pread_bounded]. apply andb_true_intro. split; apply Z.leb_le; lia.
Qed.

Lemma substring_n_0 (s : string) (n : nat) : String.substring n 0 s = EmptyString.
Proof.
  revert n; induction s as [|c s IH]; intros [|n]; simpl; try reflexivity. apply IH.
Qed.

Lemma kq_header_step conn sock ffd header sent size k rest (w : World) :
  kq_header_phase conn sock ffd header sent size ->
  0 <= sent < strlen header -> strlen header < SIZE_MAX1 ->
  send_script w = SendAccept k :: rest -> (0 < k)%nat ->
  exists n r conn' w',
    Kqueue.send_header_part conn w = (r, conn', w')
    /\ 0 < n <= strlen header - sent
    /\ send_script w' = rest
    /\ wire sock (trace w')
       = wire sock (trace w) +:+ String.substring (Z.to_nat sent) (Z.to_nat n) header
    /\ (Forall (fun e => pread_bounded Kqueue.kResponseBufferSize e = true) (trace w) ->
        Forall (fun e => pread_bounded Kqueue.kResponseBufferSize e = true) (trace w'))
    /\ ((sent + n < strlen header /\ r = None
         /\ kq_header_phase conn' sock ffd header (sent + n) size)
        \/ (sent + n = strlen header /\ 0 <= ffd /\ r = None
            /\ kq_file_phase conn' sock ffd size 0)
        \/ (sent + n = strlen header /\ ffd < 0 /\ r = Some (-1))).
Proof.
  intros (Hst & Hfd & Hbuf & Hsz & Hsent & Hffd & Hoff & Hfsz) Hrange Hmax Hs Hk.
  unfold Kqueue.send_header_part. rewrite Hst.
  change (Kqueue.state_eqb Kqueue.STATE_SENDING_HEADER Kqueue.STATE_SENDING_HEADER) with true.
  cbv iota. rewrite Hbuf, Hsz, Hsent, Hfd. cbn [default from_option id].
  rewrite Z.mod_small by (unfold SIZE_MAX1 in *; lia).
  set (data := String.substring (Z.to_nat sent) (Z.to_nat (strlen header - sent)) header).
  assert (Hdata : strlen data = strlen header - sent).
  { unfold data, strlen. rewrite substring_length. unfold strlen in *. lia. }
  unfold bind at 1.
  destruct (send_accept sock data k rest w) as (n & w' & Hsend & Hn & Hnk & Hcase & Hrest & Htr & _);
    [exact Hs | exact Hk | intros Hc; rewrite Hc in Hdata; unfold strlen in *; simpl in Hdata; lia |].
  rewrite Hsend.
  destruct (n <=? 0) eqn:E4; [apply Z.leb_le in E4; lia|].
  cbn [Kqueue.response_size Kqueue.response_sent Kqueue.set_response_sent Kqueue.file_fd].
  rewrite Hsz, Hffd.
  assert (Hwire : wire sock (trace w')
       = wire sock (trace w) +:+ String.substring (Z.to_nat sent) (Z.to_nat n) header).
  { rewrite Htr, wire_send by lia. f_equal. unfold data.
    apply substring_of_substring. lia. }
  assert (Hpre : Forall (fun e => pread_bounded Kqueue.kResponseBufferSize e = true) (trace w) ->
        Forall (fun e => pread_bounded Kqueue.kResponseBufferSize e = true) (trace w')).
  { intros Hall. rewrite Htr. constructor; [reflexivity | exact Hall]. }
  destruct (strlen header <=? sent + n) eqn:E5.
  - apply Z.leb_le in E5. destruct (0 <=? ffd) eqn:E6.
    + apply Z.leb_le in E6. exists n. eexists _, _, w'.
      split; [reflexivity|]. split; [lia|]. split; [exact Hrest|].
      split; [exact Hwire|]. split; [exact Hpre|].
      right. left. split; [lia|]. split; [lia|]. split; [reflexivity|].
      repeat split; cbn; auto.
    + apply Z.leb_gt in E6. exists n. eexists _, _, w'.
      split; [reflexivity|]. split; [lia|]. split; [exact Hrest|].
      split; [exact Hwire|]. split; [exact Hpre|].
      right. right. split; [lia|]. split; [lia|]. reflexivity.
  - apply Z.leb_gt in E5. exists n. eexists _, _, w'.
    split; [reflexivity|]. split; [lia|]. split; [exact Hrest|].
    split; [exact Hwire|]. split; [exact Hpre|].
    left. split; [lia|]. split; [reflexivity|].
    repeat split; cbn; auto.
Qed.

Lemma kq_write_in_file_phase os srv conn sock ffd size off (w : World) :
  kq_file_phase conn sock ffd size off ->
  Kqueue.handle_write_event os srv conn w
  = let '(rc, conn', w') := Kqueue.send_file_part os conn w in (rc, srv, conn', w').
Proof.
  intros (Hst & _). unfold Kqueue.handle_write_event, Kqueue.send_response,
    Kqueue.send_header_part. rewrite Hst.
  change (Kqueue.state_eqb Kqueue.STATE_SENDING_FILE Kqueue.STATE_SENDING_HEADER) with false.
  change (Kqueue.state_eqb Kqueue.STATE_SENDING_FILE Kqueue.STATE_SENDING_FILE) with true.
  cbn [orb]. unfold bind, ret. cbn [fst snd].
  destruct (Kqueue.send_file_part os conn w) as [[rc c'] w']. reflexivity.
Qed.

Lemma kq_drive_S os fuel srv conn (w : World) :
  kq_drive os (S fuel) srv conn w
  = let '(rc, srv', conn', w') := Kqueue.handle_write_event os srv conn w in
    if rc <? 0 then (true, conn', w') else kq_drive os fuel srv' conn' w'.
Proof.
  cbn [kq_drive]. unfold bind.
  destruct (Kqueue.handle_write_event os srv conn w) as [[[rc srv'] conn'] w'].
  destruct (rc <? 0); reflexivity.
Qed.

(** The file body goes out whole, whatever the sizes of the writes. *)
Lemma kq_drive_file os srv sock ffd body :
  serves os ffd body -> 0 <= ffd ->
  forall fuel conn off (w : World),
    kq_file_phase conn sock ffd (strlen body) off ->
    0 <= off <= strlen body ->
    Forall accepts_some (send_script w) ->
    strlen body - off <= Z.of_nat (length (send_script w)) ->
    1 <= Z.of_nat fuel -> strlen body - off <= Z.of_nat fuel ->
    exists conn' w',
      kq_drive os fuel srv conn w = (true, conn', w')
      /\ wire sock (trace w')
         = wire sock (trace w)
           +:+ String.substring (Z.to_nat off) (Z.to_nat (strlen body - off)) body
      /\ (Forall (fun e => pread_bounded Kqueue.kResponseBufferSize e = true) (trace w) ->
          Forall (fun e => pread_bounded Kqueue.kResponseBufferSize e = true) (trace w')).
Proof.
  intros Hserve Hffd. induction fuel as [|fuel IH];
    intros conn off w Hphase Hoff Hall Hlen Hfuel1 Hfuel; [lia|].
  rewrite kq_drive_S, (kq_write_in_file_phase os srv conn sock ffd (strlen body) off w Hphase).
  destruct (Z.eq_dec off (strlen body)) as [Heq|Hne].
  - (* nothing left: the handler asks for tear-down *)
    destruct Hphase as (Hst & Hfd & Hffd' & Hsz & Hoff').
    unfold Kqueue.send_file_part. rewrite Hst, Hffd', Hsz, Hoff'.
    change (Kqueue.state_eqb Kqueue.STATE_SENDING_FILE Kqueue.STATE_SENDING_FILE) with true.
    destruct (0 <=? ffd) eqn:E1; [|apply Z.leb_gt in E1; lia]. cbn [andb].
    assert (E2 : (strlen body <? off + Kqueue.kResponseBufferSize) = true)
      by (apply Z.ltb_lt; unfold Kqueue.kResponseBufferSize; lia).
    rewrite E2.
    assert (E3 : (strlen body - off =? 0) = true) by (apply Z.eqb_eq; lia).
    rewrite E3. unfold ret. cbn [Z.ltb]. 
    change (-1 <? 0) with true. cbv iota.
    exists conn, w. split; [reflexivity|]. split; [|tauto].
    replace (strlen body - off) with 0 by lia.
    rewrite substring_n_0. now rewrite append_nil_r.
  - destruct (send_script w) as [|a rest] eqn:Hs; [simpl in Hlen; lia|].
    inversion Hall as [|? ? Ha Hrest]; subst.
    destruct a as [k|e]; [|contradiction]. simpl in Ha.
    destruct (kq_file_step os conn sock ffd body off k rest w Hserve Hffd Hphase)
      as (rc & conn' & w' & sent & Hstep & Hsent & Hphase' & Hrc & Hrest' & Hwire & Hpre);
      [lia | exact Hs | exact Ha |].
    rewrite Hstep.
    destruct (strlen body <=? off + sent) eqn:E.
    + apply Z.leb_le in E. subst rc. change (-1 <? 0) with true. cbv iota.
      exists conn', w'. split; [reflexivity|]. split; [|exact Hpre].
      rewrite Hwire. replace (strlen body - off) with sent by lia. reflexivity.
    + apply Z.leb_gt in E. subst rc. change (0 <? 0) with false. cbv iota.
      destruct (IH conn' (off + sent) w' Hphase') as (conn2 & w2 & Hdrive & Hwire2 & Hpre2).
      * lia.
      * now rewrite Hrest'.
      * rewrite Hrest'. simpl in Hlen. lia.
      * lia.
      * lia.
      * exists conn2, w2. split; [exact Hdrive|]. split; [|tauto].
        rewrite Hwire2, Hwire, append_assoc. f_equal.
        replace (Z.to_nat (off + sent)) with (Z.to_nat off + Z.to_nat sent)%nat by lia.
        rewrite substring_split. f_equal. lia.
Qed.

Lemma kq_write_in_header_phase os srv conn sock ffd header sent size (w : World) :
  kq_header_phase conn sock ffd header sent size ->
  Kqueue.handle_write_event os srv conn w
  = let '(r, conn1, w1) := Kqueue.send_header_part conn w in
    match r with
    | Some v => (v, srv, conn1, w1)
    | None =>
        let '(rc, conn', w') := Kqueue.send_file_part os conn1 w1 in
        (rc, srv, conn', w')
    end.
Proof.
  intros (Hst & _). unfold Kqueue.handle_write_event, Kqueue.send_response.
  rewrite Hst.
  change (Kqueue.state_eqb Kqueue.STATE_SENDING_HEADER Kqueue.STATE_SENDING_HEADER) with true.
  cbn [orb]. unfold bind, ret.
  destruct (Kqueue.send_header_part conn w) as [[[v|] conn1] w1]; cbn [fst snd].
  - reflexivity.
  - destruct (Kqueue.send_file_part os conn1 w1) as [[rc c'] w']. reflexivity.
Qed.

Lemma kq_file_part_in_header_phase os conn sock ffd header sent size (w : World) :
  kq_header_phase conn sock ffd header sent size ->
  Kqueue.send_file_part os conn w = (0, conn, w).
Proof.
  intros (Hst & _). unfold Kqueue.send_file_part. rewrite Hst. reflexivity.
Qed.

Lemma kq_file_part_at_end os conn sock ffd size (w : World) :
  kq_file_phase conn sock ffd size size -> 0 <= ffd -> 0 <= size ->
  Kqueue.send_file_part os conn w = (-1, conn, w).
Proof.
  intros (Hst & Hfd & Hffd' & Hsz & Hoff') Hffd Hsize.
  unfold Kqueue.send_file_part. rewrite Hst, Hffd', Hsz, Hoff'.
  change (Kqueue.state_eqb Kqueue.STATE_SENDING_FILE Kqueue.STATE_SENDING_FILE) with true.
  destruct (0 <=? ffd) eqn:E1; [|apply Z.leb_gt in E1; lia]. cbn [andb].
  assert (E2 : (size <? size + Kqueue.kResponseBufferSize) = true)
    by (apply Z.ltb_lt; unfold Kqueue.kResponseBufferSize; lia).
  rewrite E2.
  assert (E3 : (size - size =? 0) = true) by (apply Z.eqb_eq; lia).
  rewrite E3. reflexivity.
Qed.

(** Header, then body: everything goes out once and in order. *)
Lemma kq_drive_header_file os srv sock ffd header body :
  serves os ffd body -> 0 <= ffd -> strlen header < SIZE_MAX1 ->
  forall fuel conn sent (w : World),
    kq_header_phase conn sock ffd header sent (strlen body) ->
    0 <= sent < strlen header ->
    Forall accepts_some (send_script w) ->
    strlen header - sent + strlen body <= Z.of_nat (length (send_script w)) ->
    strlen header - sent + strlen body <= Z.of_nat fuel ->
    exists conn' w',
      kq_drive os fuel srv conn w = (true, conn', w')
      /\ wire sock (trace w')
         = wire sock (trace w)
           +:+ String.substring (Z.to_nat sent) (Z.to_nat (strlen header - sent)) header
           +:+ body
      /\ (Forall (fun e => pread_bounded Kqueue.kResponseBufferSize e = true) (trace w) ->
          Forall (fun e => pread_bounded Kqueue.kResponseBufferSize e = true) (trace w')).
Proof.
  intros Hserve Hffd Hmax. pose proof (strlen_nonneg body) as Hb.
  induction fuel as [|fuel IH];
    intros conn sent w Hphase Hsent Hall Hlen Hfuel; [lia|].
  rewrite kq_drive_S,
    (kq_write_in_header_phase os srv conn sock ffd header sent (strlen body) w Hphase).
  destruct (send_script w) as [|a rest] eqn:Hs; [simpl in Hlen; lia|].
  inversion Hall as [|? ? Ha Hrest]; subst.
  destruct a as [k|e]; [|contradiction]. simpl in Ha. simpl in Hlen.
  destruct (kq_header_step conn sock ffd header sent (strlen body) k rest w Hphase Hsent Hmax Hs Ha)
    as (n & r & conn1 & w1 & Hstep & Hn & Hrest1 & Hwire1 & Hpre1 & Hcase).
  rewrite Hstep.
  destruct Hcase as [(Hlt & -> & Hphase1) | [(Heq & _ & -> & Hphase1) | (Heq & Hneg & _)]];
    [| | lia].
  - (* part of the header went out *)
    rewrite (kq_file_part_in_header_phase os conn1 sock ffd header (sent + n) (strlen body) w1 Hphase1).
    change (0 <? 0) with false. cbv iota.
    destruct (IH conn1 (sent + n) w1 Hphase1) as (conn2 & w2 & Hdrive & Hwire2 & Hpre2).
    + lia.
    + now rewrite Hrest1.
    + rewrite Hrest1. lia.
    + lia.
    + exists conn2, w2. split; [exact Hdrive|]. split; [|tauto].
      rewrite Hwire2, Hwire1. rewrite !append_assoc. f_equal.
      rewrite <- append_assoc. f_equal.
      replace (Z.to_nat (sent + n)) with (Z.to_nat sent + Z.to_nat n)%nat by lia.
      rewrite substring_split. f_equal. lia.
  - (* the header is out: the same call starts on the file *)
    assert (Hhead : wire sock (trace w1)
       = wire sock (trace w)
         +:+ String.substring (Z.to_nat sent) (Z.to_nat (strlen header - sent)) header).
    { rewrite Hwire1. do 2 f_equal. lia. }
    destruct (Z.eq_dec (strlen body) 0) as [Hz|Hnz].
    + rewrite (kq_file_part_at_end os conn1 sock ffd (strlen body) w1) by
        (try lia; rewrite Hz in *; exact Hphase1).
      change (-1 <? 0) with true. cbv iota.
      exists conn1, w1. split; [reflexivity|]. split; [|exact Hpre1].
      rewrite Hhead. assert (body = EmptyString) as ->.
      { destruct body; [reflexivity | unfold strlen in Hz; simpl in Hz; lia]. }
      now rewrite append_nil_r.
    + destruct rest as [|a' rest'] eqn:Hr; [simpl in Hlen; lia|].
      inversion Hrest as [|? ? Ha' Hrest']; subst.
      destruct a' as [k'|e']; [|contradiction]. simpl in Ha'. simpl in Hlen.
      destruct (kq_file_step os conn1 sock ffd body 0 k' rest' w1 Hserve Hffd Hphase1)
        as (rc & conn2 & w2 & fsent & Hfstep & Hfsent & Hphase2 & Hrc & Hrest2 & Hwire2 & Hpre2);
        [lia | exact Hrest1 | exact Ha' |].
      rewrite Hfstep.
      destruct (strlen body <=? 0 + fsent) eqn:E.
      * apply Z.leb_le in E. subst rc. change (-1 <? 0) with true. cbv iota.
        exists conn2, w2. split; [reflexivity|]. split; [|tauto].
        rewrite Hwire2, Hhead, append_assoc. do 2 f_equal.
        change (Z.to_nat 0) with 0%nat. apply substring_0_all.
        unfold strlen in *. lia.
      * apply Z.leb_gt in E. subst rc. change (0 <? 0) with false. cbv iota.
        destruct (kq_drive_file os srv sock ffd body Hserve Hffd fuel conn2 (0 + fsent) w2 Hphase2)
          as (conn3 & w3 & Hdrive & Hwire3 & Hpre3).
        -- lia.
        -- now rewrite Hrest2.
        -- rewrite Hrest2. lia.
        -- lia.
        -- lia.
        -- exists conn3, w3. split; [exact Hdrive|]. split; [|tauto].
           rewrite Hwire3, Hwire2, Hhead. rewrite !append_assoc. do 2 f_equal.
           change (Z.to_nat 0) with 0%nat.
           replace (Z.to_nat (0 + fsent)) with (0 + Z.to_nat fsent)%nat by lia.
           rewrite substring_split.
           apply substring_0_all. unfold strlen in *. lia.
Qed.


(* ===================================================================== *)
(** ** C7, kqueue server *)
(* ===================================================================== *)

Lemma kq_drive_whole_response os srv conn sock ffd header body (w : World) :
  serves os ffd body -> 0 <= ffd ->
  0 < strlen header < SIZE_MAX1 ->
  kq_header_phase conn sock ffd header 0 (strlen body) ->
  Forall accepts_some (send_script w) ->
  strlen header + strlen body <= Z.of_nat (length (send_script w)) ->
  exists conn' w',
    kq_drive os (Z.to_nat (strlen header + strlen body)) srv conn w = (true, conn', w')
    /\ wire sock (trace w') = wire sock (trace w) +:+ header +:+ body
    /\ (Forall (fun e => pread_bounded Kqueue.kResponseBufferSize e = true) (trace w) ->
        Forall (fun e => pread_bounded Kqueue.kResponseBufferSize e = true) (trace w')).
Proof.
  intros Hserve Hffd Hh Hphase Hall Hlen.
  pose proof (strlen_nonneg body) as Hb.
  destruct (kq_drive_header_file os srv sock ffd header body Hserve Hffd (proj2 Hh)
              (Z.to_nat (strlen header + strlen body)) conn 0 w Hphase)
    as (conn' & w' & Hdrive & Hwire & Hpre); try lia; try assumption.
  exists conn', w'. split; [exact Hdrive|]. split; [|exact Hpre].
  rewrite Hwire. do 2 f_equal. change (Z.to_nat 0) with 0%nat.
  apply substring_0_all. unfold strlen in *. lia.
Qed.

(* ===================================================================== *)
(** ** C7, select server *)
(* ===================================================================== *)

Lemma aio_close_client_spec client sock (w : World) :
  let r := Aio.close_client client w in
  Aio.fd (fst r) < 0
  /\ send_script (snd r) = send_script w
  /\ wire sock (trace (snd r)) = wire sock (trace w)
  /\ bytes_sent (trace (snd r)) = bytes_sent (trace w)
  /\ forall cap, bounded_preads cap (trace w) -> bounded_preads cap (trace (snd r)).
Proof.
  destruct client, w. unfold Aio.close_client, bounded_preads. io_unfold. simpl.
  repeat (case_match; simpl in *; simplify_eq);
    repeat split; try lia; try reflexivity; intros;
    repeat (constructor; [reflexivity|]); assumption.
Qed.

Lemma aio_header_step os srv client sock ffd header sent size k rest (w : World) :
  aio_header_phase client sock ffd header sent size ->
  0 <= sent < strlen header -> strlen header < SIZE_MAX1 ->
  send_script w = SendAccept k :: rest -> (0 < k)%nat ->
  exists n srv' client' w',
    Aio.handle_client_write os srv client w = (srv', client', w')
    /\ 0 < n <= strlen header - sent
    /\ send_script w' = rest
    /\ wire sock (trace w')
       = wire sock (trace w) +:+ String.substring (Z.to_nat sent) (Z.to_nat n) header
    /\ (forall cap, bounded_preads cap (trace w) -> bounded_preads cap (trace w'))
    /\ ((sent + n < strlen header
         /\ aio_header_phase client' sock ffd header (sent + n) size)
        \/ (sent + n = strlen header /\ 0 <= ffd
            /\ aio_file_phase client' sock ffd size 0)
        \/ (sent + n = strlen header /\ ffd < 0 /\ Aio.fd client' < 0)).
Proof.
  intros (Hfd & Hbuf & Hsz & Hsent & Hffd & Hoff & Hfsz) Hrange Hmax Hs Hk.
  unfold Aio.handle_client_write. rewrite Hbuf, Hsz, Hsent, Hfd.
  rewrite Z.mod_small by (unfold SIZE_MAX1 in *; lia).
  set (data := String.substring (Z.to_nat sent) (Z.to_nat (strlen header - sent)) header).
  assert (Hdata : strlen data = strlen header - sent).
  { unfold data, strlen. rewrite substring_length. unfold strlen in *. lia. }
  unfold bind at 1.
  destruct (send_accept sock data k rest w) as (n & w' & Hsend & Hn & Hnk & Hcase & Hrest & Htr & _);
    [exact Hs | exact Hk | intros Hc; rewrite Hc in Hdata; unfold strlen in *; simpl in Hdata; lia |].
  rewrite Hsend.
  destruct (n <=? 0) eqn:E4; [apply Z.leb_le in E4; lia|].
  cbn [Aio.response_size Aio.response_sent Aio.set_response_sent Aio.file_fd
       Aio.set_response_buffer].
  rewrite Hsz, Hffd.
  assert (Hwire : wire sock (trace w')
       = wire sock (trace w) +:+ String.substring (Z.to_nat sent) (Z.to_nat n) header).
  { rewrite Htr, wire_send by lia. f_equal. unfold data.
    apply substring_of_substring. lia. }
  assert (Hpre : forall cap, bounded_preads cap (trace w) -> bounded_preads cap (trace w')).
  { intros cap Hall. unfold bounded_preads. rewrite Htr. constructor; [reflexivity | exact Hall]. }
  destruct (strlen header <=? sent + n) eqn:E5.
  - apply Z.leb_le in E5. destruct (0 <=? ffd) eqn:E6.
    + apply Z.leb_le in E6. exists n. eexists _, _, w'.
      split; [reflexivity|]. split; [lia|]. split; [exact Hrest|].
      split; [exact Hwire|]. split; [exact Hpre|].
      right. left. split; [lia|]. split; [lia|].
      repeat split; cbn; auto.
    + apply Z.leb_gt in E6. unfold bind, ret.
      match goal with |- context [Aio.close_client ?c w'] =>
        pose proof (aio_close_client_spec c sock w') as Hclose; cbv zeta in Hclose;
        destruct (Aio.close_client c w') as [c2 w2] end.
      simpl in Hclose. destruct Hclose as (Hc1 & Hc2 & Hc3 & Hc4 & Hc5).
      exists n. eexists _, _, w2.
      split; [reflexivity|]. split; [lia|]. split; [congruence|].
      split; [congruence|]. split; [auto|].
      right. right. split; [lia|]. split; [lia|]. exact Hc1.
  - apply Z.leb_gt in E5. exists n. eexists _, _, w'.
    split; [reflexivity|]. split; [lia|]. split; [exact Hrest|].
    split; [exact Hwire|]. split; [exact Hpre|].
    left. split; [lia|].
    repeat split; cbn; auto.
Qed.

Lemma aio_file_step os srv client sock ffd body off k rest (w : World) :
  serves os ffd body -> 0 <= ffd ->
  aio_file_phase client sock ffd (strlen body) off ->
  0 <= off < strlen body ->
  send_script w = SendAccept k :: rest -> (0 < k)%nat ->
  exists sent srv' client' w',
    Aio.handle_client_write os srv client w = (srv', client', w')
    /\ 0 < sent <= strlen body - off
    /\ send_script w' = rest
    /\ wire sock (trace w')
       = wire sock (trace w) +:+ String.substring (Z.to_nat off) (Z.to_nat sent) body
    /\ (bounded_preads Aio.kResponseBufferSize (trace w) ->
        bounded_preads Aio.kResponseBufferSize (trace w'))
    /\ ((off + sent < strlen body
         /\ aio_file_phase client' sock ffd (strlen body) (off + sent))
        \/ (off + sent = strlen body /\ Aio.fd client' < 0)).
Proof.
  intros Hserve Hffd (Hfd & Hbuf & Hffd' & Hsz & Hoff) Hrange Hs Hk.
  unfold Aio.handle_client_write.
  rewrite Hbuf, Hffd', Hsz, Hoff, Hfd.
  destruct (0 <=? ffd) eqn:E1; [|apply Z.leb_gt in E1; lia].
  set (to_read := if strlen body <? off + Aio.kResponseBufferSize
                  then strlen body - off else Aio.kResponseBufferSize).
  assert (Hto : 0 < to_read <= strlen body - off /\ to_read <= Aio.kResponseBufferSize).
  { unfold to_read, Aio.kResponseBufferSize.
    destruct (strlen body <? off + 65536) eqn:E; [apply Z.ltb_lt in E | apply Z.ltb_ge in E]; lia. }
  destruct (to_read =? 0) eqn:E2; [apply Z.eqb_eq in E2; lia|].
  unfold bind at 1. unfold Sys.pread. rewrite Hserve by lia.
  rewrite substring_of_substring by lia.
  set (chunk := String.substring (Z.to_nat off) (Z.to_nat to_read) body).
  assert (Hchunk : strlen chunk = to_read).
  { unfold chunk, strlen. rewrite substring_length. unfold strlen in *. lia. }
  rewrite Hchunk. unfold bind at 1, log at 1, ret at 1.
  destruct (to_read <=? 0) eqn:E3; [apply Z.leb_le in E3; lia|].
  rewrite (substring_0_all chunk) by (unfold strlen in Hchunk; lia).
  unfold bind at 1.
  match goal with |- context [Sys.send ?a chunk ?w0] =>
    destruct (send_accept a chunk k rest w0) as (n & w' & Hsend & Hn & Hnk & Hcase & Hrest & Htr & _);
    [exact Hs | exact Hk | intros Hc; rewrite Hc in Hchunk; unfold strlen in *; simpl in Hchunk; lia |]
  end.
  rewrite Hsend.
  destruct (n <=? 0) eqn:E4; [apply Z.leb_le in E4; lia|].
  cbn [Aio.file_size Aio.file_offset Aio.set_file_offset]. rewrite ?Hsz, ?Hoff.
  assert (Hwire : wire sock (trace w')
       = wire sock (trace w) +:+ String.substring (Z.to_nat off) (Z.to_nat n) body).
  { rewrite Htr, wire_send by lia. cbn [trace wire]. f_equal.
    unfold chunk. apply substring_of_substring. lia. }
  assert (Hpre : bounded_preads Aio.kResponseBufferSize (trace w) ->
        bounded_preads Aio.kResponseBufferSize (trace w')).
  { intros Hall. unfold bounded_preads. rewrite Htr. constructor; [reflexivity|].
    cbn [trace]. constructor; [|exact Hall].
    cbn [pread_bounded]. apply andb_true_intro. split; apply Z.leb_le; lia. }
  destruct (strlen body <=? off + n) eqn:E5.
  - apply Z.leb_le in E5. unfold bind, ret.
    match goal with |- context [Aio.close_client ?c w'] =>
      pose proof (aio_close_client_spec c sock w') as Hclose; cbv zeta in Hclose;
      destruct (Aio.close_client c w') as [c2 w2] end.
    simpl in Hclose. destruct Hclose as (Hc1 & Hc2 & Hc3 & Hc4 & Hc5).
    exists n. eexists _, _, w2.
    split; [reflexivity|]. split; [lia|]. split; [congruence|].
    split; [congruence|]. split; [auto|].
    right. split; [lia | exact Hc1].
  - apply Z.leb_gt in E5. exists n. eexists _, _, w'.
    split; [reflexivity|]. split; [lia|]. split; [exact Hrest|].
    split; [exact Hwire|]. split; [exact Hpre|].
    left. split; [lia|]. repeat split; cbn; auto.
Qed.

Lemma aio_file_end os srv client sock ffd size (w : World) :
  aio_file_phase client sock ffd size size -> 0 <= ffd -> 0 <= size ->
  exists srv' client' w',
    Aio.handle_client_write os srv client w = (srv', client', w')
    /\ Aio.fd client' < 0
    /\ send_script w' = send_script w
    /\ wire sock (trace w') = wire sock (trace w)
    /\ (forall cap, bounded_preads cap (trace w) -> bounded_preads cap (trace w')).
Proof.
  intros (Hfd & Hbuf & Hffd' & Hsz & Hoff) Hffd Hsize.
  unfold Aio.handle_client_write. rewrite Hbuf, Hffd', Hsz, Hoff.
  destruct (0 <=? ffd) eqn:E1; [|apply Z.leb_gt in E1; lia].
  assert (E2 : (size <? size + Aio.kResponseBufferSize) = true)
    by (apply Z.ltb_lt; unfold Aio.kResponseBufferSize; lia).
  rewrite E2.
  assert (E3 : (size - size =? 0) = true) by (apply Z.eqb_eq; lia).
  rewrite E3. unfold bind, ret.
  pose proof (aio_close_client_spec client sock w) as Hclose. cbv zeta in Hclose.
  destruct (Aio.close_client client w) as [c2 w2]. simpl in Hclose.
  destruct Hclose as (Hc1 & Hc2 & Hc3 & Hc4 & Hc5).
  eexists _, _, w2. split; [reflexivity|]. auto.
Qed.

Lemma aio_drive_S os fuel srv client (w : World) :
  aio_drive os (S fuel) srv client w
  = let '(srv', client', w') := Aio.handle_client_write os srv client w in
    if Aio.fd client' <? 0 then (true, srv', client', w')
    else aio_drive os fuel srv' client' w'.
Proof.
  cbn [aio_drive]. unfold bind.
  destruct (Aio.handle_client_write os srv client w) as [[srv' client'] w'].
  destruct (Aio.fd client' <? 0); reflexivity.
Qed.

Lemma aio_drive_file os sock ffd body :
  serves os ffd body -> 0 <= ffd -> 0 <= sock ->
  forall fuel srv client off (w : World),
    aio_file_phase client sock ffd (strlen body) off ->
    0 <= off <= strlen body ->
    Forall accepts_some (send_script w) ->
    strlen body - off <= Z.of_nat (length (send_script w)) ->
    1 <= Z.of_nat fuel -> strlen body - off <= Z.of_nat fuel ->
    exists srv' client' w',
      aio_drive os fuel srv client w = (true, srv', client', w')
      /\ wire sock (trace w')
         = wire sock (trace w)
           +:+ String.substring (Z.to_nat off) (Z.to_nat (strlen body - off)) body
      /\ (bounded_preads Aio.kResponseBufferSize (trace w) ->
          bounded_preads Aio.kResponseBufferSize (trace w')).
Proof.
  intros Hserve Hffd Hsock. induction fuel as [|fuel IH];
    intros srv client off w Hphase Hoff Hall Hlen Hfuel1 Hfuel; [lia|].
  rewrite aio_drive_S.
  destruct (Z.eq_dec off (strlen body)) as [Heq|Hne].
  - subst off.
    destruct (aio_file_end os srv client sock ffd (strlen body) w Hphase Hffd)
      as (srv' & client' & w' & Hstep & Hclosed & Hscript & Hwire & Hpre); [lia|].
    rewrite Hstep.
    destruct (Aio.fd client' <? 0) eqn:E; [|apply Z.ltb_ge in E; lia].
    exists srv', client', w'. split; [reflexivity|]. split; [|auto].
    rewrite Hwire, Z.sub_diag. change (Z.to_nat 0) with 0%nat.
    rewrite substring_n_0. now rewrite append_nil_r.
  - destruct (send_script w) as [|a rest] eqn:Hs; [simpl in Hlen; lia|].
    inversion Hall as [|? ? Ha Hrest]; subst.
    destruct a as [k|e]; [|contradiction]. simpl in Ha. simpl in Hlen.
    destruct (aio_file_step os srv client sock ffd body off k rest w Hserve Hffd Hphase)
      as (sent & srv' & client' & w' & Hstep & Hsent & Hrest' & Hwire & Hpre & Hcase);
      [lia | exact Hs | exact Ha |].
    rewrite Hstep.
    destruct Hcase as [(Hlt & Hphase') | (Heq & Hclosed)].
    + destruct (Aio.fd client' <? 0) eqn:E.
      { apply Z.ltb_lt in E. destruct Hphase' as (Hfd' & _). lia. }
      destruct (IH srv' client' (off + sent) w' Hphase') as (srv2 & client2 & w2 & Hdrive & Hwire2 & Hpre2).
      * lia.
      * now rewrite Hrest'.
      * rewrite Hrest'. lia.
      * lia.
      * lia.
      * exists srv2, client2, w2. split; [exact Hdrive|]. split; [|tauto].
        rewrite Hwire2, Hwire, append_assoc. f_equal.
        replace (Z.to_nat (off + sent)) with (Z.to_nat off + Z.to_nat sent)%nat by lia.
        rewrite substring_split. f_equal. lia.
    + destruct (Aio.fd client' <? 0) eqn:E; [|apply Z.ltb_ge in E; lia].
      exists srv', client', w'. split; [reflexivity|]. split; [|exact Hpre].
      rewrite Hwire. do 2 f_equal. lia.
Qed.

Lemma aio_drive_header_file os sock ffd header body :
  serves os ffd body -> 0 <= ffd -> 0 <= sock -> strlen header < SIZE_MAX1 ->
  forall fuel srv client sent (w : World),
    aio_header_phase client sock ffd header sent (strlen body) ->
    0 <= sent < strlen header ->
    Forall accepts_some (send_script w) ->
    strlen header - sent + strlen body <= Z.of_nat (length (send_script w)) ->
    strlen header - sent + strlen body + 1 <= Z.of_nat fuel ->
    exists srv' client' w',
      aio_drive os fuel srv client w = (true, srv', client', w')
      /\ wire sock (trace w')
         = wire sock (trace w)
           +:+ String.substring (Z.to_nat sent) (Z.to_nat (strlen header - sent)) header
           +:+ body
      /\ (bounded_preads Aio.kResponseBufferSize (trace w) ->
          bounded_preads Aio.kResponseBufferSize (trace w')).
Proof.
  intros Hserve Hffd Hsock Hmax. pose proof (strlen_nonneg body) as Hb.
  induction fuel as [|fuel IH];
    intros srv client sent w Hphase Hsent Hall Hlen Hfuel; [lia|].
  rewrite aio_drive_S.
  destruct (send_script w) as [|a rest] eqn:Hs; [simpl in Hlen; lia|].
  inversion Hall as [|? ? Ha Hrest]; subst.
  destruct a as [k|e]; [|contradiction]. simpl in Ha. simpl in Hlen.
  destruct (aio_header_step os srv client sock ffd header sent (strlen body) k rest w
              Hphase Hsent Hmax Hs Ha)
    as (n & srv' & client' & w' & Hstep & Hn & Hrest' & Hwire & Hpre & Hcase).
  rewrite Hstep.
  destruct Hcase as [(Hlt & Hphase') | [(Heq & _ & Hphase') | (Heq & Hneg & _)]];
    [| | lia].
  - destruct (Aio.fd client' <? 0) eqn:E.
    { apply Z.ltb_lt in E. destruct Hphase' as (Hfd' & _). lia. }
    destruct (IH srv' client' (sent + n) w' Hphase') as (srv2 & client2 & w2 & Hdrive & Hwire2 & Hpre2).
    + lia.
    + now rewrite Hrest'.
    + rewrite Hrest'. lia.
    + lia.
    + exists srv2, client2, w2. split; [exact Hdrive|]. split; [|auto].
      rewrite Hwire2, Hwire. rewrite !append_assoc. f_equal.
      rewrite <- append_assoc. f_equal.
      replace (Z.to_nat (sent + n)) with (Z.to_nat sent + Z.to_nat n)%nat by lia.
      rewrite substring_split. f_equal. lia.
  - destruct (Aio.fd client' <? 0) eqn:E.
    { apply Z.ltb_lt in E. destruct Hphase' as (Hfd' & _). lia. }
    destruct (aio_drive_file os sock ffd body Hserve Hffd Hsock fuel srv' client' 0 w' Hphase')
      as (srv2 & client2 & w2 & Hdrive & Hwire2 & Hpre2).
    + lia.
    + now rewrite Hrest'.
    + rewrite Hrest'. lia.
    + lia.
    + lia.
    + exists srv2, client2, w2. split; [exact Hdrive|]. split; [|auto].
      rewrite Hwire2, Hwire. rewrite !append_assoc. do 2 f_equal; [f_equal; lia|].
      change (Z.to_nat 0) with 0%nat. apply substring_0_all. unfold strlen in *. lia.
Qed.

(** C7. For every schedule of writes in which each [send] accepts at least
    one byte, possibly fewer than requested, and that is long enough to carry
    the response, both transmitters deliver the header followed by the file
    exactly once: starting from a prepared response (header in the buffer,
    nothing sent, file at offset 0), the write handler is run until it asks
    for tear-down, which it does within the stated number of write events;
    the bytes the socket accepted are then exactly those accepted before,
    followed by the header, followed by the file body, with no byte repeated
    or missing. Every [pread] on the way asks for at most one chunk
    ([kResponseBufferSize] bytes) and returns no more. *)
Theorem C7_short_writes_deliver_the_response_once :
  forall (os : OS) (sock ffd : Z) (header body : string) (w : World),
    serves os ffd body ->
    0 <= ffd -> 0 <= sock ->
    0 < strlen header < SIZE_MAX1 ->
    Forall accepts_some (send_script w) ->
    strlen header + strlen body <= Z.of_nat (length (send_script w)) ->
    (forall server conn,
       kq_header_phase conn sock ffd header 0 (strlen body) ->
       exists conn' w',
         kq_drive os (Z.to_nat (strlen header + strlen body)) server conn w
         = (true, conn', w')
         /\ wire sock (trace w') = wire sock (trace w) +:+ header +:+ body
         /\ (bounded_preads Kqueue.kResponseBufferSize (trace w) ->
             bounded_preads Kqueue.kResponseBufferSize (trace w')))
    /\ (forall server client,
          aio_header_phase client sock ffd header 0 (strlen body) ->
          exists server' client' w',
            aio_drive os (Z.to_nat (strlen header + strlen body + 1)) server client w
            = (true, server', client', w')
            /\ wire sock (trace w') = wire sock (trace w) +:+ header +:+ body
            /\ (bounded_preads Aio.kResponseBufferSize (trace w) ->
                bounded_preads Aio.kResponseBufferSize (trace w'))).
Proof.
  intros os sock ffd header body w Hserve Hffd Hsock Hh Hall Hlen.
  pose proof (strlen_nonneg body) as Hb.
  assert (Hfull : String.substring (Z.to_nat 0) (Z.to_nat (strlen header - 0)) header = header).
  { change (Z.to_nat 0) with 0%nat. apply substring_0_all. unfold strlen in *. lia. }
  split.
  - intros server conn Hphase.
    destruct (kq_drive_whole_response os server conn sock ffd header body w
                Hserve Hffd Hh Hphase Hall Hlen) as (conn' & w' & H1 & H2 & H3).
    exists conn', w'. auto.
  - intros server client Hphase.
    destruct (aio_drive_header_file os sock ffd header body Hserve Hffd Hsock (proj2 Hh)
                (Z.to_nat (strlen header + strlen body + 1)) server client 0 w Hphase)
      as (srv' & client' & w' & H1 & H2 & H3); try lia; try assumption.
    exists srv', client', w'. split; [exact H1|]. split; [|exact H3].
    rewrite H2, Hfull. reflexivity.
Qed.

Lemma sample_serves_index : serves Sample.os 5 Sample.index_html.
Proof.
  intros count off Hoff Hcount.
  cbv [pread Sample.os TableFS.os_of TableFS.t_pread].
  replace (TableFS.entry Sample.files 5) with (Some (TableFS.File Sample.index_html))
    by (vm_compute; reflexivity).
  destruct (off <? 0) eqn:E; [apply Z.ltb_lt in E; lia | reflexivity].
Qed.

Lemma accepts_some_replicate n k :
  (0 < k)%nat -> Forall accepts_some (replicate n (SendAccept k)).
Proof. intros Hk. induction n; simpl; constructor; auto. Qed.

Lemma C7_short_writes_witness :
  let header := text_200 37 "text/html" in
  let w := with_scripts [] (replicate 150 (SendAccept 7)) [] in
  let conn :=
    snd (fst (Kqueue.handle_read_event Sample.os Sample.kq_server (Sample.kq_conn 7)
                (with_scripts [RecvData Sample.get_index] [] []))) in
  (serves Sample.os 5 Sample.index_html
   /\ 0 <= 5 /\ 0 <= 7
   /\ 0 < strlen header < SIZE_MAX1
   /\ Forall accepts_some (send_script w)
   /\ strlen header + strlen Sample.index_html <= Z.of_nat (length (send_script w)))
  /\ kq_header_phase conn 7 5 header 0 (strlen Sample.index_html)
  /\ exists conn' w',
       kq_drive Sample.os (Z.to_nat (strlen header + strlen Sample.index_html))
         Sample.kq_server conn w = (true, conn', w')
       /\ wire 7 (trace w') = wire 7 (trace w) +:+ header +:+ Sample.index_html.
Proof.
  intros header w conn.
  assert (H1 : serves Sample.os 5 Sample.index_html) by exact sample_serves_index.
  assert (H2 : 0 <= 5) by lia.
  assert (H3 : 0 <= 7) by lia.
  assert (H4 : 0 < strlen header < SIZE_MAX1) by (vm_compute; split; reflexivity).
  assert (H5 : Forall accepts_some (send_script w))
    by (apply accepts_some_replicate; lia).
  assert (H6 : strlen header + strlen Sample.index_html
               <= Z.of_nat (length (send_script w)))
    by (vm_compute; discriminate).
  assert (H7 : kq_header_phase conn 7 5 header 0 (strlen Sample.index_html))
    by (vm_compute; repeat split; reflexivity).
  split; [repeat split; try assumption; apply H4|].
  split; [exact H7|].
  destruct (proj1 (C7_short_writes_deliver_the_response_once Sample.os 7 5 header
                     Sample.index_html w H1 H2 H3 H4 H5 H6) Sample.kq_server conn H7)
    as (conn' & w' & Hd & Hw & _).
  exists conn', w'. split; [exact Hd | exact Hw].
Defined.

(* ===================================================================== *)
(** ** C8: failures of the transport *)
(* ===================================================================== *)

Lemma silent_ret {A} (a : A) : silent (ret a).
Proof. intros w. exists []. split; [reflexivity | constructor]. Qed.

Lemma silent_bind {A B} (m : IO A) (k : A -> IO B) :
  silent m -> (forall a, silent (k a)) -> silent (bind m k).
Proof.
  intros Hm Hk w. unfold bind. destruct (Hm w) as (n1 & H1 & F1).
  destruct (m w) as [a w1]. simpl in H1.
  destruct (Hk a w1) as (n2 & H2 & F2).
  exists (n2 ++ n1). split.
  - rewrite H2, H1. now rewrite app_assoc.
  - apply Forall_app. split; assumption.
Qed.

Lemma silent_log e : fatal e = false -> silent (log e).
Proof.
  intros He w. exists [e]. split; [reflexivity | now constructor].
Qed.

Lemma silent_next_malloc : silent next_malloc.
Proof.
  intros w. exists []. split; [|constructor].
  unfold next_malloc. destruct (malloc_script w); reflexivity.
Qed.

Lemma silent_next_kevent : silent next_kevent.
Proof.
  intros w. exists []. split; [|constructor].
  unfold next_kevent. destruct (kevent_script w); reflexivity.
Qed.

Lemma silent_if {A} (b : bool) (m1 m2 : IO A) :
  silent m1 -> silent m2 -> silent (if b then m1 else m2).
Proof. destruct b; auto. Qed.

Ltac silent_tac :=
  repeat first
    [ apply silent_ret
    | apply silent_next_malloc
    | apply silent_next_kevent
    | apply silent_log; reflexivity
    | apply silent_bind; [|intros ?]
    | apply silent_if
    | match goal with
      | |- silent (match ?x with _ => _ end) => destruct x
      | |- silent (let '(_, _) := ?x in _) => destruct x
      end ].





Lemma silent_pread os fd count off : silent (Sys.pread os fd count off).
Proof. unfold Sys.pread. silent_tac. Qed.








Lemma fails_last_mono new (P Q : Prop) :
  (P -> Q) -> fails_last new P -> fails_last new Q.
Proof.
  intros HPQ [H | (q & e & rest & H1 & H2 & H3 & H4 & H5)]; [now left|].
  right. exists q, e, rest. repeat split; auto.
Qed.

Lemma recv_trace fd room (w : World) :
  trace (snd (Sys.recv fd room w))
  = SysRecv fd room (fst (fst (fst (Sys.recv fd room w))))
      (snd (fst (fst (Sys.recv fd room w)))) :: trace w.
Proof.
  unfold Sys.recv, bind, next_recv, log, ret.
  destruct (recv_script w) as [|[bs| |e] rest]; reflexivity.
Qed.

Lemma send_trace fd data (w : World) :
  trace (snd (Sys.send fd data w))
  = SysSend fd data (fst (fst (Sys.send fd data w)))
      (snd (fst (Sys.send fd data w))) :: trace w.
Proof.
  unfold Sys.send, bind, next_send, log, ret.
  destruct (send_script w) as [|[k|e] rest]; reflexivity.
Qed.
















(* ===================================================================== *)
(** ** C4: the statistics counters *)
(* ===================================================================== *)

Lemma memcpy_whole (text : string) (cap : Z) :
  strlen text < cap ->
  memcpy (String.substring 0 (Z.to_nat (cap - 1)) text) (strlen text) = text.
Proof.
  intros H. unfold memcpy, strlen in *.
  rewrite substring_of_substring by lia. apply substring_0_all. lia.
Qed.

Lemma kq_start_sending_buffer conn bytes len (w : World) :
  Kqueue.response_buffer (snd (fst (Kqueue.start_sending conn bytes len w)))
  = Some (memcpy bytes len).
Proof.
  unfold Kqueue.start_sending, bind.
  destruct (Sys.kevent _ w) as [[|] w']; reflexivity.
Qed.

Lemma kq_ensure_buffer conn (w : World) :
  match fst (Kqueue.ensure_response_buffer conn w) with
  | Some conn' => True
  | None => Kqueue.response_buffer conn = None
  end.
Proof.
  unfold Kqueue.ensure_response_buffer.
  destruct (Kqueue.response_buffer conn); [exact I|].
  unfold bind. destruct (Sys.malloc w) as [[|] w']; simpl; auto.
Qed.

(** An error answer never leaves a 200 in the buffer. *)
Lemma kq_prepare_error_not_200 conn code (w : World) :
  code = 400 \/ code = 404 \/ code = 413 \/ code = 500 ->
  is_200 (Kqueue.response_buffer
            (snd (fst (Kqueue.prepare_error_response conn code w)))) = false.
Proof.
  intros Hcode. unfold Kqueue.prepare_error_response.
  assert (Hf : exists text,
    (if code =? 400 then Some (snprintf Kqueue.kHeaderBufferSize Kqueue.text_400)
     else if code =? 404 then Some (http_build_404 EmptyString Kqueue.kHeaderBufferSize)
     else if code =? 413 then Some (snprintf Kqueue.kHeaderBufferSize Kqueue.text_413)
     else if code =? 500 then Some (snprintf Kqueue.kHeaderBufferSize Kqueue.text_500)
     else None)
    = Some (strlen text, String.substring 0 (Z.to_nat (Kqueue.kHeaderBufferSize - 1)) text)
    /\ 0 < strlen text < Kqueue.kHeaderBufferSize
    /\ String.prefix "HTTP/1.1 200" text = false).
  { destruct Hcode as [ -> | [ -> | [ -> | -> ] ] ].
    - exists Kqueue.text_400. split; [reflexivity|]. vm_compute. repeat split; reflexivity.
    - exists text_404. split; [reflexivity|]. vm_compute. repeat split; reflexivity.
    - exists Kqueue.text_413. split; [reflexivity|]. vm_compute. repeat split; reflexivity.
    - exists Kqueue.text_500. split; [reflexivity|]. vm_compute. repeat split; reflexivity. }
  destruct Hf as (text & Hf & Hlen & Hpre). rewrite Hf. clear Hf.
  destruct (strlen text <=? 0) eqn:E1; [apply Z.leb_le in E1; lia|].
  destruct (Kqueue.kHeaderBufferSize <=? strlen text) eqn:E2; [apply Z.leb_le in E2; lia|].
  cbn [orb]. unfold bind.
  pose proof (kq_ensure_buffer conn w) as He.
  destruct (Kqueue.ensure_response_buffer conn w) as [[conn'|] w']; cbn [fst] in He.
  - rewrite kq_start_sending_buffer. rewrite memcpy_whole by lia. exact Hpre.
  - cbn [fst snd ret]. unfold ret. cbn [fst snd]. rewrite He. reflexivity.
Qed.

Lemma kq_answer_error_not_200 srv conn code (w : World) :
  code = 400 \/ code = 404 \/ code = 413 \/ code = 500 ->
  let r := Kqueue.answer_error srv conn code w in
  is_200 (Kqueue.response_buffer (snd (fst r))) = false
  /\ snd (fst (fst r)) = srv.
Proof.
  intros Hcode. cbv zeta. unfold Kqueue.answer_error, bind, ret.
  pose proof (kq_prepare_error_not_200 conn code w Hcode) as H.
  destruct (Kqueue.prepare_error_response conn code w) as [[rc c'] w'].
  split; [exact H | reflexivity].
Qed.

Lemma text_200_is_200 size ctype : String.prefix "HTTP/1.1 200" (text_200 size ctype) = true.
Proof. reflexivity. Qed.

(** A file response that was prepared leaves a 200 in the buffer. *)
Lemma kq_prepare_file_200 os conn p (w : World) :
  let r := Kqueue.prepare_file_response os conn p w in
  0 <= fst (fst r) -> is_200 (Kqueue.response_buffer (snd (fst r))) = true.
Proof.
  cbv zeta. unfold Kqueue.prepare_file_response, bind.
  destruct (Sys.open os p w) as [ffd w1].
  destruct (Kqueue.file_fd _ <? 0); [cbn; lia|].
  destruct (fstat os _) as [st|].
  2:{ destruct (Sys.close _ w1) as [[] w2]. cbn. lia. }
  unfold http_build_200.
  change (Kqueue.kHeaderBufferSize =? 0) with false. cbv iota.
  unfold checked_snprintf.
  set (text := text_200 (st_size st) (http_guess_type p)).
  destruct ((strlen text <? 0) || (Kqueue.kHeaderBufferSize <=? strlen text)) eqn:E.
  { cbv beta iota. change (-1 <? 0) with true. cbv beta iota.
    destruct (Sys.close _ w1) as [[] w2]. cbn. lia. }
  apply orb_false_elim in E as [E1 E2]. apply Z.leb_gt in E2.
  cbv beta iota. rewrite E1.
  destruct (Kqueue.ensure_response_buffer _ w1) as [[conn'|] w2].
  - intros _. rewrite kq_start_sending_buffer, memcpy_whole by lia.
    apply text_200_is_200.
  - destruct (Sys.close _ w2) as [[] w3]. cbn. lia.
Qed.

(** The request counter of the kqueue server moves exactly when a 200 was
    prepared. *)
Lemma kq_process_request_counts os srv conn (w : World) :
  let r := Kqueue.process_request os srv conn w in
  Kqueue.total_requests (snd (fst (fst r)))
  = (if is_200 (Kqueue.response_buffer (snd (fst r)))
     then (Kqueue.total_requests srv + 1) mod SIZE_MAX1
     else Kqueue.total_requests srv)
  /\ Kqueue.total_bytes_sent (snd (fst (fst r))) = Kqueue.total_bytes_sent srv
  /\ Kqueue.total_connections (snd (fst (fst r))) = Kqueue.total_connections srv.
Proof.
  cbv zeta.
  assert (Herr : forall c code w0,
    code = 400 \/ code = 404 \/ code = 413 \/ code = 500 ->
    let r := Kqueue.answer_error srv c code w0 in
    Kqueue.total_requests (snd (fst (fst r)))
    = (if is_200 (Kqueue.response_buffer (snd (fst r)))
       then (Kqueue.total_requests srv + 1) mod SIZE_MAX1
       else Kqueue.total_requests srv)
    /\ Kqueue.total_bytes_sent (snd (fst (fst r))) = Kqueue.total_bytes_sent srv
    /\ Kqueue.total_connections (snd (fst (fst r))) = Kqueue.total_connections srv).
  { intros c code w0 Hcode. cbv zeta.
    destruct (kq_answer_error_not_200 srv c code w0 Hcode) as [H1 H2].
    rewrite H1, H2. auto. }
  unfold Kqueue.process_request.
  destruct (http_parse_request _ _ _) as [parsed request].
  destruct (parsed <=? 0); [apply Herr; auto|].
  destruct (http_safe_join _ _ _ _ _) as [joined file_path].
  destruct (joined <? 0); [apply Herr; auto|].
  destruct (stat os file_path) as [st|]; [|apply Herr; auto].
  destruct (negb (st_isreg st)); [apply Herr; auto|].
  unfold bind.
  pose proof (kq_prepare_file_200 os conn file_path w) as H200. cbv zeta in H200.
  destruct (Kqueue.prepare_file_response os conn file_path w) as [[rc c'] w'].
  cbn [fst snd] in *. destruct (rc <? 0) eqn:E.
  - apply Herr. auto 10.
  - apply Z.ltb_ge in E. unfold ret. cbn [fst snd]. rewrite (H200 E). auto.
Qed.

Lemma aio_read_counts os srv client (w : World) :
  let r := Aio.handle_client_read os srv client w in
  Aio.total_requests (fst (fst r))
  = (if aio_read_completes client w
     then (Aio.total_requests srv + 1) mod SIZE_MAX1
     else Aio.total_requests srv)
  /\ Aio.total_bytes_sent (fst (fst r)) = Aio.total_bytes_sent srv.
Proof.
  cbv zeta. unfold Aio.handle_client_read, aio_read_completes, bind.
  destruct (Sys.recv _ _ w) as [[[n errno] got] w1].
  destruct (n <=? 0) eqn:E.
  - apply Z.leb_le in E.
    destruct (0 <? n) eqn:E'; [apply Z.ltb_lt in E'; lia|]. cbn [andb].
    destruct ((n <? 0) && would_block errno); [split; reflexivity|].
    destruct (Aio.close_client client w1) as [c' w2]. split; reflexivity.
  - apply Z.leb_gt in E.
    destruct (0 <? n) eqn:E'; [|apply Z.ltb_ge in E'; lia]. cbn [andb].
    destruct (strstr _ _).
    + destruct (Aio.process_http_request _ _ _ w1) as [c' w2]. split; reflexivity.
    + split; reflexivity.
Qed.

Lemma bytes_sent_send fd data n e tr :
  bytes_sent (SysSend fd data n e :: tr) = (if 0 <? n then n else 0) + bytes_sent tr.
Proof. reflexivity. Qed.

Ltac count_zero :=
  match goal with |- context [0 <? ?y - ?x] =>
    replace (0 <? y - x) with false by (symmetry; apply Z.ltb_ge; lia)
  end; split; reflexivity.

Ltac count_pos n :=
  match goal with |- context [0 <? ?y - ?x] =>
    replace (y - x) with n by lia;
    replace (0 <? n) with true by (symmetry; apply Z.ltb_lt; lia)
  end; split; reflexivity.

Lemma aio_write_counts os srv client (w : World) :
  let r := Aio.handle_client_write os srv client w in
  let delta := bytes_sent (trace (snd r)) - bytes_sent (trace w) in
  Aio.total_bytes_sent (fst (fst r))
  = (if 0 <? delta then (Aio.total_bytes_sent srv + delta) mod SIZE_MAX1
     else Aio.total_bytes_sent srv)
  /\ Aio.total_requests (fst (fst r)) = Aio.total_requests srv.
Proof.
  cbv zeta. unfold Aio.handle_client_write, bind, ret.
  destruct (Aio.response_buffer client) as [buf|].
  - match goal with |- context [Sys.send ?a ?b w] =>
      pose proof (send_trace a b w) as Htr;
      destruct (Sys.send a b w) as [[n errno] w1] end.
    cbn [fst snd] in Htr.
    assert (Hb : bytes_sent (trace w1) = (if 0 <? n then n else 0) + bytes_sent (trace w))
      by (rewrite Htr; reflexivity).
    destruct (n <=? 0) eqn:E.
    + apply Z.leb_le in E.
      destruct (0 <? n) eqn:E'; [apply Z.ltb_lt in E'; lia|].
      destruct ((n <? 0) && would_block errno).
      * cbn [fst snd]. count_zero.
      * pose proof (aio_close_client_spec client 0 w1) as Hcl. cbv zeta in Hcl.
        destruct (Aio.close_client client w1) as [c' wc]. cbn [fst snd] in *.
        destruct Hcl as (_ & _ & _ & Hcl & _).
        count_zero.
    + apply Z.leb_gt in E.
      destruct (0 <? n) eqn:E'; [|apply Z.ltb_ge in E'; lia].
      match goal with |- context [if ?b then _ else _] => destruct b end.
      * match goal with |- context [if ?b then _ else _] => destruct b end.
        -- cbn [fst snd]. count_pos n.
        -- match goal with |- context [Aio.close_client ?c w1] =>
             pose proof (aio_close_client_spec c 0 w1) as Hcl; cbv zeta in Hcl;
             destruct (Aio.close_client c w1) as [c' wc] end.
           cbn [fst snd] in *. destruct Hcl as (_ & _ & _ & Hcl & _).
           count_pos n.
      * cbn [fst snd]. count_pos n.
  - destruct (0 <=? Aio.file_fd client).
    2:{ cbn [fst snd]. count_zero. }
    match goal with |- context [if ?b then _ else _] => destruct b end.
    { pose proof (aio_close_client_spec client 0 w) as Hcl. cbv zeta in Hcl.
      destruct (Aio.close_client client w) as [c' wc]. cbn [fst snd] in *.
      destruct Hcl as (_ & _ & _ & Hcl & _).
      count_zero. }
    assert (Hbp : bytes_sent (trace (snd (Sys.pread os (Aio.file_fd client)
                    (if Aio.file_size client <? Aio.file_offset client + Aio.kResponseBufferSize
                     then Aio.file_size client - Aio.file_offset client
                     else Aio.kResponseBufferSize) (Aio.file_offset client) w)))
                  = bytes_sent (trace w)).
    { unfold Sys.pread, bind, log, ret. destruct (pread os _ _ _); reflexivity. }
    destruct (Sys.pread os _ _ _ w) as [[n buffer] w1]. cbn [snd] in Hbp.
    destruct (n <=? 0).
    { pose proof (aio_close_client_spec client 0 w1) as Hcl. cbv zeta in Hcl.
      destruct (Aio.close_client client w1) as [c' wc]. cbn [fst snd] in *.
      destruct Hcl as (_ & _ & _ & Hcl & _).
      count_zero. }
    match goal with |- context [Sys.send ?a ?b w1] =>
      pose proof (send_trace a b w1) as Htr;
      destruct (Sys.send a b w1) as [[sent errno] w2] end.
    cbn [fst snd] in Htr.
    assert (Hb : bytes_sent (trace w2) = (if 0 <? sent then sent else 0) + bytes_sent (trace w))
      by (rewrite Htr, bytes_sent_send, Hbp; reflexivity).
    destruct (sent <=? 0) eqn:E.
    + apply Z.leb_le in E.
      destruct (0 <? sent) eqn:E'; [apply Z.ltb_lt in E'; lia|].
      destruct ((sent <? 0) && would_block errno).
      * cbn [fst snd]. count_zero.
      * pose proof (aio_close_client_spec client 0 w2) as Hcl. cbv zeta in Hcl.
        destruct (Aio.close_client client w2) as [c' wc]. cbn [fst snd] in *.
        destruct Hcl as (_ & _ & _ & Hcl & _).
        count_zero.
    + apply Z.leb_gt in E.
      destruct (0 <? sent) eqn:E'; [|apply Z.ltb_ge in E'; lia].
      match goal with |- context [if ?b then _ else _] => destruct b end.
      * match goal with |- context [Aio.close_client ?c w2] =>
          pose proof (aio_close_client_spec c 0 w2) as Hcl; cbv zeta in Hcl;
          destruct (Aio.close_client c w2) as [c' wc] end.
        cbn [fst snd] in *. destruct Hcl as (_ & _ & _ & Hcl & _).
        count_pos sent.
      * cbn [fst snd]. count_pos sent.
Qed.


(* --------------------------------------------------------------------- *)
(** * The counters take no part in control *)

Lemma kq_same_control_refl s : kq_same_control s s.
Proof. repeat split. Qed.

Lemma kq_free_control s1 s2 i (w : World) :
  kq_same_control s1 s2 ->
  kq_same_run (Kqueue.free_connection s1 i w) (Kqueue.free_connection s2 i w).
Proof.
  intros (Hkq & Hl & Hroot & Hconns & Hfree & Hact).
  unfold Kqueue.free_connection. rewrite Hconns.
  destruct (Kqueue.connections s2 !! i) as [conn|].
  - unfold bind. destruct (Kqueue.release_fds conn w) as [conn' w'].
    unfold ret, kq_same_run, kq_same_control. cbn.
    rewrite Hkq, Hl, Hroot, Hfree, Hact. repeat split.
  - unfold ret, kq_same_run, kq_same_control. cbn. repeat split; assumption.
Qed.

Lemma kq_close_control s1 s2 i (w : World) :
  kq_same_control s1 s2 ->
  kq_same_run (Kqueue.close_connection s1 i w) (Kqueue.close_connection s2 i w).
Proof.
  intros H. pose proof H as (Hkq & Hl & Hroot & Hconns & Hfree & Hact).
  unfold Kqueue.close_connection. rewrite Hconns.
  destruct (Kqueue.connections s2 !! i) as [conn|].
  - unfold bind.
    match goal with |- context [(if ?b then ?x else ?y) w] =>
      destruct ((if b then x else y) w) as [[] w'] end.
    apply kq_free_control, H.
  - split; [exact H | reflexivity].
Qed.

Lemma kq_set_connections_control s1 s2 cs :
  kq_same_control s1 s2 ->
  kq_same_control (Kqueue.set_connections s1 cs) (Kqueue.set_connections s2 cs).
Proof.
  intros (Hkq & Hl & Hroot & Hconns & Hfree & Hact).
  unfold kq_same_control. cbn. repeat split; assumption.
Qed.

Lemma kq_alloc_control s1 s2 :
  kq_same_control s1 s2 ->
  fst (Kqueue.alloc_connection s1) = fst (Kqueue.alloc_connection s2)
  /\ kq_same_control (snd (Kqueue.alloc_connection s1)) (snd (Kqueue.alloc_connection s2)).
Proof.
  intros H. pose proof H as (Hkq & Hl & Hroot & Hconns & Hfree & Hact).
  unfold Kqueue.alloc_connection. rewrite Hfree.
  destruct (Kqueue.free_list s2) as [|i rest]; cbn [fst snd].
  - split; [reflexivity | exact H].
  - split; [reflexivity|]. unfold kq_same_control. cbn.
    rewrite Hkq, Hl, Hroot, Hconns, Hact. repeat split.
Qed.

Lemma kq_setup_control s1 s2 i new_fd (w : World) :
  kq_same_control s1 s2 ->
  kq_same_run (Kqueue.setup_connection s1 i new_fd w)
              (Kqueue.setup_connection s2 i new_fd w).
Proof.
  intros H. pose proof H as (Hkq & Hl & Hroot & Hconns & Hfree & Hact).
  unfold Kqueue.setup_connection. rewrite Hconns.
  destruct (Kqueue.connections s2 !! i) as [conn|]; [|split; [exact H | reflexivity]].
  unfold bind.
  destruct (Sys.configure new_fd w) as [[] w1].
  match goal with |- context [match Kqueue.request_buffer ?c with _ => _ end] =>
    destruct ((match Kqueue.request_buffer c with
               | Some _ => ret (Some c)
               | None => fun w => _
               end) w1) as [oc w2] end.
  destruct oc as [conn'|].
  - destruct (Sys.kevent new_fd w2) as [ok w3]. destruct ok.
    + split; [apply kq_set_connections_control, H | reflexivity].
    + apply kq_close_control, kq_set_connections_control, H.
  - destruct (Sys.close new_fd w2) as [[] w3].
    apply kq_free_control, kq_set_connections_control, H.
Qed.

Lemma kq_accept_loop_control fuel : forall s1 s2 (w : World),
  kq_same_control s1 s2 ->
  kq_same_run (Kqueue.accept_loop fuel s1 w) (Kqueue.accept_loop fuel s2 w).
Proof.
  induction fuel as [|fuel IH]; intros s1 s2 w H.
  - split; [exact H | reflexivity].
  - cbn [Kqueue.accept_loop]. unfold bind.
    destruct (next_accept w) as [a w1].
    destruct a as [new_fd|e]; [|split; [exact H | reflexivity]].
    destruct (new_fd <? 0); [split; [exact H | reflexivity]|].
    destruct (log (SysAccept new_fd) w1) as [[] w2].
    destruct (kq_alloc_control s1 s2 H) as [Hslot Hsrv].
    destruct (Kqueue.alloc_connection s1) as [slot1 s1'].
    destruct (Kqueue.alloc_connection s2) as [slot2 s2'].
    cbn [fst snd] in Hslot, Hsrv. subst slot2.
    destruct slot1 as [i|].
    + pose proof (kq_setup_control s1' s2' i new_fd w2 Hsrv) as [Hs Hw].
      destruct (Kqueue.setup_connection s1' i new_fd w2) as [t1 w3].
      destruct (Kqueue.setup_connection s2' i new_fd w2) as [t2 w3'].
      cbn [fst snd] in Hs, Hw. subst w3'. apply IH, Hs.
    + destruct (Sys.close new_fd w2) as [[] w3]. apply IH, Hsrv.
Qed.

Lemma kq_answer_error_control s1 s2 conn code (w : World) :
  kq_same_control s1 s2 ->
  kq_same_handled (Kqueue.answer_error s1 conn code w)
                  (Kqueue.answer_error s2 conn code w).
Proof.
  intros H. unfold Kqueue.answer_error, bind, ret.
  destruct (Kqueue.prepare_error_response conn code w) as [rc w'].
  repeat split; apply H.
Qed.

Lemma kq_process_request_control os s1 s2 conn (w : World) :
  kq_same_control s1 s2 ->
  kq_same_handled (Kqueue.process_request os s1 conn w)
                  (Kqueue.process_request os s2 conn w).
Proof.
  intros H. pose proof H as (Hkq & Hl & Hroot & Hconns & Hfree & Hact).
  unfold Kqueue.process_request. rewrite Hroot.
  destruct (http_parse_request _ _ _) as [parsed request].
  destruct (parsed <=? 0); [apply kq_answer_error_control, H|].
  destruct (http_safe_join _ _ _ _ _) as [joined file_path].
  destruct (joined <? 0); [apply kq_answer_error_control, H|].
  destruct (stat os file_path) as [st|]; [|apply kq_answer_error_control, H].
  destruct (negb (st_isreg st)); [apply kq_answer_error_control, H|].
  unfold bind.
  destruct (Kqueue.prepare_file_response os conn file_path w) as [rc w'].
  destruct (fst rc <? 0); [apply kq_answer_error_control, H|].
  unfold ret, kq_same_handled, kq_same_control. cbn. repeat split; assumption.
Qed.

Lemma kq_handle_read_control os s1 s2 conn (w : World) :
  kq_same_control s1 s2 ->
  kq_same_handled (Kqueue.handle_read_event os s1 conn w)
                  (Kqueue.handle_read_event os s2 conn w).
Proof.
  intros H.
  assert (Hret : forall rc c w0,
    kq_same_handled (ret (rc, s1, c) w0) (ret (rc, s2, c) w0))
    by (intros; repeat split; apply H).
  unfold Kqueue.handle_read_event.
  destruct (negb _); [apply Hret|].
  destruct (Kqueue.request_buffer conn) as [mem|].
  - unfold bind. destruct (Sys.recv _ _ w) as [[[n errno] got] w1].
    destruct (n <=? 0).
    + destruct ((n <? 0) && would_block errno); apply Hret.
    + destruct (strstr _ _).
      * apply kq_process_request_control, H.
      * match goal with |- context [if ?b then _ else _] => destruct b end;
          [apply kq_answer_error_control, H | apply Hret].
  - unfold bind. destruct (log _ w) as [[] w1]. apply Hret.
Qed.

Lemma kq_handle_write_control os s1 s2 conn (w : World) :
  kq_same_control s1 s2 ->
  kq_same_handled (Kqueue.handle_write_event os s1 conn w)
                  (Kqueue.handle_write_event os s2 conn w).
Proof.
  intros H. unfold Kqueue.handle_write_event.
  destruct (_ || _).
  - unfold bind, ret. destruct (Kqueue.send_response os conn w) as [r w1].
    repeat split; apply H.
  - repeat split; apply H.
Qed.

Lemma kq_finish_control i r1 r2 (w : World) :
  kq_same_handled (r1, w) (r2, w) ->
  kq_same_run (Kqueue.finish i r1 w) (Kqueue.finish i r2 w).
Proof.
  destruct r1 as [[rc1 s1] c1], r2 as [[rc2 s2] c2].
  intros (Hrc & H & Hc & _). cbn [fst snd] in Hrc, H, Hc. subst rc2 c2.
  unfold Kqueue.finish.
  pose proof H as (Hkq & Hl & Hroot & Hconns & Hfree & Hact). rewrite Hconns.
  destruct (rc1 <? 0).
  - apply kq_close_control, kq_set_connections_control, H.
  - split; [apply kq_set_connections_control, H | reflexivity].
Qed.

Lemma kq_process_event_control os s1 s2 ev (w : World) :
  kq_same_control s1 s2 ->
  kq_same_run (Kqueue.process_event os s1 ev w) (Kqueue.process_event os s2 ev w).
Proof.
  intros H. pose proof H as (Hkq & Hl & Hroot & Hconns & Hfree & Hact).
  unfold Kqueue.process_event. rewrite Hl, Hconns.
  destruct (Kqueue.ev_error ev); [split; [exact H | reflexivity]|].
  destruct (Kqueue.ident ev =? Kqueue.listen_fd s2).
  - unfold bind, Kqueue.accept_connections, ret.
    pose proof (kq_accept_loop_control (S (length (accept_script w))) s1 s2 w H)
      as [Hs Hw].
    destruct (Kqueue.accept_loop _ s1 w) as [t1 w1].
    destruct (Kqueue.accept_loop _ s2 w) as [t2 w2].
    split; [exact Hs | exact Hw].
  - destruct (Kqueue.udata ev) as [i|]; [|split; [exact H | reflexivity]].
    destruct (Kqueue.connections s2 !! i) as [conn|];
      [|split; [exact H | reflexivity]].
    destruct (Kqueue.filter ev); [| |split; [exact H | reflexivity]].
    + unfold bind.
      pose proof (kq_handle_read_control os s1 s2 conn w H) as Hh.
      destruct (Kqueue.handle_read_event os s1 conn w) as [r1 w1].
      destruct (Kqueue.handle_read_event os s2 conn w) as [r2 w2].
      assert (w2 = w1) by (symmetry; apply Hh). subst w2.
      apply kq_finish_control. exact Hh.
    + unfold bind.
      pose proof (kq_handle_write_control os s1 s2 conn w H) as Hh.
      destruct (Kqueue.handle_write_event os s1 conn w) as [r1 w1].
      destruct (Kqueue.handle_write_event os s2 conn w) as [r2 w2].
      assert (w2 = w1) by (symmetry; apply Hh). subst w2.
      apply kq_finish_control. exact Hh.
Qed.

Lemma aio_dec_control s1 s2 :
  aio_same_control s1 s2 -> aio_same_control (Aio.dec_clients s1) (Aio.dec_clients s2).
Proof.
  intros (Hl & Hroot & Hcs & Hn). unfold aio_same_control. cbn.
  rewrite Hn. repeat split; assumption.
Qed.

Lemma aio_add_bytes_control s1 s2 n :
  aio_same_control s1 s2 ->
  aio_same_control (Aio.add_bytes_sent s1 n) (Aio.add_bytes_sent s2 n).
Proof. intros H. exact H. Qed.

Lemma aio_close_control s1 s2 client (w : World) :
  aio_same_control s1 s2 ->
  aio_same_handled
    ((client0 <- Aio.close_client client ;; ret (Aio.dec_clients s1, client0)) w)
    ((client0 <- Aio.close_client client ;; ret (Aio.dec_clients s2, client0)) w).
Proof.
  intros H. unfold bind, ret. destruct (Aio.close_client client w) as [c' w'].
  split; [apply aio_dec_control, H | split; reflexivity].
Qed.

Lemma aio_same_handled_bind {A : Type} (m : IO A) k1 k2 (w : World) :
  (forall a w', aio_same_handled (k1 a w') (k2 a w')) ->
  aio_same_handled (bind m k1 w) (bind m k2 w).
Proof. intros H. unfold bind. destruct (m w) as [a w']. apply H. Qed.

Lemma aio_handle_read_control os s1 s2 client (w : World) :
  aio_same_control s1 s2 ->
  aio_same_handled (Aio.handle_client_read os s1 client w)
                   (Aio.handle_client_read os s2 client w).
Proof.
  intros H.
  assert (Hret : forall c w0, aio_same_handled (ret (s1, c) w0) (ret (s2, c) w0))
    by (intros; split; [exact H | split; reflexivity]).
  unfold Aio.handle_client_read.
  apply aio_same_handled_bind. intros [[n errno] got] w1.
  destruct (n <=? 0).
  - destruct ((n <? 0) && would_block errno);
      [apply Hret | apply aio_close_control, H].
  - destruct (strstr _ _); [|apply Hret].
    unfold Aio.process_http_request.
    destruct H as (Hl & Hroot & Hcs & Hn). rewrite Hroot.
    apply aio_same_handled_bind. intros c' w'.
    unfold ret, aio_same_handled, aio_same_control. cbn. repeat split; assumption.
Qed.

Lemma aio_handle_write_control os s1 s2 client (w : World) :
  aio_same_control s1 s2 ->
  aio_same_handled (Aio.handle_client_write os s1 client w)
                   (Aio.handle_client_write os s2 client w).
Proof.
  intros H.
  assert (Hret : forall c w0, aio_same_handled (ret (s1, c) w0) (ret (s2, c) w0))
    by (intros; split; [exact H | split; reflexivity]).
  assert (Hadd : forall n c w0,
    aio_same_handled (ret (Aio.add_bytes_sent s1 n, c) w0)
                     (ret (Aio.add_bytes_sent s2 n, c) w0))
    by (intros; split; [exact H | split; reflexivity]).
  assert (Hcl : forall n c w0,
    aio_same_handled
      ((client0 <- Aio.close_client c ;;
        ret (Aio.dec_clients (Aio.add_bytes_sent s1 n), client0)) w0)
      ((client0 <- Aio.close_client c ;;
        ret (Aio.dec_clients (Aio.add_bytes_sent s2 n), client0)) w0))
    by (intros; apply aio_close_control, aio_add_bytes_control, H).
  unfold Aio.handle_client_write.
  destruct (Aio.response_buffer client) as [buf|].
  - apply aio_same_handled_bind. intros [n errno] w1.
    destruct (n <=? 0).
    + destruct ((n <? 0) && would_block errno);
        [apply Hret | apply aio_close_control, H].
    + match goal with |- context [if ?b then _ else _] => destruct b end;
        [|apply Hadd].
      match goal with |- context [if ?b then _ else _] => destruct b end;
        [apply Hadd | apply Hcl].
  - destruct (0 <=? Aio.file_fd client); [|apply Hret].
    match goal with |- context [if ?b then _ else _] => destruct b end;
      [apply aio_close_control, H|].
    apply aio_same_handled_bind. intros [n buffer] w1.
    destruct (n <=? 0); [apply aio_close_control, H|].
    apply aio_same_handled_bind. intros [sent errno] w2.
    destruct (sent <=? 0).
    + destruct ((sent <? 0) && would_block errno);
        [apply Hret | apply aio_close_control, H].
    + match goal with |- context [if ?b then _ else _] => destruct b end;
        [apply Hcl | apply Hadd].
Qed.

Lemma aio_accept_loop_control fuel : forall s1 s2 (w : World),
  aio_same_control s1 s2 ->
  aio_same_run (Aio.accept_loop fuel s1 w) (Aio.accept_loop fuel s2 w).
Proof.
  induction fuel as [|fuel IH]; intros s1 s2 w H.
  - split; [exact H | reflexivity].
  - pose proof H as (Hl & Hroot & Hcs & Hn).
    cbn [Aio.accept_loop]. unfold bind. rewrite Hcs.
    destruct (next_accept w) as [a w1].
    destruct a as [client_fd|e]; [|split; [exact H | reflexivity]].
    destruct (client_fd <? 0); [split; [exact H | reflexivity]|].
    destruct (log (SysAccept client_fd) w1) as [[] w2].
    destruct (Aio.find_free_slot (Aio.clients s2) 0) as [i|].
    + destruct (Sys.configure client_fd w2) as [[] w3].
      apply IH. unfold aio_same_control. cbn. rewrite Hn. repeat split; assumption.
    + destruct (Sys.close client_fd w2) as [[] w3]. apply IH, H.
Qed.

(** Allocation counts the connection; nothing else moves the counter of
    connections or the other two counters there. *)
Lemma kq_alloc_counts srv :
  let r := Kqueue.alloc_connection srv in
  Kqueue.total_connections (snd r)
  = (match fst r with
     | Some _ => (Kqueue.total_connections srv + 1) mod SIZE_MAX1
     | None => Kqueue.total_connections srv
     end)
  /\ Kqueue.total_requests (snd r) = Kqueue.total_requests srv
  /\ Kqueue.total_bytes_sent (snd r) = Kqueue.total_bytes_sent srv.
Proof.
  cbv zeta. unfold Kqueue.alloc_connection.
  destruct (Kqueue.free_list srv); cbn; repeat split.
Qed.

(** Writing leaves the kqueue server as it is, whatever was sent. *)
Lemma kq_handle_write_counts os srv conn (w : World) :
  snd (fst (fst (Kqueue.handle_write_event os srv conn w))) = srv.
Proof.
  unfold Kqueue.handle_write_event.
  destruct (_ || _); [|reflexivity].
  unfold bind, ret. destruct (Kqueue.send_response os conn w) as [r w1]. reflexivity.
Qed.

(* ===================================================================== *)
(** ** C4: the statistics counters *)
(* ===================================================================== *)

(** C4 as stated fails in the kqueue server: a request that is answered
    with 400 is read and its whole response is written to the socket, yet
    neither the request counter nor the counter of bytes moves. *)
Lemma C4_kqueue_counts_neither_errors_nor_bytes :
  let w := with_scripts [RecvData Sample.post_root] [SendAccept 1000] [] in
  let '(rc1, srv1, conn1, w1) :=
    Kqueue.handle_read_event Sample.os Sample.kq_server (Sample.kq_conn 7) w in
  let '(rc2, srv2, conn2, w2) := Kqueue.handle_write_event Sample.os srv1 conn1 w1 in
  Kqueue.state conn1 = Kqueue.STATE_SENDING_HEADER
  /\ wire 7 (trace w2) = Kqueue.text_400
  /\ bytes_sent (trace w2) = 78
  /\ Kqueue.total_requests srv2 = Kqueue.total_requests Sample.kq_server
  /\ Kqueue.total_bytes_sent srv2 = Kqueue.total_bytes_sent Sample.kq_server.
Proof. vm_compute. repeat split. Qed.

(** How the statistics counters move, each modulo 2^64.
    In the kqueue server, handing out a pool record adds one to the counter
    of connections; [process_request] adds one to the counter of requests
    exactly when it prepared a 200 (never for an error response), and moves
    no other counter; writing a response moves no counter at all, so the
    counter of bytes stays where it was. In the select server, a read adds
    one to the counter of requests exactly when it completes a request,
    whatever the response; a write adds the bytes the socket took to the
    counter of bytes and leaves the counter of requests alone. In both
    servers the counters are not read for control: from two servers that
    differ in their counters only, every event (kqueue), every read, every
    write and every accept loop (select) ends in the same world, with the
    same record, and with servers that again differ in their counters only. *)
Theorem counters_move_and_are_not_read (os : OS) :
  (forall srv,
     let r := Kqueue.alloc_connection srv in
     Kqueue.total_connections (snd r)
     = (match fst r with
        | Some _ => (Kqueue.total_connections srv + 1) mod SIZE_MAX1
        | None => Kqueue.total_connections srv
        end)
     /\ Kqueue.total_requests (snd r) = Kqueue.total_requests srv
     /\ Kqueue.total_bytes_sent (snd r) = Kqueue.total_bytes_sent srv)
  /\ (forall srv conn (w : World),
        let r := Kqueue.process_request os srv conn w in
        Kqueue.total_requests (snd (fst (fst r)))
        = (if is_200 (Kqueue.response_buffer (snd (fst r)))
           then (Kqueue.total_requests srv + 1) mod SIZE_MAX1
           else Kqueue.total_requests srv)
        /\ Kqueue.total_bytes_sent (snd (fst (fst r))) = Kqueue.total_bytes_sent srv
        /\ Kqueue.total_connections (snd (fst (fst r))) = Kqueue.total_connections srv)
  /\ (forall srv conn (w : World),
        snd (fst (fst (Kqueue.handle_write_event os srv conn w))) = srv)
  /\ (forall srv client (w : World),
        let r := Aio.handle_client_read os srv client w in
        Aio.total_requests (fst (fst r))
        = (if aio_read_completes client w
           then (Aio.total_requests srv + 1) mod SIZE_MAX1
           else Aio.total_requests srv)
        /\ Aio.total_bytes_sent (fst (fst r)) = Aio.total_bytes_sent srv)
  /\ (forall srv client (w : World),
        let r := Aio.handle_client_write os srv client w in
        let delta := bytes_sent (trace (snd r)) - bytes_sent (trace w) in
        Aio.total_bytes_sent (fst (fst r))
        = (if 0 <? delta then (Aio.total_bytes_sent srv + delta) mod SIZE_MAX1
           else Aio.total_bytes_sent srv)
        /\ Aio.total_requests (fst (fst r)) = Aio.total_requests srv)
  /\ (forall s1 s2 ev (w : World),
        kq_same_control s1 s2 ->
        kq_same_run (Kqueue.process_event os s1 ev w)
                    (Kqueue.process_event os s2 ev w))
  /\ (forall s1 s2 client (w : World),
        aio_same_control s1 s2 ->
        aio_same_handled (Aio.handle_client_read os s1 client w)
                         (Aio.handle_client_read os s2 client w)
        /\ aio_same_handled (Aio.handle_client_write os s1 client w)
                            (Aio.handle_client_write os s2 client w)
        /\ aio_same_run (Aio.accept_new_clients s1 w) (Aio.accept_new_clients s2 w)).
Proof.
  split; [exact kq_alloc_counts|].
  split; [exact (kq_process_request_counts os)|].
  split; [exact (kq_handle_write_counts os)|].
  split; [exact (aio_read_counts os)|].
  split; [exact (aio_write_counts os)|].
  split; [exact (kq_process_event_control os)|].
  intros s1 s2 client w H.
  split; [apply aio_handle_read_control, H|].
  split; [apply aio_handle_write_control, H|].
  apply aio_accept_loop_control, H.
Qed.


(* ===================================================================== *)
(** ** C1: confinement to the document root *)
(* ===================================================================== *)

(** What [http_safe_join] does reject: a target that resolves to a path of
    which the resolved root is not a string prefix. *)
Lemma safe_join_rejects_other_prefix os out outsz root rel resolved root_real :
  let clean_rel :=
    match rel with String "/" rest => rest | _ => rel end in
  let clean_rel := if strlen clean_rel =? 0 then "index.html" else clean_rel in
  realpath os (root +:+ "/" +:+ clean_rel) = Some resolved ->
  realpath os root = Some root_real ->
  String.prefix root_real resolved = false ->
  http_safe_join os out outsz root rel = (-1, out).
Proof.
  cbv zeta. intros Hres Hroot Hpre. unfold http_safe_join.
  destruct (outsz =? 0); [reflexivity|].
  match goal with |- context [if ?b then _ else _] => destruct b end; [reflexivity|].
  rewrite Hres, Hroot, Hpre. reflexivity.
Qed.

(** A path that [http_safe_join] hands out for an existing target starts
    with the resolved root, as a string. *)
Lemma safe_join_accepts_prefix_only os out outsz root rel resolved root_real p :
  let clean_rel :=
    match rel with String "/" rest => rest | _ => rel end in
  let clean_rel := if strlen clean_rel =? 0 then "index.html" else clean_rel in
  realpath os (root +:+ "/" +:+ clean_rel) = Some resolved ->
  realpath os root = Some root_real ->
  http_safe_join os out outsz root rel = (0, p) ->
  p = resolved /\ String.prefix root_real p = true /\ strlen p < outsz.
Proof.
  cbv zeta. intros Hres Hroot. unfold http_safe_join.
  destruct (outsz =? 0); [discriminate|].
  match goal with |- context [if ?b then _ else _] => destruct b end; [discriminate|].
  rewrite Hres, Hroot.
  destruct (String.prefix root_real resolved) eqn:Hpre; cbn [negb]; [|discriminate].
  destruct (outsz <=? strlen resolved) eqn:E; [discriminate|].
  apply Z.leb_gt in E. intros [= <-]. auto.
Qed.

(** C1 does not hold of the code: the comparison with the root is a plain
    string-prefix test. With the document root [/var/www] and a sibling
    directory [/var/www-secret] on the host, the target
    [/../www-secret/passwd] resolves to a path that is not confined to the
    root, yet [http_safe_join] returns 0 with that path, and both servers
    answer 200 and write the file to the socket. The target
    [/../../etc/passwd] of the specification is answered with 404. *)
Theorem C1_sibling_of_the_root_is_served :
  let root := Kqueue.doc_root Sample.kq_server in
  let w := with_scripts [RecvData Sample.get_sibling]
             [SendAccept 1000; SendAccept 1000] [] in
  realpath Sample.os root = Some "/var/www"
  /\ realpath Sample.os (root +:+ "/" +:+ "../www-secret/passwd")
     = Some "/var/www-secret/passwd"
  /\ confined "/var/www" "/var/www-secret/passwd" = false
  /\ http_safe_join Sample.os EmptyString Kqueue.kPathBufferSize root
       "/../www-secret/passwd" = (0, "/var/www-secret/passwd")
  /\ (let '(rc1, srv1, conn1, w1) :=
        Kqueue.handle_read_event Sample.os Sample.kq_server (Sample.kq_conn 7) w in
      let '(rc2, srv2, conn2, w2) :=
        Kqueue.handle_write_event Sample.os srv1 conn1 w1 in
      wire 7 (trace w2)
      = text_200 15 "application/octet-stream" +:+ "root:x:0:0:root")
  /\ (let '(srv1, c1, w1) :=
        Aio.handle_client_read Sample.os Sample.aio_server (Sample.aio_client 7) w in
      let '(srv2, c2, w2) := Aio.handle_client_write Sample.os srv1 c1 w1 in
      let '(srv3, c3, w3) := Aio.handle_client_write Sample.os srv2 c2 w2 in
      wire 7 (trace w3)
      = text_200 15 "application/octet-stream" +:+ "root:x:0:0:root")
  /\ (let w := with_scripts [RecvData Sample.get_escape] [SendAccept 1000] [] in
      let '(rc1, srv1, conn1, w1) :=
        Kqueue.handle_read_event Sample.os Sample.kq_server (Sample.kq_conn 7) w in
      let '(rc2, srv2, conn2, w2) :=
        Kqueue.handle_write_event Sample.os srv1 conn1 w1 in
      wire 7 (trace w2) = text_404).
Proof. vm_compute. repeat split. Qed.

(* ===================================================================== *)
(** ** C2: a request that fills the read buffer *)
(* ===================================================================== *)

(** The kqueue server: a read that fills the request buffer without
    bringing the blank line prepares the 413 response, with the record in
    the header-sending state and its file descriptor untouched, provided the
    response buffer is there or can be allocated. *)
Lemma kq_full_buffer_is_413 os srv conn mem got rest (w : World) :
  let room :=
    (Kqueue.request_capacity conn - Kqueue.request_size conn - 1) mod SIZE_MAX1 in
  let taken := String.substring 0 (Z.to_nat room) got in
  Kqueue.state conn = Kqueue.STATE_READING_REQUEST ->
  Kqueue.request_buffer conn = Some mem ->
  recv_script w = RecvData got :: rest ->
  (Kqueue.response_buffer conn <> None \/ malloc_script w = []) ->
  0 < strlen taken ->
  strstr (cstr (String.substring 0 (Z.to_nat (Kqueue.request_size conn)) mem +:+ taken))
    CRLFCRLF = None ->
  (Kqueue.request_capacity conn - 1) mod SIZE_MAX1
    <= Kqueue.request_size conn + strlen taken ->
  let r := Kqueue.handle_read_event os srv conn w in
  fst (fst (fst r)) = 0
  /\ snd (fst (fst r)) = srv
  /\ Kqueue.state (snd (fst r)) = Kqueue.STATE_SENDING_HEADER
  /\ Kqueue.response_buffer (snd (fst r)) = Some Kqueue.text_413
  /\ Kqueue.response_size (snd (fst r)) = strlen Kqueue.text_413
  /\ Kqueue.response_sent (snd (fst r)) = 0
  /\ Kqueue.file_fd (snd (fst r)) = Kqueue.file_fd conn
  /\ Kqueue.fd (snd (fst r)) = Kqueue.fd conn
  /\ wire (Kqueue.fd conn) (trace (snd r)) = wire (Kqueue.fd conn) (trace w).
Proof.
  cbv zeta. intros Hstate Hbuf Hscript Hmem Hpos Hnone Hfull.
  unfold Kqueue.handle_read_event. rewrite Hstate, Hbuf.
  cbv beta iota delta [Kqueue.state_eqb negb].
  unfold Sys.recv, bind, next_recv. rewrite Hscript.
  unfold log, ret. cbv beta iota.
  destruct (strlen _ <=? 0) eqn:E; [apply Z.leb_le in E; lia|].
  rewrite Hnone.
  match goal with |- context [if ?b then _ else _] =>
    destruct b eqn:E2; [|apply Z.leb_gt in E2; cbn in E2; lia] end.
  unfold Kqueue.answer_error, Kqueue.prepare_error_response, bind, ret.
  change (413 =? 400) with false. change (413 =? 404) with false.
  change (413 =? 413) with true. cbv beta iota.
  change (snprintf Kqueue.kHeaderBufferSize Kqueue.text_413)
    with (strlen Kqueue.text_413, Kqueue.text_413).
  cbv beta iota.
  assert (Hc : (strlen Kqueue.text_413 <=? 0)
               || (Kqueue.kHeaderBufferSize <=? strlen Kqueue.text_413) = false)
    by reflexivity.
  rewrite Hc. clear Hc.
  unfold Kqueue.ensure_response_buffer, Kqueue.start_sending, Sys.malloc, Sys.kevent,
    bind, ret, next_malloc, next_kevent, log.
  cbn [Kqueue.response_buffer Kqueue.set_request_size Kqueue.set_request_buffer
       Kqueue.fd malloc_script kevent_script trace].
  change (memcpy Kqueue.text_413 (strlen Kqueue.text_413)) with Kqueue.text_413.
  destruct (Kqueue.response_buffer conn) as [b|] eqn:Hb.
  - cbn. destruct (kevent_script w) as [|[|] ks]; cbn; repeat split.
  - destruct Hmem as [Hmem|Hmem]; [congruence|]. rewrite Hmem. cbn.
    destruct (kevent_script w) as [|[|] ks]; cbn; repeat split.
Qed.

(** A [recv] that is given no room brings nothing in. *)
Lemma recv_no_room fd (w : World) :
  fst (fst (fst (Sys.recv fd 0 w))) <= 0
  /\ forall sock, wire sock (trace (snd (Sys.recv fd 0 w))) = wire sock (trace w).
Proof.
  split; [|intros sock; rewrite recv_trace; reflexivity].
  unfold Sys.recv, bind, next_recv, log, ret.
  change (Z.to_nat 0) with 0%nat.
  destruct (recv_script w) as [|[bs| |e] rest]; rewrite ?substring_0_0; cbn;
    try change (strlen EmptyString) with 0; lia.
Qed.

(** C2 does not hold of the select server: [handle_client_read] has no test
    for a full buffer and [prepare_error_response] has no 413. Once the
    request buffer holds [kRequestBufferSize - 1] bytes, the next read asks
    [recv] for 0 bytes; the read writes nothing to any socket, and it either
    leaves the client as it was (would-block) or closes it without any
    response. *)
Theorem C2_select_server_never_answers_413 (os : OS) srv client (w : World) :
  Aio.request_size client = Aio.kRequestBufferSize - 1 ->
  let r := Aio.handle_client_read os srv client w in
  (forall sock, wire sock (trace (snd r)) = wire sock (trace w))
  /\ (snd (fst r) = client
      \/ (snd (fst r) = Aio.reset_client (snd (fst r))
          /\ Aio.fd (snd (fst r)) < 0
          /\ Aio.response_buffer (snd (fst r)) = None)).
Proof.
  intros Hfull r.
  assert (H : forall P : Aio.Server * Aio.Client * World -> Prop,
    (forall w0 : World,
       (forall sock, wire sock (trace w0) = wire sock (trace w)) ->
       P (srv, client, w0)) ->
    (forall w0 : World,
       (forall sock, wire sock (trace w0) = wire sock (trace w)) ->
       P (let '(c, w') := Aio.close_client client w0 in (Aio.dec_clients srv, c, w'))) ->
    P r).
  { intros P Hsame Hclosed. subst r. unfold Aio.handle_client_read. rewrite Hfull.
    change ((Aio.kRequestBufferSize - (Aio.kRequestBufferSize - 1) - 1) mod SIZE_MAX1)
      with 0.
    unfold bind at 1.
    destruct (recv_no_room (Aio.fd client) w) as [Hn Hw].
    destruct (Sys.recv (Aio.fd client) 0 w) as [[[n errno] got] w1].
    cbn [fst snd] in Hn, Hw.
    destruct (n <=? 0) eqn:E; [|apply Z.leb_gt in E; lia].
    destruct ((n <? 0) && would_block errno); [apply Hsame, Hw | apply Hclosed, Hw]. }
  apply H; clear H r.
  - intros w0 Hw0. cbn [fst snd]. split; [exact Hw0 | left; reflexivity].
  - intros w0 Hw0.
    pose proof (aio_close_client_reset client w0) as Hreset.
    assert (Hwire : forall sock,
      wire sock (trace (snd (Aio.close_client client w0))) = wire sock (trace w0)).
    { intros sock. pose proof (aio_close_client_spec client sock w0) as H.
      cbv zeta in H. apply H. }
    destruct (Aio.close_client client w0) as [c' w']. cbn [fst snd] in *.
    split; [intros sock; rewrite Hwire; apply Hw0|].
    right. subst c'. repeat split; cbn; lia.
Qed.


(** A full buffer is what reading leaves when 8191 bytes arrive without a
    blank line. *)
Lemma aio_full_client_is_read :
  let w := with_scripts
             [RecvData (Sample.repeat_char "a" (Z.to_nat 8191)); RecvData "b"] [] [] in
  snd (fst (Aio.handle_client_read Sample.os Sample.aio_server (Sample.aio_client 7) w))
  = Sample.aio_full_client.
Proof. vm_compute. reflexivity. Qed.

(** The theorem at work on that client: the next read closes it, with
    nothing written to its socket. *)
Lemma C2_select_server_witness :
  let w := with_scripts [RecvData "b"] [] [] in
  let r := Aio.handle_client_read Sample.os Sample.aio_server Sample.aio_full_client w in
  Aio.request_size Sample.aio_full_client = Aio.kRequestBufferSize - 1
  /\ (forall sock, wire sock (trace (snd r)) = wire sock (trace w))
  /\ (snd (fst r) = Sample.aio_full_client
      \/ (snd (fst r) = Aio.reset_client (snd (fst r))
          /\ Aio.fd (snd (fst r)) < 0
          /\ Aio.response_buffer (snd (fst r)) = None)).
Proof.
  split; [reflexivity|].
  apply (C2_select_server_never_answers_413 Sample.os Sample.aio_server
           Sample.aio_full_client (with_scripts [RecvData "b"] [] [])).
  reflexivity.
Defined.


(** Two servers that differ in the request counter accept the same
    connection in the same way. *)
Lemma counters_witness :
  let s2 := Kqueue.set_total_requests Sample.kq_server 5 in
  let w := with_scripts [] [] [AcceptFd 7] in
  kq_same_control Sample.kq_server s2
  /\ kq_same_run (Kqueue.process_event Sample.os Sample.kq_server Sample.listen_event w)
                 (Kqueue.process_event Sample.os s2 Sample.listen_event w).
Proof.
  intros s2 w.
  assert (H : kq_same_control Sample.kq_server s2) by (repeat split).
  split; [exact H|].
  destruct (counters_move_and_are_not_read Sample.os) as (_ & _ & _ & _ & _ & Hc & _).
  apply Hc, H.
Defined.



(* ===================================================================== *)
(** * Further properties of the HTTP helpers *)
(* ===================================================================== *)

Lemma all_chars_drop (P : ascii -> bool) (n : nat) (s : string) :
  all_chars P s = true -> all_chars P (drop n s) = true.
Proof.
  revert s; induction n as [|n IH]; intros [|c s] H; simpl in *; auto.
  apply andb_prop in H as [_ H]. now apply IH.
Qed.

Lemma all_chars_substring (P : ascii -> bool) (off n : nat) (s : string) :
  all_chars P s = true -> all_chars P (String.substring off n s) = true.
Proof.
  revert off n; induction s as [|c s IH]; intros [|off] [|n] H; simpl in *; auto.
  - apply andb_prop in H as [Hc H]. rewrite Hc. now apply IH.
  - apply andb_prop in H as [_ H]. now apply IH.
  - apply andb_prop in H as [_ H]. now apply IH.
Qed.

Lemma all_chars_both (P Q : ascii -> bool) (s : string) :
  all_chars P s = true -> all_chars Q s = true ->
  all_chars (fun c => P c && Q c) s = true.
Proof.
  induction s as [|c s IH]; simpl; intros HP HQ; [reflexivity|].
  apply andb_prop in HP as [Hc HP]. apply andb_prop in HQ as [Hd HQ].
  rewrite Hc, Hd. now apply IH.
Qed.

Lemma cstr_no_nul (s : string) :
  all_chars (fun c => negb (Ascii.eqb c NUL)) (cstr s) = true.
Proof.
  induction s as [|c s IH]; simpl; [reflexivity|].
  destruct (Ascii.eqb c NUL) eqn:E; simpl; [reflexivity|]. now rewrite E.
Qed.

Lemma strchr_spec (s : string) (c : ascii) (k : nat) :
  strchr s c = Some k ->
  (k < String.length s)%nat
  /\ all_chars (fun d => negb (Ascii.eqb d c)) (String.substring 0 k s) = true.
Proof.
  revert k; induction s as [|d s IH]; intros k H; simpl in H; [discriminate|].
  destruct (Ascii.eqb d c) eqn:E.
  - inversion H; subst. simpl. split; [lia | reflexivity].
  - destruct (strchr s c) as [j|] eqn:Ej; simpl in H; [|discriminate].
    inversion H; subst. destruct (IH j eq_refl) as [Hlt Hall].
    simpl. rewrite E. split; [lia | exact Hall].
Qed.

Lemma substring_drop (n k : nat) (s : string) :
  String.substring n k s = String.substring 0 k (drop n s).
Proof.
  revert s; induction n as [|n IH]; intros s; simpl; [reflexivity|].
  destruct s as [|c s]; simpl; [destruct k; reflexivity | apply IH].
Qed.

Lemma length_drop (n : nat) (s : string) :
  String.length (drop n s) = (String.length s - n)%nat.
Proof.
  revert s; induction n as [|n IH]; intros [|c s]; simpl; auto.
Qed.

(** A request that [http_parse_request] accepts is well formed, and so is
    what it stores: the buffer starts with [GET ] and holds a blank line, the
    method is [GET], and the path is between 1 and 1023 bytes of the buffer
    with no space and no NUL in it (or the [/index.html] that stands for
    [/]), so it fits the path field with its terminator. *)
Theorem parse_success_is_well_formed (mem : string) (len : Z) (out r : http_req_t) :
  http_parse_request (Some mem) len out = (1, r) ->
  method r = "GET"
  /\ complete r = 1
  /\ 0 < strlen (path r) < sizeof_path
  /\ path r <> "/"
  /\ all_chars plain (path r) = true
  /\ String.prefix "GET " (cstr mem) = true
  /\ is_Some (strstr (cstr mem) CRLFCRLF)
  /\ 14 <= len.
Proof.
  unfold http_parse_request.
  destruct (len =? 0); [discriminate|].
  destruct (strstr (cstr mem) CRLFCRLF) as [header_end|] eqn:Hend; [|discriminate].
  destruct (len <? 14) eqn:Hlen; [discriminate|]. apply Z.ltb_ge in Hlen.
  destruct (String.prefix "GET " (cstr mem)) eqn:Hget; [|discriminate].
  cbn [orb negb].
  set (path_start := (4 + skip_spaces (drop 4 (cstr mem)) (header_end - 4))%nat).
  destruct (header_end <=? path_start)%nat; [discriminate|].
  destruct (strchr (drop path_start (cstr mem)) SP) as [k|] eqn:Hk; [|discriminate].
  destruct (header_end <? path_start + k)%nat; [discriminate|].
  replace (path_start + k - path_start)%nat with k by lia.
  destruct (Z.of_nat k =? 0) eqn:Hz; [discriminate|]. apply Z.eqb_neq in Hz.
  destruct (sizeof_path <=? Z.of_nat k) eqn:Hsz; [discriminate|]. apply Z.leb_gt in Hsz.
  cbn [orb]. rewrite Nat2Z.id.
  set (p := String.substring path_start k (cstr mem)).
  intros H. inversion H; subst r; clear H. cbn [method path complete].
  destruct (strchr_spec _ _ _ Hk) as [Hlt Hnosp].
  assert (Hp : p = String.substring 0 k (drop path_start (cstr mem)))
    by apply substring_drop.
  assert (Hplen : strlen p = Z.of_nat k).
  { unfold strlen. rewrite Hp, substring_0_length. lia. }
  assert (Hplain : all_chars plain p = true).
  { unfold plain. apply all_chars_both.
    - unfold p. apply all_chars_substring, cstr_no_nul.
    - rewrite Hp. exact Hnosp. }
  split; [reflexivity|]. split; [reflexivity|].
  destruct (String.eqb p "/") eqn:Hroot.
  - repeat split; try reflexivity; try discriminate; eauto.
  - apply String.eqb_neq in Hroot.
    repeat split; try assumption; try lia; eauto.
Qed.

Lemma parse_success_witness :
  method (snd (http_parse_request (Some Sample.get_index) (strlen Sample.get_index)
                 zero_req)) = "GET"
  /\ 0 < strlen (path (snd (http_parse_request (Some Sample.get_index)
                              (strlen Sample.get_index) zero_req))) < sizeof_path.
Proof.
  destruct (parse_success_is_well_formed Sample.get_index (strlen Sample.get_index)
              zero_req
              (snd (http_parse_request (Some Sample.get_index)
                      (strlen Sample.get_index) zero_req)))
    as (Hm & _ & Hp & _).
  - vm_compute. reflexivity.
  - split; assumption.
Defined.

(** [http_parse_request] returns -1, 0 or 1. It returns 0, asking for more
    bytes, exactly when it was given a buffer and a length other than 0 and
    the buffer holds no blank line; the request record is then all zero. *)
Theorem parse_asks_for_more_iff (buf : option string) (len : Z) (out : http_req_t) :
  let r := http_parse_request buf len out in
  (fst r = -1 \/ fst r = 0 \/ fst r = 1)
  /\ (fst r = 0 <->
      exists mem, buf = Some mem /\ len <> 0 /\ strstr (cstr mem) CRLFCRLF = None)
  /\ (fst r = 0 -> snd r = zero_req)
  /\ (complete (snd r) = 1 -> fst r <> 0).
Proof.
  cbv zeta. unfold http_parse_request.
  destruct buf as [mem|].
  2:{ cbn [fst snd]. split; [auto|]. split; [|split; [lia|intros _; lia]].
      split; [lia | intros (m & H & _); discriminate]. }
  destruct (len =? 0) eqn:Hlen.
  { apply Z.eqb_eq in Hlen. cbn [fst snd]. split; [auto|].
    split; [|split; [lia|intros _; lia]].
    split; [lia | intros (m & _ & H & _); contradiction]. }
  apply Z.eqb_neq in Hlen.
  destruct (strstr (cstr mem) CRLFCRLF) as [header_end|] eqn:Hend.
  2:{ cbn [fst snd]. split; [auto|]. split; [|split; [reflexivity|]].
      - split; [intros _; exists mem; auto | reflexivity].
      - cbn. discriminate. }
  assert (Hno : forall v : Z, v <> 0 ->
    (v = 0 <-> exists m, Some mem = Some m /\ len <> 0
                         /\ strstr (cstr m) CRLFCRLF = None)).
  { intros v Hv. split; [contradiction|].
    intros (m & [= <-] & _ & Hn). congruence. }
  repeat match goal with
  | |- context [if ?b then _ else _] => destruct b
  | |- context [match ?x with Some _ => _ | None => _ end] => destruct x
  end; cbn [fst snd];
    (split; [auto|]; split; [apply Hno; lia|]; split; [lia | intros _; lia]).
Qed.


Lemma length_lower (s : string) : String.length (lower s) = String.length s.
Proof. induction s as [|c s IH]; simpl; [reflexivity | now rewrite IH]. Qed.

Lemma lower_drop (n : nat) (s : string) : lower (drop n s) = drop n (lower s).
Proof.
  revert s; induction n as [|n IH]; intros [|c s]; simpl; try reflexivity. apply IH.
Qed.

Lemma has_ext_lower (p q ext : string) :
  lower p = lower q -> has_ext p ext = has_ext q ext.
Proof.
  intros H. unfold has_ext, strcasecmp_eq.
  assert (Hlen : String.length p = String.length q).
  { rewrite <- (length_lower p), <- (length_lower q), H. reflexivity. }
  rewrite !lower_drop, H, Hlen. reflexivity.
Qed.

Lemma has_ext_append (stem ext : string) : has_ext (stem +:+ ext) ext = true.
Proof.
  unfold has_ext, strcasecmp_eq. rewrite length_append.
  replace (String.length stem + String.length ext - String.length ext)%nat
    with (String.length stem) by lia.
  rewrite drop_append, String.eqb_refl.
  apply andb_true_intro. split; [apply Nat.leb_le; lia | reflexivity].
Qed.

Lemma has_ext_short (p ext : string) :
  (String.length p < String.length ext)%nat -> has_ext p ext = false.
Proof.
  intros H. unfold has_ext.
  destruct (String.length ext <=? String.length p)%nat eqn:E; [|reflexivity].
  apply Nat.leb_le in E. lia.
Qed.

(** [http_guess_type] looks at the letters of the name without regard to
    case, always answers with one of seven content types, answers
    [text/html] for every name that ends in [.html], and answers
    [application/octet-stream] for a name too short to hold an extension. *)
Theorem guess_type_ignores_case (p q stem : string) :
  (lower p = lower q -> http_guess_type p = http_guess_type q)
  /\ In (http_guess_type p)
       ["text/html"; "text/css"; "application/javascript"; "image/png";
        "image/jpeg"; "image/gif"; "application/octet-stream"]
  /\ http_guess_type (stem +:+ ".html") = "text/html"
  /\ ((String.length p < 3)%nat -> http_guess_type p = "application/octet-stream").
Proof.
  split; [|split; [|split]].
  - intros H. unfold http_guess_type.
    rewrite !(has_ext_lower p q _ H). reflexivity.
  - unfold http_guess_type.
    repeat (destruct (has_ext p _); [simpl; tauto|]). simpl; tauto.
  - unfold http_guess_type. rewrite has_ext_append. reflexivity.
  - intros H. unfold http_guess_type.
    rewrite !has_ext_short by (simpl; lia). reflexivity.
Qed.

Lemma guess_type_witness :
  http_guess_type "INDEX.HTML" = http_guess_type "index.html"
  /\ http_guess_type "a" = "application/octet-stream".
Proof.
  split.
  - destruct (guess_type_ignores_case "INDEX.HTML" "index.html" EmptyString)
      as (H & _).
    apply H. reflexivity.
  - destruct (guess_type_ignores_case "a" "a" EmptyString) as (_ & _ & _ & H).
    apply H. simpl. lia.
Defined.

(** Neither builder reports a header that was cut short: the value returned
    is -1, or it is the length of the text in the buffer, which is then the
    whole header and shorter than the capacity. *)
Theorem builders_never_truncate (dst : string) (cap content_len : Z) (ctype : string) :
  (let r := http_build_200 dst cap content_len ctype in
   fst r = -1
   \/ (snd r = text_200 content_len ctype /\ fst r = strlen (snd r) /\ fst r < cap))
  /\ (let r := http_build_404 dst cap in
      fst r = -1 \/ (snd r = text_404 /\ fst r = strlen (snd r) /\ fst r < cap)).
Proof.
  assert (H : forall text,
    let r := checked_snprintf cap text in
    fst r = -1 \/ (snd r = text /\ fst r = strlen (snd r) /\ fst r < cap)).
  { intros text. cbv zeta. unfold checked_snprintf. cbn [fst snd].
    destruct ((strlen text <? 0) || (cap <=? strlen text)) eqn:E; [left; reflexivity|].
    apply orb_false_elim in E as [_ E]. apply Z.leb_gt in E.
    right. rewrite substring_0_all by (unfold strlen in E; lia). auto. }
  split; cbv zeta.
  - unfold http_build_200. destruct (cap =? 0); [left; reflexivity | apply H].
  - unfold http_build_404. destruct (cap =? 0); [left; reflexivity | apply H].
Qed.

(** Whatever the host answers, a path that [http_safe_join] hands out fits
    the caller's buffer with its terminator and starts, as a string, with
    the resolved document root. *)
Theorem safe_join_result_has_root_prefix (os : OS) (out : string) (outsz : Z)
    (root rel p : string) :
  http_safe_join os out outsz root rel = (0, p) ->
  strlen p < outsz
  /\ exists root_real,
       realpath os root = Some root_real /\ String.prefix root_real p = true.
Proof.
  unfold http_safe_join.
  destruct (outsz =? 0); [discriminate|].
  match goal with |- context [if ?b then _ else _] => destruct b end; [discriminate|].
  destruct (realpath os (root +:+ "/" +:+ _)) as [resolved|].
  - destruct (realpath os root) as [root_real|]; [|discriminate].
    destruct (String.prefix root_real resolved) eqn:Hpre; cbn [negb]; [|discriminate].
    destruct (outsz <=? strlen resolved) eqn:E; [discriminate|].
    apply Z.leb_gt in E. intros [= <-]. split; [exact E|]. eauto.
  - match goal with |- context [if ?b then _ else _] => destruct b end; [discriminate|].
    destruct (realpath os root) as [root_real|]; [|discriminate].
    unfold checked_snprintf.
    match goal with |- context [(strlen ?t <? 0) || (outsz <=? strlen ?t)] =>
      destruct ((strlen t <? 0) || (outsz <=? strlen t)) eqn:E end.
    + change (-1 <? 0) with true. cbv beta iota. discriminate.
    + apply orb_false_elim in E as [E0 E]. apply Z.leb_gt in E.
      cbv beta iota. rewrite E0.
      rewrite substring_0_all by (unfold strlen in *; lia).
      intros [= <-]. split; [exact E|].
      exists root_real. split; [reflexivity | apply prefix_append].
Qed.

Lemma safe_join_result_witness :
  strlen "/var/www/index.html" < 1024
  /\ exists root_real,
       realpath Sample.os "/var/www" = Some root_real
       /\ String.prefix root_real "/var/www/index.html" = true.
Proof.
  apply (safe_join_result_has_root_prefix Sample.os EmptyString 1024 "/var/www"
           "/index.html" "/var/www/index.html").
  vm_compute. reflexivity.
Defined.


(* ===================================================================== *)
(** * Further properties of the kqueue server *)
(* ===================================================================== *)

Lemma recv_data fd room got rest (w : World) :
  recv_script w = RecvData got :: rest ->
  let taken := String.substring 0 (Z.to_nat room) got in
  Sys.recv fd room w
  = (strlen taken, EINTR, taken, received w fd room (strlen taken) EINTR rest).
Proof.
  intros H. cbv zeta. unfold Sys.recv, bind, next_recv, log, ret, received.
  rewrite H. reflexivity.
Qed.

(** What an error answer leaves in the record, when the response buffer is
    there or can be allocated. *)
Lemma kq_answer_error_spec srv conn code (w : World) :
  code = 400 \/ code = 404 \/ code = 413 \/ code = 500 ->
  (Kqueue.response_buffer conn <> None \/ malloc_script w = []) ->
  let r := Kqueue.answer_error srv conn code w in
  fst (fst (fst r)) = 0
  /\ snd (fst (fst r)) = srv
  /\ Kqueue.state (snd (fst r)) = Kqueue.STATE_SENDING_HEADER
  /\ Kqueue.fd (snd (fst r)) = Kqueue.fd conn
  /\ Kqueue.response_buffer (snd (fst r)) = Some (kq_error_text code)
  /\ Kqueue.response_size (snd (fst r)) = strlen (kq_error_text code)
  /\ Kqueue.response_sent (snd (fst r)) = 0
  /\ Kqueue.file_fd (snd (fst r)) = Kqueue.file_fd conn
  /\ Kqueue.file_offset (snd (fst r)) = Kqueue.file_offset conn
  /\ Kqueue.file_size (snd (fst r)) = Kqueue.file_size conn
  /\ (forall sock, wire sock (trace (snd r)) = wire sock (trace w))
  /\ send_script (snd r) = send_script w.
Proof.
  intros Hcode Hmem. cbv zeta.
  unfold Kqueue.answer_error, Kqueue.prepare_error_response.
  assert (Hf :
    (if code =? 400 then Some (snprintf Kqueue.kHeaderBufferSize Kqueue.text_400)
     else if code =? 404 then Some (http_build_404 EmptyString Kqueue.kHeaderBufferSize)
     else if code =? 413 then Some (snprintf Kqueue.kHeaderBufferSize Kqueue.text_413)
     else if code =? 500 then Some (snprintf Kqueue.kHeaderBufferSize Kqueue.text_500)
     else None)
    = Some (strlen (kq_error_text code), kq_error_text code)
    /\ (strlen (kq_error_text code) <=? 0)
       || (Kqueue.kHeaderBufferSize <=? strlen (kq_error_text code)) = false
    /\ memcpy (kq_error_text code) (strlen (kq_error_text code)) = kq_error_text code).
  { destruct Hcode as [ -> | [ -> | [ -> | -> ] ] ]; vm_compute; repeat split. }
  destruct Hf as (Hf & Hlen & Hcopy). rewrite Hf. clear Hf.
  generalize dependent (kq_error_text code). intros text Hlen Hcopy.
  unfold bind at 1. rewrite Hlen.
  unfold Kqueue.ensure_response_buffer, Kqueue.start_sending, Sys.malloc, Sys.kevent,
    bind, ret, next_malloc, next_kevent, log.
  rewrite Hcopy.
  destruct (Kqueue.response_buffer conn) as [b|] eqn:Hb.
  - cbn. destruct (kevent_script w) as [|[|] ks]; cbn; repeat split.
  - destruct Hmem as [Hmem|Hmem]; [congruence|]. rewrite Hmem. cbn.
    destruct (kevent_script w) as [|[|] ks]; cbn; repeat split.
Qed.

(** The one call an error answer makes is the registration of write
    interest, whose result the caller drops. *)
Lemma kq_answer_error_registers srv conn code (w : World) :
  code = 400 \/ code = 404 \/ code = 413 \/ code = 500 ->
  (Kqueue.response_buffer conn <> None \/ malloc_script w = []) ->
  trace (snd (Kqueue.answer_error srv conn code w))
  = SysKevent (Kqueue.fd conn) (hd true (kevent_script w)) :: trace w.
Proof.
  intros Hcode Hmem.
  unfold Kqueue.answer_error, Kqueue.prepare_error_response.
  assert (Hf :
    (if code =? 400 then Some (snprintf Kqueue.kHeaderBufferSize Kqueue.text_400)
     else if code =? 404 then Some (http_build_404 EmptyString Kqueue.kHeaderBufferSize)
     else if code =? 413 then Some (snprintf Kqueue.kHeaderBufferSize Kqueue.text_413)
     else if code =? 500 then Some (snprintf Kqueue.kHeaderBufferSize Kqueue.text_500)
     else None)
    = Some (strlen (kq_error_text code), kq_error_text code)
    /\ (strlen (kq_error_text code) <=? 0)
       || (Kqueue.kHeaderBufferSize <=? strlen (kq_error_text code)) = false).
  { destruct Hcode as [ -> | [ -> | [ -> | -> ] ] ]; vm_compute; repeat split. }
  destruct Hf as (Hf & Hlen). rewrite Hf. clear Hf.
  generalize dependent (kq_error_text code). intros text Hlen.
  unfold bind at 1. rewrite Hlen.
  unfold Kqueue.ensure_response_buffer, Kqueue.start_sending, Sys.malloc, Sys.kevent,
    bind, ret, next_malloc, next_kevent, log.
  destruct (Kqueue.response_buffer conn) as [b|] eqn:Hb.
  - cbn. destruct (kevent_script w) as [|[|] ks]; reflexivity.
  - destruct Hmem as [Hmem|Hmem]; [congruence|]. rewrite Hmem. cbn.
    destruct (kevent_script w) as [|[|] ks]; reflexivity.
Qed.







Lemma kq_process_request_rc os srv conn (w : World) :
  fst (fst (fst (Kqueue.process_request os srv conn w))) = 0.
Proof.
  assert (Herr : forall c code w0,
    fst (fst (fst (Kqueue.answer_error srv c code w0))) = 0).
  { intros. unfold Kqueue.answer_error, bind, ret.
    destruct (Kqueue.prepare_error_response c code w0) as [rc w']. reflexivity. }
  unfold Kqueue.process_request.
  destruct (http_parse_request _ _ _) as [parsed request].
  destruct (parsed <=? 0); [apply Herr|].
  destruct (http_safe_join _ _ _ _ _) as [joined file_path].
  destruct (joined <? 0); [apply Herr|].
  destruct (stat os file_path) as [st|]; [|apply Herr].
  destruct (negb (st_isreg st)); [apply Herr|].
  unfold bind.
  destruct (Kqueue.prepare_file_response os conn file_path w) as [rc w'].
  destruct (fst rc <? 0); [apply Herr | reflexivity].
Qed.

(** A read handler that asks for the close has changed nothing, and ran on
    a record that was reading. *)
Lemma kq_handle_read_fails os srv conn (w : World) :
  let r := Kqueue.handle_read_event os srv conn w in
  fst (fst (fst r)) < 0 ->
  snd (fst (fst r)) = srv /\ snd (fst r) = conn
  /\ Kqueue.state conn = Kqueue.STATE_READING_REQUEST.
Proof.
  cbv zeta. unfold Kqueue.handle_read_event.
  destruct (Kqueue.state_eqb (Kqueue.state conn) Kqueue.STATE_READING_REQUEST) eqn:Est;
    cbn [negb]; [|cbn; lia].
  apply state_eqb_eq in Est.
  destruct (Kqueue.request_buffer conn) as [mem|].
  - unfold bind. destruct (Sys.recv _ _ w) as [[[n errno] got] w1].
    destruct (n <=? 0).
    + destruct ((n <? 0) && would_block errno); cbn; [lia | auto].
    + destruct (strstr _ _).
      * rewrite kq_process_request_rc. lia.
      * match goal with |- context [if ?b then _ else _] => destruct b end;
          [|cbn; lia].
        unfold Kqueue.answer_error, bind, ret.
        destruct (Kqueue.prepare_error_response _ _ _) as [rc w']. cbn. lia.
  - unfold bind, ret. destruct (log _ w) as [[] w1]. cbn. auto.
Qed.

Lemma kq_send_header_part_state conn (w : World) :
  let c' := snd (fst (Kqueue.send_header_part conn w)) in
  Kqueue.state c' = Kqueue.state conn \/ Kqueue.state c' = Kqueue.STATE_SENDING_FILE.
Proof.
  cbv zeta. unfold Kqueue.send_header_part.
  destruct (Kqueue.state_eqb _ _); [|left; reflexivity].
  unfold bind. destruct (Sys.send _ _ w) as [[n errno] w1].
  destruct (n <=? 0).
  - destruct ((n <? 0) && would_block errno); left; reflexivity.
  - match goal with |- context [if ?b then _ else _] => destruct b end;
      [|left; reflexivity].
    match goal with |- context [if ?b then _ else _] => destruct b end;
      [right | left]; reflexivity.
Qed.

Lemma kq_send_file_part_state os conn (w : World) :
  Kqueue.state (snd (fst (Kqueue.send_file_part os conn w))) = Kqueue.state conn.
Proof.
  unfold Kqueue.send_file_part.
  destruct (_ && _); [|reflexivity].
  match goal with |- context [if ?b then _ else _] => destruct b end; [reflexivity|].
  unfold bind at 1. destruct (Sys.pread os _ _ _ w) as [[n chunk] w1].
  destruct (n <=? 0); [reflexivity|].
  unfold bind. destruct (Sys.send _ _ w1) as [[sent errno] w2].
  destruct (sent <=? 0).
  - destruct ((sent <? 0) && would_block errno); reflexivity.
  - match goal with |- context [if ?b then _ else _] => destruct b end; reflexivity.
Qed.

(** A write handler that asks for the close leaves the server as it was
    and a record that is not reading. *)
Lemma kq_handle_write_fails os srv conn (w : World) :
  let r := Kqueue.handle_write_event os srv conn w in
  fst (fst (fst r)) < 0 ->
  snd (fst (fst r)) = srv
  /\ Kqueue.state (snd (fst r)) <> Kqueue.STATE_READING_REQUEST.
Proof.
  cbv zeta. unfold Kqueue.handle_write_event.
  destruct (_ || _) eqn:Est; [|cbn; lia].
  intros _. unfold Kqueue.send_response, bind, ret.
  pose proof (kq_send_header_part_state conn w) as Hh. cbv zeta in Hh.
  destruct (Kqueue.send_header_part conn w) as [[r c1] w1]. cbn [fst snd] in *.
  assert (H1 : Kqueue.state c1 <> Kqueue.STATE_READING_REQUEST).
  { destruct Hh as [Hh|Hh]; rewrite Hh; [|discriminate].
    intros Hr. rewrite Hr in Est. discriminate. }
  destruct r as [v|]; [split; [reflexivity | exact H1]|].
  pose proof (kq_send_file_part_state os c1 w1) as Hf.
  destruct (Kqueue.send_file_part os c1 w1) as [[rc c2] w2]. cbn [fst snd] in *.
  split; [reflexivity | congruence].
Qed.

Lemma kq_set_connections_id s :
  Kqueue.set_connections s (Kqueue.connections s) = s.
Proof. destruct s; reflexivity. Qed.

(** After a close, the record in the slot keeps its state and has no
    descriptors, and the slot is on the free list. *)
Lemma kq_close_slot s i conn (w : World) :
  Kqueue.connections s !! i = Some conn ->
  let r := Kqueue.close_connection s i w in
  Kqueue.listen_fd (fst r) = Kqueue.listen_fd s
  /\ Kqueue.free_list (fst r) = i :: Kqueue.free_list s
  /\ exists c', Kqueue.connections (fst r) !! i = Some c'
                /\ Kqueue.state c' = Kqueue.state conn
                /\ Kqueue.fd c' < 0 /\ Kqueue.file_fd c' < 0.
Proof.
  intros Hi. cbv zeta. unfold Kqueue.close_connection. rewrite Hi. unfold bind.
  match goal with |- context [(if ?b then ?x else ?y) w] =>
    destruct ((if b then x else y) w) as [[] w1] end.
  unfold Kqueue.free_connection. rewrite Hi. unfold bind, ret.
  pose proof (kq_release_fds_spec conn w1) as Hrel. cbv zeta in Hrel.
  destruct (Kqueue.release_fds conn w1) as [c' w2]. cbn [fst snd] in *.
  split; [reflexivity|]. split; [reflexivity|].
  exists c'. split.
  - apply list_lookup_insert_eq. apply lookup_lt_Some in Hi. exact Hi.
  - destruct Hrel as (H1 & H2 & H3 & _). auto.
Qed.

(** An event for a slot whose record does not react to the filter leaves
    everything as it is. *)
Lemma kq_event_without_effect os s i c ev (w : World) :
  Kqueue.connections s !! i = Some c ->
  Kqueue.ev_error ev = false -> Kqueue.ident ev <> Kqueue.listen_fd s ->
  Kqueue.udata ev = Some i ->
  match Kqueue.filter ev with
  | Kqueue.EVFILT_READ => Kqueue.state c <> Kqueue.STATE_READING_REQUEST
  | Kqueue.EVFILT_WRITE => Kqueue.state c = Kqueue.STATE_READING_REQUEST
  | Kqueue.EVFILT_OTHER => True
  end ->
  Kqueue.process_event os s ev w = (s, w).
Proof.
  intros Hi Herr Hid Hud Hst. unfold Kqueue.process_event.
  rewrite Herr, Hud, Hi. apply Z.eqb_neq in Hid. rewrite Hid.
  assert (Hsame : Kqueue.set_connections s (<[i := c]> (Kqueue.connections s)) = s).
  { rewrite list_insert_id by exact Hi. apply kq_set_connections_id. }
  destruct (Kqueue.filter ev).
  - unfold Kqueue.handle_read_event.
    apply state_eqb_neq in Hst. rewrite Hst. cbn [negb].
    unfold bind, ret, Kqueue.finish. change (0 <? 0) with false. cbv iota.
    rewrite Hsame. reflexivity.
  - unfold Kqueue.handle_write_event. rewrite Hst. cbn.
    unfold bind, ret, Kqueue.finish. change (0 <? 0) with false. cbv iota.
    rewrite Hsame. reflexivity.
  - reflexivity.
Qed.

(** Within one batch of events, an event of the other filter for a
    connection that an earlier event has just closed does nothing: the
    record keeps its state when it is released, the read handler only acts
    on a record that is reading and the write handler only on one that is
    sending, so the record is not released a second time. *)
Theorem kq_event_after_close_is_ignored os s i conn ev ev' (w : World) :
  Kqueue.connections s !! i = Some conn ->
  Kqueue.ev_error ev = false -> Kqueue.ident ev <> Kqueue.listen_fd s ->
  Kqueue.udata ev = Some i ->
  Kqueue.ev_error ev' = false -> Kqueue.ident ev' <> Kqueue.listen_fd s ->
  Kqueue.udata ev' = Some i ->
  Kqueue.filter ev' <> Kqueue.filter ev ->
  let r := Kqueue.process_event os s ev w in
  ~ In i (Kqueue.free_list s) -> In i (Kqueue.free_list (fst r)) ->
  Kqueue.process_event os (fst r) ev' (snd r) = r.
Proof.
  intros Hi Herr Hid Hud Herr' Hid' Hud' Hfilter r Hused Hfreed.
  assert (Hlen : (i < length (Kqueue.connections s))%nat)
    by (apply lookup_lt_Some in Hi; exact Hi).
  assert (Hgoal : forall s0 c0 w0,
    Kqueue.listen_fd s0 = Kqueue.listen_fd s ->
    Kqueue.connections s0 !! i = Some c0 ->
    match Kqueue.filter ev' with
    | Kqueue.EVFILT_READ => Kqueue.state c0 <> Kqueue.STATE_READING_REQUEST
    | Kqueue.EVFILT_WRITE => Kqueue.state c0 = Kqueue.STATE_READING_REQUEST
    | Kqueue.EVFILT_OTHER => True
    end ->
    let r0 := Kqueue.close_connection s0 i w0 in
    Kqueue.process_event os (fst r0) ev' (snd r0) = r0).
  { intros s0 c0 w0 Hl0 Hi0 Hst0 r0.
    destruct (kq_close_slot s0 i c0 w0 Hi0) as (Hl & _ & c' & Hc' & Hstate & _).
    fold r0 in Hl, Hc'.
    rewrite (kq_event_without_effect os (fst r0) i c' ev' (snd r0) Hc' Herr');
      [destruct r0; reflexivity | congruence | exact Hud' |].
    rewrite Hstate. exact Hst0. }
  assert (Hr : exists s0 c0 w0,
    Kqueue.listen_fd s0 = Kqueue.listen_fd s
    /\ Kqueue.connections s0 !! i = Some c0
    /\ match Kqueue.filter ev' with
       | Kqueue.EVFILT_READ => Kqueue.state c0 <> Kqueue.STATE_READING_REQUEST
       | Kqueue.EVFILT_WRITE => Kqueue.state c0 = Kqueue.STATE_READING_REQUEST
       | Kqueue.EVFILT_OTHER => True
       end
    /\ r = Kqueue.close_connection s0 i w0).
  { revert Hfreed. unfold r. clear r Hgoal. unfold Kqueue.process_event.
    rewrite Herr, Hud, Hi. pose proof Hid as Hidb. apply Z.eqb_neq in Hidb.
    rewrite Hidb.
    destruct (Kqueue.filter ev) eqn:Hf.
    - unfold bind.
      pose proof (kq_handle_read_fails os s conn w) as Hfail. cbv zeta in Hfail.
      pose proof (kq_handle_read_pool os s conn w) as Hpool.
      destruct (Kqueue.handle_read_event os s conn w) as [[[rc s'] c'] w1].
      cbn [fst snd] in *. unfold Kqueue.finish.
      destruct (rc <? 0) eqn:E.
      + apply Z.ltb_lt in E. destruct (Hfail E) as (-> & -> & Hst).
        intros _. eexists _, conn, w1.
        split; [|split; [|split; [|reflexivity]]].
        * reflexivity.
        * cbn. apply list_lookup_insert_eq. exact Hlen.
        * destruct (Kqueue.filter ev'); [congruence | exact Hst | exact I].
      + unfold ret. cbn [fst snd Kqueue.free_list Kqueue.set_connections].
        destruct Hpool as (_ & Hfl & _). rewrite Hfl. contradiction.
    - unfold bind.
      pose proof (kq_handle_write_fails os s conn w) as Hfail. cbv zeta in Hfail.
      pose proof (kq_handle_write_pool os s conn w) as Hpool.
      destruct (Kqueue.handle_write_event os s conn w) as [[[rc s'] c'] w1].
      cbn [fst snd] in *. unfold Kqueue.finish.
      destruct (rc <? 0) eqn:E.
      + apply Z.ltb_lt in E. destruct (Hfail E) as (-> & Hst).
        intros _. eexists _, c', w1.
        split; [|split; [|split; [|reflexivity]]].
        * reflexivity.
        * cbn. apply list_lookup_insert_eq. exact Hlen.
        * destruct (Kqueue.filter ev'); [exact Hst | congruence | exact I].
      + unfold ret. cbn [fst snd Kqueue.free_list Kqueue.set_connections].
        subst s'. contradiction.
    - unfold ret. cbn [fst snd]. contradiction. }
  destruct Hr as (s0 & c0 & w0 & Hl0 & Hi0 & Hst0 & Hr).
  rewrite Hr. exact (Hgoal s0 c0 w0 Hl0 Hi0 Hst0).
Qed.

Lemma kq_event_after_close_witness :
  let w := with_scripts [RecvEOF] [] [] in
  let r := Kqueue.process_event Sample.os Sample.one_slot_taken (Sample.read_event 7 0) w in
  In 0%nat (Kqueue.free_list (fst r))
  /\ Kqueue.process_event Sample.os (fst r) (Sample.write_event 7 0) (snd r) = r.
Proof.
  intros w r.
  assert (Hin : In 0%nat (Kqueue.free_list (fst r))) by (vm_compute; left; reflexivity).
  split; [exact Hin|].
  destruct (Kqueue.connections Sample.one_slot_taken !! 0%nat) as [conn|] eqn:E;
    [|vm_compute in E; discriminate E].
  apply (kq_event_after_close_is_ignored Sample.os Sample.one_slot_taken 0 conn
           (Sample.read_event 7 0) (Sample.write_event 7 0) w E).
  - reflexivity.
  - vm_compute. intros H. discriminate H.
  - reflexivity.
  - reflexivity.
  - vm_compute. intros H. discriminate H.
  - reflexivity.
  - intros H. discriminate H.
  - vm_compute. intros H. exact H.
  - exact Hin.
Defined.


Lemma kq_not_a_file_is_error os srv conn req (w : World) :
  http_parse_request (Kqueue.request_buffer conn) (Kqueue.request_size conn) zero_req
  = (1, req) ->
  names_regular_file os (Kqueue.doc_root srv) (path req) = false ->
  Kqueue.process_request os srv conn w = Kqueue.answer_error srv conn 404 w.
Proof.
  intros Hparse Hname. unfold Kqueue.process_request. rewrite Hparse.
  change (1 <=? 0) with false. cbv iota.
  unfold names_regular_file in Hname.
  destruct (http_safe_join _ _ _ _ _) as [joined file_path].
  destruct (joined <? 0); [reflexivity|].
  destruct (stat os file_path) as [st|]; [|reflexivity].
  cbn [negb andb] in Hname. rewrite Hname. reflexivity.
Qed.



(** When the request buffer of a freshly accepted connection cannot be
    allocated, [accept_connections] closes the socket and then releases the
    record, which still holds the descriptor: the socket is closed twice,
    nothing else is called, the record goes back on the free list without
    descriptors or buffer, and the active count drops by one. *)
Theorem kq_buffer_allocation_failure s i conn new_fd rest (w : World) :
  Kqueue.connections s !! i = Some conn ->
  Kqueue.request_buffer conn = None ->
  Kqueue.file_fd conn < 0 ->
  0 <= new_fd ->
  malloc_script w = false :: rest ->
  let r := Kqueue.setup_connection s i new_fd w in
  trace (snd r) = SysClose new_fd :: SysClose new_fd :: SysSetup new_fd :: trace w
  /\ Kqueue.free_list (fst r) = i :: Kqueue.free_list s
  /\ Kqueue.num_active (fst r) = Kqueue.num_active s - 1
  /\ exists c',
       Kqueue.connections (fst r) !! i = Some c'
       /\ Kqueue.fd c' = -1 /\ Kqueue.request_buffer c' = None.
Proof.
  intros Hi Hbuf Hffd Hfd Hmalloc. cbv zeta.
  assert (Hlen : (i < length (Kqueue.connections s))%nat)
    by (apply lookup_lt_Some in Hi; exact Hi).
  unfold Kqueue.setup_connection. rewrite Hi.
  unfold Sys.configure, Sys.malloc, Sys.close, next_malloc, log, bind, ret.
  cbn [Kqueue.request_buffer Kqueue.set_fd malloc_script]. rewrite Hbuf, Hmalloc.
  unfold Kqueue.free_connection.
  cbn [Kqueue.connections Kqueue.set_connections].
  rewrite list_lookup_insert_eq by exact Hlen.
  unfold Kqueue.release_fds, Sys.close, log, bind, ret.
  cbn [Kqueue.fd Kqueue.set_fd Kqueue.file_fd].
  destruct (0 <=? new_fd) eqn:E; [|apply Z.leb_gt in E; lia].
  cbn [Kqueue.fd Kqueue.set_fd Kqueue.file_fd].
  destruct (0 <=? Kqueue.file_fd conn) eqn:E2; [apply Z.leb_le in E2; lia|].
  cbn. split; [reflexivity|]. split; [reflexivity|]. split; [reflexivity|].
  eexists. split.
  - rewrite list_insert_insert_eq. apply list_lookup_insert_eq. exact Hlen.
  - cbn. split; [reflexivity | exact Hbuf].
Qed.

Lemma kq_buffer_allocation_failure_witness :
  let w := {| recv_script := []; send_script := []; accept_script := [];
              malloc_script := [false]; kevent_script := []; trace := [] |} in
  let s := snd (Kqueue.alloc_connection Sample.one_slot) in
  let r := Kqueue.setup_connection s 0 7 w in
  trace (snd r) = [SysClose 7; SysClose 7; SysSetup 7]
  /\ Kqueue.free_list (fst r) = [0%nat]
  /\ Kqueue.num_active (fst r) = 0.
Proof.
  intros w s r.
  destruct (Kqueue.connections s !! 0%nat) as [conn|] eqn:E;
    [|vm_compute in E; discriminate E].
  assert (Hc : conn = Kqueue.reset_connection Kqueue.fresh_connection)
    by (vm_compute in E; inversion E; reflexivity).
  destruct (kq_buffer_allocation_failure s 0 conn 7 [] w E) as (H1 & H2 & H3 & _).
  - rewrite Hc. reflexivity.
  - rewrite Hc. vm_compute. reflexivity.
  - lia.
  - reflexivity.
  - fold r in H1, H2, H3. split; [exact H1|]. split; [exact H2 | exact H3].
Defined.


(** What a successful run of [prepare_file_response] leaves: the header of
    the 200 in the buffer, nothing sent, the file open at offset 0 with the
    size [fstat] gave; the value returned is that of the registration of
    write interest. *)
Lemma kq_prepare_file_run os conn file_path st (w : World) :
  let ffd := open_rdonly os file_path in
  let header := text_200 (st_size st) (http_guess_type file_path) in
  0 <= ffd ->
  fstat os ffd = Some st ->
  strlen header < Kqueue.kHeaderBufferSize ->
  (Kqueue.response_buffer conn <> None \/ malloc_script w = []) ->
  let r := Kqueue.prepare_file_response os conn file_path w in
  fst (fst r) = (if hd true (kevent_script w) then 0 else -1)
  /\ kq_header_phase (snd (fst r)) (Kqueue.fd conn) ffd header 0 (st_size st)
  /\ send_script (snd r) = send_script w
  /\ malloc_script (snd r) = malloc_script w
  /\ kevent_script (snd r) = tl (kevent_script w)
  /\ (forall sock, wire sock (trace (snd r)) = wire sock (trace w)).
Proof.
  cbv zeta. intros Hffd Hfstat Hfits Hmem.
  unfold Kqueue.prepare_file_response, Sys.open, bind, log, ret.
  cbn [Kqueue.file_fd Kqueue.set_file_fd].
  destruct (open_rdonly os file_path <? 0) eqn:E; [apply Z.ltb_lt in E; lia|].
  rewrite Hfstat. unfold http_build_200.
  change (Kqueue.kHeaderBufferSize =? 0) with false. cbv iota.
  unfold checked_snprintf.
  set (text := text_200 (st_size st) (http_guess_type file_path)) in *.
  assert (Hn : (strlen text <? 0) || (Kqueue.kHeaderBufferSize <=? strlen text) = false).
  { apply orb_false_intro; [apply Z.ltb_ge, strlen_nonneg | apply Z.leb_gt, Hfits]. }
  rewrite Hn. cbv beta iota.
  destruct (strlen text <? 0) eqn:E0;
    [apply Z.ltb_lt in E0; pose proof (strlen_nonneg text); lia|].
  unfold Kqueue.ensure_response_buffer, Kqueue.start_sending, Sys.malloc, Sys.kevent,
    bind, ret, next_malloc, next_kevent, log.
  cbn [Kqueue.response_buffer Kqueue.set_file_size Kqueue.set_file_offset
       Kqueue.set_file_fd malloc_script kevent_script].
  rewrite memcpy_whole by exact Hfits.
  unfold kq_header_phase.
  destruct (Kqueue.response_buffer conn) as [b|] eqn:Hb.
  - cbn. destruct (kevent_script w) as [|[|] ks]; cbn; repeat split.
  - destruct Hmem as [Hmem|Hmem]; [congruence|]. rewrite Hmem. cbn.
    destruct (kevent_script w) as [|[|] ks]; cbn; repeat split.
Qed.

(** The tests that [process_request] makes in front of
    [prepare_file_response], passed by a target that names a regular
    file. *)
Lemma kq_process_request_file os srv conn req file_path st0 (w : World) :
  http_parse_request (Kqueue.request_buffer conn) (Kqueue.request_size conn) zero_req
  = (1, req) ->
  http_safe_join os EmptyString Kqueue.kPathBufferSize (Kqueue.doc_root srv) (path req)
  = (0, file_path) ->
  stat os file_path = Some st0 -> st_isreg st0 = true ->
  Kqueue.process_request os srv conn w
  = (rc <- Kqueue.prepare_file_response os conn file_path ;;
     if fst rc <? 0 then Kqueue.answer_error srv (snd rc) 500
     else ret (0, Kqueue.set_total_requests srv
                    ((Kqueue.total_requests srv + 1) mod SIZE_MAX1), snd rc)) w.
Proof.
  intros Hparse Hjoin Hstat Hreg. unfold Kqueue.process_request.
  rewrite Hparse, Hjoin, Hstat, Hreg. reflexivity.
Qed.



(** When the registration of write interest fails at the end of
    [prepare_file_response], the file stays open: [process_request] then
    prepares the 500 answer on top of it and does not count the request.
    When the registration made for that answer succeeds (it is the last
    call of [process_request]), what the write events that follow put on
    the socket is the 500 text (which announces 21 bytes) followed by the
    bytes of the file. *)
Theorem kq_registration_failure_sends_500_then_file
    os srv conn req file_path st0 st body ks (w : World) :
  let ffd := open_rdonly os file_path in
  let header := text_200 (st_size st) (http_guess_type file_path) in
  http_parse_request (Kqueue.request_buffer conn) (Kqueue.request_size conn) zero_req
  = (1, req) ->
  http_safe_join os EmptyString Kqueue.kPathBufferSize (Kqueue.doc_root srv) (path req)
  = (0, file_path) ->
  stat os file_path = Some st0 -> st_isreg st0 = true ->
  0 <= ffd -> fstat os ffd = Some st ->
  serves os ffd body -> st_size st = strlen body ->
  strlen header < Kqueue.kHeaderBufferSize ->
  malloc_script w = [] -> kevent_script w = false :: ks -> hd true ks = true ->
  Forall accepts_some (send_script w) ->
  strlen Kqueue.text_500 + strlen body <= Z.of_nat (length (send_script w)) ->
  let r := Kqueue.process_request os srv conn w in
  fst (fst (fst r)) = 0
  /\ snd (fst (fst r)) = srv
  /\ Kqueue.file_fd (snd (fst r)) = ffd
  /\ hd_error (trace (snd r)) = Some (SysKevent (Kqueue.fd conn) true)
  /\ exists conn' w',
       kq_drive os (Z.to_nat (strlen Kqueue.text_500 + strlen body)) srv
         (snd (fst r)) (snd r) = (true, conn', w')
       /\ wire (Kqueue.fd conn) (trace w')
          = wire (Kqueue.fd conn) (trace w) +:+ Kqueue.text_500 +:+ body.
Proof.
  cbv zeta.
  intros Hparse Hjoin Hstat Hreg Hffd Hfstat Hserves Hsize Hfits Hmalloc Hkev Hks Hall Hlen.
  rewrite (kq_process_request_file os srv conn req file_path st0 w Hparse Hjoin Hstat Hreg).
  unfold bind.
  destruct (kq_prepare_file_run os conn file_path st w Hffd Hfstat Hfits
              (or_intror Hmalloc))
    as (Hrc & Hphase & Hsend & _ & Hkev1 & Hwire).
  destruct (Kqueue.prepare_file_response os conn file_path w) as [[rc c1] w1].
  cbn [fst snd] in *. rewrite Hkev in Hrc, Hkev1. cbn in Hrc, Hkev1. subst rc.
  change (-1 <? 0) with true. cbv iota.
  destruct Hphase as (Hst & Hfd & Hbuf & Hsz & Hsent & Hfile & Hoff & Hfsz).
  assert (Hcode : 500 = 400 \/ 500 = 404 \/ 500 = 413 \/ 500 = 500) by auto.
  assert (Hmem : Kqueue.response_buffer c1 <> None \/ malloc_script w1 = [])
    by (left; rewrite Hbuf; discriminate).
  destruct (kq_answer_error_spec srv c1 500 w1 Hcode Hmem)
    as (Hrc & Hsrv & Hst2 & Hfd2 & Hbuf2 & Hsz2 & Hsent2 & Hfile2 & Hoff2 & Hfsz2
        & Hwire2 & Hsend2).
  split; [exact Hrc|]. split; [exact Hsrv|]. split; [congruence|].
  split.
  { rewrite (kq_answer_error_registers srv c1 500 w1 Hcode Hmem), Hkev1, Hks, Hfd.
    reflexivity. }
  assert (Hphase2 : kq_header_phase (snd (fst (Kqueue.answer_error srv c1 500 w1)))
                      (Kqueue.fd conn) (open_rdonly os file_path) Kqueue.text_500 0
                      (strlen body)).
  { unfold kq_header_phase.
    rewrite Hst2, Hfd2, Hbuf2, Hsz2, Hsent2, Hfile2, Hoff2, Hfsz2.
    repeat split; congruence. }
  assert (Hh : 0 < strlen Kqueue.text_500 < SIZE_MAX1) by (vm_compute; split; reflexivity).
  destruct (kq_drive_whole_response os srv _ (Kqueue.fd conn) (open_rdonly os file_path)
              Kqueue.text_500 body (snd (Kqueue.answer_error srv c1 500 w1))
              Hserves Hffd Hh Hphase2)
    as (conn' & w' & Hdrive & Hw & _).
  - rewrite Hsend2, Hsend. exact Hall.
  - rewrite Hsend2, Hsend. exact Hlen.
  - exists conn', w'. split; [exact Hdrive|]. rewrite Hw, Hwire2, Hwire. reflexivity.
Qed.

Lemma kq_registration_failure_witness :
  let conn := kq_with_request (Sample.kq_conn 7) Sample.get_index in
  let w := {| recv_script := []; send_script := replicate 150 (SendAccept 7);
              accept_script := []; malloc_script := []; kevent_script := [false];
              trace := [] |} in
  let r := Kqueue.process_request Sample.os Sample.kq_server conn w in
  Kqueue.file_fd (snd (fst r)) = 5
  /\ hd_error (trace (snd r)) = Some (SysKevent 7 true)
  /\ exists conn' w',
       kq_drive Sample.os (Z.to_nat (strlen Kqueue.text_500 + 37)) Sample.kq_server
         (snd (fst r)) (snd r) = (true, conn', w')
       /\ wire 7 (trace w') = Kqueue.text_500 +:+ Sample.index_html.
Proof.
  intros conn w r.
  destruct (kq_registration_failure_sends_500_then_file Sample.os Sample.kq_server conn
              {| method := "GET"; path := "/index.html"; complete := 1 |}
              "/var/www/index.html"
              {| st_isreg := true; st_size := 37 |}
              {| st_isreg := true; st_size := 37 |}
              Sample.index_html [] w)
    as (_ & _ & Hfile & Hreg & conn' & w' & Hdrive & Hwire).
  - vm_compute. reflexivity.
  - vm_compute. reflexivity.
  - vm_compute. reflexivity.
  - reflexivity.
  - vm_compute. intros H. discriminate H.
  - vm_compute. reflexivity.
  - exact sample_serves_index.
  - reflexivity.
  - vm_compute. reflexivity.
  - reflexivity.
  - reflexivity.
  - reflexivity.
  - apply accepts_some_replicate. lia.
  - vm_compute. intros H. discriminate H.
  - fold r in Hfile, Hreg, Hdrive. split; [exact Hfile|]. split; [exact Hreg|].
    exists conn', w'. split; [exact Hdrive | exact Hwire].
Defined.


(* ===================================================================== *)
(** * Further properties of the select server *)
(* ===================================================================== *)

Lemma aio_error_text_fits code :
  (if code =? 400 then snprintf Aio.kHeaderBufferSize Aio.text_400
   else if code =? 404 then http_build_404 EmptyString Aio.kHeaderBufferSize
   else if code =? 500 then snprintf Aio.kHeaderBufferSize Aio.text_500
   else snprintf Aio.kHeaderBufferSize Aio.text_default)
  = (strlen (aio_error_text code), aio_error_text code)
  /\ (strlen (aio_error_text code) <=? 0)
     || (Aio.kHeaderBufferSize <=? strlen (aio_error_text code)) = false
  /\ memcpy (aio_error_text code) (strlen (aio_error_text code)) = aio_error_text code
  /\ 0 < strlen (aio_error_text code) < Aio.kHeaderBufferSize.
Proof.
  unfold aio_error_text.
  destruct (code =? 400); [vm_compute; repeat split|].
  destruct (code =? 404); [vm_compute; repeat split|].
  destruct (code =? 500); vm_compute; repeat split.
Qed.

(** What [prepare_error_response] leaves when the buffer can be allocated:
    every status code has a text, the one of 500 "Error" for the codes the
    function does not know. *)
Lemma aio_prepare_error_spec client code (w : World) :
  malloc_script w = [] ->
  Aio.prepare_error_response client code w
  = (Aio.set_state
       (Aio.set_response_sent
          (Aio.set_response_size
             (Aio.set_response_buffer client (Some (aio_error_text code)))
             (strlen (aio_error_text code))) 0)
       Aio.STATE_SENDING_RESPONSE, w).
Proof.
  intros Hmalloc. unfold Aio.prepare_error_response.
  destruct (aio_error_text_fits code) as (Hf & Hlen & Hcopy & _).
  rewrite Hf, Hlen.
  unfold Sys.malloc, next_malloc, bind, ret. rewrite Hmalloc. cbn [negb].
  rewrite Hcopy. reflexivity.
Qed.

(** When the allocation fails, the client is closed instead. *)
Lemma aio_prepare_error_no_memory client code ms (w : World) :
  malloc_script w = false :: ms ->
  Aio.fd (fst (Aio.prepare_error_response client code w)) < 0
  /\ malloc_script (snd (Aio.prepare_error_response client code w)) = ms.
Proof.
  intros Hmalloc. unfold Aio.prepare_error_response.
  destruct (aio_error_text_fits code) as (Hf & Hlen & _).
  rewrite Hf, Hlen.
  unfold Sys.malloc, next_malloc, bind, ret. rewrite Hmalloc. cbn [negb].
  match goal with |- context [Aio.close_client ?c ?w0] =>
    pose proof (aio_close_client_spec c 0 w0) as Hc;
    assert (Hm : malloc_script (snd (Aio.close_client c w0)) = malloc_script w0)
  end.
  { unfold Aio.close_client, Sys.close, log, bind, ret.
    repeat match goal with |- context [if ?b then _ else _] => destruct b end;
      reflexivity. }
  cbv zeta in Hc. split; [apply Hc | rewrite Hm; reflexivity].
Qed.

Lemma aio_close_keeps_malloc client (w : World) :
  malloc_script (snd (Aio.close_client client w)) = malloc_script w.
Proof.
  unfold Aio.close_client, Sys.close, log, bind, ret.
  repeat match goal with |- context [if ?b then _ else _] => destruct b end;
    reflexivity.
Qed.

(** With no memory for two allocations in a row, every way through
    [prepare_file_response] ends with the client closed. *)
Lemma aio_prepare_file_no_memory os client file_path ms (w : World) :
  malloc_script w = false :: false :: ms ->
  Aio.fd (fst (Aio.prepare_file_response os client file_path w)) < 0.
Proof.
  intros Hmalloc.
  assert (Herr : forall c code (w0 : World),
    malloc_script w0 = false :: false :: ms \/ malloc_script w0 = false :: ms ->
    Aio.fd (fst (Aio.prepare_error_response c code w0)) < 0).
  { intros c code w0 [H|H]; eapply aio_prepare_error_no_memory; exact H. }
  unfold Aio.prepare_file_response, Sys.open, Sys.close, Sys.malloc, next_malloc,
    log, bind, ret.
  cbn [malloc_script]. rewrite Hmalloc.
  destruct (Aio.file_fd _ <? 0); [apply Herr; left; reflexivity|].
  destruct (fstat os _) as [st|]; [|apply Herr; left; reflexivity].
  destruct (http_build_200 _ _ _ _) as [header_len header].
  destruct (header_len <? 0); [apply Herr; left; reflexivity|].
  cbn [negb]. apply Herr. right. reflexivity.
Qed.

(** A read that brings the blank line in hands the request over and
    counts it. *)
Lemma aio_read_completing os srv client got rest (w : World) :
  let room := (Aio.kRequestBufferSize - Aio.request_size client - 1) mod SIZE_MAX1 in
  let taken := String.substring 0 (Z.to_nat room) got in
  let filled :=
    String.substring 0 (Z.to_nat (Aio.request_size client)) (Aio.request_buffer client)
    +:+ taken in
  recv_script w = RecvData got :: rest ->
  0 < strlen taken ->
  is_Some (strstr (cstr filled) CRLFCRLF) ->
  Aio.handle_client_read os srv client w
  = (let '(c', w') :=
       Aio.process_http_request os srv
         (aio_set_req client filled (Aio.request_size client + strlen taken))
         (received w (Aio.fd client) room (strlen taken) EINTR rest) in
     (Aio.set_total_requests srv ((Aio.total_requests srv + 1) mod SIZE_MAX1), c', w')).
Proof.
  cbv zeta. intros Hscript Hpos [h Hsome].
  unfold Aio.handle_client_read. unfold bind at 1.
  rewrite (recv_data _ _ got rest w Hscript). cbv zeta beta iota.
  destruct (strlen _ <=? 0) eqn:E; [apply Z.leb_le in E; lia|].
  rewrite Hsome. reflexivity.
Qed.

(** When no memory can be had for the response, a read that completes a
    request ends with the client closed inside the preparation of the
    response: the request is counted, and [num_clients] is not counted
    down, although the slot is free again. *)
Theorem aio_allocation_failure_closes_without_count
    os srv client got rest ms (w : World) :
  let room := (Aio.kRequestBufferSize - Aio.request_size client - 1) mod SIZE_MAX1 in
  let taken := String.substring 0 (Z.to_nat room) got in
  let filled :=
    String.substring 0 (Z.to_nat (Aio.request_size client)) (Aio.request_buffer client)
    +:+ taken in
  recv_script w = RecvData got :: rest ->
  0 < strlen taken ->
  is_Some (strstr (cstr filled) CRLFCRLF) ->
  malloc_script w = false :: false :: ms ->
  let r := Aio.handle_client_read os srv client w in
  Aio.fd (snd (fst r)) < 0
  /\ Aio.num_clients (fst (fst r)) = Aio.num_clients srv
  /\ Aio.total_requests (fst (fst r)) = (Aio.total_requests srv + 1) mod SIZE_MAX1.
Proof.
  cbv zeta. intros Hscript Hpos Hsome Hmalloc.
  rewrite (aio_read_completing os srv client got rest w Hscript Hpos Hsome).
  set (c2 := aio_set_req client _ _). set (w2 := received w _ _ _ _ _).
  assert (Hm2 : malloc_script w2 = false :: false :: ms) by exact Hmalloc.
  assert (Hclosed : Aio.fd (fst (Aio.process_http_request os srv c2 w2)) < 0).
  { unfold Aio.process_http_request.
    assert (Herr : forall c code,
      Aio.fd (fst (Aio.prepare_error_response c code w2)) < 0)
      by (intros c code; eapply aio_prepare_error_no_memory; exact Hm2).
    destruct (http_parse_request _ _ _) as [parsed request].
    destruct (parsed <=? 0); [apply Herr|].
    destruct (http_safe_join _ _ _ _ _) as [joined file_path].
    destruct (joined <? 0); [apply Herr|].
    destruct (stat os file_path) as [st|]; [|apply Herr].
    destruct (negb (st_isreg st)); [apply Herr|].
    eapply aio_prepare_file_no_memory. exact Hm2. }
  destruct (Aio.process_http_request os srv c2 w2) as [c' w'].
  cbn [fst snd] in *. repeat split. exact Hclosed.
Qed.

Lemma aio_allocation_failure_witness :
  let w := {| recv_script := [RecvData Sample.get_index]; send_script := [];
              accept_script := []; malloc_script := [false; false];
              kevent_script := []; trace := [] |} in
  let r := Aio.handle_client_read Sample.os Sample.aio_server (Sample.aio_client 7) w in
  Aio.fd (snd (fst r)) < 0
  /\ Aio.num_clients (fst (fst r)) = Aio.num_clients Sample.aio_server
  /\ Aio.total_requests (fst (fst r)) = 1.
Proof.
  apply (aio_allocation_failure_closes_without_count Sample.os Sample.aio_server
           (Sample.aio_client 7) Sample.get_index [] []).
  - reflexivity.
  - vm_compute. reflexivity.
  - vm_compute. eexists. reflexivity.
  - reflexivity.
Defined.

(** [close_client] closes each open descriptor once, the socket first,
    leaves the slot in its initial state, and does nothing when it is run
    again on the slot. *)
Theorem aio_close_client_is_idempotent client (w : World) :
  let r := Aio.close_client client w in
  fst r = Aio.reset_client client
  /\ trace (snd r)
     = (if 0 <=? Aio.file_fd client then [SysClose (Aio.file_fd client)] else [])
       ++ (if 0 <=? Aio.fd client then [SysClose (Aio.fd client)] else [])
       ++ trace w
  /\ Aio.close_client (fst r) (snd r) = r.
Proof.
  cbv zeta.
  assert (Hrun : Aio.close_client client w
    = (Aio.reset_client client,
       {| recv_script := recv_script w; send_script := send_script w;
          accept_script := accept_script w; malloc_script := malloc_script w;
          kevent_script := kevent_script w;
          trace := (if 0 <=? Aio.file_fd client then [SysClose (Aio.file_fd client)]
                    else [])
                   ++ (if 0 <=? Aio.fd client then [SysClose (Aio.fd client)] else [])
                   ++ trace w |})).
  { unfold Aio.close_client, Sys.close, log, bind, ret.
    destruct (0 <=? Aio.fd client); cbn [Aio.file_fd Aio.set_fd];
      destruct (0 <=? Aio.file_fd client); cbn; try reflexivity;
      destruct w; reflexivity. }
  rewrite Hrun. cbn [fst snd trace].
  split; [reflexivity|]. split; [reflexivity|].
  unfold Aio.close_client, Sys.close, log, bind, ret. reflexivity.
Qed.

Lemma find_free_slot_spec (cs : list Aio.Client) (k i : nat) :
  Aio.find_free_slot cs k = Some i ->
  (k <= i)%nat
  /\ (exists c, cs !! (i - k)%nat = Some c /\ Aio.fd c < 0)
  /\ forall j c, (j < i - k)%nat -> cs !! j = Some c -> 0 <= Aio.fd c.
Proof.
  revert k; induction cs as [|c cs IH]; intros k H; simpl in H; [discriminate|].
  destruct (Aio.fd c <? 0) eqn:E.
  - inversion H; subst. replace (i - i)%nat with 0%nat by lia.
    split; [lia|]. split; [exists c; split; [reflexivity | now apply Z.ltb_lt]|].
    intros j c' Hj. lia.
  - apply Z.ltb_ge in E. destruct (IH (S k) H) as (Hk & (c' & Hc' & Hfd) & Hbusy).
    split; [lia|]. split.
    + exists c'. split; [|exact Hfd].
      replace (i - k)%nat with (S (i - S k)) by lia. exact Hc'.
    + intros j c'' Hj Hl. destruct j as [|j]; simpl in Hl.
      * inversion Hl; subst. exact E.
      * apply (Hbusy j c''); [lia | exact Hl].
Qed.

(** A connection accepted by the select server goes to the first free
    slot: every slot in front of it is in use, the slot is reset and set to
    read from the new socket, no other slot changes, and [num_clients] goes
    up by one. *)
Theorem aio_accept_takes_first_free_slot s client_fd rest fuel i (w : World) :
  accept_script w = AcceptFd client_fd :: rest ->
  0 <= client_fd ->
  Aio.find_free_slot (Aio.clients s) 0 = Some i ->
  (exists c, Aio.clients s !! i = Some c /\ Aio.fd c < 0)
  /\ (forall j c, (j < i)%nat -> Aio.clients s !! j = Some c -> 0 <= Aio.fd c)
  /\ exists s',
       Aio.accept_loop (S fuel) s w
       = Aio.accept_loop fuel s'
           (logged (SysSetup client_fd) (logged (SysAccept client_fd) (popped w rest)))
       /\ Aio.clients s' !! i
          = Some (Aio.set_fd (Aio.reset_client Aio.blank_client) client_fd)
       /\ (forall j, j <> i -> Aio.clients s' !! j = Aio.clients s !! j)
       /\ Aio.num_clients s' = Aio.num_clients s + 1
       /\ Aio.total_requests s' = Aio.total_requests s
       /\ Aio.total_bytes_sent s' = Aio.total_bytes_sent s.
Proof.
  intros Hscript Hfd Hslot.
  destruct (find_free_slot_spec _ _ _ Hslot) as (_ & (c & Hc & Hneg) & Hbusy).
  rewrite Nat.sub_0_r in Hc, Hbusy.
  split; [exists c; auto|]. split; [exact Hbusy|].
  rewrite aio_accept_step, Hscript.
  destruct (client_fd <? 0) eqn:E; [apply Z.ltb_lt in E; lia|].
  rewrite Hslot. cbv zeta.
  eexists. split; [reflexivity|].
  cbn [Aio.clients Aio.set_clients Aio.set_num_clients Aio.num_clients
       Aio.total_requests Aio.total_bytes_sent].
  split.
  - rewrite list_lookup_alter_eq, Hc. reflexivity.
  - split; [|repeat split].
    intros j Hj. apply list_lookup_alter_ne. congruence.
Qed.

Lemma aio_accept_first_free_witness :
  let w := with_scripts [] [] [AcceptFd 7] in
  exists s',
    Aio.accept_loop 1 Sample.aio_server w
    = Aio.accept_loop 0 s'
        (logged (SysSetup 7) (logged (SysAccept 7) (popped w [])))
    /\ Aio.clients s' !! 0%nat = Some (Aio.set_fd (Aio.reset_client Aio.blank_client) 7)
    /\ Aio.num_clients s' = 1.
Proof.
  intros w.
  destruct (aio_accept_takes_first_free_slot Sample.aio_server 7 [] 0 0 w)
    as (_ & _ & s' & Hrun & Hslot & _ & Hnum & _).
  - reflexivity.
  - lia.
  - reflexivity.
  - exists s'. split; [exact Hrun|]. split; [exact Hslot | exact Hnum].
Defined.

(** A response without a file is written out and the client closed. *)
Lemma aio_drive_header_only os sock ffd header size :
  ffd < 0 -> 0 <= sock -> strlen header < SIZE_MAX1 ->
  forall fuel srv client sent (w : World),
    aio_header_phase client sock ffd header sent size ->
    0 <= sent < strlen header ->
    Forall accepts_some (send_script w) ->
    strlen header - sent <= Z.of_nat (length (send_script w)) ->
    strlen header - sent <= Z.of_nat fuel ->
    exists srv' client' w',
      aio_drive os fuel srv client w = (true, srv', client', w')
      /\ wire sock (trace w')
         = wire sock (trace w)
           +:+ String.substring (Z.to_nat sent) (Z.to_nat (strlen header - sent)) header.
Proof.
  intros Hffd Hsock Hmax.
  induction fuel as [|fuel IH];
    intros srv client sent w Hphase Hsent Hall Hlen Hfuel; [lia|].
  rewrite aio_drive_S.
  destruct (send_script w) as [|a rest] eqn:Hs; [simpl in Hlen; lia|].
  inversion Hall as [|? ? Ha Hrest]; subst.
  destruct a as [k|e]; [|contradiction]. simpl in Ha. simpl in Hlen.
  destruct (aio_header_step os srv client sock ffd header sent size k rest w
              Hphase Hsent Hmax Hs Ha)
    as (n & srv' & client' & w' & Hstep & Hn & Hrest' & Hwire & Hpre & Hcase).
  rewrite Hstep.
  destruct Hcase as [(Hlt & Hphase') | [(Heq & Hpos & _) | (Heq & _ & Hclosed)]];
    [| lia |].
  - destruct (Aio.fd client' <? 0) eqn:E.
    { apply Z.ltb_lt in E. destruct Hphase' as (Hfd' & _). lia. }
    destruct (IH srv' client' (sent + n) w' Hphase')
      as (srv2 & client2 & w2 & Hdrive & Hwire2).
    + lia.
    + now rewrite Hrest'.
    + rewrite Hrest'. lia.
    + lia.
    + exists srv2, client2, w2. split; [exact Hdrive|].
      rewrite Hwire2, Hwire. rewrite !append_assoc. f_equal.
      replace (Z.to_nat (sent + n)) with (Z.to_nat sent + Z.to_nat n)%nat by lia.
      rewrite substring_split. f_equal. lia.
  - destruct (Aio.fd client' <? 0) eqn:E; [|apply Z.ltb_ge in E; lia].
    exists srv', client', w'. split; [reflexivity|].
    rewrite Hwire. do 2 f_equal. lia.
Qed.

(** A complete request that the parser does not accept (any method other
    than [GET], a target that is missing or too long) is counted by the
    select server and answered with the 400 text, which is written to the
    socket in full over as many short writes as it takes; then the client
    is closed. *)
Theorem aio_bad_request_gets_400_then_close os srv client got rest (w : World) :
  let room := (Aio.kRequestBufferSize - Aio.request_size client - 1) mod SIZE_MAX1 in
  let taken := String.substring 0 (Z.to_nat room) got in
  let filled :=
    String.substring 0 (Z.to_nat (Aio.request_size client)) (Aio.request_buffer client)
    +:+ taken in
  recv_script w = RecvData got :: rest ->
  0 < strlen taken ->
  is_Some (strstr (cstr filled) CRLFCRLF) ->
  fst (http_parse_request (Some filled) (Aio.request_size client + strlen taken)
         zero_req) <= 0 ->
  malloc_script w = [] ->
  0 <= Aio.fd client -> Aio.file_fd client < 0 -> Aio.file_offset client = 0 ->
  Forall accepts_some (send_script w) ->
  strlen Aio.text_400 <= Z.of_nat (length (send_script w)) ->
  let r := Aio.handle_client_read os srv client w in
  Aio.total_requests (fst (fst r)) = (Aio.total_requests srv + 1) mod SIZE_MAX1
  /\ Aio.state (snd (fst r)) = Aio.STATE_SENDING_RESPONSE
  /\ exists srv' client' w',
       aio_drive os (Z.to_nat (strlen Aio.text_400)) (fst (fst r)) (snd (fst r)) (snd r)
       = (true, srv', client', w')
       /\ wire (Aio.fd client) (trace w')
          = wire (Aio.fd client) (trace w) +:+ Aio.text_400.
Proof.
  cbv zeta.
  intros Hscript Hpos Hsome Hparse Hmalloc Hfd Hffd Hoff Hall Hlen.
  rewrite (aio_read_completing os srv client got rest w Hscript Hpos Hsome).
  set (c2 := aio_set_req client _ _). set (w2 := received w _ _ _ _ _).
  assert (Hrun : Aio.process_http_request os srv c2 w2
                 = Aio.prepare_error_response c2 400 w2).
  { unfold Aio.process_http_request.
    change (Aio.request_buffer c2) with
      (String.substring 0 (Z.to_nat (Aio.request_size client)) (Aio.request_buffer client)
       +:+ String.substring 0
             (Z.to_nat ((Aio.kRequestBufferSize - Aio.request_size client - 1)
                          mod SIZE_MAX1)) got).
    change (Aio.request_size c2) with
      (Aio.request_size client
       + strlen (String.substring 0
                   (Z.to_nat ((Aio.kRequestBufferSize - Aio.request_size client - 1)
                                mod SIZE_MAX1)) got)).
    destruct (http_parse_request _ _ _) as [parsed request]. cbn [fst] in Hparse.
    destruct (parsed <=? 0) eqn:E; [reflexivity | apply Z.leb_gt in E; lia]. }
  rewrite Hrun, (aio_prepare_error_spec c2 400 w2 Hmalloc).
  cbn [fst snd]. split; [reflexivity|]. split; [reflexivity|].
  destruct (aio_drive_header_only os (Aio.fd client) (Aio.file_fd client) Aio.text_400
              (Aio.file_size client) Hffd Hfd
              ltac:(vm_compute; reflexivity)
              (Z.to_nat (strlen Aio.text_400))
              (Aio.set_total_requests srv ((Aio.total_requests srv + 1) mod SIZE_MAX1))
              (Aio.set_state
                 (Aio.set_response_sent
                    (Aio.set_response_size
                       (Aio.set_response_buffer c2 (Some (aio_error_text 400)))
                       (strlen (aio_error_text 400))) 0)
                 Aio.STATE_SENDING_RESPONSE) 0 w2)
    as (srv' & client' & w' & Hdrive & Hwire).
  - unfold aio_header_phase. cbn. repeat split; assumption.
  - vm_compute. split; [intros H; discriminate H | reflexivity].
  - exact Hall.
  - exact Hlen.
  - lia.
  - exists srv', client', w'. split; [exact Hdrive|].
    rewrite Hwire. f_equal.
Qed.

Lemma aio_bad_request_witness :
  let w := with_scripts [RecvData Sample.post_root] (replicate 110 (SendAccept 1)) [] in
  let r := Aio.handle_client_read Sample.os Sample.aio_server (Sample.aio_client 7) w in
  Aio.total_requests (fst (fst r)) = 1
  /\ Aio.state (snd (fst r)) = Aio.STATE_SENDING_RESPONSE
  /\ exists srv' client' w',
       aio_drive Sample.os (Z.to_nat (strlen Aio.text_400)) (fst (fst r)) (snd (fst r))
         (snd r) = (true, srv', client', w')
       /\ wire 7 (trace w') = Aio.text_400.
Proof.
  apply (aio_bad_request_gets_400_then_close Sample.os Sample.aio_server
           (Sample.aio_client 7) Sample.post_root []).
  - reflexivity.
  - vm_compute. reflexivity.
  - vm_compute. eexists. reflexivity.
  - vm_compute. intros H. discriminate H.
  - reflexivity.
  - vm_compute. intros H. discriminate H.
  - vm_compute. reflexivity.
  - reflexivity.
  - apply accepts_some_replicate. lia.
  - vm_compute. intros H. discriminate H.
Defined.


(* ===================================================================== *)
(** * The thread-pool server *)
(* ===================================================================== *)

(** The connection queue is bounded and first-in first-out. Adding a
    connection either appends it at the tail, counting it, or, when no node
    can be allocated or the queue holds [kQueueSize] connections, closes the
    socket and leaves the pool as it was; nothing else is called. A worker
    takes the connection at the head. Both keep [queue_size] equal to the
    length of the queue and within the limit. *)
Theorem thread_queue_is_bounded_and_fifo (p : Thread.ThreadPool) fd root (w : World) :
  pool_ok p ->
  (let r := Thread.thread_pool_add_connection p fd root w in
   pool_ok (fst r)
   /\ ((hd true (malloc_script w) = true /\ Thread.queue_size p < Thread.kQueueSize
        /\ Thread.queue (fst r)
           = Thread.queue p ++ [{| Thread.fd := fd; Thread.doc_root := root |}]
        /\ Thread.total_connections (fst r)
           = (Thread.total_connections p + 1) mod SIZE_MAX1
        /\ trace (snd r) = trace w)
       \/ ((hd true (malloc_script w) = false
            \/ Thread.queue_size p = Thread.kQueueSize)
           /\ fst r = p
           /\ trace (snd r) = SysClose fd :: trace w)))
  /\ match Thread.take_connection p with
     | Thread.Job conn p' =>
         Thread.queue p = conn :: Thread.queue p'
         /\ pool_ok p'
         /\ Thread.active_connections p'
            = (Thread.active_connections p + 1) mod SIZE_MAX1
     | Thread.Wait => Thread.queue p = [] /\ Thread.shutdown p = false
     | Thread.Leave => Thread.shutdown p = true
     end.
Proof.
  intros [Hsize Hmax]. split.
  - cbv zeta.
    unfold Thread.thread_pool_add_connection, Sys.malloc, Sys.close, next_malloc,
      log, bind, ret.
    destruct (malloc_script w) as [|[|] ms]; cbn [negb hd fst snd trace].
    + destruct (Thread.kQueueSize <=? Thread.queue_size p) eqn:E; cbn [fst snd trace].
      * apply Z.leb_le in E. split; [split; assumption|].
        right. split; [right; lia|]. split; reflexivity.
      * apply Z.leb_gt in E. split.
        -- split; cbn; [rewrite length_app; cbn; lia | lia].
        -- left. repeat split. exact E.
    + destruct (Thread.kQueueSize <=? Thread.queue_size p) eqn:E; cbn [fst snd trace].
      * apply Z.leb_le in E. split; [split; assumption|].
        right. split; [right; lia|]. split; reflexivity.
      * apply Z.leb_gt in E. split.
        -- split; cbn; [rewrite length_app; cbn; lia | lia].
        -- left. repeat split. exact E.
    + split; [split; assumption|].
      right. split; [left; reflexivity|]. split; reflexivity.
  - unfold Thread.take_connection.
    destruct (Thread.queue p) as [|conn rest] eqn:Hq;
      destruct (Thread.shutdown p) eqn:Hs; try reflexivity; try (split; reflexivity).
    split; [reflexivity|]. split; [|reflexivity].
    split; cbn; cbn in Hsize; lia.
Qed.

Lemma thread_queue_witness :
  pool_ok Thread.empty_pool
  /\ pool_ok (fst (Thread.thread_pool_add_connection Thread.empty_pool 7 "/var/www"
                     (with_scripts [] [] []))).
Proof.
  assert (H : pool_ok Thread.empty_pool).
  { split; vm_compute; [reflexivity | intros H; discriminate H]. }
  split; [exact H|].
  destruct (thread_queue_is_bounded_and_fifo Thread.empty_pool 7 "/var/www"
              (with_scripts [] [] []) H) as [[Hok _] _].
  exact Hok.
Defined.

Lemma substring_0_min (s : string) (k : nat) :
  String.substring 0 (Nat.min k (String.length s)) s = String.substring 0 k s.
Proof.
  revert k; induction s as [|c s IH]; intros [|k]; simpl; try reflexivity.
  now rewrite IH.
Qed.

(** A [send] that the socket answers by taking up to [k] bytes. *)
Lemma send_taken fd data k rest (w : World) :
  send_script w = SendAccept k :: rest ->
  let n := Z.of_nat (Nat.min k (String.length data)) in
  Sys.send fd data w = (n, EINTR, sent w fd data n EINTR rest)
  /\ wire fd (trace (sent w fd data n EINTR rest))
     = wire fd (trace w) +:+ String.substring 0 k data.
Proof.
  intros Hs. cbv zeta. split.
  - unfold Sys.send, bind, next_send, log, ret, sent. rewrite Hs. reflexivity.
  - unfold sent. cbn [trace wire]. rewrite Z.eqb_refl. cbn [andb].
    destruct (0 <? Z.of_nat (Nat.min k (String.length data))) eqn:E.
    + rewrite Nat2Z.id, substring_0_min. reflexivity.
    + apply Z.ltb_ge in E.
      assert (Hz : Nat.min k (String.length data) = 0%nat) by lia.
      rewrite <- substring_0_min, Hz, substring_0_0, append_nil_r. reflexivity.
Qed.

Lemma thread_error_text_fits code status_text body keep_alive :
  Thread.status_of code = Some (status_text, body) ->
  snprintf Thread.kMaxHeaderSize (Thread.error_text status_text body keep_alive)
  = (strlen (Thread.error_text status_text body keep_alive),
     Thread.error_text status_text body keep_alive)
  /\ memcpy (Thread.error_text status_text body keep_alive)
       (strlen (Thread.error_text status_text body keep_alive))
     = Thread.error_text status_text body keep_alive.
Proof.
  unfold Thread.status_of.
  destruct (code =? 400);
    [intros [= <- <-]; destruct keep_alive; vm_compute; split; reflexivity|].
  destruct (code =? 404);
    [intros [= <- <-]; destruct keep_alive; vm_compute; split; reflexivity|].
  destruct (code =? 500); [|discriminate].
  intros [= <- <-]; destruct keep_alive; vm_compute; split; reflexivity.
Qed.

Lemma thread_send_error_run fd code status_text body keep_alive (w : World) :
  Thread.status_of code = Some (status_text, body) ->
  Thread.send_error_response fd code keep_alive w
  = (let '(n, e, w') :=
       Sys.send fd (Thread.error_text status_text body keep_alive) w in
     (if n <? 0 then -1 else 0, w')).
Proof.
  intros Hcode. unfold Thread.send_error_response. rewrite Hcode.
  destruct (thread_error_text_fits code status_text body keep_alive Hcode) as [Hf Hc].
  rewrite Hf, Hc. unfold bind, ret.
  destruct (Sys.send _ _ w) as [[n e] w']. reflexivity.
Qed.

(** [send_error_response] sends nothing for a status code it does not
    know and returns -1. For 400, 404 and 500 it makes a single [send] and
    does not look at how much was taken: when the socket takes only the
    first [k] bytes, the function still returns 0 and the rest of the
    response is never written. *)
Theorem thread_error_response_ignores_short_write fd code keep_alive k rest (w : World) :
  send_script w = SendAccept k :: rest ->
  let r := Thread.send_error_response fd code keep_alive w in
  match Thread.status_of code with
  | None => r = (-1, w)
  | Some (status_text, body) =>
      fst r = 0
      /\ send_script (snd r) = rest
      /\ wire fd (trace (snd r))
         = wire fd (trace w)
           +:+ String.substring 0 k (Thread.error_text status_text body keep_alive)
  end.
Proof.
  intros Hs. cbv zeta.
  destruct (Thread.status_of code) as [[status_text body]|] eqn:Hcode.
  - rewrite (thread_send_error_run fd code status_text body keep_alive w Hcode).
    destruct (send_taken fd (Thread.error_text status_text body keep_alive) k rest w Hs)
      as [Hsend Hwire].
    rewrite Hsend. cbn [fst snd].
    destruct (_ <? 0) eqn:E; [apply Z.ltb_lt in E; lia|].
    split; [reflexivity|]. split; [reflexivity | exact Hwire].
  - unfold Thread.send_error_response. rewrite Hcode. reflexivity.
Qed.

Lemma thread_error_response_witness :
  let w := with_scripts [] [SendAccept 10] [] in
  let r := Thread.send_error_response 7 404 false w in
  fst r = 0 /\ wire 7 (trace (snd r)) = "HTTP/1.1 4".
Proof.
  intros w r.
  pose proof (thread_error_response_ignores_short_write 7 404 false 10 [] w eq_refl)
    as H.
  cbv zeta in H. change (Thread.status_of 404) with
    (Some ("404 Not Found", "Not Found")) in H.
  destruct H as (H1 & _ & H3). split; [exact H1|].
  fold r in H3. rewrite H3. vm_compute. reflexivity.
Defined.

(** The thread-pool server reads a request with one [recv]. When the
    bytes of that first read hold no blank line (the request arrives in
    pieces), [process_request] does not wait for the rest: it sends the 400
    response with [Connection: close] and returns -1, so that
    [handle_connection] closes the socket without counting a request. *)
Theorem thread_split_request_is_rejected os fuel fd root got rest k srest (w : World) :
  let taken := String.substring 0 (Z.to_nat (Thread.kMaxRequestSize - 1)) got in
  recv_script w = RecvData got :: rest ->
  0 < strlen taken ->
  strstr (cstr taken) CRLFCRLF = None ->
  send_script w = SendAccept k :: srest ->
  exists w',
    Thread.process_request os fuel fd root true w = (Some (-1, false), w')
    /\ wire fd (trace w')
       = wire fd (trace w)
         +:+ String.substring 0 k (Thread.error_text "400 Bad Request" "Bad Request" false)
    /\ exists w'',
         Thread.handle_connection os fuel fd root w = (Some 0, w'')
         /\ trace w'' = SysClose fd :: trace w'.
Proof.
  cbv zeta. intros Hrecv Hpos Hnone Hsend.
  assert (Hrun : exists w',
    Thread.process_request os fuel fd root true w = (Some (-1, false), w')
    /\ wire fd (trace w')
       = wire fd (trace w)
         +:+ String.substring 0 k
               (Thread.error_text "400 Bad Request" "Bad Request" false)).
  { unfold Thread.process_request. unfold bind at 1.
    rewrite (recv_data _ _ got rest w Hrecv). cbv zeta beta iota.
    destruct (strlen _ <=? 0) eqn:E; [apply Z.leb_le in E; lia|].
    unfold http_parse_request.
    destruct (strlen _ =? 0) eqn:E0; [apply Z.eqb_eq in E0; lia|].
    rewrite Hnone. change (0 <=? 0) with true. cbv iota.
    unfold bind, ret.
    rewrite (thread_send_error_run fd 400 "400 Bad Request" "Bad Request" false _ eq_refl).
    match goal with |- context [Sys.send fd ?data ?w0] =>
      destruct (send_taken fd data k srest w0 Hsend) as [Hs Hw] end.
    rewrite Hs. eexists. split; [reflexivity|].
    rewrite Hw. reflexivity. }
  destruct Hrun as (w' & Hrun & Hwire).
  exists w'. split; [exact Hrun|]. split; [exact Hwire|].
  unfold Thread.handle_connection.
  change (Z.to_nat Thread.kKeepAliveMax) with (S 99).
  cbn [Thread.connection_loop]. unfold bind at 1. unfold bind at 1.
  rewrite Hrun. change (-1 <? 0) with true. cbv iota.
  unfold ret, Sys.close, log, bind. eexists. split; reflexivity.
Qed.

Lemma thread_split_request_witness :
  let w := with_scripts [RecvData "GET /index.html HT"; RecvData "TP/1.1"]
             [SendAccept 1000] [] in
  exists w',
    Thread.process_request Sample.os 10 7 "/var/www" true w = (Some (-1, false), w')
    /\ wire 7 (trace w')
       = Thread.error_text "400 Bad Request" "Bad Request" false.
Proof.
  intros w.
  destruct (thread_split_request_is_rejected Sample.os 10 7 "/var/www"
              "GET /index.html HT" [RecvData "TP/1.1"] 1000 [] w)
    as (w' & Hrun & Hwire & _).
  - reflexivity.
  - vm_compute. reflexivity.
  - vm_compute. reflexivity.
  - reflexivity.
  - exists w'. split; [exact Hrun|]. rewrite Hwire. vm_compute. reflexivity.
Defined.


Lemma thread_connection_loop_bound os fuel fd root :
  forall remaining requests (w : World) n w',
    Thread.connection_loop remaining os fuel fd root requests w = (Some n, w') ->
    requests <= n <= requests + Z.of_nat remaining.
Proof.
  induction remaining as [|remaining IH]; intros requests w n w' H.
  - cbn in H. inversion H; subst. lia.
  - cbn [Thread.connection_loop] in H. unfold bind at 1 in H.
    destruct (Thread.process_request os fuel fd root true w) as [[[rc keep_alive]|] w1];
      [|discriminate H].
    destruct (rc <? 0); [inversion H; subst; lia|].
    destruct (negb keep_alive); [inversion H; subst; lia|].
    unfold bind in H. destruct (Sys.configure fd w1) as [[] w2].
    apply IH in H. lia.
Qed.

(** The inner loop returns: every turn that goes on has sent a byte. *)
Lemma thread_send_all_returns fd buffer bytes_read :
  forall fuel total_sent (w : World),
    bytes_read - total_sent <= Z.of_nat fuel ->
    exists b w', Thread.send_all fuel fd buffer bytes_read total_sent w = (Some b, w').
Proof.
  induction fuel as [|fuel IH]; intros total_sent w Hfuel.
  - cbn [Thread.send_all].
    destruct (bytes_read <=? total_sent) eqn:E; [|apply Z.leb_gt in E; lia].
    eexists _, _. reflexivity.
  - cbn [Thread.send_all].
    destruct (bytes_read <=? total_sent) eqn:E; [eexists _, _; reflexivity|].
    apply Z.leb_gt in E. unfold bind.
    destruct (Sys.send _ _ w) as [[sent e] w1].
    destruct (sent <=? 0) eqn:E2; [eexists _, _; reflexivity|].
    apply Z.leb_gt in E2. apply IH. lia.
Qed.

(** The outer loop returns on a host whose files end, when it is given
    more turns than a file has bytes, and the last thing it does is to
    close the file. *)
Lemma thread_send_chunks_returns os fd ffd bound :
  files_end_by os bound ->
  forall fuel pos (w : World),
    (0 < fuel)%nat -> bound - pos < Z.of_nat fuel ->
    exists v w',
      Thread.send_chunks fuel os fd ffd pos w = (Some v, w')
      /\ exists tr, trace w' = SysClose ffd :: tr.
Proof.
  intros Hend.
  induction fuel as [|fuel IH]; intros pos w Hpos Hfuel; [lia|].
  cbn [Thread.send_chunks]. unfold bind at 1. unfold Sys.pread.
  pose proof (Hend ffd pos) as Hhere.
  destruct (pread os ffd Thread.kFileBufferSize pos) as [bs|].
  - set (got := String.substring 0 (Z.to_nat Thread.kFileBufferSize) bs) in *.
    unfold bind at 1, log at 1, ret at 1.
    destruct (strlen got <=? 0) eqn:E.
    + unfold Sys.close, log, bind, ret. eexists _, _. split; [reflexivity|].
      eexists. reflexivity.
    + apply Z.leb_gt in E.
      assert (Hin : pos < bound).
      { destruct (Z.lt_ge_cases pos bound) as [H|H]; [exact H|].
        apply Hhere in H. unfold strlen in E. rewrite H in E. simpl in E. lia. }
      unfold bind at 1.
      match goal with |- context [Thread.send_all ?f fd got (strlen got) 0 ?w0] =>
        destruct (thread_send_all_returns fd got (strlen got) f 0 w0) as (b & w1 & Hrun);
          [lia | rewrite Hrun]
      end.
      destruct b.
      * apply IH; lia.
      * unfold Sys.close, log, bind, ret. eexists _, _. split; [reflexivity|].
        eexists. reflexivity.
  - unfold bind at 1, log at 1, ret at 1. change (-1 <=? 0) with true. cbv iota.
    unfold Sys.close, log, bind, ret. eexists _, _. split; [reflexivity|].
    eexists. reflexivity.
Qed.

Lemma thread_send_file_returns os fuel fd file_path keep_alive bound (w : World) :
  files_end_by os bound -> (0 < fuel)%nat -> bound < Z.of_nat fuel ->
  exists v w',
    Thread.send_file_response os fuel fd file_path keep_alive w = (Some v, w').
Proof.
  intros Hend Hpos Hfuel. unfold Thread.send_file_response, Sys.open.
  unfold bind at 1, bind at 1, log at 1, ret at 1.
  destruct (open_rdonly os file_path <? 0).
  - unfold bind, ret. destruct (Thread.send_error_response fd 500 keep_alive _) as [rc w1].
    eexists _, _. reflexivity.
  - destruct (fstat os (open_rdonly os file_path)) as [st|].
    + destruct (snprintf _ _) as [header_len header]. unfold bind at 1.
      destruct (Sys.send fd _ _) as [r w1].
      destruct (fst r <? 0).
      * unfold Sys.close, log, bind, ret. eexists _, _. reflexivity.
      * destruct (thread_send_chunks_returns os fd (open_rdonly os file_path) bound Hend
                    fuel 0 w1 Hpos) as (v & w' & Hrun & _); [lia|].
        eexists _, _. exact Hrun.
    + unfold Sys.close, log, bind, ret.
      destruct (Thread.send_error_response fd 500 keep_alive _) as [rc w1].
      eexists _, _. reflexivity.
Qed.

Lemma thread_process_request_returns os fuel fd root keep_alive bound (w : World) :
  files_end_by os bound -> (0 < fuel)%nat -> bound < Z.of_nat fuel ->
  exists rc keep w',
    Thread.process_request os fuel fd root keep_alive w = (Some (rc, keep), w').
Proof.
  intros Hend Hpos Hfuel. unfold Thread.process_request. unfold bind at 1.
  destruct (Sys.recv fd _ w) as [[[bytes_read e] request_buffer] w1].
  destruct (bytes_read <=? 0); [eexists _, _, _; reflexivity|].
  destruct (http_parse_request _ _ _) as [parsed request].
  destruct (parsed <=? 0).
  { unfold bind, ret. destruct (Thread.send_error_response fd 400 false w1) as [rc w2].
    eexists _, _, _. reflexivity. }
  set (keep := match strstr (cstr request_buffer) "Connection: keep-alive" with
               | Some _ => true
               | None => _
               end).
  clearbody keep.
  assert (Herr : exists rc keep0 w',
            (Thread.send_error_response fd 404 keep ;;; ret (Some (0, keep))) w1
            = (Some (rc, keep0), w')).
  { unfold bind, ret. destruct (Thread.send_error_response fd 404 keep w1) as [rc w2].
    eexists _, _, _. reflexivity. }
  destruct (http_safe_join _ _ _ _ _) as [joined file_path].
  destruct (joined <? 0); [exact Herr|].
  destruct (stat os file_path) as [file_stat|]; [|exact Herr].
  destruct (negb (st_isreg file_stat)); [exact Herr|].
  destruct (thread_send_file_returns os fuel fd file_path keep bound w1 Hend Hpos Hfuel)
    as (v & w' & Hrun).
  unfold bind, ret. rewrite Hrun. eexists _, _, _. reflexivity.
Qed.

Lemma thread_connection_loop_returns os fuel fd root bound :
  files_end_by os bound -> (0 < fuel)%nat -> bound < Z.of_nat fuel ->
  forall remaining requests (w : World),
    exists n w', Thread.connection_loop remaining os fuel fd root requests w = (Some n, w').
Proof.
  intros Hend Hpos Hfuel.
  induction remaining as [|remaining IH]; intros requests w.
  - eexists _, _. reflexivity.
  - cbn [Thread.connection_loop]. unfold bind at 1.
    destruct (thread_process_request_returns os fuel fd root true bound w Hend Hpos Hfuel)
      as (rc & keep & w1 & Hrun).
    rewrite Hrun.
    destruct (rc <? 0); [eexists _, _; reflexivity|].
    destruct (negb keep); [eexists _, _; reflexivity|].
    unfold bind. destruct (Sys.configure fd w1) as [[] w2]. apply IH.
Qed.

(** On a host whose files end, and whatever the network does,
    [handle_connection] returns: the keep-alive loop ends after at most
    [kKeepAliveMax] requests were counted, and the last thing the function
    does is to close the socket. *)
Theorem thread_connection_serves_at_most_100 os fuel bound fd root (w : World) :
  files_end_by os bound -> (0 < fuel)%nat -> bound < Z.of_nat fuel ->
  exists n w1,
    Thread.connection_loop (Z.to_nat Thread.kKeepAliveMax) os fuel fd root 0 w
    = (Some n, w1)
    /\ Thread.handle_connection os fuel fd root w = (Some n, logged (SysClose fd) w1)
    /\ 0 <= n <= Thread.kKeepAliveMax.
Proof.
  intros Hend Hpos Hfuel.
  destruct (thread_connection_loop_returns os fuel fd root bound Hend Hpos Hfuel
              (Z.to_nat Thread.kKeepAliveMax) 0 w) as (n & w1 & Hrun).
  exists n, w1. split; [exact Hrun|]. split.
  - unfold Thread.handle_connection, bind. rewrite Hrun. reflexivity.
  - apply thread_connection_loop_bound in Hrun.
    unfold Thread.kKeepAliveMax in *. lia.
Qed.

Lemma substring_past_end (s : string) :
  forall n m, (String.length s <= n)%nat -> String.substring n m s = EmptyString.
Proof.
  induction s as [|c s IH]; intros n m H.
  - destruct n, m; reflexivity.
  - destruct n as [|n]; [simpl in H; lia|]. simpl. apply IH. simpl in H. lia.
Qed.

(** No file of the sample host has more than 37 bytes. *)
Lemma sample_files_end : files_end_by Sample.os 37.
Proof.
  intros ffd pos Hpos.
  change (pread Sample.os) with (TableFS.t_pread Sample.files).
  generalize Thread.kFileBufferSize. intros count.
  unfold TableFS.t_pread, TableFS.entry.
  destruct (ffd <? 3); [exact I|].
  assert (Hcut : forall content, (String.length content <= 37)%nat ->
            String.substring 0 (Z.to_nat count)
              (String.substring (Z.to_nat pos) (Z.to_nat count) content) = EmptyString).
  { intros content Hc. rewrite (substring_past_end content) by lia.
    destruct (Z.to_nat count); reflexivity. }
  destruct (pos <? 0) eqn:E; [apply Z.ltb_lt in E; lia|].
  destruct (Z.to_nat (ffd - 3)) as [|[|[|[|[|[|[|n]]]]]]]; cbn [option_map snd];
    try exact I;
    unfold Sample.files; cbn [lookup list_lookup option_map snd]; try exact I;
    try (apply Hcut; cbn [String.length Sample.index_html]; lia).
Qed.

(** Two requests on one connection, then the peer closes: both are
    counted. *)
Lemma thread_connection_witness :
  let w := with_scripts [RecvData Sample.get_index; RecvData Sample.get_index; RecvEOF]
             (replicate 10 (SendAccept 1000)) [] in
  (exists n w1,
     Thread.connection_loop (Z.to_nat Thread.kKeepAliveMax) Sample.os 40 7 "/var/www" 0 w
     = (Some n, w1)
     /\ Thread.handle_connection Sample.os 40 7 "/var/www" w
        = (Some n, logged (SysClose 7) w1)
     /\ 0 <= n <= Thread.kKeepAliveMax)
  /\ fst (Thread.handle_connection Sample.os 40 7 "/var/www" w) = Some 2.
Proof.
  intros w. split.
  - apply (thread_connection_serves_at_most_100 Sample.os 40 37 7 "/var/www" w).
    + exact sample_files_end.
    + lia.
    + lia.
  - vm_compute. reflexivity.
Defined.

(** The inner loop of [send_file_response] writes the rest of the chunk,
    whatever the sizes of the writes, and does not run out of turns. *)
Lemma thread_send_all fd buffer :
  forall fuel total_sent (w : World),
    0 <= total_sent <= strlen buffer ->
    Forall accepts_some (send_script w) ->
    strlen buffer - total_sent <= Z.of_nat (length (send_script w)) ->
    strlen buffer - total_sent <= Z.of_nat fuel ->
    exists w',
      Thread.send_all fuel fd buffer (strlen buffer) total_sent w = (Some true, w')
      /\ wire fd (trace w')
         = wire fd (trace w)
           +:+ String.substring (Z.to_nat total_sent)
                 (Z.to_nat (strlen buffer - total_sent)) buffer
      /\ Forall accepts_some (send_script w')
      /\ Z.of_nat (length (send_script w)) - (strlen buffer - total_sent)
         <= Z.of_nat (length (send_script w')).
Proof.
  assert (Hdone : forall fuel total_sent (w : World),
    strlen buffer = total_sent ->
    Forall accepts_some (send_script w) ->
    exists w',
      Thread.send_all fuel fd buffer (strlen buffer) total_sent w = (Some true, w')
      /\ wire fd (trace w')
         = wire fd (trace w)
           +:+ String.substring (Z.to_nat total_sent)
                 (Z.to_nat (strlen buffer - total_sent)) buffer
      /\ Forall accepts_some (send_script w')
      /\ Z.of_nat (length (send_script w)) - (strlen buffer - total_sent)
         <= Z.of_nat (length (send_script w'))).
  { intros fuel total_sent w Hle Hall. exists w.
    assert (E : (strlen buffer <=? total_sent) = true) by (apply Z.leb_le; lia).
    split; [destruct fuel; cbn [Thread.send_all]; rewrite E; reflexivity|].
    replace (Z.to_nat (strlen buffer - total_sent)) with 0%nat by lia.
    rewrite substring_n_0, append_nil_r. split; [reflexivity|]. split; [exact Hall | lia]. }
  induction fuel as [|fuel IH]; intros total_sent w Hrange Hall Hlen Hfuel.
  - apply Hdone; [lia | exact Hall].
  - destruct (Z.le_gt_cases (strlen buffer) total_sent) as [Hle|Hgt];
      [apply Hdone; [lia | assumption]|].
    cbn [Thread.send_all].
    destruct (strlen buffer <=? total_sent) eqn:E; [apply Z.leb_le in E; lia|].
    destruct (send_script w) as [|a rest] eqn:Hs; [simpl in Hlen; lia|].
    inversion Hall as [|? ? Ha Hrest]; subst.
    destruct a as [k|e]; [|contradiction]. simpl in Ha. simpl in Hlen.
    set (data := String.substring (Z.to_nat total_sent)
                   (Z.to_nat (strlen buffer - total_sent)) buffer).
    assert (Hdata : strlen data = strlen buffer - total_sent).
    { unfold data, strlen. rewrite substring_length. unfold strlen in *. lia. }
    destruct (send_accept fd data k rest w Hs Ha)
      as (n & w1 & Hsend & Hn & _ & _ & Hrest1 & Htr & _).
    { intros Hc. rewrite Hc in Hdata. unfold strlen in *. simpl in Hdata. lia. }
    unfold bind. rewrite Hsend.
    destruct (n <=? 0) eqn:E2; [apply Z.leb_le in E2; lia|].
    destruct (IH (total_sent + n) w1) as (w' & Hrun & Hwire & Hall' & Hlen').
    + lia.
    + rewrite Hrest1. exact Hrest.
    + rewrite Hrest1. lia.
    + lia.
    + exists w'. split; [exact Hrun|]. split; [|split; [exact Hall'|]].
      * rewrite Hwire, Htr, wire_send by lia. rewrite append_assoc. f_equal.
        unfold data. rewrite substring_of_substring by lia.
        replace (Z.to_nat (total_sent + n)) with (Z.to_nat total_sent + Z.to_nat n)%nat
          by lia.
        rewrite substring_split. f_equal. lia.
      * rewrite Hrest1 in Hlen'. cbn [length]. lia.
Qed.

(** The outer loop reads the file chunk by chunk from where it stands and
    writes every chunk in full; at the end of the file it closes the
    descriptor and returns 0. *)
Lemma thread_send_chunks os fd ffd body :
  serves os ffd body ->
  forall fuel pos (w : World),
    0 <= pos <= strlen body ->
    Forall accepts_some (send_script w) ->
    strlen body - pos <= Z.of_nat (length (send_script w)) ->
    strlen body - pos < Z.of_nat fuel ->
    exists w',
      Thread.send_chunks fuel os fd ffd pos w = (Some 0, w')
      /\ wire fd (trace w')
         = wire fd (trace w)
           +:+ String.substring (Z.to_nat pos) (Z.to_nat (strlen body - pos)) body
      /\ exists tr, trace w' = SysClose ffd :: tr.
Proof.
  intros Hserve.
  induction fuel as [|fuel IH]; intros pos w Hrange Hall Hlen Hfuel; [lia|].
  cbn [Thread.send_chunks]. unfold bind at 1. unfold Sys.pread.
  rewrite Hserve by (unfold Thread.kFileBufferSize; lia).
  rewrite substring_of_substring by lia.
  set (chunk := String.substring (Z.to_nat pos) (Z.to_nat Thread.kFileBufferSize) body).
  assert (Hchunk : strlen chunk = Z.min Thread.kFileBufferSize (strlen body - pos)).
  { unfold chunk, strlen. rewrite substring_length.
    unfold strlen, Thread.kFileBufferSize in *. lia. }
  unfold bind at 1, log at 1, ret at 1.
  destruct (strlen chunk <=? 0) eqn:E.
  - apply Z.leb_le in E. unfold Thread.kFileBufferSize in *.
    assert (pos = strlen body) by lia. subst pos.
    unfold Sys.close, log, bind, ret. eexists. split; [reflexivity|].
    cbn [trace wire]. split; [|eexists; reflexivity].
    replace (Z.to_nat (strlen body - strlen body)) with 0%nat by lia.
    rewrite substring_n_0, append_nil_r. reflexivity.
  - apply Z.leb_gt in E. unfold bind at 1.
    match goal with |- context [Thread.send_all _ fd chunk (strlen chunk) 0 ?w0] =>
      destruct (thread_send_all fd chunk (Z.to_nat (strlen chunk)) 0 w0)
        as (w1 & Hrun & Hwire & Hall1 & Hlen1)
    end.
    + lia.
    + exact Hall.
    + cbn [send_script]. unfold Thread.kFileBufferSize in *. lia.
    + lia.
    + rewrite Hrun.
      cbn [send_script trace wire] in Hwire, Hlen1.
      destruct (IH (pos + strlen chunk) w1) as (w' & Hrun' & Hwire' & Hclose).
      * unfold Thread.kFileBufferSize in *. lia.
      * exact Hall1.
      * lia.
      * lia.
      * exists w'. split; [exact Hrun'|]. split; [|exact Hclose].
        rewrite Hwire', Hwire. rewrite append_assoc. f_equal.
        rewrite Z.sub_0_r. change (Z.to_nat 0) with 0%nat.
        rewrite (substring_0_all chunk) by (unfold strlen; lia).
        assert (Hc2 : chunk
                      = String.substring (Z.to_nat pos) (Z.to_nat (strlen chunk)) body).
        { transitivity (String.substring 0 (Z.to_nat (strlen chunk)) chunk);
            [symmetry; apply substring_0_all; unfold strlen; lia|].
          unfold chunk at 2. apply substring_of_substring.
          unfold Thread.kFileBufferSize in *. lia. }
        set (nc := strlen chunk) in *. clearbody nc. rewrite Hc2.
        replace (Z.to_nat (pos + nc)) with (Z.to_nat pos + Z.to_nat nc)%nat by lia.
        rewrite substring_split. f_equal. unfold Thread.kFileBufferSize in *. lia.
Qed.

(** The transmitter of the thread-pool server. For a file that can be
    opened, after one [send] for the header the file goes out chunk by
    chunk, every chunk in full whatever the sizes of the writes, and the
    descriptor is closed at the end with the value 0. The header is not
    treated like the chunks: of it, only what the first [send] took is
    written. *)
Theorem thread_file_response_is_delivered
    os fuel fd file_path keep_alive st body k srest (w : World) :
  let ffd := open_rdonly os file_path in
  let header :=
    Thread.file_header (st_size st) (http_guess_type file_path) keep_alive in
  0 <= ffd -> fstat os ffd = Some st ->
  serves os ffd body ->
  strlen header < Thread.kMaxHeaderSize ->
  send_script w = SendAccept k :: srest ->
  Forall accepts_some srest ->
  strlen body <= Z.of_nat (length srest) ->
  strlen body < Z.of_nat fuel ->
  exists w',
    Thread.send_file_response os fuel fd file_path keep_alive w = (Some 0, w')
    /\ wire fd (trace w')
       = wire fd (trace w) +:+ String.substring 0 k header +:+ body
    /\ exists tr, trace w' = SysClose ffd :: tr.
Proof.
  cbv zeta. intros Hffd Hfstat Hserve Hfits Hs Hall Hlen Hfuel.
  unfold Thread.send_file_response, Sys.open. unfold bind at 1, bind at 1.
  unfold log at 1, ret at 1.
  destruct (open_rdonly os file_path <? 0) eqn:E; [apply Z.ltb_lt in E; lia|].
  rewrite Hfstat. unfold snprintf.
  set (header := Thread.file_header (st_size st) (http_guess_type file_path) keep_alive)
    in *.
  rewrite memcpy_whole by exact Hfits.
  unfold bind at 1.
  match goal with |- context [Sys.send fd header ?w0] =>
    pose proof (send_taken fd header k srest w0 Hs) as Hst end.
  cbv zeta in Hst. destruct Hst as [Hsend Hwire].
  rewrite Hsend. cbv beta iota. cbn [fst].
  destruct (Z.of_nat _ <? 0) eqn:E2; [apply Z.ltb_lt in E2; lia|].
  match goal with |- context [Thread.send_chunks fuel os fd _ 0 ?w0] =>
    destruct (thread_send_chunks os fd (open_rdonly os file_path) body Hserve fuel 0 w0)
      as (w' & Hrun & Hwire' & Hclose)
  end.
  - pose proof (strlen_nonneg body). lia.
  - exact Hall.
  - cbn [send_script sent]. lia.
  - lia.
  - exists w'. split; [exact Hrun|]. split; [|exact Hclose].
    rewrite Hwire', Hwire. cbn [trace wire]. rewrite append_assoc. do 2 f_equal.
    rewrite Z.sub_0_r. change (Z.to_nat 0) with 0%nat.
    apply substring_0_all. unfold strlen. lia.
Qed.

Lemma thread_file_response_witness :
  let w := with_scripts [] (SendAccept 1000 :: replicate 40 (SendAccept 3)) [] in
  exists w',
    Thread.send_file_response Sample.os 40 7 "/var/www/index.html" false w
    = (Some 0, w')
    /\ wire 7 (trace w')
       = Thread.file_header 37 "text/html" false +:+ Sample.index_html.
Proof.
  intros w.
  destruct (thread_file_response_is_delivered Sample.os 40 7 "/var/www/index.html"
              false {| st_isreg := true; st_size := 37 |} Sample.index_html 1000
              (replicate 40 (SendAccept 3)) w)
    as (w' & Hrun & Hwire & _).
  - vm_compute. intros H. discriminate H.
  - vm_compute. reflexivity.
  - exact sample_serves_index.
  - vm_compute. reflexivity.
  - reflexivity.
  - apply accepts_some_replicate. lia.
  - vm_compute. intros H. discriminate H.
  - vm_compute. reflexivity.
  - exists w'. split; [exact Hrun|]. rewrite Hwire. vm_compute. reflexivity.
Defined.


(* ===================================================================== *)
(** * The event loop of the select server *)
(* ===================================================================== *)

Lemma watch_spec (cs : list Aio.Client) (fd : Z) :
  (In fd (fst (Select.watch cs)) <->
   exists c, In c cs /\ Aio.fd c = fd /\ 0 <= fd
             /\ Aio.state c = Aio.STATE_READING_REQUEST)
  /\ (In fd (snd (Select.watch cs)) <->
      exists c, In c cs /\ Aio.fd c = fd /\ 0 <= fd
                /\ Aio.state c = Aio.STATE_SENDING_RESPONSE).
Proof.
  induction cs as [|c cs [IHr IHw]].
  - split; (split; [intros [] | intros (c & [] & _)]).
  - cbn [Select.watch].
    destruct (Select.watch cs) as [rd wr]. cbn [fst snd] in *.
    assert (Hskip : forall st : Aio.ClientState,
      (Aio.fd c <? 0) = true \/ Aio.state c <> st ->
      forall set : list Z,
        (In fd set <-> exists c0, In c0 cs /\ Aio.fd c0 = fd /\ 0 <= fd
                                  /\ Aio.state c0 = st) ->
        (In fd set <-> exists c0, In c0 (c :: cs) /\ Aio.fd c0 = fd /\ 0 <= fd
                                  /\ Aio.state c0 = st)).
    { intros st Hc set IH. rewrite IH. split.
      - intros (c0 & Hin & H). exists c0. split; [right; exact Hin | exact H].
      - intros (c0 & [<- | Hin] & Hfd & Hpos & Hst).
        + exfalso. destruct Hc as [Hc|Hc]; [apply Z.ltb_lt in Hc; lia | contradiction].
        + exists c0. auto. }
    assert (Htake : forall st : Aio.ClientState,
      (Aio.fd c <? 0) = false -> Aio.state c = st ->
      forall set : list Z,
        (In fd set <-> exists c0, In c0 cs /\ Aio.fd c0 = fd /\ 0 <= fd
                                  /\ Aio.state c0 = st) ->
        (In fd (Aio.fd c :: set) <->
         exists c0, In c0 (c :: cs) /\ Aio.fd c0 = fd /\ 0 <= fd
                    /\ Aio.state c0 = st)).
    { intros st Hc Hst set IH. apply Z.ltb_ge in Hc. split.
      - intros [<- | Hin].
        + exists c. split; [left; reflexivity | auto].
        + apply IH in Hin as (c0 & Hin & H). exists c0. split; [right; exact Hin | exact H].
      - intros (c0 & [<- | Hin] & Hfd & H).
        + left. exact Hfd.
        + right. apply IH. exists c0. auto. }
    destruct (Aio.fd c <? 0) eqn:E; cbn [fst snd].
    + split; apply Hskip; auto.
    + destruct (Aio.state c) eqn:Est; cbv beta iota; cbn [fst snd]; split.
      * apply (Htake _ eq_refl eq_refl _ IHr).
      * apply (Hskip Aio.STATE_SENDING_RESPONSE); [right; discriminate | exact IHw].
      * apply (Hskip Aio.STATE_READING_REQUEST); [right; discriminate | exact IHr].
      * apply (Htake _ eq_refl eq_refl _ IHw).
      * apply (Hskip Aio.STATE_READING_REQUEST); [right; discriminate | exact IHr].
      * apply (Hskip Aio.STATE_SENDING_RESPONSE); [right; discriminate | exact IHw].
Qed.

Lemma max_fd_fold (cs : list Aio.Client) :
  forall m,
    m <= fold_left
           (fun m client =>
              if Aio.fd client <? 0 then m
              else if m <? Aio.fd client then Aio.fd client else m) cs m
    /\ forall c, In c cs -> 0 <= Aio.fd c ->
         Aio.fd c <= fold_left
                       (fun m client =>
                          if Aio.fd client <? 0 then m
                          else if m <? Aio.fd client then Aio.fd client else m) cs m.
Proof.
  induction cs as [|c cs IH]; intros m; cbn [fold_left].
  - split; [lia | intros c []].
  - set (m' := if Aio.fd c <? 0 then m else if m <? Aio.fd c then Aio.fd c else m).
    assert (Hm : m <= m' /\ (0 <= Aio.fd c -> Aio.fd c <= m')).
    { unfold m'. destruct (Aio.fd c <? 0) eqn:E1;
        [apply Z.ltb_lt in E1; lia|].
      destruct (m <? Aio.fd c) eqn:E2;
        [apply Z.ltb_lt in E2 | apply Z.ltb_ge in E2]; lia. }
    destruct (IH m') as [Hle Hall]. split; [lia|].
    intros c0 [<- | Hin] Hpos; [lia | now apply Hall].
Qed.

Lemma open_fds_cons (c : Aio.Client) (cs : list Aio.Client) :
  aio_open_fds (c :: cs)
  = if 0 <=? Aio.fd c then Aio.fd c :: aio_open_fds cs else aio_open_fds cs.
Proof.
  unfold aio_open_fds. rewrite filter_cons.
  destruct (0 <=? Aio.fd c) eqn:E.
  - rewrite decide_True by reflexivity. reflexivity.
  - rewrite decide_False by discriminate. reflexivity.
Qed.

Lemma open_fds_in (cs : list Aio.Client) (c : Aio.Client) :
  In c cs -> 0 <= Aio.fd c -> In (Aio.fd c) (aio_open_fds cs).
Proof.
  induction cs as [|c0 cs IH]; intros Hin Hpos; [destruct Hin|].
  rewrite open_fds_cons. destruct Hin as [-> | Hin].
  - destruct (0 <=? Aio.fd c) eqn:E; [left; reflexivity | apply Z.leb_gt in E; lia].
  - destruct (0 <=? Aio.fd c0); [right|]; now apply IH.
Qed.

(** The descriptor sets handed to [select] follow the states of the
    slots: a descriptor is watched for reading exactly when an open slot
    with it is reading, for writing exactly when an open slot with it is
    sending; closed slots are not watched. Every watched descriptor and the
    listening socket are at most [max_fd]. When the open slots have distinct
    descriptors, no descriptor is watched for both. *)
Theorem aio_watch_sets_follow_state (s : Aio.Server) (fd : Z) :
  let sets := Select.watch (Aio.clients s) in
  (In fd (fst sets) <->
   exists c, In c (Aio.clients s) /\ Aio.fd c = fd /\ 0 <= fd
             /\ Aio.state c = Aio.STATE_READING_REQUEST)
  /\ (In fd (snd sets) <->
      exists c, In c (Aio.clients s) /\ Aio.fd c = fd /\ 0 <= fd
                /\ Aio.state c = Aio.STATE_SENDING_RESPONSE)
  /\ (In fd (fst sets) \/ In fd (snd sets) \/ fd = Aio.listen_fd s ->
      fd <= Select.max_fd s)
  /\ (NoDup (aio_open_fds (Aio.clients s)) ->
      ~ (In fd (fst sets) /\ In fd (snd sets))).
Proof.
  cbv zeta. destruct (watch_spec (Aio.clients s) fd) as [Hr Hw].
  split; [exact Hr|]. split; [exact Hw|]. split.
  - destruct (max_fd_fold (Aio.clients s) (Aio.listen_fd s)) as [Hle Hall].
    unfold Select.max_fd.
    intros [Hin | [Hin | ->]]; [| | exact Hle].
    + apply Hr in Hin as (c & Hc & <- & Hpos & _). now apply Hall.
    + apply Hw in Hin as (c & Hc & <- & Hpos & _). now apply Hall.
  - intros Hnd [Hin1 Hin2].
    apply Hr in Hin1 as (c1 & Hc1 & Hfd1 & Hpos & Hst1).
    apply Hw in Hin2 as (c2 & Hc2 & Hfd2 & _ & Hst2).
    clear Hr Hw. revert Hnd Hc1 Hc2.
    induction (Aio.clients s) as [|c cs IH]; intros Hnd Hc1 Hc2; [destruct Hc1|].
    rewrite open_fds_cons in Hnd.
    assert (Hother : forall c' c'' : Aio.Client,
      c = c' -> In c'' cs -> Aio.fd c' = fd -> Aio.fd c'' = fd -> False).
    { intros c' c'' -> Hin' Hf' Hf''.
      destruct (0 <=? Aio.fd c') eqn:E; [|apply Z.leb_gt in E; lia].
      apply NoDup_cons in Hnd as [Hnot _]. apply Hnot.
      apply list_elem_of_In. rewrite Hf', <- Hf''. apply open_fds_in; [exact Hin' | lia]. }
    destruct Hc1 as [Hc1 | Hc1]; destruct Hc2 as [Hc2 | Hc2].
    + subst c1 c2. congruence.
    + exact (Hother c1 c2 Hc1 Hc2 Hfd1 Hfd2).
    + exact (Hother c2 c1 Hc2 Hc1 Hfd2 Hfd1).
    + apply IH; [|exact Hc1 | exact Hc2].
      destruct (0 <=? Aio.fd c); [apply NoDup_cons in Hnd as [_ Hnd]|]; exact Hnd.
Qed.

Lemma aio_prepare_error_fd client code (w : World) :
  let c' := fst (Aio.prepare_error_response client code w) in
  Aio.fd c' = Aio.fd client \/ Aio.fd c' < 0.
Proof.
  cbv zeta. unfold Aio.prepare_error_response.
  assert (Hclose : forall w0 : World, Aio.fd (fst (Aio.close_client client w0)) < 0).
  { intros w0. pose proof (aio_close_client_spec client 0 w0) as H. cbv zeta in H.
    apply H. }
  destruct (if code =? 400 then _ else _) as [response_len response].
  destruct ((response_len <=? 0) || (Aio.kHeaderBufferSize <=? response_len));
    [right; apply Hclose|].
  unfold bind. destruct (Sys.malloc w) as [[|] w1]; cbv beta iota delta [negb].
  - left. reflexivity.
  - right. apply Hclose.
Qed.

Ltac aio_error_fd :=
  match goal with
  | |- context [Aio.prepare_error_response ?c ?code ?w] =>
      let H := fresh in
      pose proof (aio_prepare_error_fd c code w) as H; cbv zeta in H; exact H
  end.

Lemma aio_prepare_file_fd os client file_path (w : World) :
  let c' := fst (Aio.prepare_file_response os client file_path w) in
  Aio.fd c' = Aio.fd client \/ Aio.fd c' < 0.
Proof.
  cbv zeta. unfold Aio.prepare_file_response, bind.
  destruct (Sys.open os file_path w) as [ffd w1].
  destruct (Aio.file_fd _ <? 0); [aio_error_fd|].
  destruct (fstat os _) as [st|].
  - destruct (http_build_200 _ _ _ _) as [header_len header].
    destruct (header_len <? 0).
    + destruct (Sys.close _ w1) as [[] w2]. aio_error_fd.
    + destruct (Sys.malloc w1) as [[|] w2]; cbv beta iota delta [negb].
      * left. reflexivity.
      * destruct (Sys.close _ w2) as [[] w3]. aio_error_fd.
  - destruct (Sys.close _ w1) as [[] w2]. aio_error_fd.
Qed.

(** The read handler leaves the socket of the client alone or closes
    it. *)
Lemma aio_read_fd os srv client (w : World) :
  let c' := snd (fst (Aio.handle_client_read os srv client w)) in
  Aio.fd c' = Aio.fd client \/ Aio.fd c' < 0.
Proof.
  cbv zeta. unfold Aio.handle_client_read, bind.
  destruct (Sys.recv _ _ w) as [[[n errno] got] w1].
  destruct (n <=? 0).
  - destruct ((n <? 0) && would_block errno); [left; reflexivity|].
    pose proof (aio_close_client_spec client 0 w1) as H. cbv zeta in H.
    destruct (Aio.close_client client w1) as [c' w2]. right. apply H.
  - destruct (strstr _ _); [|left; reflexivity].
    match goal with |- context [Aio.process_http_request os srv ?c w1] =>
      assert (H : Aio.fd (fst (Aio.process_http_request os srv c w1)) = Aio.fd client
                  \/ Aio.fd (fst (Aio.process_http_request os srv c w1)) < 0);
      [|destruct (Aio.process_http_request os srv c w1) as [c' w2]; exact H]
    end.
    unfold Aio.process_http_request.
    destruct (http_parse_request _ _ _) as [parsed request].
    destruct (parsed <=? 0); [aio_error_fd|].
    destruct (http_safe_join _ _ _ _ _) as [joined file_path].
    destruct (joined <? 0); [aio_error_fd|].
    destruct (stat os file_path) as [st|]; [|aio_error_fd].
    destruct (negb (st_isreg st)); [aio_error_fd|].
    match goal with
    | |- context [Aio.prepare_file_response os ?c0 ?p ?w0] =>
        pose proof (aio_prepare_file_fd os c0 p w0) as H; cbv zeta in H; exact H
    end.
Qed.

(** In one turn of the loop a slot is served by one handler at most. When
    the descriptor of an open slot is not in both of the sets that [select]
    returned, the slot is read from if it is in the read set, written to if
    it is in the write set, and left alone otherwise; in particular the
    write handler does not run after the read handler, whether that one
    closed the client or not. *)
Theorem aio_turn_runs_one_handler os s i c read_fds write_fds (w : World) :
  Aio.clients s !! i = Some c ->
  0 <= Aio.fd c ->
  Select.FD_ISSET (Aio.fd c) read_fds && Select.FD_ISSET (Aio.fd c) write_fds = false ->
  Select.serve_client os s i read_fds write_fds w
  = (let '(s', c', w') :=
       if Select.FD_ISSET (Aio.fd c) read_fds then Aio.handle_client_read os s c w
       else if Select.FD_ISSET (Aio.fd c) write_fds
            then Aio.handle_client_write os s c w
            else (s, c, w) in
     (Aio.set_clients s' (<[i := c']> (Aio.clients s')), w')).
Proof.
  intros Hi Hfd Hsets. unfold Select.serve_client. rewrite Hi.
  destruct (Aio.fd c <? 0) eqn:E; [apply Z.ltb_lt in E; lia|].
  destruct (Select.FD_ISSET (Aio.fd c) read_fds) eqn:Er.
  - cbn [andb] in Hsets. unfold bind at 1.
    pose proof (aio_read_fd os s c w) as Hkeep. cbv zeta in Hkeep.
    destruct (Aio.handle_client_read os s c w) as [[s1 c1] w1]. cbn [fst snd] in Hkeep.
    unfold bind, ret.
    destruct Hkeep as [Hsame | Hclosed].
    + rewrite Hsame, Hsets, andb_false_r. reflexivity.
    + destruct (0 <=? Aio.fd c1) eqn:E1; [apply Z.leb_le in E1; lia|]. reflexivity.
  - unfold bind at 1, ret at 1. cbv beta iota.
    destruct (0 <=? Aio.fd c) eqn:E1; [|apply Z.leb_gt in E1; lia]. cbn [andb].
    destruct (Select.FD_ISSET (Aio.fd c) write_fds).
    + unfold bind, ret.
      destruct (Aio.handle_client_write os s c w) as [[s1 c1] w1]. reflexivity.
    + reflexivity.
Qed.

Lemma aio_turn_witness :
  let s := fst (Aio.accept_loop 1 Sample.aio_server (with_scripts [] [] [AcceptFd 7])) in
  let c := Aio.set_fd (Aio.reset_client Aio.blank_client) 7 in
  let w := with_scripts [RecvEOF] [] [] in
  Select.serve_client Sample.os s 0 [7] [] w
  = (let '(s', c', w') := Aio.handle_client_read Sample.os s c w in
     (Aio.set_clients s' (<[0%nat := c']> (Aio.clients s')), w')).
Proof.
  intros s c w.
  apply (aio_turn_runs_one_handler Sample.os s 0 c [7] [] w).
  - reflexivity.
  - vm_compute. intros H. discriminate H.
  - reflexivity.
Defined.


Lemma safe_join_rejects_witness :
  http_safe_join Sample.os EmptyString 1024 "/var/www" "/../../etc/passwd"
  = (-1, EmptyString).
Proof.
  apply (safe_join_rejects_other_prefix Sample.os EmptyString 1024 "/var/www"
           "/../../etc/passwd" "/etc/passwd" "/var/www").
  - vm_compute. reflexivity.
  - vm_compute. reflexivity.
  - vm_compute. reflexivity.
Defined.


(* ===================================================================== *)
(** ** C8: a failed transfer ends the connection *)
(* ===================================================================== *)



(** A read event for a connection that is not reading a request does
    nothing: no [recv] is made. *)
Lemma kq_read_outside_reading os srv conn (w : World) :
  Kqueue.state conn <> Kqueue.STATE_READING_REQUEST ->
  Kqueue.handle_read_event os srv conn w = (0, srv, conn, w).
Proof.
  intros Hst. unfold Kqueue.handle_read_event.
  destruct (Kqueue.state conn); try contradiction; reflexivity.
Qed.















(* ===================================================================== *)
(** * The byte counter of the kqueue server *)
(* ===================================================================== *)

Lemma kq_free_bytes s i (w : World) :
  Kqueue.total_bytes_sent (fst (Kqueue.free_connection s i w))
  = Kqueue.total_bytes_sent s.
Proof.
  unfold Kqueue.free_connection.
  destruct (Kqueue.connections s !! i) as [conn|]; [|reflexivity].
  unfold bind, ret. destruct (Kqueue.release_fds conn w) as [c w1]. reflexivity.
Qed.

Lemma kq_close_bytes s i (w : World) :
  Kqueue.total_bytes_sent (fst (Kqueue.close_connection s i w))
  = Kqueue.total_bytes_sent s.
Proof.
  unfold Kqueue.close_connection.
  destruct (Kqueue.connections s !! i) as [conn|]; [|reflexivity].
  unfold bind.
  destruct ((if 0 <=? Kqueue.fd conn then Sys.kevent_delete (Kqueue.fd conn) else ret tt) w)
    as [[] w1].
  apply kq_free_bytes.
Qed.

Lemma kq_setup_bytes s i new_fd (w : World) :
  Kqueue.total_bytes_sent (fst (Kqueue.setup_connection s i new_fd w))
  = Kqueue.total_bytes_sent s.
Proof.
  unfold Kqueue.setup_connection.
  destruct (Kqueue.connections s !! i) as [conn|]; [|reflexivity].
  unfold bind at 1. destruct (Sys.configure new_fd w) as [[] w1].
  unfold bind at 1.
  match goal with |- context [(match ?b with Some _ => _ | None => _ end) w1] =>
    destruct ((match b with Some x => ret (Some (Kqueue.set_fd conn new_fd))
                          | None => _ end) w1) as [oc w2] eqn:E
  end.
  destruct oc as [c|].
  - unfold bind. destruct (Sys.kevent new_fd w2) as [[|] w3]; [reflexivity|].
    rewrite kq_close_bytes. reflexivity.
  - unfold bind. destruct (Sys.close new_fd w2) as [[] w3].
    rewrite kq_free_bytes. reflexivity.
Qed.

Lemma kq_accept_loop_bytes :
  forall fuel s (w : World),
    Kqueue.total_bytes_sent (fst (Kqueue.accept_loop fuel s w))
    = Kqueue.total_bytes_sent s.
Proof.
  induction fuel as [|fuel IH]; intros s w; [reflexivity|].
  cbn [Kqueue.accept_loop]. unfold bind at 1.
  destruct (next_accept w) as [[new_fd|e] w1]; [|reflexivity].
  destruct (new_fd <? 0); [reflexivity|].
  unfold bind at 1. destruct (log (SysAccept new_fd) w1) as [[] w2].
  pose proof (kq_alloc_counts s) as Ha. cbv zeta in Ha. destruct Ha as (_ & _ & Ha).
  destruct (Kqueue.alloc_connection s) as [[i|] s1]; cbn [snd] in Ha.
  - unfold bind.
    pose proof (kq_setup_bytes s1 i new_fd w2) as Hs.
    destruct (Kqueue.setup_connection s1 i new_fd w2) as [s2 w3]. cbn [fst] in Hs.
    rewrite IH. congruence.
  - unfold bind. destruct (Sys.close new_fd w2) as [[] w3]. rewrite IH. exact Ha.
Qed.

Lemma kq_handle_read_bytes os s conn (w : World) :
  Kqueue.total_bytes_sent (snd (fst (fst (Kqueue.handle_read_event os s conn w))))
  = Kqueue.total_bytes_sent s.
Proof.
  unfold Kqueue.handle_read_event.
  destruct (negb _); [reflexivity|].
  destruct (Kqueue.request_buffer conn) as [mem|]; [|reflexivity].
  unfold bind at 1. destruct (Sys.recv _ _ w) as [[[n e] got] w1].
  destruct (n <=? 0); [destruct (_ && _); reflexivity|].
  destruct (strstr _ _).
  - pose proof (kq_process_request_counts os s
                  (Kqueue.set_request_size
                     (Kqueue.set_request_buffer conn
                        (Some (String.substring 0 (Z.to_nat (Kqueue.request_size conn)) mem
                               +:+ got)))
                     (Kqueue.request_size
                        (Kqueue.set_request_buffer conn
                           (Some (String.substring 0 (Z.to_nat (Kqueue.request_size conn)) mem
                                  +:+ got))) + n)) w1) as H.
    cbv zeta in H. apply H.
  - match goal with |- context [if ?b then _ else _] => destruct b end; [|reflexivity].
    unfold Kqueue.answer_error, bind, ret.
    destruct (Kqueue.prepare_error_response _ 413 w1) as [rc w2]. reflexivity.
Qed.

Lemma kq_finish_bytes i rc s conn (w : World) :
  Kqueue.total_bytes_sent (fst (Kqueue.finish i (rc, s, conn) w))
  = Kqueue.total_bytes_sent s.
Proof.
  unfold Kqueue.finish. destruct (rc <? 0); [|reflexivity].
  rewrite kq_close_bytes. reflexivity.
Qed.

Lemma kq_process_event_bytes os s ev (w : World) :
  Kqueue.total_bytes_sent (fst (Kqueue.process_event os s ev w))
  = Kqueue.total_bytes_sent s.
Proof.
  unfold Kqueue.process_event.
  destruct (Kqueue.ev_error ev); [reflexivity|].
  destruct (Kqueue.ident ev =? Kqueue.listen_fd s).
  - unfold bind, ret, Kqueue.accept_connections.
    pose proof (kq_accept_loop_bytes (S (length (accept_script w))) s w) as H.
    destruct (Kqueue.accept_loop _ s w) as [s1 w1]. exact H.
  - destruct (Kqueue.udata ev) as [i|]; [|reflexivity].
    destruct (Kqueue.connections s !! i) as [conn|]; [|reflexivity].
    destruct (Kqueue.filter ev); [| |reflexivity]; unfold bind.
    + pose proof (kq_handle_read_bytes os s conn w) as H.
      destruct (Kqueue.handle_read_event os s conn w) as [[[rc s1] c1] w1].
      cbn [fst snd] in H. rewrite kq_finish_bytes. exact H.
    + pose proof (kq_handle_write_counts os s conn w) as H.
      destruct (Kqueue.handle_write_event os s conn w) as [[[rc s1] c1] w1].
      cbn [fst snd] in H. rewrite kq_finish_bytes. congruence.
Qed.

(** In every run of the event loop of the kqueue server the counter of
    bytes sent stays at the 0 it starts with, whatever the sockets took:
    the one statement that would add to it is commented out in
    [send_response]. *)
Theorem kq_bytes_counter_stays_zero (os : OS) (n : nat) (s : Kqueue.Server) :
  kq_reachable os n s -> Kqueue.total_bytes_sent s = 0.
Proof.
  induction 1 as [kq_fd listen root | s ev w Hs IH Hev]; [reflexivity|].
  rewrite kq_process_event_bytes. exact IH.
Qed.

(** A whole response of 145 bytes was sent and the request was counted;
    the counter of bytes is 0. *)
Lemma kq_bytes_counter_witness :
  let w := with_scripts [] [SendAccept 1000; SendAccept 1000] [] in
  let r := Kqueue.process_event Sample.os Sample.one_slot_answering
             (Sample.write_event 7 0) w in
  bytes_sent (trace (snd r)) = 145
  /\ Kqueue.total_requests (fst r) = 1
  /\ Kqueue.total_bytes_sent (fst r) = 0.
Proof.
  intros w r. split; [vm_compute; reflexivity|]. split; [vm_compute; reflexivity|].
  apply (kq_bytes_counter_stays_zero Sample.os 1).
  apply kq_reach_event; [exact one_slot_answering_reachable|].
  right. right. intros i Hi. vm_compute. intros H. exact H.
Defined.


(* ===================================================================== *)
(** * An error answer whose registration fails *)
(* ===================================================================== *)

Lemma kq_bad_request_is_error os srv conn (w : World) :
  fst (http_parse_request (Kqueue.request_buffer conn) (Kqueue.request_size conn)
         zero_req) <= 0 ->
  Kqueue.process_request os srv conn w = Kqueue.answer_error srv conn 400 w.
Proof.
  intros H. unfold Kqueue.process_request.
  destruct (http_parse_request _ _ _) as [parsed request]. cbn [fst] in H.
  destruct (parsed <=? 0) eqn:E; [reflexivity | apply Z.leb_gt in E; lia].
Qed.

(** [prepare_error_response] returns -1 when the registration of write
    interest fails, and [process_request] drops that value. The handler
    therefore returns 0 and the event loop does not close the connection:
    the record stays in use in [STATE_SENDING_HEADER] with the answer in its
    buffer, the failed registration is the only call that was made, and no
    event for the connection other than a write event changes anything
    afterwards: read events are ignored in this state. *)
Theorem kq_failed_registration_strands_the_answer os srv conn ks (w : World) :
  (fst (http_parse_request (Kqueue.request_buffer conn) (Kqueue.request_size conn)
          zero_req) <= 0
   \/ exists req,
        http_parse_request (Kqueue.request_buffer conn) (Kqueue.request_size conn)
          zero_req = (1, req)
        /\ names_regular_file os (Kqueue.doc_root srv) (path req) = false) ->
  (Kqueue.response_buffer conn <> None \/ malloc_script w = []) ->
  kevent_script w = false :: ks ->
  let r := Kqueue.process_request os srv conn w in
  fst (fst (fst r)) = 0
  /\ snd (fst (fst r)) = srv
  /\ Kqueue.state (snd (fst r)) = Kqueue.STATE_SENDING_HEADER
  /\ Kqueue.fd (snd (fst r)) = Kqueue.fd conn
  /\ trace (snd r) = SysKevent (Kqueue.fd conn) false :: trace w
  /\ (forall i (w2 : World),
        Kqueue.finish i (fst r) w2
        = (Kqueue.set_connections srv (<[i := snd (fst r)]> (Kqueue.connections srv)),
           w2))
  /\ (forall srv2 (w2 : World),
        Kqueue.handle_read_event os srv2 (snd (fst r)) w2 = (0, srv2, snd (fst r), w2))
  /\ (forall s2 i ev (w2 : World),
        Kqueue.connections s2 !! i = Some (snd (fst r)) ->
        Kqueue.ev_error ev = false -> Kqueue.ident ev <> Kqueue.listen_fd s2 ->
        Kqueue.udata ev = Some i ->
        Kqueue.filter ev <> Kqueue.EVFILT_WRITE ->
        Kqueue.process_event os s2 ev w2 = (s2, w2)).
Proof.
  intros Hreq Hmem Hkev. cbv zeta.
  assert (Hrun : exists code,
            (code = 400 \/ code = 404 \/ code = 413 \/ code = 500)
            /\ Kqueue.process_request os srv conn w = Kqueue.answer_error srv conn code w).
  { destruct Hreq as [Hbad | (req & Hparse & Hname)].
    - exists 400. split; [auto|]. apply kq_bad_request_is_error, Hbad.
    - exists 404. split; [auto|]. apply (kq_not_a_file_is_error os srv conn req w Hparse Hname). }
  destruct Hrun as (code & Hcode & Hrun). rewrite Hrun.
  destruct (kq_answer_error_spec srv conn code w Hcode Hmem)
    as (Hrc & Hsrv & Hst & Hfd & _).
  pose proof (kq_answer_error_registers srv conn code w Hcode Hmem) as Htr.
  rewrite Hkev in Htr. cbn [hd] in Htr.
  destruct (Kqueue.answer_error srv conn code w) as [[[rc s1] c1] w1].
  cbn [fst snd] in *. subst rc s1.
  split; [reflexivity|]. split; [reflexivity|]. split; [exact Hst|].
  split; [exact Hfd|]. split; [exact Htr|]. split.
  - intros i w2. reflexivity.
  - split.
    + intros srv2 w2. apply kq_read_outside_reading. rewrite Hst. discriminate.
    + intros s2 i ev w2 Hi Herr Hid Hu Hf.
      apply (kq_event_without_effect os s2 i c1 ev w2 Hi Herr Hid Hu).
      destruct (Kqueue.filter ev); [rewrite Hst; discriminate | congruence | exact I].
Qed.

Lemma kq_failed_registration_witness :
  let conn := kq_with_request (Sample.kq_conn 7) Sample.post_root in
  let w := {| recv_script := []; send_script := []; accept_script := [];
              malloc_script := []; kevent_script := [false]; trace := [] |} in
  let r := Kqueue.process_request Sample.os Sample.kq_server conn w in
  fst (fst (fst r)) = 0
  /\ Kqueue.state (snd (fst r)) = Kqueue.STATE_SENDING_HEADER
  /\ trace (snd r) = [SysKevent 7 false].
Proof.
  intros conn w r.
  destruct (kq_failed_registration_strands_the_answer Sample.os Sample.kq_server conn [] w)
    as (H1 & _ & H3 & _ & H5 & _).
  - left. vm_compute. intros H. discriminate H.
  - right. reflexivity.
  - reflexivity.
  - fold r in H1, H3, H5. split; [exact H1|]. split; [exact H3 | exact H5].
Defined.


(* ===================================================================== *)
(** * The limit of the path field *)
(* ===================================================================== *)

(** A request whose target is followed by a space, and whose blank line
    comes behind the target, is accepted exactly when the target fits the
    path field with its terminator: with a target of 1 to 1023 bytes (no
    space and no NUL in it) the parser returns 1 and stores the target, or
    [/index.html] for [/]; with a longer target it returns -1 and stores no
    path. *)
Theorem parse_accepts_exactly_fitting_targets
    (target rest : string) (len : Z) (out : http_req_t) (h : nat) :
  all_chars plain target = true ->
  0 < strlen target ->
  strstr (cstr ("GET " +:+ target +:+ String SP rest)) CRLFCRLF = Some h ->
  (4 + String.length target <= h)%nat ->
  14 <= len ->
  http_parse_request (Some ("GET " +:+ target +:+ String SP rest)) len out
  = if strlen target <? sizeof_path
    then (1, {| method := "GET";
                path := if String.eqb target "/" then "/index.html" else target;
                complete := 1 |})
    else (-1, {| method := "GET"; path := EmptyString; complete := 1 |}).
Proof.
  intros Hplain Hpos Hh Hbehind Hlen.
  unfold http_parse_request.
  destruct (len =? 0) eqn:E0; [apply Z.eqb_eq in E0; lia|].
  rewrite Hh.
  assert (Hs : cstr ("GET " +:+ target +:+ String SP rest)
               = "GET " +:+ target +:+ String SP (cstr rest)).
  { rewrite get_prefix. simpl. f_equal. f_equal. f_equal. f_equal.
    rewrite cstr_plain_append by assumption. reflexivity. }
  rewrite Hs.
  destruct (len <? 14) eqn:E14; [apply Z.ltb_lt in E14; lia|].
  rewrite prefix_append. cbn [negb orb].
  destruct target as [|c target].
  { unfold strlen in Hpos. simpl in Hpos. lia. }
  assert (Hc : plain c = true).
  { simpl in Hplain. now apply andb_prop in Hplain as [? _]. }
  set (t := String c target) in *.
  set (s := "GET " +:+ t +:+ String SP (cstr rest)).
  assert (Hdrop : drop 4 s = t +:+ String SP (cstr rest)) by reflexivity.
  assert (Hskip : skip_spaces (drop 4 s) (h - 4) = 0%nat).
  { rewrite Hdrop. unfold t. rewrite append_cons. now apply skip_spaces_plain. }
  rewrite Hskip, Nat.add_0_r, Hdrop.
  assert (Ht : (0 < String.length t)%nat) by (unfold t; simpl; lia).
  destruct (h <=? 4)%nat eqn:E4; [apply Nat.leb_le in E4; lia|].
  rewrite strchr_plain_append by assumption.
  destruct (h <? 4 + String.length t)%nat eqn:E5; [apply Nat.ltb_lt in E5; lia|].
  replace (Z.of_nat (4 + String.length t - 4)) with (strlen t)
    by (unfold strlen; lia).
  destruct (strlen t =? 0) eqn:E6; [apply Z.eqb_eq in E6; lia|].
  cbn [orb].
  destruct (strlen t <? sizeof_path) eqn:E7.
  - apply Z.ltb_lt in E7.
    destruct (sizeof_path <=? strlen t) eqn:E8; [apply Z.leb_le in E8; lia|].
    assert (Hsub : String.substring 4 (Z.to_nat (strlen t)) s = t).
    { unfold strlen. rewrite Nat2Z.id. unfold s.
      change 4%nat with (String.length "GET ").
      rewrite substring_skip_append. apply substring_0_append. }
    rewrite Hsub. reflexivity.
  - apply Z.ltb_ge in E7.
    destruct (sizeof_path <=? strlen t) eqn:E8; [reflexivity | apply Z.leb_gt in E8; lia].
Qed.

(** The longest target that is accepted has 1023 bytes. *)
Lemma parse_fitting_target_witness :
  let target := Sample.repeat_char "a" 1023 in
  fst (http_parse_request (Some (Sample.request target)) (strlen (Sample.request target))
         zero_req) = 1.
Proof.
  intros target.
  pose proof (parse_accepts_exactly_fitting_targets target ("HTTP/1.1" +:+ CRLFCRLF)
                (strlen (Sample.request target)) zero_req 1036) as H.
  change ("GET " +:+ target +:+ String SP ("HTTP/1.1" +:+ CRLFCRLF))
    with (Sample.request target) in H.
  rewrite H.
  - vm_compute. reflexivity.
  - vm_compute. reflexivity.
  - vm_compute. reflexivity.
  - vm_compute. reflexivity.
  - vm_compute. lia.
  - vm_compute. intros H0. discriminate H0.
Defined.
